(** * tkcalendar: the month grid, the selection and the navigation of the
      [Calendar] widget (src/tkcalendar/calendar_.py)

    The widget keeps a displayed month [_date], an optional selected day
    [_sel_date], a bound text variable, 6 x 7 day labels and 6 week-number
    labels.  The development has three layers of definitions:

    - [PyDate]: the part of Python's [datetime.date] and [calendar] that the
      widget calls (proleptic Gregorian ordinals, ISO calendar, month
      calendars), with the range [MINYEAR..MAXYEAR] and the exceptions it
      raises;
    - [PyStr]: [repr] of a string, used by the error message of the widget;
    - [Calendar]: the widget itself, as a state-and-exception monad over a
      record of its fields;

    and then the properties: the ordinal round trip of a date, the six weeks
    that [_display_calendar] shows, what a method keeps of the widget, the
    reachable states, the events, and the week numbers. *)

From Stdlib Require Import ZArith List Lia Bool String Ascii.
Import ListNotations.
Local Open Scope Z_scope.

(** ** Python exceptions and results *)

Inductive exn_type : Type :=
| ValueError
| OverflowError
| IndexError
| KeyError
| AttributeError.

Record exn : Type := mkexn { exn_ty : exn_type; exn_msg : string }.

Inductive result (A : Type) : Type :=
| Ok (a : A)
| Raise (e : exn).

Arguments Ok {A} a.
Arguments Raise {A} e.

Definition rbind {A B : Type} (r : result A) (k : A -> result B) : result B :=
  match r with
  | Ok a => k a
  | Raise e => Raise e
  end.

Declare Scope result_scope.
Delimit Scope result_scope with result.
Notation "x <-? r ; k" := (rbind r (fun x => k))
  (at level 61, r at next level, right associativity) : result_scope.

Fixpoint rmap {A B : Type} (f : A -> result B) (l : list A) : result (list B) :=
  match l with
  | [] => Ok []
  | a :: l' =>
      match f a with
      | Ok b =>
          match rmap f l' with
          | Ok bs => Ok (b :: bs)
          | Raise e => Raise e
          end
      | Raise e => Raise e
      end
  end.

(** The position that a Python index [i] denotes in [l]: a negative index
    counts from the end, and an index outside the list raises. *)
Definition norm_index {A : Type} (l : list A) (i : Z) : result nat :=
  let n := Z.of_nat (List.length l) in
  let j := if i <? 0 then i + n else i in
  if (0 <=? j) && (j <? n) then Ok (Z.to_nat j)
  else Raise (mkexn IndexError "list index out of range").

(** [l[i]]. *)
Definition getitem {A : Type} (l : list A) (i : Z) : result A :=
  match norm_index l i with
  | Ok j =>
      match nth_error l j with
      | Some a => Ok a
      | None => Raise (mkexn IndexError "list index out of range")
      end
  | Raise e => Raise e
  end.

Fixpoint replace_nth {A : Type} (n : nat) (l : list A) (x : A) : list A :=
  match l, n with
  | [], _ => []
  | _ :: l', O => x :: l'
  | a :: l', S n' => a :: replace_nth n' l' x
  end.

(** [l[i] = x]. *)
Definition setitem {A : Type} (l : list A) (i : Z) (x : A) : result (list A) :=
  match norm_index l i with
  | Ok j => Ok (replace_nth j l x)
  | Raise e => Raise e
  end.

(** [range(a, b)] as a list. *)
Definition range (a b : Z) : list Z :=
  map (fun i => a + Z.of_nat i) (seq 0 (Z.to_nat (b - a))).

Definition b2z (b : bool) : Z := if b then 1 else 0.

(** [str(z)] of an int: the digits of a natural number, the last one first,
    and the sign. *)
Fixpoint digits_rev (fuel : nat) (n : N) : list ascii :=
  match fuel with
  | O => []
  | S fuel' =>
      ascii_of_N (48 + n mod 10) ::
      (if (n <? 10)%N then [] else digits_rev fuel' (n / 10))
  end.

Definition str_nat (n : N) : string :=
  string_of_list_ascii (rev (digits_rev (S (N.to_nat (N.log2 n))) n)).

Definition str_int (z : Z) : string :=
  if z <? 0 then String "-" (str_nat (Z.to_N (- z))) else str_nat (Z.to_N z).

(** ** The dates of [datetime] and the month calendars of [calendar]

    The definitions follow the Python sources of the standard library
    ([_pydatetime.py] and [calendar.py] of CPython 3.8 and later), function
    by function and under their names; the constructor of a date parses
    and checks its arguments, and words its errors, as the C type of
    CPython does. *)

Module PyDate.

Definition MINYEAR : Z := 1.
Definition MAXYEAR : Z := 9999.
Definition _MAXORDINAL : Z := 3652059.

Definition _DAYS_IN_MONTH : list Z :=
  [-1; 31; 28; 31; 30; 31; 30; 31; 31; 30; 31; 30; 31].

Definition _DAYS_BEFORE_MONTH : list Z :=
  [-1; 0; 31; 59; 90; 120; 151; 181; 212; 243; 273; 304; 334].

(** Table lookup at a month number; every caller has checked 1..12. *)
Definition tbl (l : list Z) (m : Z) : Z := nth (Z.to_nat m) l (-1).

Definition _is_leap (y : Z) : bool :=
  (y mod 4 =? 0) && (negb (y mod 100 =? 0) || (y mod 400 =? 0)).

Definition _days_before_year (year : Z) : Z :=
  let y := year - 1 in
  y * 365 + y / 4 - y / 100 + y / 400.

Definition _days_in_month (year m : Z) : Z :=
  if (m =? 2) && _is_leap year then 29 else tbl _DAYS_IN_MONTH m.

Definition _days_before_month (year m : Z) : Z :=
  tbl _DAYS_BEFORE_MONTH m + b2z ((2 <? m) && _is_leap year).

Definition _ymd2ord (year m d : Z) : Z :=
  _days_before_year year + _days_before_month year m + d.

Definition _DI400Y : Z := 146097.
Definition _DI100Y : Z := 36524.
Definition _DI4Y : Z := 1461.

Definition _ord2ymd (n0 : Z) : Z * Z * Z :=
  let n := n0 - 1 in
  let n400 := n / _DI400Y in
  let n := n mod _DI400Y in
  let year := n400 * 400 + 1 in
  let n100 := n / _DI100Y in
  let n := n mod _DI100Y in
  let n4 := n / _DI4Y in
  let n := n mod _DI4Y in
  let n1 := n / 365 in
  let n := n mod 365 in
  let year := year + n100 * 100 + n4 * 4 + n1 in
  if (n1 =? 4) || (n100 =? 4) then (year - 1, 12, 31)
  else
    let leapyear := (n1 =? 3) && (negb (n4 =? 24) || (n100 =? 3)) in
    let m := Z.shiftr (n + 50) 5 in
    let preceding := tbl _DAYS_BEFORE_MONTH m + b2z ((2 <? m) && leapyear) in
    if n <? preceding then
      let m' := m - 1 in
      let preceding' :=
        preceding - (tbl _DAYS_IN_MONTH m' + b2z ((m' =? 2) && leapyear)) in
      (year, m', n - preceding' + 1)
    else (year, m, n - preceding + 1).

(** A [datetime.date] object.  [strptime] returns a [datetime]; the widget
    only uses the date part of it (year, month, day, [isocalendar],
    [replace], [strftime("%x")]), so it is represented by that part. *)
Record date : Type := mkdate { year : Z; month : Z; day : Z }.

Definition date_eq_dec (a b : date) : {a = b} + {a <> b}.
Proof. decide equality; apply Z.eq_dec. Defined.

(** What [_check_date_fields] accepts. *)
Definition valid_ymd (y m d : Z) : Prop :=
  MINYEAR <= y <= MAXYEAR /\ 1 <= m <= 12 /\ 1 <= d <= _days_in_month y m.

Definition valid_date (x : date) : Prop := valid_ymd (year x) (month x) (day x).

(** The C types [int] and [long] of CPython on the platforms where [long]
    has 64 bits. *)
Definition INT_MIN : Z := -2147483648.
Definition INT_MAX : Z := 2147483647.
Definition LONG_MIN : Z := -9223372036854775808.
Definition LONG_MAX : Z := 9223372036854775807.

Definition fits_int (z : Z) : Prop := INT_MIN <= z <= INT_MAX.

(** An int argument parsed with the format [i]: [PyLong_AsLong], then the
    range of [int]. *)
Definition c_int (z : Z) : result Z :=
  if negb ((LONG_MIN <=? z) && (z <=? LONG_MAX)) then
    Raise (mkexn OverflowError "Python int too large to convert to C long")
  else if INT_MAX <? z then
    Raise (mkexn OverflowError "signed integer is greater than maximum")
  else if z <? INT_MIN then
    Raise (mkexn OverflowError "signed integer is less than minimum")
  else Ok z.

(** [date(year, month, day)], as the C type does it: the three arguments
    are parsed as C ints, in this order, and then checked. *)
Definition date_new (y m d : Z) : result date :=
  (y <-? c_int y ;
   m <-? c_int m ;
   d <-? c_int d ;
   if negb ((MINYEAR <=? y) && (y <=? MAXYEAR)) then
     Raise (mkexn ValueError (append "year " (append (str_int y) " is out of range")))
   else if negb ((1 <=? m) && (m <=? 12)) then
     Raise (mkexn ValueError "month must be in 1..12")
   else if negb ((1 <=? d) && (d <=? _days_in_month y m)) then
     Raise (mkexn ValueError "day is out of range for month")
   else Ok (mkdate y m d))%result.

Definition toordinal (x : date) : Z := _ymd2ord (year x) (month x) (day x).

Definition fromordinal (n : Z) : date :=
  let '(y, m, d) := _ord2ymd n in mkdate y m d.

(** [x + timedelta(days=n)]. *)
Definition add_days (x : date) (n : Z) : result date :=
  let o := toordinal x + n in
  if (0 <? o) && (o <=? _MAXORDINAL) then Ok (fromordinal o)
  else Raise (mkexn OverflowError "date value out of range").

(** [x.replace(day=d)] and [x.replace(year=y)]. *)
Definition replace_day (x : date) (d : Z) : result date :=
  date_new (year x) (month x) d.

Definition replace_year (x : date) (y : Z) : result date :=
  date_new y (month x) (day x).

(** [x.weekday()]: Monday is 0. *)
Definition weekday (x : date) : Z := (toordinal x + 6) mod 7.

Definition _isoweek1monday (y : Z) : Z :=
  let THURSDAY := 3 in
  let firstday := _ymd2ord y 1 1 in
  let firstweekday := (firstday + 6) mod 7 in
  let week1monday := firstday - firstweekday in
  if THURSDAY <? firstweekday then week1monday + 7 else week1monday.

(** [x.isocalendar()]: (ISO year, ISO week 1..53, ISO weekday 1..7). *)
Definition isocalendar (x : date) : Z * Z * Z :=
  let y := year x in
  let week1monday := _isoweek1monday y in
  let today := toordinal x in
  let week := (today - week1monday) / 7 in
  let d := (today - week1monday) mod 7 in
  if week <? 0 then
    let y := y - 1 in
    let week1monday := _isoweek1monday y in
    (y, (today - week1monday) / 7 + 1, (today - week1monday) mod 7 + 1)
  else if (52 <=? week) && (_isoweek1monday (y + 1) <=? today) then
    (y + 1, 1, d + 1)
  else (y, week + 1, d + 1).

Definition isoweek (x : date) : Z := snd (fst (isocalendar x)).
Definition isoweekday (x : date) : Z := snd (isocalendar x).

(** *** [calendar] *)

Definition MONDAY : Z := 0.

Definition isleap (y : Z) : bool :=
  (y mod 4 =? 0) && (negb (y mod 100 =? 0) || (y mod 400 =? 0)).

Definition mdays : list Z := [0; 31; 28; 31; 30; 31; 30; 31; 31; 30; 31; 30; 31].

(** [calendar.weekday]: years outside [MINYEAR..MAXYEAR] are folded into
    the 400-year cycle. *)
Definition cal_weekday (y m d : Z) : result Z :=
  let y' := if (MINYEAR <=? y) && (y <=? MAXYEAR) then y else 2000 + y mod 400 in
  (x <-? date_new y' m d ; Ok (weekday x))%result.

Definition _monthlen (y m : Z) : Z :=
  tbl mdays m + b2z ((m =? 2) && isleap y).

(** [calendar.monthrange]. *)
Definition monthrange (y m : Z) : result (Z * Z) :=
  if negb ((1 <=? m) && (m <=? 12)) then
    Raise (mkexn ValueError "bad month number; must be 1-12")
  else
    (day1 <-? cal_weekday y m 1 ;
     Ok (day1, _monthlen y m))%result.

Definition _prevmonth (y m : Z) : Z * Z :=
  if m =? 1 then (y - 1, 12) else (y, m - 1).

Definition _nextmonth (y m : Z) : Z * Z :=
  if m =? 12 then (y + 1, 1) else (y, m + 1).

(** [Calendar(firstweekday).itermonthdays3(year, month)]. *)
Definition itermonthdays3 (firstweekday y m : Z) : result (list (Z * Z * Z)) :=
  (dn <-? monthrange y m ;
   let '(day1, ndays) := dn in
   let days_before := (day1 - firstweekday) mod 7 in
   let days_after := (firstweekday - day1 - ndays) mod 7 in
   let '(py, pm) := _prevmonth y m in
   let '(ny, nm) := _nextmonth y m in
   let stop := _monthlen py pm + 1 in
   Ok (map (fun d => (py, pm, d)) (range (stop - days_before) stop)
       ++ map (fun d => (y, m, d)) (range 1 (ndays + 1))
       ++ map (fun d => (ny, nm, d)) (range 1 (days_after + 1))))%result.

(** [list(itermonthdates(year, month))]: every triple becomes a [date], and
    the first one out of range raises. *)
Definition itermonthdates (firstweekday y m : Z) : result (list date) :=
  (l <-? itermonthdays3 firstweekday y m ;
   rmap (fun t => let '(yy, mm, dd) := t in date_new yy mm dd) l)%result.

(** [[dates[i:i+7] for i in range(0, len(dates), 7)]]. *)
Definition weeks_of {A : Type} (dates : list A) : list (list A) :=
  map (fun k => firstn 7 (skipn (7 * k) dates))
      (seq 0 ((List.length dates + 6) / 7)%nat).

Definition monthdatescalendar (firstweekday y m : Z) : result (list (list date)) :=
  (dates <-? itermonthdates firstweekday y m ; Ok (weeks_of dates))%result.

End PyDate.

(** ** [repr] of a string

    A Python string is modelled by a Rocq [string], read as the sequence of
    its code points, all below 256. *)

Module PyStr.

Local Open Scope string_scope.
Local Open Scope list_scope.

Definition quote1 : ascii := "'"%char.
Definition quote2 : ascii := "034"%char.
Definition backslash : ascii := "\"%char.

Fixpoint contains_char (c : ascii) (s : string) : bool :=
  match s with
  | EmptyString => false
  | String a s' => Ascii.eqb a c || contains_char c s'
  end.

Definition hexdigit (n : N) : ascii :=
  match n with
  | 0%N => "0" | 1%N => "1" | 2%N => "2" | 3%N => "3" | 4%N => "4"
  | 5%N => "5" | 6%N => "6" | 7%N => "7" | 8%N => "8" | 9%N => "9"
  | 10%N => "a" | 11%N => "b" | 12%N => "c" | 13%N => "d" | 14%N => "e"
  | _ => "f"
  end%char.

Definition hex_escape (n : N) : string :=
  String backslash (String "x" (String (hexdigit (n / 16)) (String (hexdigit (n mod 16)) ""))).

(** [str.isprintable] on one code point below 256. *)
Definition isprintable (n : N) : bool :=
  ((32 <=? n) && (n <? 127) || (161 <=? n) && negb (n =? 173))%N.

(** The escape of one character inside the quotes [q]. *)
Definition repr_char (q c : ascii) : string :=
  let n := N_of_ascii c in
  if Ascii.eqb c q || Ascii.eqb c backslash then String backslash (String c "")
  else if (n =? 9)%N then String backslash "t"
  else if (n =? 10)%N then String backslash "n"
  else if (n =? 13)%N then String backslash "r"
  else if isprintable n then String c ""
  else hex_escape n.

Fixpoint repr_body (q : ascii) (s : string) : string :=
  match s with
  | EmptyString => EmptyString
  | String c s' => append (repr_char q c) (repr_body q s')
  end.

(** [repr(s)]: single quotes, unless the string has a single quote and no
    double quote. *)
Definition repr (s : string) : string :=
  let q := if contains_char quote1 s && negb (contains_char quote2 s)
           then quote2 else quote1 in
  String q (append (repr_body q s) (String q "")).

(** [needle in s]. *)
Fixpoint is_substring (needle s : string) : bool :=
  String.prefix needle s ||
  match s with
  | EmptyString => false
  | String _ s' => is_substring needle s'
  end.

(** A character that [repr] leaves as it is. *)
Definition plain_char (c : ascii) : bool :=
  isprintable (N_of_ascii c)
  && negb (Ascii.eqb c quote1) && negb (Ascii.eqb c quote2)
  && negb (Ascii.eqb c backslash).

Fixpoint plain (s : string) : bool :=
  match s with
  | EmptyString => true
  | String c s' => plain_char c && plain s'
  end.

End PyStr.

(** ** The widget *)

Module Calendar.

Import PyDate.
Local Open Scope string_scope.
Local Open Scope list_scope.
Local Open Scope Z_scope.

(** The locale's short date format ["%x"]: [d.strftime("%x")] and
    [strptime(s, "%x")].  Both belong to the C library and the installed
    locale, so the widget is modelled over any pair of them.  [strptime]
    returns a [datetime.datetime] at midnight; [strptime_x] gives its
    calendar date, which is all that the widget reads of it. *)
Class Locale : Type := {
  strftime_x : date -> string;
  strptime_x : string -> result date
}.

(** A Python string object: its characters, and whether it is interned.
    The source tests its options with [is], that is, by identity with the
    object of a literal: [x is "day"] holds when [x] is interned and has
    these characters.  Literals and keyword names are interned; a string
    built while the program runs is not, and then [x is "day"] is false even
    when [x == "day"] is true. *)
Record pystr : Type := mkstr { chars : string; interned : bool }.

(** The object of the literal [s]. *)
Definition lit (s : string) : pystr := mkstr s true.

(** [x is "s"]. *)
Definition py_is (x : pystr) (s : string) : bool :=
  interned x && String.eqb (chars x) s.

(** [x == "s"]. *)
Definition py_eq (x : pystr) (s : string) : bool := String.eqb (chars x) s.

(** The ttk style of a day label, ['<name>.<prefix>.TLabel']. *)
Inductive style_t : Type := normal | we | normal_om | we_om | sel.

Definition style_eqb (a b : style_t) : bool :=
  match a, b with
  | normal, normal | we, we | normal_om, normal_om | we_om, we_om | sel, sel => true
  | _, _ => false
  end.

(** A day label: its text is empty ([None]) or [str(n)] ([Some n]). *)
Record label : Type := mklabel { text : option Z; style : style_t }.

Inductive event : Type := CalendarSelected.

(** The fields of a [Calendar] that the grid, the selection and the
    navigation read or write.  [_date] and [_sel_date] are the calendar dates
    of the objects stored: these are dates, and, once the trace of the
    variable has stored what [strptime] returned, datetimes at midnight,
    of which the widget reads the year, the month, the day, [isocalendar],
    [replace], [strftime] and the sum with a [timedelta], as of a date.
    [_textvariable] is [None] when no variable is
    bound and the content of the bound [StringVar] otherwise; [selectmode]
    and [state] are [_properties['selectmode']] and [_properties['state']];
    [click_bound] says whether [<1>] on the day labels is bound to
    [_on_click]; [generated] lists the virtual events generated so far, the
    oldest first.  The header labels, fonts and colours are left out. *)
Record widget : Type := mkwidget {
  _date : date;
  _sel_date : option date;
  _textvariable : option string;
  selectmode : pystr;
  state : pystr;
  click_bound : bool;
  _calendar : list (list label);
  _week_nbs : list (option Z);
  generated : list event
}.

Definition with_date (d : date) (w : widget) : widget :=
  mkwidget d (_sel_date w) (_textvariable w) (selectmode w) (state w)
           (click_bound w) (_calendar w) (_week_nbs w) (generated w).

Definition with_sel_date (s : option date) (w : widget) : widget :=
  mkwidget (_date w) s (_textvariable w) (selectmode w) (state w)
           (click_bound w) (_calendar w) (_week_nbs w) (generated w).

Definition with_textvariable (t : option string) (w : widget) : widget :=
  mkwidget (_date w) (_sel_date w) t (selectmode w) (state w)
           (click_bound w) (_calendar w) (_week_nbs w) (generated w).

Definition with_selectmode (m : pystr) (b : bool) (w : widget) : widget :=
  mkwidget (_date w) (_sel_date w) (_textvariable w) m (state w)
           b (_calendar w) (_week_nbs w) (generated w).

Definition with_state (s : pystr) (w : widget) : widget :=
  mkwidget (_date w) (_sel_date w) (_textvariable w) (selectmode w) s
           (click_bound w) (_calendar w) (_week_nbs w) (generated w).

Definition with_calendar (c : list (list label)) (w : widget) : widget :=
  mkwidget (_date w) (_sel_date w) (_textvariable w) (selectmode w) (state w)
           (click_bound w) c (_week_nbs w) (generated w).

Definition with_week_nbs (l : list (option Z)) (w : widget) : widget :=
  mkwidget (_date w) (_sel_date w) (_textvariable w) (selectmode w) (state w)
           (click_bound w) (_calendar w) l (generated w).

Definition with_generated (l : list event) (w : widget) : widget :=
  mkwidget (_date w) (_sel_date w) (_textvariable w) (selectmode w) (state w)
           (click_bound w) (_calendar w) (_week_nbs w) l.

(** *** Methods: state and exceptions

    A method runs on the widget and ends with a value or an exception; what
    it wrote before an exception stays written. *)
Definition M (A : Type) : Type := widget -> result A * widget.

Definition ret {A : Type} (a : A) : M A := fun w => (Ok a, w).

Definition raise {A : Type} (e : exn) : M A := fun w => (Raise e, w).

Definition bind {A B : Type} (m : M A) (k : A -> M B) : M B :=
  fun w =>
    match m w with
    | (Ok a, w') => k a w'
    | (Raise e, w') => (Raise e, w')
    end.

Definition lift {A : Type} (r : result A) : M A := fun w => (r, w).

Definition get : M widget := fun w => (Ok w, w).

Definition modify (f : widget -> widget) : M unit := fun w => (Ok tt, f w).

(** [try: m except Exception as e: handler e]. *)
Definition try_except {A : Type} (m : M A) (handler : exn -> M A) : M A :=
  fun w =>
    match m w with
    | (Ok a, w') => (Ok a, w')
    | (Raise e, w') => handler e w'
    end.

Declare Scope method_scope.
Delimit Scope method_scope with method.
Notation "x <- m ;; k" := (bind m (fun x => k))
  (at level 61, m at next level, right associativity) : method_scope.
Notation "m ;; k" := (bind m (fun _ => k))
  (at level 61, right associativity) : method_scope.
Local Open Scope method_scope.

(** [for a in l: body a]. *)
Fixpoint for_ {A : Type} (l : list A) (body : A -> M unit) : M unit :=
  match l with
  | [] => ret tt
  | a :: l' => body a ;; for_ l' body
  end.

(** [self._calendar[r][c].configure(...)]: the label at row [r], column [c]
    becomes [f] of itself. *)
Definition configure_day (r c : Z) (f : label -> label) : M unit :=
  w <- get ;;
  row <- lift (getitem (_calendar w) r) ;;
  lbl <- lift (getitem row c) ;;
  row' <- lift (setitem row c (f lbl)) ;;
  cal' <- lift (setitem (_calendar w) r row') ;;
  modify (with_calendar cal').

(** [self._week_nbs[i].configure(text=str(n))]. *)
Definition configure_week_nb (i n : Z) : M unit :=
  w <- get ;;
  l <- lift (setitem (_week_nbs w) i (Some n)) ;;
  modify (with_week_nbs l).

Definition set_style (s : style_t) (l : label) : label := mklabel (text l) s.

(** *** [_display_selection] and [_remove_selection] *)

Definition _display_selection : M unit :=
  w <- get ;;
  match _sel_date w with
  | Some s =>
      let year := PyDate.year s in
      if year =? PyDate.year (_date w) then
        let '(_, w0, d) := isocalendar s in
        let wn := isoweek (_date w) in
        let w1 := w0 - wn in
        let w2 := w1 mod (Z.max 52 wn) in
        if (0 <=? w2) && (w2 <? 6) then configure_day w2 (d - 1) (set_style sel)
        else ret tt
      else ret tt
  | None => ret tt
  end.

Definition _remove_selection : M unit :=
  w <- get ;;
  match _sel_date w with
  | Some s =>
      let year := PyDate.year s in
      let month := PyDate.month s in
      if year =? PyDate.year (_date w) then
        let '(_, w0, d) := isocalendar s in
        let wn := isoweek (_date w) in
        let w1 := w0 - wn in
        let w2 := w1 mod (Z.max 52 wn) in
        if (0 <=? w2) && (w2 <? 6) then
          if month =? PyDate.month (_date w) then
            if d <? 6 then configure_day w2 (d - 1) (set_style normal)
            else configure_day w2 (d - 1) (set_style we)
          else
            if d <? 6 then configure_day w2 (d - 1) (set_style normal_om)
            else configure_day w2 (d - 1) (set_style we_om)
        else ret tt
      else ret tt
  | None => ret tt
  end.

(** *** [_display_calendar] *)

(** The local [cal] of [_display_calendar], once extended to six weeks. *)
Definition shown_dates (year month : Z) : result (list (list date)) :=
  (cal <-? monthdatescalendar MONDAY year month ;
   let next_m := month + 1 in
   let y := year in
   let '(next_m, y) := if next_m =? 13 then (1, y + 1) else (next_m, y) in
   if Z.of_nat (List.length cal) <? 6 then
     last_week <-? getitem cal (-1) ;
     last_day <-? getitem last_week (-1) ;
     let i := if PyDate.month last_day =? month then 0 else 1 in
     next_cal <-? monthdatescalendar MONDAY y next_m ;
     week <-? getitem next_cal i ;
     let cal := cal ++ [week] in
     if Z.of_nat (List.length cal) <? 6 then
       next_cal <-? monthdatescalendar MONDAY y next_m ;
       week <-? getitem next_cal (i + 1) ;
       Ok (cal ++ [week])
     else Ok cal
   else Ok cal)%result.

(** [week_days]: ['normal'] for Monday to Friday, ['we'] for the week-end;
    [false] stands for ['normal'] and [true] for ['we']. *)
Definition week_days (i : Z) : result bool :=
  if (0 <=? i) && (i <? 7) then Ok ((i =? 5) || (i =? 6))
  else Raise (mkexn KeyError "week_days").

(** [months]: the style suffix of the displayed month is ['.<prefix>.TLabel']
    ([false]) and the one of its two neighbours ['_om.<prefix>.TLabel']
    ([true]); in a dict display the later key wins. *)
Definition months (month next_m prev_m : Z) (k : Z) : result bool :=
  if k =? prev_m then Ok true
  else if k =? next_m then Ok true
  else if k =? month then Ok false
  else Raise (mkexn KeyError "months").

(** [week_days[i] + months[m]]. *)
Definition style_of (weekend other_month : bool) : style_t :=
  match weekend, other_month with
  | false, false => normal
  | true, false => we
  | false, true => normal_om
  | true, true => we_om
  end.

Definition _display_calendar : M unit :=
  w <- get ;;
  let year := PyDate.year (_date w) in
  let month := PyDate.month (_date w) in
  cal <- lift (shown_dates year month) ;;
  let next_m := if month + 1 =? 13 then 1 else month + 1 in
  let prev_m := (month - 2) mod 12 + 1 in
  let week_nb := isoweek (_date w) in
  let modulo := Z.max week_nb 52 in
  for_ (range 0 6) (fun i_week =>
    configure_week_nb i_week ((week_nb + i_week - 1) mod modulo + 1) ;;
    for_ (range 0 7) (fun i_day =>
      wd <- lift (week_days i_day) ;;
      week <- lift (getitem cal i_week) ;;
      cell <- lift (getitem week i_day) ;;
      om <- lift (months month next_m prev_m (PyDate.month cell)) ;;
      configure_day i_week i_day
        (fun _ => mklabel (Some (PyDate.day cell)) (style_of wd om)))) ;;
  _display_selection.

(** *** The text variable *)

Section WithLocale.

Context {L : Locale}.

(** [self._textvariable.set(s)] where no trace runs: before the trace is
    registered, and inside the trace callback, where Tcl disables the traces
    of the variable. *)
Definition textvariable_write (s : string) : M unit :=
  w <- get ;;
  match _textvariable w with
  | Some _ => modify (with_textvariable (Some s))
  | None => raise (mkexn AttributeError "'NoneType' object has no attribute 'set'")
  end.

Definition _textvariable_trace : M unit :=
  w <- get ;;
  if py_is (selectmode w) "day" then
    match _textvariable w with
    | None => raise (mkexn AttributeError "'NoneType' object has no attribute 'get'")
    | Some date =>
        if String.eqb date "" then
          _remove_selection ;;
          modify (with_sel_date None)
        else
          match strptime_x date with
          | Raise e =>
              w' <- get ;;
              match _sel_date w' with
              | None => textvariable_write ""
              | Some s => textvariable_write (strftime_x s)
              end ;;
              raise (mkexn (exn_ty e) (append (PyStr.repr date) " is not a valid date."))
          | Ok d =>
              modify (with_sel_date (Some d)) ;;
              d1 <- lift (replace_day d 1) ;;
              modify (with_date d1) ;;
              _display_calendar ;;
              _display_selection
          end
    end
  else ret tt.

(** [self._textvariable.set(s)] from a method of the widget, the trace
    being registered: the variable is written, then the write trace runs
    [_textvariable_trace]; Tk reports an exception of the callback and the
    caller goes on. *)
Definition textvariable_set (s : string) : M unit :=
  textvariable_write s ;;
  try_except _textvariable_trace (fun _ => ret tt).

(** The application writes [s] into the bound variable: the trace runs, and
    its outcome is the outcome of the update. *)
Definition textvariable_written (s : string) : M unit :=
  textvariable_write s ;;
  _textvariable_trace.

(** *** Callbacks *)

Definition _next_month : M unit :=
  w <- get ;;
  let year := PyDate.year (_date w) in
  let month := PyDate.month (_date w) in
  mr <- lift (monthrange year month) ;;
  d <- lift (add_days (_date w) (snd mr)) ;;
  modify (with_date d) ;;
  _display_calendar.

Definition _prev_month : M unit :=
  w <- get ;;
  d <- lift (add_days (_date w) (-1)) ;;
  modify (with_date d) ;;
  d1 <- lift (replace_day d 1) ;;
  modify (with_date d1) ;;
  _display_calendar.

Definition _next_year : M unit :=
  w <- get ;;
  let year := PyDate.year (_date w) in
  d <- lift (replace_year (_date w) (year + 1)) ;;
  modify (with_date d) ;;
  _display_calendar.

Definition _prev_year : M unit :=
  w <- get ;;
  let year := PyDate.year (_date w) in
  d <- lift (replace_year (_date w) (year - 1)) ;;
  modify (with_date d) ;;
  _display_calendar.

Definition event_generate (e : event) : M unit :=
  modify (fun w => with_generated (generated w ++ [e]) w).

(** [_on_click(event)], [event.widget] being the day label at row [r],
    column [c]. *)
Definition _on_click (r c : Z) : M unit :=
  w <- get ;;
  if py_is (state w) "normal" then
    week <- lift (getitem (_calendar w) r) ;;
    lbl <- lift (getitem week c) ;;
    let day := text lbl in
    let style := style lbl in
    (if style_eqb style normal_om || style_eqb style we_om then
       if r =? 0 then _prev_month else _next_month
     else ret tt) ;;
    match day with
    | Some day =>
        w <- get ;;
        let year := PyDate.year (_date w) in
        let month := PyDate.month (_date w) in
        _remove_selection ;;
        d <- lift (date_new year month day) ;;
        modify (with_sel_date (Some d)) ;;
        _display_selection ;;
        match _textvariable w with
        | Some _ => textvariable_set (strftime_x d)
        | None => ret tt
        end ;;
        event_generate CalendarSelected
    | None => ret tt
    end
  else ret tt.

(** A click of the user on the day label at row [r], column [c]. *)
Definition user_click (r c : Z) : M unit :=
  w <- get ;;
  if click_bound w then _on_click r c else ret tt.

(** *** Selection handling *)

(** [selection_get()]: the object stored in [_sel_date], given by its
    calendar date. *)
Definition selection_get (w : widget) : option date :=
  if py_is (selectmode w) "day" then _sel_date w else None.

(** The argument of [selection_set]: [None], a date, or a string. *)
Inductive sel_arg : Type :=
| ArgNone
| ArgDate (d : date)
| ArgStr (s : string).

Definition selection_set (date : sel_arg) : M unit :=
  w <- get ;;
  if py_is (selectmode w) "day" && py_is (state w) "normal" then
    match date with
    | ArgNone =>
        _remove_selection ;;
        modify (with_sel_date None) ;;
        match _textvariable w with
        | Some _ => textvariable_set ""
        | None => ret tt
        end
    | _ =>
        match date with
        | ArgDate d => modify (with_sel_date (Some d))
        | ArgStr s =>
            match strptime_x s with
            | Ok d => modify (with_sel_date (Some d))
            | Raise e =>
                raise (mkexn (exn_ty e) (append (PyStr.repr s) " is not a valid date."))
            end
        | ArgNone => ret tt
        end ;;
        w1 <- get ;;
        (match _textvariable w1, _sel_date w1 with
         | Some _, Some s => textvariable_set (strftime_x s)
         | Some _, None =>
             raise (mkexn AttributeError "'NoneType' object has no attribute 'strftime'")
         | None, _ => ret tt
         end) ;;
        w2 <- get ;;
        match _sel_date w2 with
        | Some s =>
            d1 <- lift (replace_day s 1) ;;
            modify (with_date d1) ;;
            _display_calendar ;;
            _display_selection
        | None =>
            raise (mkexn AttributeError "'NoneType' object has no attribute 'replace'")
        end
    end
  else ret tt.

Definition get_date (w : widget) : string :=
  match _sel_date w with
  | Some s => strftime_x s
  | None => ""
  end.

(** *** Options *)

Inductive option_key : Type := Kselectmode | Kstate.

(** [self[key] = value] for the two options that the selection depends on,
    [key] being the interned name of the option and [value] a string.  The
    other options, ['textvariable'] among them, are described with the dict
    of the options, in [Options] below. *)
Definition __setitem__ (key : option_key) (value : pystr) : M unit :=
  match key with
  | Kselectmode =>
      if py_is value "none" then modify (with_selectmode value false)
      else if py_is value "day" then modify (with_selectmode value true)
      else raise (mkexn ValueError "'selectmode' option should be 'none' or 'day'.")
  | Kstate =>
      if negb (py_eq value "normal" || py_eq value "disabled") then
        raise (mkexn ValueError
                 (append "bad state '"
                    (append (chars value) "': must be disabled or normal")))
      else modify (with_state value)
  end.

(** *** Construction *)

(** The keyword arguments of [Calendar(...)] that matter here, each absent
    or given, and [date.today()]; the year, the month and the day are ints,
    and [kw_textvariable] is the content of the
    [StringVar] passed, if one is.  The cursor, the font, the border width
    and the colours are left out, and with them the [ValueError] of a border
    width that is not an integer. *)
Record init_args : Type := mkargs {
  kw_year : option Z;
  kw_month : option Z;
  kw_day : option Z;
  kw_selectmode : option pystr;
  kw_state : option pystr;
  kw_textvariable : option string;
  today : date
}.

Definition given {A : Type} (o : option A) : bool :=
  match o with Some _ => true | None => false end.

Definition pop {A : Type} (o : option A) (default : A) : A :=
  match o with Some a => a | None => default end.

Definition fresh_calendar : list (list label) :=
  repeat (repeat (mklabel None normal) 7) 6.

Definition fresh_week_nbs : list (option Z) := repeat None 6.

Definition __init__ (kw : init_args) : result widget :=
  (let textvariable := kw_textvariable kw in
   let state := pop (kw_state kw) (lit "normal") in
   let month := pop (kw_month kw) (PyDate.month (today kw)) in
   let year := pop (kw_year kw) (PyDate.year (today kw)) in
   sel_tv <-?
     (if (given (kw_month kw) || given (kw_year kw)) && negb (given (kw_day kw))
      then Ok (None, textvariable)
      else
        let day := pop (kw_day kw) (PyDate.day (today kw)) in
        match date_new year month day with
        | Ok d => Ok (Some d, option_map (fun _ => strftime_x d) textvariable)
        | Raise e =>
            match exn_ty e with
            | ValueError => Ok (None, textvariable)
            | _ => Raise e
            end
        end) ;
   d1 <-? date_new year month 1 ;
   let selectmode := pop (kw_selectmode kw) (lit "day") in
   if negb (py_eq selectmode "none" || py_eq selectmode "day") then
     Raise (mkexn ValueError "'selectmode' option should be 'none' or 'day'.")
   else
     let w0 := mkwidget d1 (fst sel_tv) (snd sel_tv) selectmode state
                        (py_is selectmode "day")
                        fresh_calendar fresh_week_nbs [] in
     match (__setitem__ Kstate state ;; _display_calendar) w0 with
     | (Ok _, w) => Ok w
     | (Raise e, _) => Raise e
     end)%result.

End WithLocale.

(** *** A locale to run the widget on: the C locale

    Its ["%x"] is ["%m/%d/%y"].  [strftime] writes two digits a field.
    [strptime] reads its string as [_strptime] does, with the regular
    expression of this format, a month [1[0-2]|0[1-9]|[1-9]], a day
    [3[0-1]|[1-2]\d|0[1-9]|[1-9]| [1-9]] and a year [\d\d] between two
    slashes; it raises when the string does not match, when something is
    left after the year, and when the day is not one of the month. *)

Definition digit (n : Z) : ascii := ascii_of_N (48 + Z.to_N n).

Definition two_digits (n : Z) : string :=
  String (digit (n / 10 mod 10)) (String (digit (n mod 10)) "").

Definition digit_val (c : ascii) : option Z :=
  let n := Z.of_N (N_of_ascii c) in
  if (48 <=? n) && (n <=? 57) then Some (n - 48) else None.

Definition c_strftime (d : date) : string :=
  append (two_digits (PyDate.month d))
    (append "/" (append (two_digits (PyDate.day d))
       (append "/" (two_digits (PyDate.year d mod 100))))).

Definition no_match (s : string) : exn :=
  mkexn ValueError
        (append "time data " (append (PyStr.repr s) " does not match format '%x'")).

Definition unconverted (rest : string) : exn :=
  mkexn ValueError (append "unconverted data remains: " rest).

(** The month at the head of [s], and what follows it. *)
Definition read_month (s : string) : option (Z * string) :=
  match s with
  | String a rest =>
      match digit_val a with
      | Some x =>
          match rest with
          | String b rest' =>
              match digit_val b with
              | Some y =>
                  if (x =? 1) && (y <=? 2) then Some (10 + y, rest')
                  else if (x =? 0) && (1 <=? y) then Some (y, rest')
                  else if 1 <=? x then Some (x, rest)
                  else None
              | None => if 1 <=? x then Some (x, rest) else None
              end
          | EmptyString => if 1 <=? x then Some (x, rest) else None
          end
      | None => None
      end
  | EmptyString => None
  end.

(** The day at the head of [s], and what follows it. *)
Definition read_day (s : string) : option (Z * string) :=
  match s with
  | String a rest =>
      match digit_val a with
      | Some x =>
          match rest with
          | String b rest' =>
              match digit_val b with
              | Some y =>
                  if (x =? 3) && (y <=? 1) then Some (30 + y, rest')
                  else if (1 <=? x) && (x <=? 2) then Some (10 * x + y, rest')
                  else if (x =? 0) && (1 <=? y) then Some (y, rest')
                  else if 1 <=? x then Some (x, rest)
                  else None
              | None => if 1 <=? x then Some (x, rest) else None
              end
          | EmptyString => if 1 <=? x then Some (x, rest) else None
          end
      | None =>
          if Ascii.eqb a " " then
            match rest with
            | String b rest' =>
                match digit_val b with
                | Some y => if 1 <=? y then Some (y, rest') else None
                | None => None
                end
            | EmptyString => None
            end
          else None
      end
  | EmptyString => None
  end.

Definition c_strptime (s : string) : result date :=
  match read_month s with
  | Some (m, String sep1 s1) =>
      if Ascii.eqb sep1 "/" then
        match read_day s1 with
        | Some (d, String sep2 (String y1 (String y2 rest))) =>
            if Ascii.eqb sep2 "/" then
              match digit_val y1, digit_val y2 with
              | Some e, Some f =>
                  match rest with
                  | EmptyString =>
                      let yy := 10 * e + f in
                      date_new (if yy <? 69 then 2000 + yy else 1900 + yy) m d
                  | _ => Raise (unconverted rest)
                  end
              | _, _ => Raise (no_match s)
              end
            else Raise (no_match s)
        | _ => Raise (no_match s)
        end
      else Raise (no_match s)
  | _ => Raise (no_match s)
  end.

#[export] Instance c_locale : Locale :=
  {| strftime_x := c_strftime; strptime_x := c_strptime |}.

End Calendar.

(** ** The vocabulary of the statements *)

Import PyDate Calendar.
Local Open Scope string_scope.
Local Open Scope list_scope.
Local Open Scope Z_scope.
Local Open Scope method_scope.

(** [l] holds valid dates whose ordinals are [s], [s + 1], ... *)
Definition consecutive (s : Z) (l : list date) : Prop :=
  forall k x, nth_error l k = Some x ->
    valid_date x /\ toordinal x = s + Z.of_nat k.

(** A week: seven consecutive dates from ordinal [s] on. *)
Definition week_from (s : Z) (row : list date) : Prop :=
  List.length row = 7%nat /\ consecutive s row.

(** The ordinal of the Monday on or before the first day of a month. *)
Definition first_monday (y m : Z) : Z :=
  toordinal (mkdate y m 1) - weekday (mkdate y m 1).

(** Six weeks from ordinal [s] on. *)
Definition grid_from (s : Z) (G : list (list date)) : Prop :=
  List.length G = 6%nat /\
  forall r, (r < 6)%nat ->
    exists row, nth_error G r = Some row /\ week_from (s + 7 * Z.of_nat r) row.

(** [m] keeps [P]: whatever the outcome, [P] holds after if it held before. *)
Definition preserves {A : Type} (P : widget -> Prop) (m : M A) : Prop :=
  forall w, P w -> P (snd (m w)).

(** A property that the configuration of a label keeps. *)
Definition label_stable (P : widget -> Prop) : Prop :=
  (forall r c f, preserves P (configure_day r c f)) /\
  (forall i n, preserves P (configure_week_nb i n)).

(** A property that does not look at the day and week-number labels. *)
Definition ignores_labels (P : widget -> Prop) : Prop :=
  (forall c w, P w -> P (with_calendar c w)) /\
  (forall l w, P w -> P (with_week_nbs l w)).

(** [_date] is the first day of a month. *)
Definition first_of_month (w : widget) : Prop :=
  valid_date (_date w) /\ day (_date w) = 1.

(** Six rows of seven day labels and six week-number labels. *)
Definition shape (w : widget) : Prop :=
  List.length (_calendar w) = 6%nat /\
  Forall (fun row => List.length row = 7%nat) (_calendar w) /\
  List.length (_week_nbs w) = 6%nat.

(** [cal[r][c]]. *)
Definition cell (G : list (list date)) (r c : Z) : result date :=
  (week <-? getitem G r ; getitem week c)%result.

(** A widget with blank labels, as [__init__] builds it before the first
    display, its two options being literals. *)
Definition blank (d : date) (s : option date) (t : option string)
           (mode st : string) : widget :=
  mkwidget d s t (lit mode) (lit st) (String.eqb mode "day")
           fresh_calendar fresh_week_nbs [].

(** The states of a widget: the one that a successful construction leaves,
    and those after any callback, user click, call of [selection_set], write
    of the bound variable or assignment of [selectmode] or [state], whether
    it ended with an exception or not.  The variable is the one given to the
    constructor, which has put the trace on it. *)
Inductive reachable {L : Locale} : widget -> Prop :=
| reach_init (kw : init_args) (w : widget) :
    __init__ kw = Ok w -> reachable w
| reach_prev_month (w : widget) :
    reachable w -> reachable (snd (_prev_month w))
| reach_next_month (w : widget) :
    reachable w -> reachable (snd (_next_month w))
| reach_prev_year (w : widget) :
    reachable w -> reachable (snd (_prev_year w))
| reach_next_year (w : widget) :
    reachable w -> reachable (snd (_next_year w))
| reach_click (w : widget) (r c : Z) :
    reachable w -> reachable (snd (user_click r c w))
| reach_selection_set (w : widget) (a : sel_arg) :
    reachable w -> reachable (snd (selection_set a w))
| reach_textvariable (w : widget) (s : string) :
    reachable w -> reachable (snd (textvariable_written s w))
| reach_setitem (w : widget) (key : option_key) (value : pystr) :
    reachable w -> reachable (snd (__setitem__ key value w)).


(** The events generated so far are [g]. *)
Definition generated_is (g : list event) (w : widget) : Prop := generated w = g.


(** The selection, the displayed month and the bound variable. *)
Definition model_is (s : option date) (d : date) (t : option string)
           (w : widget) : Prop :=
  _sel_date w = s /\ _date w = d /\ _textvariable w = t.

(** The week-number labels are [l]. *)
Definition week_nbs_is (l : list (option Z)) (w : widget) : Prop := _week_nbs w = l.

(** February 2023, nothing selected, no variable bound. *)
Definition february_2023 : init_args :=
  mkargs (Some 2023) (Some 2) None None None None (mkdate 2026 11 3).

(** The widget that [Calendar(year=2023, month=2)] builds. *)
Definition february_2023_widget : widget :=
  Eval vm_compute in
    match @__init__ c_locale february_2023 with
    | Ok w => w
    | Raise _ => blank (mkdate 2023 2 1) None None "day" "normal"
    end.

(** [self._calendar[r][c]]. *)
Definition label_at (w : widget) (r c : Z) : result label :=
  (week <-? getitem (_calendar w) r ; getitem week c)%result.

(** The label at row [r], column [c] shows the day of [x], in the style of
    its column and month or in the style of the selection. *)
Definition shows (month : Z) (w : widget) (r c : Z) (x : date) : Prop :=
  exists lbl,
    label_at w r c = Ok lbl /\
    text lbl = Some (day x) /\
    (style lbl = sel \/
     style lbl = style_of ((c =? 5) || (c =? 6)) (negb (PyDate.month x =? month))).

(** *** The vocabulary of the further properties *)

(** The number of ISO weeks of the ISO year [Y]: the weeks from the Monday
    of its week 1 to the Monday of week 1 of the next ISO year. *)
Definition iso_weeks (Y : Z) : Z :=
  (_isoweek1monday (Y + 1) - _isoweek1monday Y) / 7.

(** The ISO year of a date. *)
Definition isoyear (x : date) : Z := fst (fst (isocalendar x)).

(** The label of the date [x] in column [c] while month [m] is displayed,
    when it is not highlighted. *)
Definition plain_label (m c : Z) (x : date) : label :=
  mklabel (Some (day x))
          (style_of ((c =? 5) || (c =? 6)) (negb (PyDate.month x =? m))).

(** [w'] is [w] but for the day and week-number labels. *)
Definition frame (w w' : widget) : Prop :=
  _date w' = _date w /\ _sel_date w' = _sel_date w /\
  _textvariable w' = _textvariable w /\ selectmode w' = selectmode w /\
  state w' = state w /\ click_bound w' = click_bound w /\
  generated w' = generated w.

(** The month of [_date] is one whose six weeks lie within the years of
    [datetime.date]: any month but November and December 9999. *)
Definition displayable (w : widget) : Prop :=
  year (_date w) < MAXYEAR \/ month (_date w) <= 10.

(** The cell that [_display_selection] and [_remove_selection] compute for
    the selection [s] while the month of [d] is displayed: [None] when they
    leave the labels alone. *)
Definition sel_cell (s d : date) : option (Z * Z) :=
  if year s =? year d then
    let r := (isoweek s - isoweek d) mod Z.max 52 (isoweek d) in
    if (0 <=? r) && (r <? 6) then Some (r, isoweekday s - 1) else None
  else None.

(** The style that [_remove_selection] gives back to the cell of [s]. *)
Definition removed_style (s d : date) : style_t :=
  style_of (negb (isoweekday s <? 6)) (negb (month s =? month d)).

(** The label that shows the date [x] in column [c] while month [m] is
    displayed, highlighted or not. *)
Definition day_label (m c : Z) (x : date) (highlighted : bool) : label :=
  if highlighted then mklabel (Some (day x)) sel else plain_label m c x.

(** Whether [x] is the date [s]. *)
Definition is_date (s : option date) (x : date) : bool :=
  match s with
  | Some s0 => if date_eq_dec s0 x then true else false
  | None => false
  end.

(** The day labels of [w] show the six weeks of the month of [_date w]:
    every label has the day of its date and the style of its column and
    month, but the label of the date [s], if [s] is a date among the six
    weeks, which is highlighted. *)
Definition displays (w : widget) (s : option date) : Prop :=
  exists G,
    shown_dates (year (_date w)) (month (_date w)) = Ok G /\
    forall r c x, 0 <= r < 6 -> 0 <= c < 7 -> cell G r c = Ok x ->
      label_at w r c = Ok (day_label (month (_date w)) c x (is_date s x)).

(** [s] is nothing or a day of the month of [d]. *)
Definition in_month (s : option date) (d : date) : Prop :=
  match s with
  | Some s0 => valid_date s0 /\ year s0 = year d /\ month s0 = month d
  | None => True
  end.

(** The widget shows the month of [_date] with its selection, which is
    nothing or a day of that month. *)
Definition shows_month (w : widget) : Prop :=
  shape w /\ first_of_month w /\ displayable w /\
  in_month (_sel_date w) (_date w) /\ displays w (_sel_date w).

(** [w'] has the selection, the variable, the options and the events of
    [w]. *)
Definition same_selection (w w' : widget) : Prop :=
  _sel_date w' = _sel_date w /\ _textvariable w' = _textvariable w /\
  selectmode w' = selectmode w /\ state w' = state w /\
  click_bound w' = click_bound w /\ generated w' = generated w.

(** The first day of the month after, and of the month before, the month
    of [d]. *)
Definition next_first (d : date) : date :=
  mkdate (fst (_nextmonth (year d) (month d))) (snd (_nextmonth (year d) (month d))) 1.

Definition prev_first (d : date) : date :=
  mkdate (fst (_prevmonth (year d) (month d))) (snd (_prevmonth (year d) (month d))) 1.

(** [w'] has the options and the events of [w]. *)
Definition same_options (w w' : widget) : Prop :=
  selectmode w' = selectmode w /\ state w' = state w /\
  click_bound w' = click_bound w /\ generated w' = generated w.

(** The locale reads the date [d] back from what it writes for it. *)
Definition reads_back {L : Locale} (d : date) : Prop :=
  strftime_x d <> "" /\ strptime_x (strftime_x d) = Ok d.

(** The selection as the labels can show it: a selection of another year
    than the displayed one is not highlighted. *)
Definition visible (s : option date) (d : date) : option date :=
  match s with
  | Some s0 => if year s0 =? year d then Some s0 else None
  | None => None
  end.

(** The widget shows the month of [_date], and its selection, if it is of
    the displayed year, is at most ten months away from the displayed month
    and highlighted if among the six weeks. *)
Definition shows_near (w : widget) : Prop :=
  shape w /\ first_of_month w /\ displayable w /\
  (forall s, _sel_date w = Some s ->
     valid_date s /\
     (year s = year (_date w) -> -10 <= month s - month (_date w) <= 10)) /\
  displays w (visible (_sel_date w) (_date w)).

(** The calendar date of the object that [_sel_date] holds and that
    [selection_get] returns: the object is a [datetime.date], or the
    [datetime.datetime] at midnight that the trace of the variable has
    stored. *)
Definition calendar_date (x : date) : Z * Z * Z := (year x, month x, day x).

(** The six weeks shown for February 2023: from Monday 30 January to Sunday
    12 March. *)
Definition february_2023_grid : list (list date) :=
  Eval vm_compute in
    match shown_dates 2023 2 with
    | Ok G => G
    | Raise _ => []
    end.

(** [Calendar(year=2023, month=2, day=7)], before its first display and
    after it. *)
Definition february_7_blank : widget :=
  blank (mkdate 2023 2 1) (Some (mkdate 2023 2 7)) None "day" "normal".

Definition february_7_widget : widget :=
  Eval vm_compute in snd (_display_calendar february_7_blank).

(** February 2023 displayed while 30 January 2023 is selected: the first
    label of the first row shows the selection. *)
Definition january_30_in_february : widget :=
  Eval vm_compute in
    snd (_display_calendar
           (blank (mkdate 2023 2 1) (Some (mkdate 2023 1 30)) None "day" "normal")).

(** A widget with a bound variable that holds the empty string, nothing
    being selected, before the first display. *)
Definition with_variable_blank : widget :=
  blank (mkdate 2023 2 1) None (Some "") "day" "normal".

(** ** The options of the widget

    [Calendar] keeps its options in the dict [_properties];
    [__getitem__], [cget] and [keys] read it, and [__setitem__],
    [configure] and [config] write it, after having passed the new value on
    to the labels, to the fonts, to the text variable and to the ttk styles;
    [_setup_style] gives the styles the colours of the dict.  This part
    describes them on a state of its own: the dict, the attributes of the
    widget that [__setitem__] reads or writes, and, for Tk, what has been
    asked of it last.  Whether Tk accepts a request is left to Tk: the
    methods are described over any answer of it, which may depend on the
    state, and so are [int] of a string and the fonts.  The callbacks that Tk runs when a variable is
    written are not part of this description; they leave the dict and the
    styles alone. *)

Module Options.

Import PyDate Calendar.
Local Open Scope string_scope.
Local Open Scope list_scope.
Local Open Scope Z_scope.

(** The values of the options: [None], a bool, an int, a string, or a Tk
    variable, known by its name. *)
Inductive value : Type :=
| VNone
| VBool (b : bool)
| VInt (n : Z)
| VStr (s : pystr)
| VVar (name : string).

(** [value is "s"], [value == "s"] and the truth of a value. *)
Definition is_lit (v : value) (s : string) : bool :=
  match v with
  | VStr x => py_is x s
  | _ => false
  end.

Definition eq_str (v : value) (s : string) : bool :=
  match v with
  | VStr x => py_eq x s
  | _ => false
  end.

Definition truthy (v : value) : bool :=
  match v with
  | VNone => false
  | VBool b => b
  | VInt n => negb (n =? 0)
  | VStr x => negb (String.eqb (chars x) "")
  | VVar _ => true
  end.

(** [str(value)], as ["%s" % value] writes it. *)
Definition py_str (v : value) : string :=
  match v with
  | VNone => "None"
  | VBool true => "True"
  | VBool false => "False"
  | VInt n => str_int n
  | VStr x => chars x
  | VVar name => name
  end.

(** *** Exceptions *)

(** The classes of the exceptions met here; [TclError] is Tk's. *)
Inductive exception_class : Type :=
| ValueError | AttributeError | TypeError | TclError.

Record exception : Type := mkexception {
  exc_class : exception_class;
  exc_msg : string
}.

Inductive outcome (A : Type) : Type :=
| Returns (a : A)
| Raises (e : exception).

Arguments Returns {A} a.
Arguments Raises {A} e.

(** The name of the type of a value, and the [AttributeError] of a method
    that it does not have. *)
Definition type_name (v : value) : string :=
  match v with
  | VNone => "NoneType"
  | VBool _ => "bool"
  | VInt _ => "int"
  | VStr _ => "str"
  | VVar _ => "StringVar"
  end.

Definition no_attribute (v : value) (attr : string) : exception :=
  mkexception AttributeError
    (append "'" (append (type_name v)
       (append "' object has no attribute '" (append attr "'")))).

Definition no_trace_id : exception :=
  mkexception AttributeError
    "'Calendar' object has no attribute '_textvariable_trace_id'".

(** *** A dict with string keys, in the order of insertion *)

Fixpoint dict_get {A : Type} (k : string) (d : list (string * A)) : option A :=
  match d with
  | [] => None
  | (k', v) :: d' => if String.eqb k' k then Some v else dict_get k d'
  end.

(** [k in d]. *)
Definition dict_mem {A : Type} (k : string) (d : list (string * A)) : bool :=
  match dict_get k d with
  | Some _ => true
  | None => false
  end.

(** [d[k] = v]: a key that is there keeps its place, a new one comes last. *)
Fixpoint dict_set {A : Type} (k : string) (v : A) (d : list (string * A))
  : list (string * A) :=
  match d with
  | [] => [(k, v)]
  | (k', v') :: d' =>
      if String.eqb k' k then (k', v) :: d' else (k', v') :: dict_set k v d'
  end.

Definition dict_keys {A : Type} (d : list (string * A)) : list string := map fst d.

(** [d.update(kw)]. *)
Definition dict_update {A : Type} (d kw : list (string * A)) : list (string * A) :=
  fold_left (fun acc item => dict_set (fst item) (snd item) acc) kw d.

(** *** Styles, fonts and requests *)

(** The ttk styles of the widget, ['main.<prefix>.TFrame'] and so on; the
    last one is ['<prefix>.TLabel']. *)
Inductive style_name : Type :=
| main_TFrame | cal_TFrame | main_TLabel | headers_TLabel
| normal_TLabel | normal_om_TLabel | we_om_TLabel | sel_TLabel | we_TLabel
| R_TButton | L_TButton | prefix_TLabel.

Inductive style_opt : Type :=
| background | foreground | arrowcolor | arrowsize
| bordercolor | relief | lightcolor | darkcolor.

Definition style_name_eq_dec (a b : style_name) : {a = b} + {a <> b}.
Proof. decide equality. Defined.

Definition style_opt_eq_dec (a b : style_opt) : {a = b} + {a <> b}.
Proof. decide equality. Defined.

Fixpoint assoc_opt {A : Type} (o : style_opt) (l : list (style_opt * A)) : option A :=
  match l with
  | [] => None
  | (o', v) :: l' => if style_opt_eq_dec o' o then Some v else assoc_opt o l'
  end.

(** What [Font.actual()] returns: the size and the other properties. *)
Record font_props : Type := mkfont {
  font_size : Z;
  font_rest : list (string * value)
}.

(** What the methods ask of Tk: to bind or unbind [<1>] on the day labels,
    to grid or remove the week labels, the padding of the frame of the
    days, the state flag of the buttons and of the labels, the
    configuration of [_font] or of [_header_font], the settings of a
    style, the cursor, and the methods of a variable. *)
Inductive request : Type :=
| Bind
| Unbind
| Grid
| GridRemove
| PackConfigure (bd : Z)
| State (flag : string)
| FontConfigure (header : bool) (prop : font_props)
| StyleConfigure (n : style_name) (settings : list (style_opt * value))
| StyleMap (n : style_name) (settings : list (style_opt * list (string * value)))
| StyleLayout (n : style_name) (arrow : string)
| Cursor (v : value)
| VarSet (var : string) (s : string)
| TraceRemove (var : string)
| TraceAdd (var : string)
| TraceVdelete (var : string)
| Trace (var : string).

(** *** The state *)

(** [_sel_date] is as in the widget above; [_textvariable] is the object
    bound, [None] or a variable; [trace_id] says whether
    [_textvariable_trace_id] has been assigned.  The other fields keep what
    Tk has accepted last: [configured n o] and [mapped n o] for the option
    [o] of the style [n], [laid_out n] for the arrow of its layout, and
    [var_calls] the calls that the methods have made on variables, in
    their order. *)
Record options : Type := mkoptions {
  _properties : list (string * value);
  _sel_date : option date;
  _textvariable : value;
  trace_id : bool;
  click_bound : bool;
  week_nbs_gridded : bool;
  pad : Z;
  widgets_state : option string;
  cursor : value;
  _font : font_props;
  _header_font : font_props;
  configured : style_name -> style_opt -> option value;
  mapped : style_name -> style_opt -> option (list (string * value));
  laid_out : style_name -> option string;
  var_calls : list request
}.

Definition with_properties (p : list (string * value)) (c : options) : options :=
  mkoptions p (_sel_date c) (_textvariable c) (trace_id c) (click_bound c)
            (week_nbs_gridded c) (pad c) (widgets_state c) (cursor c)
            (_font c) (_header_font c) (configured c) (mapped c) (laid_out c)
            (var_calls c).

Definition with_textvariable (v : value) (c : options) : options :=
  mkoptions (_properties c) (_sel_date c) v (trace_id c) (click_bound c)
            (week_nbs_gridded c) (pad c) (widgets_state c) (cursor c)
            (_font c) (_header_font c) (configured c) (mapped c) (laid_out c)
            (var_calls c).

Definition with_trace_id (b : bool) (c : options) : options :=
  mkoptions (_properties c) (_sel_date c) (_textvariable c) b (click_bound c)
            (week_nbs_gridded c) (pad c) (widgets_state c) (cursor c)
            (_font c) (_header_font c) (configured c) (mapped c) (laid_out c)
            (var_calls c).

Definition with_click_bound (b : bool) (c : options) : options :=
  mkoptions (_properties c) (_sel_date c) (_textvariable c) (trace_id c) b
            (week_nbs_gridded c) (pad c) (widgets_state c) (cursor c)
            (_font c) (_header_font c) (configured c) (mapped c) (laid_out c)
            (var_calls c).

Definition with_week_nbs_gridded (b : bool) (c : options) : options :=
  mkoptions (_properties c) (_sel_date c) (_textvariable c) (trace_id c)
            (click_bound c) b (pad c) (widgets_state c) (cursor c) (_font c)
            (_header_font c) (configured c) (mapped c) (laid_out c)
            (var_calls c).

Definition with_pad (bd : Z) (c : options) : options :=
  mkoptions (_properties c) (_sel_date c) (_textvariable c) (trace_id c)
            (click_bound c) (week_nbs_gridded c) bd (widgets_state c)
            (cursor c) (_font c) (_header_font c) (configured c) (mapped c)
            (laid_out c) (var_calls c).

Definition with_widgets_state (s : string) (c : options) : options :=
  mkoptions (_properties c) (_sel_date c) (_textvariable c) (trace_id c)
            (click_bound c) (week_nbs_gridded c) (pad c) (Some s) (cursor c)
            (_font c) (_header_font c) (configured c) (mapped c) (laid_out c)
            (var_calls c).

Definition with_cursor (v : value) (c : options) : options :=
  mkoptions (_properties c) (_sel_date c) (_textvariable c) (trace_id c)
            (click_bound c) (week_nbs_gridded c) (pad c) (widgets_state c) v
            (_font c) (_header_font c) (configured c) (mapped c) (laid_out c)
            (var_calls c).

Definition with_font (f : font_props) (c : options) : options :=
  mkoptions (_properties c) (_sel_date c) (_textvariable c) (trace_id c)
            (click_bound c) (week_nbs_gridded c) (pad c) (widgets_state c)
            (cursor c) f (_header_font c) (configured c) (mapped c)
            (laid_out c) (var_calls c).

Definition with_header_font (f : font_props) (c : options) : options :=
  mkoptions (_properties c) (_sel_date c) (_textvariable c) (trace_id c)
            (click_bound c) (week_nbs_gridded c) (pad c) (widgets_state c)
            (cursor c) (_font c) f (configured c) (mapped c) (laid_out c)
            (var_calls c).

Definition with_configured (f : style_name -> style_opt -> option value) (c : options) : options :=
  mkoptions (_properties c) (_sel_date c) (_textvariable c) (trace_id c)
            (click_bound c) (week_nbs_gridded c) (pad c) (widgets_state c)
            (cursor c) (_font c) (_header_font c) f (mapped c) (laid_out c)
            (var_calls c).

Definition with_mapped (f : style_name -> style_opt -> option (list (string * value))) (c : options) : options :=
  mkoptions (_properties c) (_sel_date c) (_textvariable c) (trace_id c)
            (click_bound c) (week_nbs_gridded c) (pad c) (widgets_state c)
            (cursor c) (_font c) (_header_font c) (configured c) f
            (laid_out c) (var_calls c).

Definition with_laid_out (f : style_name -> option string) (c : options) : options :=
  mkoptions (_properties c) (_sel_date c) (_textvariable c) (trace_id c)
            (click_bound c) (week_nbs_gridded c) (pad c) (widgets_state c)
            (cursor c) (_font c) (_header_font c) (configured c) (mapped c) f
            (var_calls c).

Definition with_var_calls (l : list request) (c : options) : options :=
  mkoptions (_properties c) (_sel_date c) (_textvariable c) (trace_id c)
            (click_bound c) (week_nbs_gridded c) (pad c) (widgets_state c)
            (cursor c) (_font c) (_header_font c) (configured c) (mapped c)
            (laid_out c) l.

(** What the settings [settings] of the style [n] say of the option [o] of
    the style [n'], and a new setting on top of an old one. *)
Definition setting {A : Type} (n : style_name) (settings : list (style_opt * A))
           (n' : style_name) (o : style_opt) : option A :=
  if style_name_eq_dec n' n then assoc_opt o settings else None.

Definition override {A : Type} (new old : option A) : option A :=
  match new with
  | Some v => Some v
  | None => old
  end.

(** What a request leaves in the state once Tk has accepted it. *)
Definition record (r : request) (c : options) : options :=
  match r with
  | Bind => with_click_bound true c
  | Unbind => with_click_bound false c
  | Grid => with_week_nbs_gridded true c
  | GridRemove => with_week_nbs_gridded false c
  | PackConfigure bd => with_pad bd c
  | State flag => with_widgets_state flag c
  | FontConfigure false prop => with_font prop c
  | FontConfigure true prop => with_header_font prop c
  | StyleConfigure n settings =>
      with_configured
        (fun n' o => override (setting n settings n' o) (configured c n' o)) c
  | StyleMap n settings =>
      with_mapped
        (fun n' o => override (setting n settings n' o) (mapped c n' o)) c
  | StyleLayout n arrow =>
      with_laid_out
        (fun n' => override (if style_name_eq_dec n' n then Some arrow else None)
                            (laid_out c n')) c
  | Cursor v => with_cursor v c
  | VarSet _ _ | TraceRemove _ | TraceAdd _ | TraceVdelete _ | Trace _ =>
      with_var_calls (var_calls c ++ [r]) c
  end.

(** *** Methods on this state *)

Definition M (A : Type) : Type := options -> outcome A * options.

Definition ret {A : Type} (a : A) : M A := fun c => (Returns a, c).

Definition raise {A : Type} (e : exception) : M A := fun c => (Raises e, c).

Definition bind {A B : Type} (m : M A) (k : A -> M B) : M B :=
  fun c =>
    match m c with
    | (Returns a, c') => k a c'
    | (Raises e, c') => (Raises e, c')
    end.

Definition get : M options := fun c => (Returns c, c).

Definition modify (f : options -> options) : M unit := fun c => (Returns tt, f c).

Definition lift {A : Type} (r : outcome A) : M A := fun c => (r, c).

(** [try: m except cls: handler]. *)
Definition try_except {A : Type} (m : M A) (cls : exception_class)
           (handler : exception -> M A) : M A :=
  fun c =>
    match m c with
    | (Returns a, c') => (Returns a, c')
    | (Raises e, c') =>
        match exc_class e, cls with
        | ValueError, ValueError | AttributeError, AttributeError
        | TypeError, TypeError | TclError, TclError => handler e c'
        | _, _ => (Raises e, c')
        end
    end.

Declare Scope options_scope.
Delimit Scope options_scope with options.
Notation "x <- m ;; k" := (bind m (fun x => k))
  (at level 61, m at next level, right associativity) : options_scope.
Notation "m ;; k" := (bind m (fun _ => k))
  (at level 61, right associativity) : options_scope.
Local Open Scope options_scope.

(** [for a in l: body a]. *)
Fixpoint for_ {A : Type} (l : list A) (body : A -> M unit) : M unit :=
  match l with
  | [] => ret tt
  | a :: l' => body a ;; for_ l' body
  end.

(** What the options need from outside: [int(s)] of a string, [None] when
    it raises [ValueError]; the message of the [TypeError] of [int];
    [Font(self, value).actual()]; the size in [_header_font.actual()],
    from the configuration of the font; [style.lookup(style, option,
    (state,))] of the theme; and the answer of Tk, in a state, to a
    request. *)
Class Runtime : Type := {
  int_str : string -> option Z;
  int_type_error : value -> string;
  font_actual : value -> outcome font_props;
  actual_size : font_props -> Z;
  style_lookup : string -> string -> string -> value;
  tk : options -> request -> outcome unit
}.

Section WithRuntime.

Context {L : Locale} {R : Runtime}.

(** A request to Tk: when Tk refuses it, the state is as before. *)
Definition ask (r : request) : M unit :=
  c <- get ;; lift (tk c r) ;; modify (record r).

(** [int(value)]. *)
Definition py_int (v : value) : outcome Z :=
  match v with
  | VInt n => Returns n
  | VBool b => Returns (if b then 1 else 0)
  | VStr s =>
      match int_str (chars s) with
      | Some n => Returns n
      | None =>
          Raises (mkexception ValueError
                    (append "invalid literal for int() with base 10: "
                            (PyStr.repr (chars s))))
      end
  | VNone | VVar _ => Raises (mkexception TypeError (int_type_error v))
  end.

(** *** Reading *)

Definition __getitem__ (key : string) (c : options) : outcome value :=
  match dict_get key (_properties c) with
  | Some v => Returns v
  | None =>
      Raises (mkexception AttributeError
                (append "Calendar object has no attribute " (append key ".")))
  end.

Definition keys (c : options) : list string := dict_keys (_properties c).

Definition cget (key : string) (c : options) : outcome value := __getitem__ key c.

(** *** Writing *)

(** [var.method(...)] on the object [var], which has the method when it is
    a variable. *)
Definition call_method (var : value) (method : string) (r : string -> request)
  : M unit :=
  match var with
  | VVar name => ask (r name)
  | _ => raise (no_attribute var method)
  end.

(** [var.method('...', self._textvariable_trace_id)]. *)
Definition call_with_trace_id (var : value) (method : string)
           (r : string -> request) : M unit :=
  c <- get ;;
  match var with
  | VVar name => if trace_id c then ask (r name) else raise no_trace_id
  | _ => raise (no_attribute var method)
  end.

(** The branch of [__setitem__] for ['textvariable']. *)
Definition set_textvariable (value : value) : M unit :=
  c <- get ;;
  match _sel_date c with
  | Some s =>
      match value with
      | VNone => ret tt
      | _ => call_method value "set" (fun name => VarSet name (strftime_x s))
      end ;;
      try_except
        (match _textvariable c with
         | VNone => ret tt
         | old => call_with_trace_id old "trace_remove" TraceRemove
         end ;;
         match value with
         | VNone => ret tt
         | _ => call_method value "trace_add" TraceAdd ;; modify (with_trace_id true)
         end)
        AttributeError
        (fun _ =>
           match _textvariable c with
           | VNone => ret tt
           | old => call_with_trace_id old "trace_vdelete" TraceVdelete
           end ;;
           match value with
           | VNone => ret tt
           | _ => call_method value "trace" Trace
           end)
  | None => ret tt
  end ;;
  modify (with_textvariable value).

(** The branch for ['font']. *)
Definition set_font (value : value) : M unit :=
  prop <- lift (font_actual value) ;;
  ask (FontConfigure false prop) ;;
  let prop := mkfont (font_size prop + 1) (font_rest prop) in
  ask (FontConfigure true prop) ;;
  let size := Z.max (font_size prop) 10 in
  ask (StyleConfigure R_TButton [(arrowsize, VInt size)]) ;;
  ask (StyleConfigure L_TButton [(arrowsize, VInt size)]).

(** The branches of [__setitem__] from ['normalbackground'] to
    ['foreground'], which set styles. *)
Definition set_colour (key : pystr) (value : value) : M unit :=
  if py_is key "normalbackground" then
    ask (StyleConfigure cal_TFrame [(background, value)]) ;;
    ask (StyleConfigure normal_TLabel [(background, value)]) ;;
    ask (StyleConfigure normal_om_TLabel [(background, value)])
  else if py_is key "normalforeground" then
    ask (StyleConfigure normal_TLabel [(foreground, value)])
  else if py_is key "bordercolor" then
    ask (StyleConfigure cal_TFrame [(background, value)])
  else if py_is key "othermonthforeground" then
    ask (StyleConfigure normal_om_TLabel [(foreground, value)])
  else if py_is key "othermonthbackground" then
    ask (StyleConfigure normal_om_TLabel [(background, value)])
  else if py_is key "othermonthweforeground" then
    ask (StyleConfigure we_om_TLabel [(foreground, value)])
  else if py_is key "othermonthwebackground" then
    ask (StyleConfigure we_om_TLabel [(background, value)])
  else if py_is key "selectbackground" then
    ask (StyleConfigure sel_TLabel [(background, value)])
  else if py_is key "selectforeground" then
    ask (StyleConfigure sel_TLabel [(foreground, value)])
  else if py_is key "disabledselectbackground" then
    ask (StyleMap sel_TLabel [(background, [("disabled", value)])])
  else if py_is key "disabledselectforeground" then
    ask (StyleMap sel_TLabel [(foreground, [("disabled", value)])])
  else if py_is key "disableddaybackground" then
    ask (StyleMap prefix_TLabel [(background, [("disabled", value)])])
  else if py_is key "disableddayforeground" then
    ask (StyleMap prefix_TLabel [(foreground, [("disabled", value)])])
  else if py_is key "weekendbackground" then
    ask (StyleConfigure we_TLabel [(background, value)]) ;;
    ask (StyleConfigure we_om_TLabel [(background, value)])
  else if py_is key "weekendforeground" then
    ask (StyleConfigure we_TLabel [(foreground, value)])
  else if py_is key "headersbackground" then
    ask (StyleConfigure headers_TLabel [(background, value)])
  else if py_is key "headersforeground" then
    ask (StyleConfigure headers_TLabel [(foreground, value)])
  else if py_is key "background" then
    ask (StyleConfigure main_TFrame [(background, value)]) ;;
    ask (StyleConfigure main_TLabel [(background, value)]) ;;
    ask (StyleConfigure R_TButton [(background, value); (bordercolor, value);
                                   (lightcolor, value); (darkcolor, value)]) ;;
    ask (StyleConfigure L_TButton [(background, value); (bordercolor, value);
                                   (lightcolor, value); (darkcolor, value)])
  else if py_is key "foreground" then
    ask (StyleConfigure R_TButton [(arrowcolor, value)]) ;;
    ask (StyleConfigure L_TButton [(arrowcolor, value)]) ;;
    ask (StyleConfigure main_TLabel [(foreground, value)])
  else if py_is key "cursor" then ask (Cursor value)
  else ret tt.

Definition __setitem__ (key : pystr) (value : value) : M unit :=
  c <- get ;;
  if negb (dict_mem (chars key) (_properties c)) then
    raise (mkexception AttributeError
             (append "Calendar object has no attribute " (append (chars key) ".")))
  else if py_is key "locale" then
    raise (mkexception AttributeError "This attribute cannot be modified.")
  else
    (if py_is key "selectmode" then
       if is_lit value "none" then ask Unbind
       else if is_lit value "day" then ask Bind
       else raise (mkexception ValueError
                     "'selectmode' option should be 'none' or 'day'.")
     else if py_is key "textvariable" then set_textvariable value
     else if py_is key "showweeknumbers" then
       if truthy value then ask Grid else ask GridRemove
     else if py_is key "borderwidth" then
       try_except
         (bd <- lift (py_int value) ;; ask (PackConfigure bd))
         ValueError
         (fun _ => raise (mkexception ValueError
                            "expected integer for the borderwidth option."))
     else if py_is key "state" then
       if negb (eq_str value "normal" || eq_str value "disabled") then
         raise (mkexception ValueError
                  (append "bad state '"
                     (append (py_str value) "': must be disabled or normal")))
       else
         let state := append (if eq_str value "normal" then "!" else "") "disabled" in
         ask (State state)
     else if py_is key "font" then set_font value
     else set_colour key value) ;;
    modify (fun c => with_properties (dict_set (chars key) value (_properties c)) c).

(** [configure(self, **kw)] and [config(self, **kw)], on the items of [kw]
    in their order. *)
Definition configure (kw : list (pystr * value)) : M unit :=
  for_ kw (fun item => __setitem__ (fst item) (snd item)).

Definition config (kw : list (pystr * value)) : M unit :=
  for_ kw (fun item => __setitem__ (fst item) (snd item)).

(** *** [_setup_style] *)

(** [self._properties.get(key)]. *)
Definition property (key : string) (c : options) : value :=
  match dict_get key (_properties c) with
  | Some v => v
  | None => VNone
  end.

Definition flat : value := VStr (lit "flat").

Definition _setup_style : M unit :=
  ask (StyleLayout L_TButton "Button.leftarrow") ;;
  ask (StyleLayout R_TButton "Button.rightarrow") ;;
  let active_bg := style_lookup "TEntry" "selectbackground" "focus" in
  c <- get ;;
  let sel_bg := property "selectbackground" c in
  let sel_fg := property "selectforeground" c in
  let dis_sel_bg := property "disabledselectbackground" c in
  let dis_sel_fg := property "disabledselectforeground" c in
  let dis_bg := property "disableddaybackground" c in
  let dis_fg := property "disableddayforeground" c in
  let cal_bg := property "normalbackground" c in
  let cal_fg := property "normalforeground" c in
  let hd_bg := property "headersbackground" c in
  let hd_fg := property "headersforeground" c in
  let bg := property "background" c in
  let fg := property "foreground" c in
  let bc := property "bordercolor" c in
  let om_fg := property "othermonthforeground" c in
  let om_bg := property "othermonthbackground" c in
  let omwe_fg := property "othermonthweforeground" c in
  let omwe_bg := property "othermonthwebackground" c in
  let we_bg := property "weekendbackground" c in
  let we_fg := property "weekendforeground" c in
  ask (StyleConfigure main_TFrame [(background, bg)]) ;;
  ask (StyleConfigure cal_TFrame [(background, bc)]) ;;
  ask (StyleConfigure main_TLabel [(background, bg); (foreground, fg)]) ;;
  ask (StyleConfigure headers_TLabel [(background, hd_bg); (foreground, hd_fg)]) ;;
  ask (StyleConfigure normal_TLabel [(background, cal_bg); (foreground, cal_fg)]) ;;
  ask (StyleConfigure normal_om_TLabel [(background, om_bg); (foreground, om_fg)]) ;;
  ask (StyleConfigure we_om_TLabel [(background, omwe_bg); (foreground, omwe_fg)]) ;;
  ask (StyleConfigure sel_TLabel [(background, sel_bg); (foreground, sel_fg)]) ;;
  ask (StyleConfigure we_TLabel [(background, we_bg); (foreground, we_fg)]) ;;
  let size := Z.max (actual_size (_header_font c)) 10 in
  ask (StyleConfigure R_TButton
         [(background, bg); (arrowcolor, fg); (arrowsize, VInt size);
          (bordercolor, bg); (relief, flat); (lightcolor, bg); (darkcolor, bg)]) ;;
  ask (StyleConfigure L_TButton
         [(background, bg); (arrowsize, VInt size); (arrowcolor, fg);
          (bordercolor, bg); (relief, flat); (lightcolor, bg); (darkcolor, bg)]) ;;
  ask (StyleMap R_TButton
         [(background, [("active", active_bg)]); (bordercolor, [("active", active_bg)]);
          (relief, [("active", flat)]); (darkcolor, [("active", active_bg)]);
          (lightcolor, [("active", active_bg)])]) ;;
  ask (StyleMap L_TButton
         [(background, [("active", active_bg)]); (bordercolor, [("active", active_bg)]);
          (relief, [("active", flat)]); (darkcolor, [("active", active_bg)]);
          (lightcolor, [("active", active_bg)])]) ;;
  ask (StyleMap sel_TLabel
         [(background, [("disabled", dis_sel_bg)]);
          (foreground, [("disabled", dis_sel_fg)])]) ;;
  ask (StyleMap prefix_TLabel
         [(background, [("disabled", dis_bg)]); (foreground, [("disabled", dis_fg)])]).

(** *** The dict that [__init__] builds *)

(** The names of the options, as [__init__] lists them. *)
Definition option_names : list string :=
  ["cursor"; "font"; "borderwidth"; "state"; "selectmode"; "textvariable";
   "locale"; "showweeknumbers"; "selectbackground"; "selectforeground";
   "disabledselectbackground"; "disabledselectforeground"; "normalbackground";
   "normalforeground"; "background"; "foreground"; "bordercolor";
   "othermonthforeground"; "othermonthbackground"; "othermonthweforeground";
   "othermonthwebackground"; "weekendbackground"; "weekendforeground";
   "headersbackground"; "headersforeground"; "disableddaybackground";
   "disableddayforeground"].

Definition colour (name : string) : value := VStr (lit name).

(** [self._properties] as [__init__] builds it from its locals [curs],
    [font], [bd], [state], [locale], [selectmode], the text variable and
    [showweeknumbers], and from the keyword arguments [kw] that are left:
    those that are not options are deleted, and the others update the
    dict. *)
Definition init_properties (curs font : value) (bd : Z)
           (state locale selectmode textvariable showweeknumbers : value)
           (kw : list (string * value)) : list (string * value) :=
  let active_bg := style_lookup "TEntry" "selectbackground" "focus" in
  let dis_active_bg := style_lookup "TEntry" "selectbackground" "disabled" in
  let dis_bg := style_lookup "TLabel" "background" "disabled" in
  let dis_fg := style_lookup "TLabel" "foreground" "disabled" in
  let kw := filter (fun item => existsb (String.eqb (fst item)) option_names) kw in
  dict_update
    [("cursor", curs); ("font", font); ("borderwidth", VInt bd); ("state", state);
     ("locale", locale); ("selectmode", selectmode); ("textvariable", textvariable);
     ("showweeknumbers", showweeknumbers); ("selectbackground", active_bg);
     ("selectforeground", colour "white");
     ("disabledselectbackground", dis_active_bg);
     ("disabledselectforeground", colour "white");
     ("normalbackground", colour "white"); ("normalforeground", colour "black");
     ("background", colour "gray30"); ("foreground", colour "white");
     ("bordercolor", colour "gray70"); ("othermonthforeground", colour "gray45");
     ("othermonthbackground", colour "gray93");
     ("othermonthweforeground", colour "gray45");
     ("othermonthwebackground", colour "gray75");
     ("weekendbackground", colour "gray80"); ("weekendforeground", colour "gray30");
     ("headersbackground", colour "gray70"); ("headersforeground", colour "black");
     ("disableddaybackground", dis_bg); ("disableddayforeground", dis_fg)]
    kw.

(** *** The vocabulary of the statements on the options *)

(** A method leaves the part [f] of the state as it is; the part of the
    styles is what [_setup_style] writes or reads besides the dict. *)
Definition keeps {A B : Type} (f : options -> B) (m : M A) : Prop :=
  forall c, f (snd (m c)) = f c.





(** The requests of [_setup_style], in their order, from what it reads:
    the colour [active_bg] of the theme, the options [p], and the size
    [size] of the arrows. *)
Definition theme_requests (active_bg : value) (p : string -> value) (size : Z)
  : list request :=
  let bg := p "background" in
  let fg := p "foreground" in
  [StyleLayout L_TButton "Button.leftarrow";
   StyleLayout R_TButton "Button.rightarrow";
   StyleConfigure main_TFrame [(background, bg)];
   StyleConfigure cal_TFrame [(background, p "bordercolor")];
   StyleConfigure main_TLabel [(background, bg); (foreground, fg)];
   StyleConfigure headers_TLabel
     [(background, p "headersbackground"); (foreground, p "headersforeground")];
   StyleConfigure normal_TLabel
     [(background, p "normalbackground"); (foreground, p "normalforeground")];
   StyleConfigure normal_om_TLabel
     [(background, p "othermonthbackground");
      (foreground, p "othermonthforeground")];
   StyleConfigure we_om_TLabel
     [(background, p "othermonthwebackground");
      (foreground, p "othermonthweforeground")];
   StyleConfigure sel_TLabel
     [(background, p "selectbackground"); (foreground, p "selectforeground")];
   StyleConfigure we_TLabel
     [(background, p "weekendbackground"); (foreground, p "weekendforeground")];
   StyleConfigure R_TButton
     [(background, bg); (arrowcolor, fg); (arrowsize, VInt size);
      (bordercolor, bg); (relief, flat); (lightcolor, bg); (darkcolor, bg)];
   StyleConfigure L_TButton
     [(background, bg); (arrowsize, VInt size); (arrowcolor, fg);
      (bordercolor, bg); (relief, flat); (lightcolor, bg); (darkcolor, bg)];
   StyleMap R_TButton
     [(background, [("active", active_bg)]); (bordercolor, [("active", active_bg)]);
      (relief, [("active", flat)]); (darkcolor, [("active", active_bg)]);
      (lightcolor, [("active", active_bg)])];
   StyleMap L_TButton
     [(background, [("active", active_bg)]); (bordercolor, [("active", active_bg)]);
      (relief, [("active", flat)]); (darkcolor, [("active", active_bg)]);
      (lightcolor, [("active", active_bg)])];
   StyleMap sel_TLabel
     [(background, [("disabled", p "disabledselectbackground")]);
      (foreground, [("disabled", p "disabledselectforeground")])];
   StyleMap prefix_TLabel
     [(background, [("disabled", p "disableddaybackground")]);
      (foreground, [("disabled", p "disableddayforeground")])]].

(** The requests of [_setup_style] in the state [c]. *)
Definition setup_requests (c : options) : list request :=
  theme_requests (style_lookup "TEntry" "selectbackground" "focus")
                 (fun key => property key c)
                 (Z.max (actual_size (_header_font c)) 10).

(** The state once Tk has accepted the requests [rs], and Tk accepting
    them one after the other from the state [c]. *)
Definition accepted (rs : list request) (c : options) : options :=
  fold_left (fun c r => record r c) rs c.

Fixpoint accepts (rs : list request) (c : options) : Prop :=
  match rs with
  | [] => True
  | r :: rs' => tk c r = Returns tt /\ accepts rs' (record r c)
  end.

(** What the requests [rs] say last of the option [o] of the style [n], of
    its map, and of the layout of [n]. *)
Fixpoint last_configured (rs : list request) (n : style_name) (o : style_opt)
  : option value :=
  match rs with
  | [] => None
  | StyleConfigure n' settings :: rs' =>
      override (last_configured rs' n o) (setting n' settings n o)
  | _ :: rs' => last_configured rs' n o
  end.






(** The options of [p], with [v] for the key [k]. *)
Definition stored (k : string) (v : value) (p : string -> value)
  : string -> value :=
  fun key => if String.eqb k key then v else p key.

(** The key [k'] of an item is the name [k]. *)
Definition same_name (k' : pystr) (k : string) : bool := String.eqb (chars k') k.

(** [kw.get(k, default)] for the items [kw] of a dict, the last item of a
    key being its value. *)
Fixpoint last_value {K : Type} (same : K -> string -> bool)
         (kw : list (K * value)) (k : string) (default : value) : value :=
  match kw with
  | [] => default
  | (k', v) :: kw' => last_value same kw' k (if same k' k then v else default)
  end.

End WithRuntime.

(** A Tk that accepts every request, with [int] of a string of digits
    only for ["2"], one font, and a theme without colours. *)
Definition obliging : Runtime := {|
  int_str := fun s => if String.eqb s "2" then Some 2 else None;
  int_type_error := fun _ => "int() argument must be a string or a number";
  font_actual := fun _ => Returns (mkfont 9 []);
  actual_size := font_size;
  style_lookup := fun _ _ _ => VStr (mkstr "" false);
  tk := fun _ _ => Returns tt
|}.

(** A Tk that refuses the cursors that are not strings. *)
Definition strict_cursor : Runtime := {|
  int_str := fun s => if String.eqb s "2" then Some 2 else None;
  int_type_error := fun _ => "int() argument must be a string or a number";
  font_actual := fun _ => Returns (mkfont 9 []);
  actual_size := font_size;
  style_lookup := fun _ _ _ => VStr (mkstr "" false);
  tk := fun _ r =>
    match r with
    | Cursor (VStr _) => Returns tt
    | Cursor v => Raises (mkexception TclError (append "bad cursor spec " (py_str v)))
    | _ => Returns tt
    end
|}.

(** A state for the examples: the options of a widget built without
    arguments, before [_setup_style], with no date selected. *)
Definition fresh {R : Runtime} : options :=
  mkoptions
    (init_properties (VStr (lit "")) (VStr (lit "Liberation\ Sans 9")) 2
                     (VStr (lit "normal")) VNone (VStr (lit "day")) VNone
                     (VBool true) [])
    None VNone false true true 2 (Some "!disabled") (VStr (lit ""))
    (mkfont 9 []) (mkfont 10 [])
    (fun _ _ => None) (fun _ _ => None) (fun _ => None) [].

(** The state [c] with the date [d] selected. *)
Definition chosen (d : date) (c : options) : options :=
  mkoptions (_properties c) (Some d) (_textvariable c) (trace_id c)
            (click_bound c) (week_nbs_gridded c) (pad c) (widgets_state c)
            (cursor c) (_font c) (_header_font c) (configured c) (mapped c)
            (laid_out c) (var_calls c).

(** The same state after [_setup_style], with the Tk that accepts every
    request. *)
Definition themed : options := snd (@_setup_style obliging (@fresh obliging)).

Definition red : value := VStr (lit "red").
Definition blue : value := VStr (lit "blue").

End Options.

(** ** Dates: ordinals and months *)

Lemma is_leap_spec (y : Z) :
  _is_leap y = true <-> (y mod 4 = 0 /\ (y mod 100 <> 0 \/ y mod 400 = 0)).
Proof.
  unfold _is_leap.
  rewrite andb_true_iff, orb_true_iff, negb_true_iff, !Z.eqb_eq, Z.eqb_neq.
  reflexivity.
Qed.

Lemma days_before_year_succ (y : Z) :
  _days_before_year (y + 1) = _days_before_year y + 365 + b2z (_is_leap y).
Proof.
  unfold _days_before_year, _is_leap, b2z.
  replace (y + 1 - 1) with y by lia.
  destruct (Z.eqb_spec (y mod 4) 0) as [H4|H4];
  destruct (Z.eqb_spec (y mod 100) 0) as [H100|H100];
  destruct (Z.eqb_spec (y mod 400) 0) as [H400|H400];
  cbn [andb orb negb]; Z.div_mod_to_equations; lia.
Qed.

Lemma month_cases (m : Z) :
  1 <= m <= 12 ->
  m = 1 \/ m = 2 \/ m = 3 \/ m = 4 \/ m = 5 \/ m = 6 \/
  m = 7 \/ m = 8 \/ m = 9 \/ m = 10 \/ m = 11 \/ m = 12.
Proof. lia. Qed.

Ltac month_split m H :=
  destruct (month_cases m H) as
    [?|[?|[?|[?|[?|[?|[?|[?|[?|[?|[?|?]]]]]]]]]]]; subst m.

Lemma days_in_month_bounds (y m : Z) :
  1 <= m <= 12 -> 28 <= _days_in_month y m <= 31.
Proof.
  intros H. unfold _days_in_month.
  month_split m H; destruct (_is_leap y); vm_compute; split; discriminate.
Qed.

Lemma monthlen_days_in_month (y m : Z) :
  1 <= m <= 12 -> _monthlen y m = _days_in_month y m.
Proof.
  intros H. unfold _monthlen, _days_in_month, isleap, _is_leap.
  month_split m H;
    destruct ((y mod 4 =? 0) && (negb (y mod 100 =? 0) || (y mod 400 =? 0)));
    reflexivity.
Qed.

Lemma days_before_month_succ (y m : Z) :
  1 <= m <= 11 ->
  _days_before_month y (m + 1) = _days_before_month y m + _days_in_month y m.
Proof.
  intros H. unfold _days_before_month, _days_in_month.
  assert (H' : 1 <= m <= 12) by lia.
  month_split m H'; try lia; destruct (_is_leap y); reflexivity.
Qed.

Lemma days_before_month_dec (y : Z) :
  _days_before_month y 12 + _days_in_month y 12 = 365 + b2z (_is_leap y).
Proof.
  unfold _days_before_month, _days_in_month. destruct (_is_leap y); reflexivity.
Qed.

Lemma days_before_month_jan (y : Z) : _days_before_month y 1 = 0.
Proof. unfold _days_before_month. destruct (_is_leap y); reflexivity. Qed.

(** The first day of the next month follows the last day of the month. *)
Lemma ymd2ord_nextmonth (y m : Z) :
  1 <= m <= 12 ->
  _ymd2ord (fst (_nextmonth y m)) (snd (_nextmonth y m)) 1
  = _ymd2ord y m 1 + _days_in_month y m.
Proof.
  intros H. unfold _nextmonth, _ymd2ord.
  destruct (Z.eqb_spec m 12) as [->|Hm]; cbn [fst snd].
  - rewrite days_before_year_succ, days_before_month_jan.
    pose proof (days_before_month_dec y). lia.
  - rewrite days_before_month_succ by lia. lia.
Qed.

Lemma ymd2ord_prevmonth (y m : Z) :
  1 <= m <= 12 ->
  _ymd2ord y m 1
  = _ymd2ord (fst (_prevmonth y m)) (snd (_prevmonth y m)) 1
    + _days_in_month (fst (_prevmonth y m)) (snd (_prevmonth y m)).
Proof.
  intros H. unfold _prevmonth, _ymd2ord.
  destruct (Z.eqb_spec m 1) as [->|Hm]; cbn [fst snd].
  - replace y with (y - 1 + 1) at 1 2 by lia.
    rewrite days_before_year_succ, days_before_month_jan.
    pose proof (days_before_month_dec (y - 1)). lia.
  - replace m with (m - 1 + 1) at 1 by lia.
    rewrite days_before_month_succ by lia. lia.
Qed.

Ltac closed_term k :=
  assert_fails (idtac; match k with context [?v] => is_var v end).

Ltac norm_consts :=
  repeat match goal with
  | |- context [b2z ?b] =>
      closed_term b; let v := eval vm_compute in (b2z b) in change (b2z b) with v
  | |- context [tbl ?l ?k] =>
      closed_term k; let v := eval vm_compute in (tbl l k) in change (tbl l k) with v
  | H : context [b2z ?b] |- _ =>
      closed_term b; let v := eval vm_compute in (b2z b) in change (b2z b) with v in H
  | H : context [tbl ?l ?k] |- _ =>
      closed_term k; let v := eval vm_compute in (tbl l k) in change (tbl l k) with v in H
  end.

Lemma month_of_day_of_year (leap : bool) (m d : Z) :
  1 <= m <= 12 ->
  1 <= d <= tbl _DAYS_IN_MONTH m + b2z ((m =? 2) && leap) ->
  let n := tbl _DAYS_BEFORE_MONTH m + b2z ((2 <? m) && leap) + d - 1 in
  let mm := Z.shiftr (n + 50) 5 in
  let preceding := tbl _DAYS_BEFORE_MONTH mm + b2z ((2 <? mm) && leap) in
  (if n <? preceding
   then (mm - 1,
         n - (preceding - (tbl _DAYS_IN_MONTH (mm - 1) + b2z ((mm - 1 =? 2) && leap))) + 1)
   else (mm, n - preceding + 1)) = (m, d).
Proof.
  intros Hm Hd. cbv zeta.
  month_split m Hm; destruct leap; norm_consts;
    match goal with
    | |- context [Z.shiftr ?a 5] =>
        let mm := fresh "mm" in
        let E := fresh "E" in
        remember (Z.shiftr a 5) as mm eqn:E;
        rewrite Z.shiftr_div_pow2 in E by lia; change (2 ^ 5) with 32 in E
    end.
  all: match goal with
       | E : ?mm = (?c1 + ?c2 + ?d - 1 + 50) / 32, Hd : _ <= ?d <= ?h1 + ?h2 |- _ =>
           let lo := eval vm_compute in ((c1 + c2 + 50) / 32) in
           let hi := eval vm_compute in ((c1 + c2 + h1 + h2 + 49) / 32) in
           assert (Hc : mm = lo \/ mm = hi) by (Z.div_mod_to_equations; lia);
           clear E; destruct Hc; subst mm
       end.
  all: norm_consts.
  all: match goal with
       | |- context [?a <? ?b] => destruct (Z.ltb_spec a b)
       end; try lia; f_equal; lia.
Qed.

Lemma days_before_year_decomp (y : Z) :
  let Y := y - 1 in
  let a := Y / 400 in
  let b := (Y mod 400) / 100 in
  let c := (Y mod 100) / 4 in
  let e := Y mod 4 in
  _days_before_year y = 146097 * a + 36524 * b + 1461 * c + 365 * e /\
  0 <= b <= 3 /\ 0 <= c <= 24 /\ 0 <= e <= 3 /\
  y = 400 * a + 100 * b + 4 * c + e + 1 /\
  _is_leap y = (e =? 3) && (negb (c =? 24) || (b =? 3)).
Proof.
  intros Y a b c e. unfold _days_before_year. fold Y.
  assert (Hy : Y = 400 * a + 100 * b + 4 * c + e /\
               0 <= b <= 3 /\ 0 <= c <= 24 /\ 0 <= e <= 3).
  { subst a b c e. Z.div_mod_to_equations. lia. }
  destruct Hy as (Hy & Hb & Hc & He).
  repeat split; try lia.
  - clearbody a b c e. Z.div_mod_to_equations. lia.
  - unfold _is_leap. replace y with (Y + 1) by (subst Y; lia).
    clearbody a b c e Y.
    destruct (Z.eqb_spec e 3), (Z.eqb_spec c 24), (Z.eqb_spec b 3);
      cbn [andb orb negb];
      repeat match goal with
             | |- context [?x =? 0] => destruct (Z.eqb_spec x 0)
             end; cbn [andb orb negb]; try reflexivity;
      exfalso; Z.div_mod_to_equations; lia.
Qed.

Lemma day_of_year_bounds (y m d : Z) :
  1 <= m <= 12 -> 1 <= d <= _days_in_month y m ->
  0 <= _days_before_month y m + d - 1 < 365 + b2z (_is_leap y).
Proof.
  intros Hm Hd. unfold _days_before_month, _days_in_month in *.
  month_split m Hm; destruct (_is_leap y); norm_consts;
    cbn [andb Z.eqb Pos.eqb] in Hd; norm_consts; lia.
Qed.

Lemma last_day_of_leap_year (y m d : Z) :
  1 <= m <= 12 -> 1 <= d <= _days_in_month y m ->
  _days_before_month y m + d - 1 = 365 -> m = 12 /\ d = 31.
Proof.
  intros Hm Hd. unfold _days_before_month, _days_in_month in *.
  month_split m Hm; destruct (_is_leap y); norm_consts;
    cbn [andb Z.eqb Pos.eqb] in Hd; norm_consts; lia.
Qed.

Theorem ord2ymd_ymd2ord (y m d : Z) :
  1 <= m <= 12 -> 1 <= d <= _days_in_month y m ->
  _ord2ymd (_ymd2ord y m d) = (y, m, d).
Proof.
  intros Hm Hd.
  destruct (days_before_year_decomp y) as (Hdby & Hb & Hc & He & Hy & Hleap).
  pose proof (day_of_year_bounds y m d Hm Hd) as Hdoy.
  pose proof (last_day_of_leap_year y m d Hm Hd) as Hlast.
  remember ((y - 1) / 400) as a eqn:Ea.
  remember (((y - 1) mod 400) / 100) as b eqn:Eb.
  remember (((y - 1) mod 100) / 4) as c eqn:Ec.
  remember ((y - 1) mod 4) as e eqn:Ee.
  clear Ea Eb Ec Ee.
  unfold _ord2ymd, _ymd2ord. cbv zeta. rewrite Hdby.
  remember (_days_before_month y m + d - 1) as doy eqn:Edoy.
  replace (146097 * a + 36524 * b + 1461 * c + 365 * e + _days_before_month y m + d - 1)
    with (146097 * a + (36524 * b + 1461 * c + 365 * e + doy)) by lia.
  unfold _DI400Y, _DI100Y, _DI4Y.
  assert (Hdoy2 : 0 <= doy <= 365) by (destruct (_is_leap y); cbn [b2z] in Hdoy; lia).
  assert (Hleap' : 365 <= doy -> e = 3 /\ (c <> 24 \/ b = 3)).
  { intros E. rewrite Hleap in Hdoy.
    destruct (Z.eqb_spec e 3), (Z.eqb_spec c 24), (Z.eqb_spec b 3);
      cbn [andb orb negb b2z] in Hdoy; lia. }
  remember (36524 * b + 1461 * c + 365 * e + doy) as R eqn:ER.
  assert (HR : 0 <= R < 146097) by lia.
  assert (E1 : (146097 * a + R) / 146097 = a) by (Z.div_mod_to_equations; lia).
  assert (E2 : (146097 * a + R) mod 146097 = R) by (Z.div_mod_to_equations; lia).
  rewrite E1, E2. clear E1 E2.
  destruct (Z.eq_dec doy 365) as [E365|N365].
  - destruct (Hlast E365) as [-> ->]. destruct Hleap' as [-> Hcb]; [lia|].
    destruct (Z.eq_dec c 24) as [->|Hc24].
    + assert (b = 3) by lia. subst b.
      assert (ER' : R = 146096) by lia. rewrite ER'.
      change (146096 / 36524) with 4. cbn [Z.eqb Pos.eqb orb].
      rewrite orb_true_r. f_equal. f_equal.
      change (146096 mod 36524) with 0. change (0 / 1461) with 0.
      change (0 mod 1461 / 365) with 0. lia.
    + assert (E3 : R / 36524 = b) by (Z.div_mod_to_equations; lia).
      assert (E4 : R mod 36524 = 1461 * c + 1460) by (Z.div_mod_to_equations; lia).
      rewrite E3, E4.
      assert (E5 : (1461 * c + 1460) / 1461 = c) by (Z.div_mod_to_equations; lia).
      assert (E6 : (1461 * c + 1460) mod 1461 = 1460) by (Z.div_mod_to_equations; lia).
      rewrite E5, E6. change (1460 / 365) with 4. cbn [Z.eqb Pos.eqb orb].
      f_equal. f_equal. lia.
  - assert (Hd365 : 0 <= doy <= 364) by lia.
    assert (E3 : R / 36524 = b) by (Z.div_mod_to_equations; lia).
    assert (E4 : R mod 36524 = 1461 * c + 365 * e + doy) by (Z.div_mod_to_equations; lia).
    rewrite E3, E4.
    assert (E5 : (1461 * c + 365 * e + doy) / 1461 = c) by (Z.div_mod_to_equations; lia).
    assert (E6 : (1461 * c + 365 * e + doy) mod 1461 = 365 * e + doy)
      by (Z.div_mod_to_equations; lia).
    rewrite E5, E6.
    assert (E7 : (365 * e + doy) / 365 = e) by (Z.div_mod_to_equations; lia).
    assert (E8 : (365 * e + doy) mod 365 = doy) by (Z.div_mod_to_equations; lia).
    rewrite E7, E8.
    replace (e =? 4) with false by (symmetry; apply Z.eqb_neq; lia).
    replace (b =? 4) with false by (symmetry; apply Z.eqb_neq; lia).
    cbn [orb]. rewrite <- Hleap.
    replace (a * 400 + 1 + b * 100 + c * 4 + e) with y by lia.
    pose proof (month_of_day_of_year (_is_leap y) m d Hm) as Hmonth.
    cbv zeta in Hmonth. unfold _days_before_month in Edoy. rewrite <- Edoy in Hmonth.
    assert (Hd' : 1 <= d <= tbl _DAYS_IN_MONTH m + b2z ((m =? 2) && _is_leap y)).
    { unfold _days_in_month in Hd.
      destruct ((m =? 2) && _is_leap y) eqn:E; cbn [b2z]; [|lia].
      apply andb_true_iff in E. destruct E as [E _]. apply Z.eqb_eq in E. subst m.
      change (tbl _DAYS_IN_MONTH 2) with 28. lia. }
    specialize (Hmonth Hd').
    destruct (doy <? _); injection Hmonth as Hm1 Hm2; congruence.
Qed.

Lemma days_before_year_mono (y k : Z) :
  0 <= k -> _days_before_year y + 365 * k <= _days_before_year (y + k).
Proof.
  intros Hk. pattern k. apply natlike_ind; [| |exact Hk]; clear k Hk.
  - replace (y + 0) with y by lia. lia.
  - intros k Hk IH. replace (y + Z.succ k) with (y + k + 1) by lia.
    rewrite days_before_year_succ. destruct (_is_leap (y + k)); cbn [b2z]; lia.
Qed.

Lemma days_before_year_1 : _days_before_year 1 = 0.
Proof. reflexivity. Qed.

Lemma days_before_year_9999 : _days_before_year 9999 = 3651694.
Proof. reflexivity. Qed.

(** The ordinal of a date that [date] accepts lies in [1.._MAXORDINAL]. *)
Lemma ymd2ord_range (y m d : Z) :
  valid_ymd y m d -> 1 <= _ymd2ord y m d <= _MAXORDINAL.
Proof.
  unfold valid_ymd, MINYEAR, MAXYEAR, _MAXORDINAL. intros (Hy & Hm & Hd).
  pose proof (day_of_year_bounds y m d Hm Hd) as Hdoy.
  pose proof (days_before_year_mono 1 (y - 1) ltac:(lia)) as Hlo.
  pose proof (days_before_year_mono y (9999 - y) ltac:(lia)) as Hhi.
  replace (1 + (y - 1)) with y in Hlo by lia.
  replace (y + (9999 - y)) with 9999 in Hhi by lia.
  rewrite days_before_year_1 in Hlo. rewrite days_before_year_9999 in Hhi.
  unfold _ymd2ord.
  destruct (Z.eq_dec y 9999) as [->|Hne].
  - change (_is_leap 9999) with false in Hdoy. cbn [b2z] in Hdoy.
    rewrite days_before_year_9999. lia.
  - destruct (_is_leap y); cbn [b2z] in Hdoy; lia.
Qed.

Lemma fromordinal_toordinal (x : date) :
  1 <= month x <= 12 -> 1 <= day x <= _days_in_month (year x) (month x) ->
  fromordinal (toordinal x) = x.
Proof.
  intros Hm Hd. unfold fromordinal, toordinal.
  rewrite ord2ymd_ymd2ord by assumption. destruct x; reflexivity.
Qed.

Lemma toordinal_inj (x x' : date) :
  valid_date x -> valid_date x' -> toordinal x = toordinal x' -> x = x'.
Proof.
  intros (_ & Hm & Hd) (_ & Hm' & Hd') E.
  rewrite <- (fromordinal_toordinal x), <- (fromordinal_toordinal x') by assumption.
  now rewrite E.
Qed.

Lemma c_int_fits (z : Z) : fits_int z -> c_int z = Ok z.
Proof.
  unfold fits_int, c_int, INT_MIN, INT_MAX, LONG_MIN, LONG_MAX. intros H.
  replace ((-9223372036854775808 <=? z) && (z <=? 9223372036854775807)) with true
    by (symmetry; apply andb_true_iff; split; apply Z.leb_le; lia).
  cbn [negb].
  replace (2147483647 <? z) with false by (symmetry; apply Z.ltb_ge; lia).
  replace (z <? -2147483648) with false by (symmetry; apply Z.ltb_ge; lia).
  reflexivity.
Qed.

Lemma c_int_cases (z : Z) :
  (fits_int z /\ c_int z = Ok z)
  \/ (~ fits_int z /\ exists msg, c_int z = Raise (mkexn OverflowError msg)).
Proof.
  unfold fits_int, c_int, INT_MIN, INT_MAX, LONG_MIN, LONG_MAX.
  destruct ((-9223372036854775808 <=? z) && (z <=? 9223372036854775807)) eqn:E;
    cbn [negb].
  - destruct (Z.ltb_spec 2147483647 z).
    + right. split; [lia | eexists; reflexivity].
    + destruct (Z.ltb_spec z (-2147483648)).
      * right. split; [lia | eexists; reflexivity].
      * left. split; [lia | reflexivity].
  - right. split; [|eexists; reflexivity].
    apply andb_false_iff in E. rewrite !Z.leb_nle in E. lia.
Qed.

Lemma valid_ymd_fits (y m d : Z) :
  valid_ymd y m d -> fits_int y /\ fits_int m /\ fits_int d.
Proof.
  unfold valid_ymd, fits_int, MINYEAR, MAXYEAR, INT_MIN, INT_MAX.
  intros (Hy & Hm & Hd). pose proof (days_in_month_bounds y m Hm). lia.
Qed.

(** Once its arguments are C ints, [date] checks them. *)
Lemma date_new_fits (y m d : Z) :
  fits_int y -> fits_int m -> fits_int d ->
  date_new y m d =
  if negb ((MINYEAR <=? y) && (y <=? MAXYEAR)) then
    Raise (mkexn ValueError (append "year " (append (str_int y) " is out of range")))
  else if negb ((1 <=? m) && (m <=? 12)) then
    Raise (mkexn ValueError "month must be in 1..12")
  else if negb ((1 <=? d) && (d <=? _days_in_month y m)) then
    Raise (mkexn ValueError "day is out of range for month")
  else Ok (mkdate y m d).
Proof.
  intros Hy Hm Hd. unfold date_new.
  rewrite (c_int_fits y Hy). cbn [rbind].
  rewrite (c_int_fits m Hm). cbn [rbind].
  rewrite (c_int_fits d Hd). reflexivity.
Qed.

Lemma date_new_ok (y m d : Z) :
  valid_ymd y m d -> date_new y m d = Ok (mkdate y m d).
Proof.
  intros Hv. destruct (valid_ymd_fits y m d Hv) as (Fy & Fm & Fd).
  rewrite (date_new_fits y m d Fy Fm Fd).
  unfold valid_ymd in Hv. destruct Hv as (Hy & Hm & Hd).
  replace ((MINYEAR <=? y) && (y <=? MAXYEAR)) with true
    by (symmetry; apply andb_true_iff; split; apply Z.leb_le; lia).
  replace ((1 <=? m) && (m <=? 12)) with true
    by (symmetry; apply andb_true_iff; split; apply Z.leb_le; lia).
  replace ((1 <=? d) && (d <=? _days_in_month y m)) with true
    by (symmetry; apply andb_true_iff; split; apply Z.leb_le; lia).
  reflexivity.
Qed.

(** The three outcomes of [date(y, m, d)]: the date; [OverflowError] when
    an argument is no C int; [ValueError] when they are C ints and no
    date. *)
Lemma date_new_cases (y m d : Z) :
  (valid_ymd y m d /\ date_new y m d = Ok (mkdate y m d))
  \/ (~ valid_ymd y m d /\ fits_int y /\ fits_int m /\ fits_int d /\
      exists msg, date_new y m d = Raise (mkexn ValueError msg))
  \/ (~ (fits_int y /\ fits_int m /\ fits_int d) /\
      exists msg, date_new y m d = Raise (mkexn OverflowError msg)).
Proof.
  destruct (c_int_cases y) as [[Fy Ey] | [Fy (msg & Ey)]].
  2:{ right. right. split; [tauto|]. exists msg. unfold date_new. now rewrite Ey. }
  destruct (c_int_cases m) as [[Fm Em] | [Fm (msg & Em)]].
  2:{ right. right. split; [tauto|]. exists msg. unfold date_new.
      rewrite Ey. cbn [rbind]. now rewrite Em. }
  destruct (c_int_cases d) as [[Fd Ed] | [Fd (msg & Ed)]].
  2:{ right. right. split; [tauto|]. exists msg. unfold date_new.
      rewrite Ey. cbn [rbind]. rewrite Em. cbn [rbind]. now rewrite Ed. }
  rewrite (date_new_fits y m d Fy Fm Fd). unfold valid_ymd.
  destruct ((MINYEAR <=? y) && (y <=? MAXYEAR)) eqn:Hy; cbn [negb].
  - destruct ((1 <=? m) && (m <=? 12)) eqn:Hm; cbn [negb].
    + destruct ((1 <=? d) && (d <=? _days_in_month y m)) eqn:Hd; cbn [negb].
      * left. apply andb_true_iff in Hy, Hm, Hd.
        rewrite !Z.leb_le in Hy, Hm, Hd. split; [tauto | reflexivity].
      * right. left. apply andb_false_iff in Hd. rewrite !Z.leb_nle in Hd.
        split; [tauto|]. repeat (split; [assumption|]). eexists; reflexivity.
    + right. left. apply andb_false_iff in Hm. rewrite !Z.leb_nle in Hm.
      split; [tauto|]. repeat (split; [assumption|]). eexists; reflexivity.
  - right. left. apply andb_false_iff in Hy. rewrite !Z.leb_nle in Hy.
    split; [tauto|]. repeat (split; [assumption|]). eexists; reflexivity.
Qed.

Lemma date_new_inv (y m d : Z) (x : date) :
  date_new y m d = Ok x -> x = mkdate y m d /\ valid_ymd y m d.
Proof.
  intros H.
  destruct (date_new_cases y m d)
    as [[Hv E] | [(_ & _ & _ & _ & msg & E) | (_ & msg & E)]];
    rewrite E in H; [|discriminate|discriminate].
  injection H as <-. now split.
Qed.

Lemma date_new_raises (y m d : Z) (e : exn) :
  date_new y m d = Raise e ->
  ~ valid_ymd y m d /\
  (fits_int y -> fits_int m -> fits_int d -> exn_ty e = ValueError).
Proof.
  intros H.
  destruct (date_new_cases y m d)
    as [[Hv E] | [(Hn & _ & _ & _ & msg & E) | (Hn & msg & E)]];
    rewrite E in H; [discriminate| |].
  - injection H as <-. split; [exact Hn | reflexivity].
  - injection H as <-. split.
    + intros Hv. apply Hn. now apply valid_ymd_fits.
    + intros Fy Fm Fd. exfalso. apply Hn. tauto.
Qed.

(** *** Lists: [range], [rmap], [getitem] *)

Lemma range_length (a b : Z) : List.length (range a b) = Z.to_nat (b - a).
Proof. unfold range. now rewrite length_map, length_seq. Qed.

Lemma range_nth (a b : Z) (k : nat) :
  (k < Z.to_nat (b - a))%nat -> nth_error (range a b) k = Some (a + Z.of_nat k).
Proof.
  intros Hk. unfold range.
  rewrite nth_error_map, nth_error_seq.
  destruct (Nat.ltb_spec k (Z.to_nat (b - a))); [reflexivity|lia].
Qed.

Lemma rmap_app {A B : Type} (f : A -> result B) (l1 l2 : list A) (r1 r2 : list B) :
  rmap f l1 = Ok r1 -> rmap f l2 = Ok r2 -> rmap f (l1 ++ l2) = Ok (r1 ++ r2).
Proof.
  revert r1. induction l1 as [|a l1 IH]; cbn; intros r1 H1 H2.
  - injection H1 as <-. assumption.
  - destruct (f a) as [b|]; [|discriminate].
    destruct (rmap f l1) as [bs|]; [|discriminate].
    injection H1 as <-. now rewrite (IH bs eq_refl H2).
Qed.

Lemma rmap_map_ok {A B C : Type} (f : B -> result C) (g : A -> B) (h : A -> C)
      (l : list A) :
  (forall a, In a l -> f (g a) = Ok (h a)) -> rmap f (map g l) = Ok (map h l).
Proof.
  induction l as [|a l IH]; cbn; intros H; [reflexivity|].
  rewrite (H a) by now left. rewrite IH by (intros; apply H; now right).
  reflexivity.
Qed.

Lemma in_range (a b x : Z) : In x (range a b) -> a <= x < b.
Proof.
  unfold range. rewrite in_map_iff. intros (k & <- & Hk).
  rewrite in_seq in Hk. lia.
Qed.

Lemma getitem_nth {A : Type} (l : list A) (i : Z) (a : A) :
  0 <= i -> nth_error l (Z.to_nat i) = Some a -> getitem l i = Ok a.
Proof.
  intros Hi H. unfold getitem, norm_index.
  assert (Hlt : (Z.to_nat i < List.length l)%nat)
    by (apply nth_error_Some; congruence).
  destruct (Z.ltb_spec i 0); [lia|].
  replace ((0 <=? i) && (i <? Z.of_nat (List.length l))) with true
    by (symmetry; apply andb_true_iff; split; [apply Z.leb_le|apply Z.ltb_lt]; lia).
  now rewrite H.
Qed.

Lemma getitem_last {A : Type} (l : list A) (a : A) :
  nth_error l (List.length l - 1) = Some a -> l <> [] -> getitem l (-1) = Ok a.
Proof.
  intros H Hne. unfold getitem, norm_index.
  assert (Hlen : (0 < List.length l)%nat) by (destruct l; [congruence|cbn; lia]).
  change (-1 <? 0) with true. cbv iota.
  replace ((0 <=? -1 + Z.of_nat (List.length l)) && (-1 + Z.of_nat (List.length l) <? Z.of_nat (List.length l)))
    with true
    by (symmetry; apply andb_true_iff; split; [apply Z.leb_le|apply Z.ltb_lt]; lia).
  replace (Z.to_nat (-1 + Z.of_nat (List.length l))) with (List.length l - 1)%nat by lia.
  now rewrite H.
Qed.

(** *** The weeks of a month *)

Lemma consecutive_app (s : Z) (l1 l2 : list date) :
  consecutive s l1 -> consecutive (s + Z.of_nat (List.length l1)) l2 ->
  consecutive s (l1 ++ l2).
Proof.
  intros H1 H2 k x Hk.
  destruct (Nat.ltb_spec k (List.length l1)) as [Hlt|Hge].
  - rewrite nth_error_app1 in Hk by assumption. now apply H1.
  - rewrite nth_error_app2 in Hk by assumption.
    destruct (H2 _ _ Hk) as [Hv Ho]. split; [assumption|]. lia.
Qed.

Lemma consecutive_month_days (y m lo hi : Z) :
  MINYEAR <= y <= MAXYEAR \/ hi <= lo ->
  1 <= m <= 12 -> 1 <= lo -> hi <= _days_in_month y m + 1 ->
  consecutive (_ymd2ord y m lo) (map (mkdate y m) (range lo hi)).
Proof.
  intros Hy Hm Hlo Hhi k x Hk.
  rewrite nth_error_map in Hk.
  destruct (nth_error (range lo hi) k) as [d|] eqn:E; [|discriminate].
  injection Hk as <-.
  assert (Hlt : (k < Z.to_nat (hi - lo))%nat).
  { rewrite <- range_length. apply nth_error_Some. congruence. }
  rewrite range_nth in E by assumption. injection E as <-.
  split.
  - unfold valid_date, valid_ymd. cbn. lia.
  - unfold toordinal, _ymd2ord. cbn. lia.
Qed.

Lemma rmap_month_days (y m lo hi : Z) :
  MINYEAR <= y <= MAXYEAR \/ hi <= lo ->
  1 <= m <= 12 -> 1 <= lo -> hi <= _days_in_month y m + 1 ->
  rmap (fun t : Z * Z * Z => let '(yy, mm, dd) := t in date_new yy mm dd)
       (map (fun d => (y, m, d)) (range lo hi))
  = Ok (map (mkdate y m) (range lo hi)).
Proof.
  intros Hy Hm Hlo Hhi. apply rmap_map_ok. intros d Hd.
  apply in_range in Hd. apply date_new_ok. unfold valid_ymd. lia.
Qed.

Lemma weekday_range (x : date) : 0 <= weekday x <= 6.
Proof. unfold weekday. Z.div_mod_to_equations. lia. Qed.

Lemma first_monday_mod (y m : Z) : (first_monday y m + 6) mod 7 = 0.
Proof. unfold first_monday, weekday. Z.div_mod_to_equations. lia. Qed.

Lemma cal_weekday_ok (y m : Z) :
  MINYEAR <= y <= MAXYEAR -> 1 <= m <= 12 ->
  cal_weekday y m 1 = Ok (weekday (mkdate y m 1)).
Proof.
  intros Hy Hm. unfold cal_weekday.
  replace ((MINYEAR <=? y) && (y <=? MAXYEAR)) with true
    by (symmetry; apply andb_true_iff; split; apply Z.leb_le; lia).
  rewrite date_new_ok; [reflexivity|].
  pose proof (days_in_month_bounds y m Hm). unfold valid_ymd. lia.
Qed.

Lemma monthrange_ok (y m : Z) :
  MINYEAR <= y <= MAXYEAR -> 1 <= m <= 12 ->
  monthrange y m = Ok (weekday (mkdate y m 1), _days_in_month y m).
Proof.
  intros Hy Hm. unfold monthrange.
  replace ((1 <=? m) && (m <=? 12)) with true
    by (symmetry; apply andb_true_iff; split; apply Z.leb_le; lia).
  cbn [negb]. rewrite cal_weekday_ok by assumption. cbn [rbind].
  now rewrite monthlen_days_in_month.
Qed.

Lemma prevmonth_valid (y m : Z) :
  1 <= m <= 12 -> 1 <= snd (_prevmonth y m) <= 12.
Proof. intros H. unfold _prevmonth. destruct (Z.eqb_spec m 1); cbn; lia. Qed.

Lemma nextmonth_valid (y m : Z) :
  1 <= m <= 12 -> 1 <= snd (_nextmonth y m) <= 12.
Proof. intros H. unfold _nextmonth. destruct (Z.eqb_spec m 12); cbn; lia. Qed.

(** The days that [itermonthdates] lists: whole weeks, from the Monday on or
    before the first of the month. *)
Lemma itermonthdates_spec (y m : Z) :
  MINYEAR <= y <= MAXYEAR -> 1 <= m <= 12 -> y < MAXYEAR \/ m <= 11 ->
  exists D,
    itermonthdates MONDAY y m = Ok D /\
    consecutive (first_monday y m) D /\
    Z.of_nat (List.length D)
    = weekday (mkdate y m 1) + _days_in_month y m
      + (- weekday (mkdate y m 1) - _days_in_month y m) mod 7.
Proof.
  intros Hy Hm Hmax.
  unfold itermonthdates, itermonthdays3.
  rewrite monthrange_ok by assumption. cbn [rbind].
  set (wd := weekday (mkdate y m 1)).
  set (nd := _days_in_month y m).
  pose proof (weekday_range (mkdate y m 1)) as Hwd. fold wd in Hwd.
  pose proof (days_in_month_bounds y m Hm) as Hnd. fold nd in Hnd.
  unfold MONDAY. rewrite Z.sub_0_r, Z.sub_0_l.
  replace (wd mod 7) with wd by (symmetry; apply Z.mod_small; lia).
  set (da := (- wd - nd) mod 7).
  assert (Hda : 0 <= da <= 6) by (subst da; Z.div_mod_to_equations; lia).
  pose proof (prevmonth_valid y m Hm) as Hpm.
  pose proof (nextmonth_valid y m Hm) as Hnm.
  pose proof (ymd2ord_prevmonth y m Hm) as Hprev.
  pose proof (ymd2ord_nextmonth y m Hm) as Hnext.
  destruct (_prevmonth y m) as [py pm] eqn:Ep.
  destruct (_nextmonth y m) as [ny nm] eqn:En.
  cbn [fst snd] in *.
  rewrite monthlen_days_in_month by assumption.
  set (pl := _days_in_month py pm) in *.
  pose proof (days_in_month_bounds py pm Hpm) as Hpl. fold pl in Hpl.
  pose proof (days_in_month_bounds ny nm Hnm) as Hnl.
  assert (Hpy : MINYEAR <= py <= MAXYEAR \/ wd = 0).
  { unfold _prevmonth in Ep. unfold MINYEAR, MAXYEAR in *.
    destruct (Z.eqb_spec m 1) as [->|]; injection Ep as <- <-; [|lia].
    destruct (Z.eq_dec y 1) as [->|]; [right; reflexivity|lia]. }
  assert (Hny : MINYEAR <= ny <= MAXYEAR).
  { unfold _nextmonth in En. unfold MINYEAR, MAXYEAR in *.
    destruct (Z.eqb_spec m 12) as [->|]; injection En as <- <-; lia. }
  eexists. split; [|split].
  - cbn [rbind]. apply rmap_app; [|apply rmap_app].
    + apply rmap_month_days; try assumption; lia.
    + apply rmap_month_days; try assumption; [left; assumption|lia|fold nd; lia].
    + apply rmap_month_days; try assumption; [left; assumption|lia|lia].
  - assert (Es : first_monday y m = _ymd2ord py pm (pl + 1 - wd)).
    { unfold first_monday, toordinal. cbn [year month day]. fold wd.
      rewrite Hprev. unfold _ymd2ord. lia. }
    rewrite Es.
    apply consecutive_app; [|apply consecutive_app].
    + apply consecutive_month_days; try assumption; lia.
    + rewrite length_map, range_length.
      replace (_ymd2ord py pm (pl + 1 - wd) + Z.of_nat (Z.to_nat (pl + 1 - (pl + 1 - wd))))
        with (_ymd2ord y m 1) by (rewrite Hprev; unfold _ymd2ord; lia).
      apply consecutive_month_days; try assumption; [left; assumption|lia|fold nd; lia].
    + rewrite !length_map, !range_length.
      replace (_ymd2ord py pm (pl + 1 - wd) + Z.of_nat (Z.to_nat (pl + 1 - (pl + 1 - wd)))
               + Z.of_nat (Z.to_nat (nd + 1 - 1)))
        with (_ymd2ord ny nm 1) by (rewrite Hnext, Hprev; fold nd; unfold _ymd2ord; lia).
      apply consecutive_month_days; try assumption; [left; assumption|lia|lia].
  - rewrite !length_app, !length_map, !range_length. lia.
Qed.

Lemma consecutive_week (s : Z) (l : list date) (r : nat) :
  consecutive s l -> (7 * r + 7 <= List.length l)%nat ->
  week_from (s + 7 * Z.of_nat r) (firstn 7 (skipn (7 * r) l)).
Proof.
  intros Hc Hlen. split.
  - rewrite length_firstn, length_skipn. lia.
  - intros k x Hk.
    assert (Hk7 : (k < 7)%nat).
    { assert (H : (k < List.length (firstn 7 (skipn (7 * r) l)))%nat)
        by (apply nth_error_Some; congruence).
      rewrite length_firstn in H. lia. }
    rewrite nth_error_firstn in Hk.
    destruct (Nat.ltb_spec k 7); [|lia].
    rewrite nth_error_skipn in Hk.
    destruct (Hc _ _ Hk) as [Hv Ho]. split; [assumption|]. lia.
Qed.

Lemma weeks_of_length {A : Type} (l : list A) (n : nat) :
  List.length l = (7 * n)%nat -> List.length (weeks_of l) = n.
Proof.
  intros H. unfold weeks_of. rewrite length_map, length_seq, H.
  symmetry. apply (Nat.div_unique _ 7 n 6); lia.
Qed.

Lemma weeks_of_nth {A : Type} (l : list A) (n r : nat) :
  List.length l = (7 * n)%nat -> (r < n)%nat ->
  nth_error (weeks_of l) r = Some (firstn 7 (skipn (7 * r) l)).
Proof.
  intros H Hr. unfold weeks_of.
  rewrite nth_error_map, nth_error_seq.
  replace ((List.length l + 6) / 7)%nat with n
    by (rewrite H; apply (Nat.div_unique _ 7 n 6); lia).
  destruct (Nat.ltb_spec r n); [reflexivity|lia].
Qed.

(** The weeks of a month, as [monthdatescalendar] gives them. *)
Lemma monthdatescalendar_spec (y m : Z) :
  MINYEAR <= y <= MAXYEAR -> 1 <= m <= 12 -> y < MAXYEAR \/ m <= 11 ->
  exists (cal : list (list date)) (n : nat),
    monthdatescalendar MONDAY y m = Ok cal /\
    List.length cal = n /\ (4 <= n <= 6)%nat /\
    7 * Z.of_nat n
    = weekday (mkdate y m 1) + _days_in_month y m
      + (- weekday (mkdate y m 1) - _days_in_month y m) mod 7 /\
    forall r, (r < n)%nat ->
      exists row, nth_error cal r = Some row /\
                  week_from (first_monday y m + 7 * Z.of_nat r) row.
Proof.
  intros Hy Hm Hmax.
  destruct (itermonthdates_spec y m Hy Hm Hmax) as (D & HD & Hc & Hlen).
  pose proof (weekday_range (mkdate y m 1)) as Hwd.
  pose proof (days_in_month_bounds y m Hm) as Hnd.
  set (wd := weekday (mkdate y m 1)) in *.
  set (nd := _days_in_month y m) in *.
  assert (Hn : exists n : nat, List.length D = (7 * n)%nat /\ (4 <= n <= 6)%nat).
  { exists (Z.to_nat ((wd + nd + (- wd - nd) mod 7) / 7)).
    clearbody wd nd. Z.div_mod_to_equations. lia. }
  destruct Hn as (n & Hn & Hn46).
  exists (weeks_of D), n. unfold monthdatescalendar. rewrite HD. cbn [rbind].
  split; [reflexivity|]. split; [now apply weeks_of_length|].
  split; [assumption|]. split; [lia|].
  intros r Hr. exists (firstn 7 (skipn (7 * r) D)).
  split; [now apply weeks_of_nth with (n := n)|].
  apply consecutive_week; [assumption|lia].
Qed.

Lemma date_in_month (x : date) (y m k : Z) :
  valid_date x -> 1 <= m <= 12 -> 0 <= k < _days_in_month y m ->
  toordinal x = _ymd2ord y m 1 + k -> x = mkdate y m (k + 1).
Proof.
  intros (_ & Hxm & Hxd) Hm Hk Ho.
  rewrite <- (fromordinal_toordinal x) by assumption.
  rewrite Ho. replace (_ymd2ord y m 1 + k) with (_ymd2ord y m (k + 1))
    by (unfold _ymd2ord; lia).
  unfold fromordinal. rewrite ord2ymd_ymd2ord by lia. reflexivity.
Qed.

Lemma next_first_monday (y m : Z) :
  1 <= m <= 12 ->
  let wd := weekday (mkdate y m 1) in
  let nd := _days_in_month y m in
  let da := (- wd - nd) mod 7 in
  let '(ny, nm) := _nextmonth y m in
  first_monday ny nm
  = first_monday y m + wd + nd + da - (if da =? 0 then 0 else 7).
Proof.
  intros Hm. cbv zeta.
  pose proof (ymd2ord_nextmonth y m Hm) as Hnext.
  destruct (_nextmonth y m) as [ny nm]. cbn [fst snd] in Hnext.
  unfold first_monday, weekday, toordinal. cbn [year month day].
  rewrite Hnext.
  set (o := _ymd2ord y m 1). set (nd := _days_in_month y m).
  clearbody o nd.
  destruct (Z.eqb_spec ((- ((o + 6) mod 7) - nd) mod 7) 0) as [E|E];
    Z.div_mod_to_equations; lia.
Qed.

Lemma nextmonth_swap (y m : Z) :
  (if m + 1 =? 13 then (1, y + 1) else (m + 1, y))
  = (snd (_nextmonth y m), fst (_nextmonth y m)).
Proof.
  unfold _nextmonth.
  destruct (Z.eqb_spec (m + 1) 13), (Z.eqb_spec m 12); cbn [fst snd]; try lia;
    reflexivity.
Qed.

Lemma week_from_last (s : Z) (row : list date) :
  week_from s row ->
  exists x, getitem row (-1) = Ok x /\ valid_date x /\ toordinal x = s + 6.
Proof.
  intros [Hlen Hc].
  destruct (nth_error row 6) as [x|] eqn:E.
  - exists x. split.
    + apply getitem_last; [now rewrite Hlen|]. intros ->. discriminate.
    + destruct (Hc _ _ E) as [Hv Ho]. split; [assumption|lia].
  - apply nth_error_None in E. lia.
Qed.

Theorem shown_dates_spec (y m : Z) :
  MINYEAR <= y <= MAXYEAR -> 1 <= m <= 12 -> y < MAXYEAR \/ m <= 10 ->
  exists G, shown_dates y m = Ok G /\ grid_from (first_monday y m) G.
Proof.
  intros Hy Hm Hmax.
  destruct (monthdatescalendar_spec y m Hy Hm ltac:(lia))
    as (cal & n & Hcal & Hlen & Hn & H7n & Hrows).
  unfold shown_dates. rewrite Hcal. cbn [rbind].
  rewrite nextmonth_swap.
  pose proof (next_first_monday y m Hm) as Hs'. cbv zeta in Hs'.
  pose proof (ymd2ord_nextmonth y m Hm) as Hnext.
  pose proof (nextmonth_valid y m Hm) as Hnm.
  assert (Hny : MINYEAR <= fst (_nextmonth y m) <= MAXYEAR /\
                (fst (_nextmonth y m) < MAXYEAR \/ snd (_nextmonth y m) <= 11) /\
                snd (_nextmonth y m) <> m).
  { unfold _nextmonth, MINYEAR, MAXYEAR in *.
    destruct (Z.eqb_spec m 12); cbn [fst snd]; lia. }
  destruct (_nextmonth y m) as [ny nm]. cbn [fst snd] in *. cbv beta iota.
  destruct Hny as (Hny & Hnmax & Hnm_ne).
  set (s := first_monday y m) in *.
  set (wd := weekday (mkdate y m 1)) in *.
  set (nd := _days_in_month y m) in *.
  set (da := (- wd - nd) mod 7) in *.
  pose proof (weekday_range (mkdate y m 1)) as Hwd. fold wd in Hwd.
  pose proof (days_in_month_bounds y m Hm) as Hnd. fold nd in Hnd.
  assert (Hda : 0 <= da <= 6) by (subst da; Z.div_mod_to_equations; lia).
  assert (Eord : _ymd2ord y m 1 = s + wd).
  { subst s wd. unfold first_monday, toordinal. cbn [year month day]. lia. }
  rewrite Hlen.
  destruct (Z.ltb_spec (Z.of_nat n) 6) as [Hlt|Hge].
  2:{ exists cal. split; [reflexivity|]. split; [lia|].
      intros r Hr. apply Hrows. lia. }
  (* the last day of the last week *)
  destruct (Hrows (n - 1)%nat ltac:(lia)) as (lastw & Elast & Hlastw).
  assert (Eg1 : getitem cal (-1) = Ok lastw).
  { apply getitem_last; [now rewrite Hlen|]. intros ->. cbn in Hlen. lia. }
  rewrite Eg1. cbn [rbind].
  destruct (week_from_last _ _ Hlastw) as (x & Egx & Hxv & Hxo).
  rewrite Egx. cbn [rbind].
  assert (Hi : (if month x =? m then 0 else 1) = (if da =? 0 then 0 else 1)).
  { destruct (Z.eqb_spec da 0) as [E0|E0].
    - assert (x = mkdate y m (nd - 1 + 1)).
      { apply date_in_month; try assumption; [fold nd; lia|]. lia. }
      subst x. cbn [month]. now rewrite Z.eqb_refl.
    - assert (x = mkdate ny nm (da - 1 + 1)).
      { pose proof (days_in_month_bounds ny nm Hnm).
        apply date_in_month; try assumption; lia. }
      subst x. cbn [month]. destruct (Z.eqb_spec nm m); [contradiction|reflexivity]. }
  rewrite Hi. clear Hi.
  destruct (monthdatescalendar_spec ny nm Hny Hnm Hnmax)
    as (cal' & n' & Hcal' & Hlen' & Hn' & _ & Hrows').
  rewrite Hcal'. cbn [rbind].
  set (i := if da =? 0 then 0%nat else 1%nat).
  assert (Ei : (if da =? 0 then 0 else 1) = Z.of_nat i)
    by (subst i; destruct (da =? 0); reflexivity).
  assert (Es' : first_monday ny nm + 7 * Z.of_nat i = s + 7 * Z.of_nat n).
  { rewrite Hs'. subst i. destruct (da =? 0); lia. }
  assert (Hi1 : (i <= 1)%nat) by (subst i; destruct (da =? 0); lia).
  rewrite Ei.
  destruct (Hrows' i ltac:(lia)) as (w1 & Ew1 & Hw1).
  rewrite (getitem_nth cal' (Z.of_nat i) w1) by (try lia; now rewrite Nat2Z.id).
  cbn [rbind]. rewrite length_app, Hlen. cbn [List.length].
  destruct (Z.ltb_spec (Z.of_nat (n + 1)) 6) as [Hlt2|Hge2].
  - destruct (Hrows' (i + 1)%nat ltac:(lia)) as (w2 & Ew2 & Hw2).
    rewrite (getitem_nth cal' (Z.of_nat i + 1) w2)
      by (try lia; now replace (Z.to_nat (Z.of_nat i + 1)) with (i + 1)%nat by lia).
    cbn [rbind]. eexists. split; [reflexivity|]. split.
    + rewrite !length_app, Hlen. cbn. lia.
    + intros r Hr.
      destruct (Nat.ltb_spec r n) as [Hrn|Hrn].
      * destruct (Hrows r Hrn) as (row & Er & Hrow). exists row. split; [|assumption].
        rewrite <- app_assoc. rewrite nth_error_app1 by lia. assumption.
      * assert (Hr45 : r = n \/ r = (n + 1)%nat) by lia.
        destruct Hr45 as [->| ->].
        -- exists w1. split.
           ++ rewrite nth_error_app1 by (rewrite length_app, Hlen; cbn; lia).
              rewrite nth_error_app2 by lia.
              replace (n - List.length cal)%nat with 0%nat by lia. reflexivity.
           ++ rewrite <- Es'. assumption.
        -- exists w2. split.
           ++ rewrite nth_error_app2 by (rewrite length_app, Hlen; cbn; lia).
              replace (n + 1 - List.length (cal ++ [w1]))%nat with 0%nat
                by (rewrite length_app, Hlen; cbn; lia).
              reflexivity.
           ++ replace (s + 7 * Z.of_nat (n + 1))
                with (first_monday ny nm + 7 * Z.of_nat (i + 1)) by lia.
              assumption.
  - eexists. split; [reflexivity|]. split.
    + rewrite length_app, Hlen. cbn. lia.
    + intros r Hr.
      destruct (Nat.ltb_spec r n) as [Hrn|Hrn].
      * destruct (Hrows r Hrn) as (row & Er & Hrow). exists row. split; [|assumption].
        rewrite nth_error_app1 by lia. assumption.
      * assert (r = n) by lia. subst r. exists w1. split.
        -- rewrite nth_error_app2 by lia.
           replace (n - List.length cal)%nat with 0%nat by lia. reflexivity.
        -- rewrite <- Es'. assumption.
Qed.

(** *** Methods: what a run preserves *)

Section Preserves.

Context {A B : Type} (P : widget -> Prop).

Lemma preserves_ret (a : A) : preserves P (ret a).
Proof. intros w H. exact H. Qed.

Lemma preserves_raise (e : exn) : preserves P (@raise A e).
Proof. intros w H. exact H. Qed.

Lemma preserves_lift (r : result A) : preserves P (lift r).
Proof. intros w H. exact H. Qed.

Lemma preserves_get : preserves P get.
Proof. intros w H. exact H. Qed.

Lemma preserves_modify (f : widget -> widget) :
  (forall w, P w -> P (f w)) -> preserves P (modify f).
Proof. intros Hf w H. cbn. now apply Hf. Qed.

Lemma preserves_bind (m : M A) (k : A -> M B) :
  preserves P m -> (forall a, preserves P (k a)) -> preserves P (bind m k).
Proof.
  intros Hm Hk w H. unfold bind. specialize (Hm w H).
  destruct (m w) as [[a|e] w']; cbn in *.
  - now apply Hk.
  - assumption.
Qed.

Lemma preserves_try (m : M A) (h : exn -> M A) :
  preserves P m -> (forall e, preserves P (h e)) -> preserves P (try_except m h).
Proof.
  intros Hm Hh w H. unfold try_except. specialize (Hm w H).
  destruct (m w) as [[a|e] w']; cbn in *.
  - assumption.
  - now apply Hh.
Qed.

End Preserves.

Lemma preserves_for {A : Type} (P : widget -> Prop) (l : list A) (body : A -> M unit) :
  (forall a, preserves P (body a)) -> preserves P (for_ l body).
Proof.
  intros Hb. induction l as [|a l IH]; cbn [for_].
  - apply preserves_ret.
  - apply preserves_bind; [apply Hb|intros _; exact IH].
Qed.

(** One step of a proof that a method keeps a property: the structure of the
    method is followed, and the writes are left to the caller. *)
Ltac preserves_step :=
  lazymatch goal with
  | |- preserves _ (bind _ _) => apply preserves_bind; [|intros ?]
  | |- preserves _ (ret _) => apply preserves_ret
  | |- preserves _ (raise _) => apply preserves_raise
  | |- preserves _ (lift _) => apply preserves_lift
  | |- preserves _ get => apply preserves_get
  | |- preserves _ (try_except _ _) => apply preserves_try; [|intros ?]
  | |- preserves _ (for_ _ _) => apply preserves_for; intros ?
  | |- preserves _ (match ?x with _ => _ end) => destruct x
  | |- preserves _ (let '(_, _) := ?x in _) => destruct x
  end.

Lemma ignores_labels_stable (P : widget -> Prop) :
  ignores_labels P -> label_stable P.
Proof.
  intros HP. split; intros.
  - unfold configure_day. repeat preserves_step.
    apply preserves_modify. apply HP.
  - unfold configure_week_nb. repeat preserves_step.
    apply preserves_modify. apply HP.
Qed.

Section Labels.

Variable P : widget -> Prop.
Hypothesis HP : label_stable P.

Lemma display_selection_labels : preserves P _display_selection.
Proof.
  unfold _display_selection.
  repeat first [apply HP | preserves_step].
Qed.

Lemma remove_selection_labels : preserves P _remove_selection.
Proof.
  unfold _remove_selection.
  repeat first [apply HP | preserves_step].
Qed.

Lemma display_calendar_labels : preserves P _display_calendar.
Proof.
  unfold _display_calendar.
  repeat first [apply HP | apply display_selection_labels | preserves_step].
Qed.

End Labels.

Lemma preserves_bind_lift {A B : Type} (P : widget -> Prop) (r : result A)
      (k : A -> M B) :
  (forall a, r = Ok a -> preserves P (k a)) -> preserves P (bind (lift r) k).
Proof.
  intros Hk w H. unfold bind, lift. destruct r as [a|e]; cbn.
  - now apply Hk.
  - assumption.
Qed.

(** *** The displayed month *)

Lemma first_of_month_labels : label_stable first_of_month.
Proof. apply ignores_labels_stable. split; intros ? w H; exact H. Qed.

Lemma date_field_labels (d : date) : label_stable (fun w => _date w = d).
Proof. apply ignores_labels_stable. split; intros ? w H; exact H. Qed.

Lemma replace_day_first (x d1 : date) :
  replace_day x 1 = Ok d1 -> valid_date d1 /\ day d1 = 1.
Proof.
  unfold replace_day. intros H. apply date_new_inv in H. destruct H as [-> Hv].
  split; [exact Hv|reflexivity].
Qed.

Lemma with_date_first (d : date) (w : widget) :
  valid_date d -> day d = 1 -> first_of_month (with_date d w).
Proof. intros Hv Hd. split; assumption. Qed.

Lemma next_month_run (w : widget) :
  first_of_month w ->
  _date w <> mkdate MAXYEAR 12 1 ->
  let '(ny, nm) := _nextmonth (year (_date w)) (month (_date w)) in
  _next_month w = _display_calendar (with_date (mkdate ny nm 1) w).
Proof.
  intros [(Hy & Hm & Hd) Hd1] Hne.
  pose proof (ymd2ord_nextmonth (year (_date w)) (month (_date w)) Hm) as Hnext.
  pose proof (nextmonth_valid (year (_date w)) (month (_date w)) Hm) as Hnm.
  assert (Hny : MINYEAR <= fst (_nextmonth (year (_date w)) (month (_date w))) <= MAXYEAR).
  { unfold _nextmonth, MINYEAR, MAXYEAR in *.
    destruct (Z.eqb_spec (month (_date w)) 12) as [E|E]; cbn [fst]; [|lia].
    assert (year (_date w) <> 9999); [|lia].
    intros Ey. apply Hne. destruct (_date w) as [y m d]. cbn in *. congruence. }
  destruct (_nextmonth (year (_date w)) (month (_date w))) as [ny nm].
  cbn [fst snd] in *.
  unfold _next_month, bind, get, lift, modify.
  rewrite monthrange_ok by assumption. cbn [snd].
  unfold add_days.
  assert (Eo : toordinal (_date w) + _days_in_month (year (_date w)) (month (_date w))
               = _ymd2ord ny nm 1).
  { unfold toordinal. rewrite Hd1, Hnext. reflexivity. }
  rewrite Eo.
  pose proof (days_in_month_bounds ny nm Hnm) as Hb.
  pose proof (ymd2ord_range ny nm 1 ltac:(unfold valid_ymd; lia)) as Hr.
  replace ((0 <? _ymd2ord ny nm 1) && (_ymd2ord ny nm 1 <=? _MAXORDINAL)) with true
    by (symmetry; apply andb_true_iff; split; [apply Z.ltb_lt|apply Z.leb_le]; lia).
  unfold fromordinal. rewrite ord2ymd_ymd2ord by lia. reflexivity.
Qed.

Lemma next_month_overflow (w : widget) :
  _date w = mkdate MAXYEAR 12 1 ->
  _next_month w = (Raise (mkexn OverflowError "date value out of range"), w).
Proof.
  intros E. unfold _next_month, bind, get, lift. rewrite E. reflexivity.
Qed.

Lemma prev_month_run (w : widget) :
  first_of_month w ->
  _date w <> mkdate MINYEAR 1 1 ->
  let '(py, pm) := _prevmonth (year (_date w)) (month (_date w)) in
  _prev_month w = _display_calendar (with_date (mkdate py pm 1) w).
Proof.
  intros [(Hy & Hm & Hd) Hd1] Hne.
  pose proof (ymd2ord_prevmonth (year (_date w)) (month (_date w)) Hm) as Hprev.
  pose proof (prevmonth_valid (year (_date w)) (month (_date w)) Hm) as Hpm.
  assert (Hpy : MINYEAR <= fst (_prevmonth (year (_date w)) (month (_date w))) <= MAXYEAR).
  { unfold _prevmonth, MINYEAR, MAXYEAR in *.
    destruct (Z.eqb_spec (month (_date w)) 1) as [E|E]; cbn [fst]; [|lia].
    assert (year (_date w) <> 1); [|lia].
    intros Ey. apply Hne. destruct (_date w) as [y m d]. cbn in *. congruence. }
  destruct (_prevmonth (year (_date w)) (month (_date w))) as [py pm].
  cbn [fst snd] in *.
  pose proof (days_in_month_bounds py pm Hpm) as Hb.
  unfold _prev_month, bind, get, lift, modify.
  unfold add_days.
  assert (Eo : toordinal (_date w) + -1 = _ymd2ord py pm (_days_in_month py pm)).
  { unfold toordinal. rewrite Hd1, Hprev. unfold _ymd2ord. lia. }
  rewrite Eo.
  pose proof (ymd2ord_range py pm (_days_in_month py pm)
                ltac:(unfold valid_ymd; lia)) as Hr.
  replace ((0 <? _ymd2ord py pm (_days_in_month py pm))
           && (_ymd2ord py pm (_days_in_month py pm) <=? _MAXORDINAL)) with true
    by (symmetry; apply andb_true_iff; split; [apply Z.ltb_lt|apply Z.leb_le]; lia).
  unfold fromordinal. rewrite ord2ymd_ymd2ord by lia.
  unfold replace_day. cbn [year month].
  rewrite date_new_ok by (unfold valid_ymd; lia). reflexivity.
Qed.

Lemma prev_month_overflow (w : widget) :
  _date w = mkdate MINYEAR 1 1 ->
  _prev_month w = (Raise (mkexn OverflowError "date value out of range"), w).
Proof.
  intros E. unfold _prev_month, bind, get, lift. rewrite E. reflexivity.
Qed.

Lemma prevmonth_nextmonth (y m : Z) :
  1 <= m <= 12 ->
  _prevmonth (fst (_nextmonth y m)) (snd (_nextmonth y m)) = (y, m).
Proof.
  intros Hm. unfold _nextmonth, _prevmonth.
  destruct (Z.eqb_spec m 12) as [->|]; cbn [fst snd].
  - cbn. f_equal. lia.
  - destruct (Z.eqb_spec (m + 1) 1); [lia|]. f_equal. lia.
Qed.

Lemma display_calendar_date (w : widget) :
  _date (snd (_display_calendar w)) = _date w.
Proof.
  now apply (display_calendar_labels _ (date_field_labels (_date w))).
Qed.

(** *** The labels: six rows of seven days, six week numbers *)

Lemma replace_nth_length {A : Type} (n : nat) (l : list A) (x : A) :
  List.length (replace_nth n l x) = List.length l.
Proof.
  revert n. induction l as [|a l IH]; intros [|n]; cbn; try reflexivity.
  now rewrite IH.
Qed.

Lemma replace_nth_Forall {A : Type} (Q : A -> Prop) (n : nat) (l : list A) (x : A) :
  Forall Q l -> Q x -> Forall Q (replace_nth n l x).
Proof.
  intros Hl Hx. revert n. induction Hl as [|a l Ha Hl IH]; intros [|n]; cbn;
    constructor; auto.
Qed.

Lemma norm_index_ok {A : Type} (l : list A) (i : Z) :
  0 <= i < Z.of_nat (List.length l) -> norm_index l i = Ok (Z.to_nat i).
Proof.
  intros H. unfold norm_index.
  destruct (Z.ltb_spec i 0); [lia|].
  replace ((0 <=? i) && (i <? Z.of_nat (List.length l))) with true
    by (symmetry; apply andb_true_iff; split; [apply Z.leb_le|apply Z.ltb_lt]; lia).
  reflexivity.
Qed.

Lemma norm_index_lt {A : Type} (l : list A) (i : Z) (j : nat) :
  norm_index l i = Ok j -> (j < List.length l)%nat.
Proof.
  unfold norm_index.
  destruct ((0 <=? (if i <? 0 then i + Z.of_nat (List.length l) else i))
            && ((if i <? 0 then i + Z.of_nat (List.length l) else i)
                <? Z.of_nat (List.length l))) eqn:E; [|discriminate].
  intros [= <-]. apply andb_true_iff in E. destruct E as [E1 E2].
  apply Z.leb_le in E1. apply Z.ltb_lt in E2. lia.
Qed.

Lemma getitem_ok {A : Type} (l : list A) (i : Z) :
  0 <= i < Z.of_nat (List.length l) ->
  exists a, getitem l i = Ok a /\ nth_error l (Z.to_nat i) = Some a.
Proof.
  intros H. unfold getitem. rewrite norm_index_ok by assumption.
  destruct (nth_error l (Z.to_nat i)) as [a|] eqn:E.
  - exists a. split; reflexivity.
  - apply nth_error_None in E. lia.
Qed.

Lemma getitem_In {A : Type} (l : list A) (i : Z) (a : A) :
  getitem l i = Ok a -> In a l.
Proof.
  unfold getitem. destruct (norm_index l i) as [j|]; [|discriminate].
  destruct (nth_error l j) as [b|] eqn:E; [|discriminate].
  intros [= <-]. eapply nth_error_In. eassumption.
Qed.

Lemma setitem_ok {A : Type} (l : list A) (i : Z) (x : A) :
  0 <= i < Z.of_nat (List.length l) ->
  setitem l i x = Ok (replace_nth (Z.to_nat i) l x).
Proof. intros H. unfold setitem. now rewrite norm_index_ok. Qed.

Lemma setitem_length {A : Type} (l l' : list A) (i : Z) (x : A) :
  setitem l i x = Ok l' -> List.length l' = List.length l.
Proof.
  unfold setitem. destruct (norm_index l i); [|discriminate].
  intros [= <-]. apply replace_nth_length.
Qed.

Lemma setitem_Forall {A : Type} (Q : A -> Prop) (l l' : list A) (i : Z) (x : A) :
  setitem l i x = Ok l' -> Forall Q l -> Q x -> Forall Q l'.
Proof.
  unfold setitem. destruct (norm_index l i); [|discriminate].
  intros [= <-]. apply replace_nth_Forall.
Qed.

Lemma shape_labels : label_stable shape.
Proof.
  split.
  - intros r c f w (H6 & H7 & Hw).
    unfold configure_day, bind, get, lift, modify.
    destruct (getitem (_calendar w) r) as [row|] eqn:Hrow; [|now repeat split].
    destruct (getitem row c) as [lbl|] eqn:Hlbl; [|now repeat split].
    destruct (setitem row c (f lbl)) as [row'|] eqn:Hrow'; [|now repeat split].
    destruct (setitem (_calendar w) r row') as [cal'|] eqn:Hcal'; [|now repeat split].
    cbn. unfold shape. cbn.
    assert (Hin : In row (_calendar w)) by (eapply getitem_In; eassumption).
    assert (Hr7 : List.length row = 7%nat)
      by (rewrite Forall_forall in H7; now apply H7).
    split; [|split].
    + rewrite (setitem_length _ _ _ _ Hcal'). assumption.
    + eapply setitem_Forall; [eassumption|assumption|].
      rewrite (setitem_length _ _ _ _ Hrow'). assumption.
    + assumption.
  - intros i n w (H6 & H7 & Hw).
    unfold configure_week_nb, bind, get, lift, modify.
    destruct (setitem (_week_nbs w) i (Some n)) as [l|] eqn:Hl; [|now repeat split].
    cbn. unfold shape. cbn. rewrite (setitem_length _ _ _ _ Hl). now repeat split.
Qed.

(** With the labels in shape, a label inside the grid is configured. *)
Lemma configure_day_ok (r c : Z) (f : label -> label) (w : widget) :
  shape w -> 0 <= r < 6 -> 0 <= c < 7 ->
  exists w', configure_day r c f w = (Ok tt, w').
Proof.
  intros (H6 & H7 & Hw) Hr Hc.
  unfold configure_day, bind, get, lift, modify.
  destruct (getitem_ok (_calendar w) r ltac:(lia)) as (row & Hrow & Hnth).
  rewrite Hrow.
  assert (Hr7 : List.length row = 7%nat).
  { rewrite Forall_forall in H7. apply H7. eapply nth_error_In. eassumption. }
  destruct (getitem_ok row c ltac:(lia)) as (lbl & Hlbl & _).
  rewrite Hlbl. rewrite setitem_ok by lia. rewrite setitem_ok by lia.
  eexists. reflexivity.
Qed.

Lemma configure_week_nb_ok (i n : Z) (w : widget) :
  shape w -> 0 <= i < 6 -> exists w', configure_week_nb i n w = (Ok tt, w').
Proof.
  intros (H6 & H7 & Hw) Hi.
  unfold configure_week_nb, bind, get, lift, modify.
  rewrite setitem_ok by lia. eexists. reflexivity.
Qed.

Lemma isocalendar_weekday_range (x : date) : 1 <= isoweekday x <= 7.
Proof.
  unfold isoweekday, isocalendar.
  destruct (_ <? 0); [|destruct (_ && _)]; cbn [snd];
    Z.div_mod_to_equations; lia.
Qed.

Lemma display_selection_ok (w : widget) :
  shape w -> exists w', _display_selection w = (Ok tt, w').
Proof.
  intros Hs. unfold _display_selection, bind, get.
  destruct (_sel_date w) as [s|]; [|eexists; reflexivity].
  destruct (year s =? year (_date w)); [|eexists; reflexivity].
  pose proof (isocalendar_weekday_range s) as Hd. unfold isoweekday in Hd.
  destruct (isocalendar s) as [[iy iw] d]. cbn [snd] in Hd.
  destruct ((0 <=? _) && (_ <? 6)) eqn:E; [|eexists; reflexivity].
  apply andb_true_iff in E. destruct E as [E1 E2].
  apply Z.leb_le in E1. apply Z.ltb_lt in E2.
  apply configure_day_ok; [assumption|lia|lia].
Qed.


(** A loop whose body succeeds under an invariant succeeds. *)
Lemma for_ok {A : Type} (I : widget -> Prop) (l : list A) (body : A -> M unit) :
  (forall a w, In a l -> I w -> exists w', body a w = (Ok tt, w') /\ I w') ->
  forall w, I w -> exists w', for_ l body w = (Ok tt, w') /\ I w'.
Proof.
  induction l as [|a l IH]; intros Hb w Hw; cbn [for_].
  - exists w. split; [reflexivity|assumption].
  - destruct (Hb a w ltac:(now left) Hw) as (w1 & E1 & Hw1).
    destruct (IH ltac:(intros; apply Hb; [now right|assumption]) w1 Hw1)
      as (w2 & E2 & Hw2).
    exists w2. split; [|assumption]. unfold bind. rewrite E1. exact E2.
Qed.

Lemma grid_cell (s : Z) (G : list (list date)) (r c : Z) :
  grid_from s G -> 0 <= r < 6 -> 0 <= c < 7 ->
  exists row x,
    getitem G r = Ok row /\ getitem row c = Ok x /\
    valid_date x /\ toordinal x = s + 7 * r + c.
Proof.
  intros [Hlen Hrows] Hr Hc.
  destruct (Hrows (Z.to_nat r) ltac:(lia)) as (row & Erow & Hl7 & Hcons).
  destruct (nth_error row (Z.to_nat c)) as [x|] eqn:Ex.
  2:{ apply nth_error_None in Ex. lia. }
  exists row, x. split; [|split].
  - apply getitem_nth; [lia|assumption].
  - apply getitem_nth; [lia|assumption].
  - destruct (Hcons _ _ Ex) as [Hv Ho]. split; [assumption|lia].
Qed.

(** A shown date belongs to the displayed month or to one of its two
    neighbours. *)
Lemma shown_month (y m : Z) (x : date) :
  1 <= m <= 12 -> valid_date x ->
  first_monday y m <= toordinal x < first_monday y m + 42 ->
  month x = (m - 2) mod 12 + 1 /\ toordinal x < _ymd2ord y m 1
  \/ x = mkdate y m (toordinal x - _ymd2ord y m 1 + 1)
     /\ 1 <= toordinal x - _ymd2ord y m 1 + 1 <= _days_in_month y m
  \/ month x = (if m + 1 =? 13 then 1 else m + 1)
     /\ _ymd2ord y m 1 + _days_in_month y m <= toordinal x.
Proof.
  intros Hm Hv Ho.
  pose proof (weekday_range (mkdate y m 1)) as Hwd.
  pose proof (days_in_month_bounds y m Hm) as Hnd.
  pose proof (ymd2ord_prevmonth y m Hm) as Hprev.
  pose proof (ymd2ord_nextmonth y m Hm) as Hnext.
  pose proof (prevmonth_valid y m Hm) as Hpm.
  pose proof (nextmonth_valid y m Hm) as Hnm.
  unfold first_monday in Ho.
  change (toordinal (mkdate y m 1)) with (_ymd2ord y m 1) in Ho.
  destruct (Z.lt_ge_cases (toordinal x) (_ymd2ord y m 1)) as [Hlt|Hge].
  - left. split; [|assumption].
    pose proof (days_in_month_bounds (fst (_prevmonth y m)) _ Hpm) as Hpl.
    rewrite (date_in_month x (fst (_prevmonth y m)) (snd (_prevmonth y m))
               (toordinal x - _ymd2ord (fst (_prevmonth y m)) (snd (_prevmonth y m)) 1))
      by (try assumption; lia).
    cbn [month]. unfold _prevmonth.
    destruct (Z.eqb_spec m 1) as [->|]; cbn [snd]; [reflexivity|].
    rewrite Z.mod_small by lia. lia.
  - destruct (Z.lt_ge_cases (toordinal x) (_ymd2ord y m 1 + _days_in_month y m))
      as [Hlt2|Hge2].
    + right. left. split; [|lia].
      replace (toordinal x - _ymd2ord y m 1 + 1)
        with ((toordinal x - _ymd2ord y m 1) + 1) by lia.
      apply date_in_month; try assumption; lia.
    + right. right. split; [|assumption].
      pose proof (days_in_month_bounds (fst (_nextmonth y m)) _ Hnm) as Hnl.
      rewrite (date_in_month x (fst (_nextmonth y m)) (snd (_nextmonth y m))
                 (toordinal x - _ymd2ord (fst (_nextmonth y m)) (snd (_nextmonth y m)) 1))
        by (try assumption; lia).
      cbn [month]. unfold _nextmonth.
      destruct (Z.eqb_spec m 12) as [->|]; cbn [snd]; [reflexivity|].
      destruct (Z.eqb_spec (m + 1) 13); [lia|reflexivity].
Qed.

Lemma months_ok (y m : Z) (x : date) :
  1 <= m <= 12 -> valid_date x ->
  first_monday y m <= toordinal x < first_monday y m + 42 ->
  months m (if m + 1 =? 13 then 1 else m + 1) ((m - 2) mod 12 + 1) (month x)
  = Ok (negb (month x =? m)).
Proof.
  intros Hm Hv Ho. unfold months.
  assert (Hp : (m - 2) mod 12 + 1 <> m) by (Z.div_mod_to_equations; lia).
  assert (Hn : (if m + 1 =? 13 then 1 else m + 1) <> m)
    by (destruct (Z.eqb_spec (m + 1) 13); lia).
  destruct (shown_month y m x Hm Hv Ho) as [[E _]|[[E _]|[E _]]].
  - rewrite E, Z.eqb_refl. destruct (Z.eqb_spec ((m - 2) mod 12 + 1) m); [lia|].
    reflexivity.
  - rewrite E. cbn [month].
    destruct (Z.eqb_spec m ((m - 2) mod 12 + 1)); [lia|].
    destruct (Z.eqb_spec m (if m + 1 =? 13 then 1 else m + 1)); [lia|].
    rewrite Z.eqb_refl. reflexivity.
  - rewrite E, Z.eqb_refl.
    destruct (Z.eqb_spec (if m + 1 =? 13 then 1 else m + 1) ((m - 2) mod 12 + 1));
      destruct (Z.eqb_spec (if m + 1 =? 13 then 1 else m + 1) m); try lia;
      reflexivity.
Qed.

Lemma display_calendar_ok (w : widget) :
  shape w -> first_of_month w ->
  year (_date w) < MAXYEAR \/ month (_date w) <= 10 ->
  exists w', _display_calendar w = (Ok tt, w') /\ shape w'.
Proof.
  intros Hs [(Hy & Hm & _) _] Hmax.
  destruct (shown_dates_spec _ _ Hy Hm Hmax) as (G & HG & Hgrid).
  unfold _display_calendar. unfold bind at 1. unfold get at 1.
  unfold bind at 1. unfold lift at 1. rewrite HG.
  set (y := year (_date w)) in *. set (m := month (_date w)) in *.
  unfold bind at 1.
  match goal with
  | |- context [for_ (range 0 6) ?body w] =>
      destruct (for_ok shape (range 0 6) body) with (w := w) as (w1 & E1 & Hs1);
        [|assumption|]
  end.
  - intros i_week w0 Hi Hs0. apply in_range in Hi.
    destruct (configure_week_nb_ok i_week
                ((isoweek (_date w) + i_week - 1) mod Z.max (isoweek (_date w)) 52 + 1)
                w0 Hs0 ltac:(lia)) as (w0' & E0).
    unfold bind at 1. rewrite E0.
    assert (Hs0' : shape w0').
    { pose proof (proj2 shape_labels i_week
                    ((isoweek (_date w) + i_week - 1) mod Z.max (isoweek (_date w)) 52 + 1)
                    w0 Hs0) as H.
      rewrite E0 in H. exact H. }
    apply for_ok; [|assumption].
    intros i_day w2 Hd Hs2. apply in_range in Hd.
    destruct (grid_cell _ G i_week i_day Hgrid ltac:(lia) ltac:(lia))
      as (row & x & Erow & Ex & Hxv & Hxo).
    unfold bind at 1. unfold lift at 1. unfold week_days.
    replace ((0 <=? i_day) && (i_day <? 7)) with true
      by (symmetry; apply andb_true_iff; split; [apply Z.leb_le|apply Z.ltb_lt]; lia).
    unfold bind at 1. unfold lift at 1. rewrite Erow.
    unfold bind at 1. unfold lift at 1. rewrite Ex.
    unfold bind at 1. unfold lift at 1.
    rewrite (months_ok y m x Hm Hxv) by lia.
    match goal with
    | |- context [configure_day i_week i_day ?f w2] =>
        destruct (configure_day_ok i_week i_day f w2 Hs2 ltac:(lia) ltac:(lia))
          as (w3 & E3);
        pose proof (proj1 shape_labels i_week i_day f w2 Hs2) as Hs3
    end.
    rewrite E3 in Hs3 |- *. exists w3. split; [reflexivity|exact Hs3].
  - rewrite E1.
    destruct (display_selection_ok w1 Hs1) as (w2 & E2).
    exists w2. split; [exact E2|].
    pose proof (display_selection_labels _ shape_labels w1 Hs1) as H.
    rewrite E2 in H. exact H.
Qed.

(** *** The displayed grid *)

Lemma consecutive_NoDup (s : Z) (l : list date) : consecutive s l -> NoDup l.
Proof.
  intros Hc. apply NoDup_nth_error. intros i j Hi E.
  destruct (nth_error l i) as [x|] eqn:Ei.
  - symmetry in E. destruct (Hc _ _ Ei) as [_ Hoi]. destruct (Hc _ _ E) as [_ Hoj].
    lia.
  - apply nth_error_None in Ei. lia.
Qed.

Lemma grid_concat (s : Z) (G : list (list date)) :
  grid_from s G ->
  consecutive s (List.concat G) /\ List.length (List.concat G) = 42%nat.
Proof.
  intros [Hlen Hrows].
  destruct G as [|r0 [|r1 [|r2 [|r3 [|r4 [|r5 [|]]]]]]]; try discriminate.
  pose proof (Hrows 0%nat ltac:(lia)) as (? & [= <-] & Hl0 & Hc0).
  pose proof (Hrows 1%nat ltac:(lia)) as (? & [= <-] & Hl1 & Hc1).
  pose proof (Hrows 2%nat ltac:(lia)) as (? & [= <-] & Hl2 & Hc2).
  pose proof (Hrows 3%nat ltac:(lia)) as (? & [= <-] & Hl3 & Hc3).
  pose proof (Hrows 4%nat ltac:(lia)) as (? & [= <-] & Hl4 & Hc4).
  pose proof (Hrows 5%nat ltac:(lia)) as (? & [= <-] & Hl5 & Hc5).
  cbn [List.concat]. rewrite app_nil_r. split.
  - repeat (apply consecutive_app;
            [match goal with
             | H : consecutive ?a ?r |- consecutive ?b ?r =>
                 replace b with a by lia; exact H
             end|]).
    match goal with
    | H : consecutive ?a ?r |- consecutive ?b ?r =>
        replace b with a by lia; exact H
    end.
  - rewrite !length_app. lia.
Qed.

(** The grid of [_display_calendar]: six rows of seven cells, the cell at
    row [r], column [c] being the date whose ordinal is that of the Monday on
    or before the first of the month plus [7 * r + c]; the first cell is a
    Monday and every day of the month occurs exactly once. *)
Lemma shown_dates_six_weeks (y m : Z) :
  MINYEAR <= y <= MAXYEAR -> 1 <= m <= 12 -> y < MAXYEAR \/ m <= 10 ->
  exists G,
    shown_dates y m = Ok G /\
    List.length G = 6%nat /\
    Forall (fun week => List.length week = 7%nat) G /\
    (forall r c, 0 <= r < 6 -> 0 <= c < 7 ->
       exists x, cell G r c = Ok x /\ valid_date x /\
                 toordinal x = first_monday y m + 7 * r + c) /\
    first_monday y m <= toordinal (mkdate y m 1) < first_monday y m + 7 /\
    (exists x, cell G 0 0 = Ok x /\ weekday x = 0) /\
    (forall d, 1 <= d <= _days_in_month y m ->
       count_occ date_eq_dec (List.concat G) (mkdate y m d) = 1%nat).
Proof.
  intros Hy Hm Hmax.
  destruct (shown_dates_spec y m Hy Hm Hmax) as (G & HG & Hgrid).
  pose proof (weekday_range (mkdate y m 1)) as Hwd.
  assert (Hcell : forall r c, 0 <= r < 6 -> 0 <= c < 7 ->
            exists x, cell G r c = Ok x /\ valid_date x /\
                      toordinal x = first_monday y m + 7 * r + c).
  { intros r c Hr Hc.
    destruct (grid_cell _ G r c Hgrid Hr Hc) as (row & x & Erow & Ex & Hv & Ho).
    exists x. unfold cell. rewrite Erow. cbn [rbind]. auto. }
  exists G. split; [exact HG|]. split; [apply Hgrid|]. split; [|split; [exact Hcell|]].
  { apply Forall_forall. intros week Hin.
    apply In_nth_error in Hin. destruct Hin as [r Er].
    assert (Hr : (r < 6)%nat).
    { rewrite <- (proj1 Hgrid). apply nth_error_Some. congruence. }
    destruct (proj2 Hgrid r Hr) as (week' & Er' & Hl & _). congruence. }
  split; [unfold first_monday; lia|]. split.
  - destruct (Hcell 0 0 ltac:(lia) ltac:(lia)) as (x & Ex & Hv & Ho).
    exists x. split; [exact Ex|]. unfold weekday. rewrite Ho.
    pose proof (first_monday_mod y m). replace (first_monday y m + 7 * 0 + 0 + 6)
      with (first_monday y m + 6) by lia. assumption.
  - intros d Hd.
    destruct (grid_concat _ G Hgrid) as [Hcons Hlen].
    apply NoDup_count_occ'; [eapply consecutive_NoDup; eassumption|].
    pose proof (days_in_month_bounds y m Hm) as Hnd.
    set (k := Z.to_nat (weekday (mkdate y m 1) + d - 1)).
    destruct (nth_error (List.concat G) k) as [x|] eqn:Ek.
    2:{ apply nth_error_None in Ek. lia. }
    destruct (Hcons _ _ Ek) as [Hv Ho].
    assert (x = mkdate y m (d - 1 + 1)).
    { apply date_in_month; try assumption; [lia|].
      rewrite Ho. unfold first_monday, toordinal. cbn [year month day]. lia. }
    subst x. replace (d - 1 + 1) with d in Ek by lia.
    eapply nth_error_In. eassumption.
Qed.

(** *** Navigation and accessors *)

(** C5, for every displayed month but December 9999:
    [_next_month] moves [_date] to the first day of the next month, and
    [_prev_month] after it moves [_date] back to its original value. *)
Theorem C5_next_then_prev_month (w : widget) :
  first_of_month w ->
  _date w <> mkdate MAXYEAR 12 1 ->
  _date (snd (_next_month w))
  = mkdate (fst (_nextmonth (year (_date w)) (month (_date w))))
           (snd (_nextmonth (year (_date w)) (month (_date w)))) 1 /\
  _date (snd (_prev_month (snd (_next_month w)))) = _date w.
Proof.
  intros Hf Hne.
  pose proof (next_month_run w Hf Hne) as Hnext.
  destruct Hf as [(Hy & Hm & Hd) Hd1].
  pose proof (prevmonth_nextmonth (year (_date w)) (month (_date w)) Hm) as Hpn.
  pose proof (nextmonth_valid (year (_date w)) (month (_date w)) Hm) as Hnm.
  assert (Hny : MINYEAR <= fst (_nextmonth (year (_date w)) (month (_date w))) <= MAXYEAR
                /\ (snd (_nextmonth (year (_date w)) (month (_date w))) = 1 ->
                    fst (_nextmonth (year (_date w)) (month (_date w))) <> MINYEAR)).
  { unfold _nextmonth, MINYEAR, MAXYEAR in *.
    destruct (Z.eqb_spec (month (_date w)) 12) as [E|E]; cbn [fst snd]; [|lia].
    assert (year (_date w) <> 9999); [|lia].
    intros Ey. apply Hne. destruct (_date w) as [y m d]. cbn in *. congruence. }
  destruct (_nextmonth (year (_date w)) (month (_date w))) as [ny nm].
  cbn [fst snd] in *. destruct Hny as [Hny Hny1].
  rewrite Hnext.
  set (w1 := snd (_display_calendar (with_date (mkdate ny nm 1) w))).
  assert (E1 : _date w1 = mkdate ny nm 1) by (subst w1; now rewrite display_calendar_date).
  split; [exact E1|].
  assert (Hf1 : first_of_month w1).
  { unfold first_of_month. rewrite E1. split; [|reflexivity].
    pose proof (days_in_month_bounds ny nm Hnm). unfold valid_date, valid_ymd. cbn. lia. }
  assert (Hne1 : _date w1 <> mkdate MINYEAR 1 1).
  { rewrite E1. intros [= E2 E3]. now apply Hny1. }
  pose proof (prev_month_run w1 Hf1 Hne1) as Hprev.
  rewrite E1 in Hprev. cbn [year month] in Hprev. rewrite Hpn in Hprev.
  rewrite Hprev, display_calendar_date. cbn [_date with_date].
  destruct (_date w) as [y m d]. cbn in *. now subst d.
Qed.

(** December 2024 to January 2025 and back. *)
Lemma C5_next_then_prev_month_witness :
  let w := blank (mkdate 2024 12 1) None None "day" "normal" in
  _date (snd (_next_month w)) = mkdate 2025 1 1 /\
  _date (snd (_prev_month (snd (_next_month w)))) = mkdate 2024 12 1.
Proof.
  intros w.
  apply (C5_next_then_prev_month w).
  - repeat split; vm_compute; discriminate.
  - vm_compute. discriminate.
Defined.

(** On December 9999 [_next_month] overflows and leaves [_date] alone, and
    [_prev_month] then goes to November. *)
Lemma C5_counterexample_december_9999 :
  let w := blank (mkdate MAXYEAR 12 1) None None "day" "normal" in
  _next_month w
  = (Raise (mkexn OverflowError "date value out of range"), w) /\
  _date (snd (_prev_month (snd (_next_month w))))
  = mkdate MAXYEAR 11 1.
Proof. split; vm_compute; reflexivity. Qed.

(** C6, accessor by accessor: when the selection mode is ["none"],
    [selection_get] returns [None] whatever date is stored; [get_date] does
    not look at the mode: it returns the empty string when no date is stored
    and the stored date in the locale's format otherwise. *)
Theorem C6_accessors_in_mode_none {L : Locale} (w : widget) :
  chars (selectmode w) = "none" ->
  selection_get w = None /\
  (_sel_date w = None -> get_date w = "") /\
  (forall s, _sel_date w = Some s -> get_date w = strftime_x s).
Proof.
  intros Hmode. unfold selection_get, get_date, py_is. rewrite Hmode.
  rewrite andb_false_r.
  split; [reflexivity|]. split.
  - intros ->. reflexivity.
  - intros s ->. reflexivity.
Qed.

(** Mode ["none"] with 5 January 2020 stored. *)
Lemma C6_accessors_in_mode_none_witness :
  let w := blank (mkdate 2020 1 1) (Some (mkdate 2020 1 5)) None "none" "normal" in
  selection_get w = None /\
  (_sel_date w = None -> @get_date c_locale w = "") /\
  (forall s, _sel_date w = Some s -> @get_date c_locale w = @strftime_x c_locale s).
Proof.
  intros w. apply (@C6_accessors_in_mode_none c_locale w). reflexivity.
Defined.

(** In mode ["none"], [get_date] still returns the stored date. *)
Lemma C6_counterexample_get_date :
  let w := blank (mkdate 2020 1 1) (Some (mkdate 2020 1 5)) None "none" "normal" in
  chars (selectmode w) = "none" /\ @get_date c_locale w = "01/05/20".
Proof. split; reflexivity. Qed.

(** A selection mode that equals ["day"] without being the literal, as a
    string built at run time is, passes for ["none"] in [selection_get]. *)
Example selectmode_built_at_run_time :
  let w := mkwidget (mkdate 2020 1 1) (Some (mkdate 2020 1 5)) None
                    (mkstr "day" false) (lit "normal") false
                    fresh_calendar fresh_week_nbs [] in
  py_eq (selectmode w) "day" = true /\ selection_get w = None.
Proof. split; reflexivity. Qed.

(** C8: when the selection mode is ["none"] or the state is ["disabled"],
    [selection_set] returns without an exception and leaves the whole widget
    as it was, for every argument: the selected date, the displayed month
    and the text variable are unchanged. *)
Theorem C8_selection_set_gated {L : Locale} (w : widget) (a : sel_arg) :
  chars (selectmode w) = "none" \/ chars (state w) = "disabled" ->
  selection_set a w = (Ok tt, w).
Proof.
  intros H. unfold selection_set, bind, get, py_is.
  destruct H as [-> | ->]; cbn [String.eqb Ascii.eqb Bool.eqb];
    rewrite !andb_false_r; reflexivity.
Qed.

(** A disabled widget keeps its selection of 5 January 2020. *)
Lemma C8_selection_set_gated_witness :
  let w := blank (mkdate 2020 1 1) (Some (mkdate 2020 1 5)) (Some "01/05/20")
                 "day" "disabled" in
  @selection_set c_locale (ArgStr "02/03/21") w = (Ok tt, w).
Proof.
  intros w. apply (@C8_selection_set_gated c_locale w). right. reflexivity.
Defined.

(** *** [repr] of a string without quotes, backslashes or control codes *)

Lemma prefix_append (s t : string) : String.prefix s (append s t) = true.
Proof.
  induction s as [|c s IH]; cbn.
  - destruct t; reflexivity.
  - destruct (ascii_dec c c) as [_|N]; [exact IH|contradiction].
Qed.

Lemma is_substring_here (s t : string) : PyStr.is_substring s (append s t) = true.
Proof.
  destruct s as [|c s].
  - destruct t; reflexivity.
  - cbn [append PyStr.is_substring].
    change (String c (append s t)) with (append (String c s) t).
    now rewrite prefix_append.
Qed.

Lemma is_substring_later (s u t : string) :
  PyStr.is_substring s t = true -> PyStr.is_substring s (append u t) = true.
Proof.
  intros H. induction u as [|c u IH]; cbn [append]; [exact H|].
  cbn [PyStr.is_substring]. rewrite IH. apply orb_true_r.
Qed.

Lemma plain_char_repr (q c : ascii) :
  q = PyStr.quote1 \/ q = PyStr.quote2 ->
  PyStr.plain_char c = true -> PyStr.repr_char q c = String c "".
Proof.
  intros Hq Hc. unfold PyStr.plain_char in Hc.
  apply andb_true_iff in Hc. destruct Hc as [Hc Hb].
  apply andb_true_iff in Hc. destruct Hc as [Hc H2].
  apply andb_true_iff in Hc. destruct Hc as [Hp H1].
  apply negb_true_iff in Hb, H1, H2.
  unfold PyStr.repr_char.
  replace (Ascii.eqb c q) with false by (destruct Hq; subst q; congruence).
  rewrite Hb. cbn [orb]. rewrite Hp.
  unfold PyStr.isprintable in Hp.
  destruct (N.eqb_spec (N_of_ascii c) 9) as [E|_];
    [rewrite E in Hp; discriminate|].
  destruct (N.eqb_spec (N_of_ascii c) 10) as [E|_];
    [rewrite E in Hp; discriminate|].
  destruct (N.eqb_spec (N_of_ascii c) 13) as [E|_];
    [rewrite E in Hp; discriminate|].
  reflexivity.
Qed.

Lemma plain_repr_body (q : ascii) (s : string) :
  q = PyStr.quote1 \/ q = PyStr.quote2 ->
  PyStr.plain s = true -> PyStr.repr_body q s = s.
Proof.
  intros Hq. induction s as [|c s IH]; cbn [PyStr.plain PyStr.repr_body];
    [reflexivity|].
  intros H. apply andb_true_iff in H. destruct H as [Hc Hs].
  rewrite (plain_char_repr q c Hq Hc), IH by assumption. reflexivity.
Qed.

(** [repr] only puts quotes around such a string, so the string occurs in
    every message built from its [repr]. *)
Lemma append_assoc (a b c : string) :
  append (append a b) c = append a (append b c).
Proof. induction a as [|x a IH]; cbn; [reflexivity|]. now rewrite IH. Qed.

Lemma plain_in_message (s rest : string) :
  PyStr.plain s = true ->
  PyStr.is_substring s (append (PyStr.repr s) rest) = true.
Proof.
  intros Hs. unfold PyStr.repr.
  assert (H : forall q, q = PyStr.quote1 \/ q = PyStr.quote2 ->
            PyStr.is_substring s
              (append (String q (append (PyStr.repr_body q s) (String q ""))) rest)
            = true).
  { intros q Hq. rewrite (plain_repr_body q s Hq Hs).
    change (append (String q (append s (String q ""))) rest)
      with (append (String q "") (append (append s (String q "")) rest)).
    apply is_substring_later. rewrite append_assoc. apply is_substring_here. }
  destruct (_ && _); apply H; auto.
Qed.

(** What [_textvariable_trace] does with a content that [strptime]
    rejects. *)
Lemma textvariable_trace_unparseable {L : Locale} (w : widget) (txt : string)
      (e : exn) :
  py_is (selectmode w) "day" = true ->
  _textvariable w = Some txt ->
  txt <> "" ->
  strptime_x txt = Raise e ->
  _textvariable_trace w
  = (Raise (mkexn (exn_ty e) (append (PyStr.repr txt) " is not a valid date.")),
     with_textvariable (Some (get_date w)) w).
Proof.
  intros Hmode Htv Hne Hparse.
  unfold _textvariable_trace, bind, get. rewrite Hmode. rewrite Htv.
  destruct (String.eqb_spec txt "") as [->|_]; [contradiction|].
  rewrite Hparse.
  unfold textvariable_write, bind, get, modify, raise, get_date.
  destruct (_sel_date w); cbv beta iota; rewrite Htv; reflexivity.
Qed.

(** C4, in selection mode ["day"]: for every non-empty string that
    [strptime] rejects, written into the bound variable, the update raises an
    exception of the type that the parser raised, whose message is [repr] of
    the string followed by [" is not a valid date."] (so the string occurs in
    it as it is whenever it has no quote, backslash or unprintable
    character); the selected date, the displayed month, the labels and the
    generated events are as before the write, and the variable holds the
    previous selection in the locale's format, or the empty string if there
    was none. *)
Theorem C4_unparseable_text {L : Locale} (w : widget) (old txt : string) (e : exn) :
  py_is (selectmode w) "day" = true ->
  _textvariable w = Some old ->
  txt <> "" ->
  strptime_x txt = Raise e ->
  let msg := append (PyStr.repr txt) " is not a valid date." in
  let restored :=
    match _sel_date w with Some s => strftime_x s | None => "" end in
  textvariable_written txt w
  = (Raise (mkexn (exn_ty e) msg), with_textvariable (Some restored) w) /\
  _sel_date (snd (textvariable_written txt w)) = _sel_date w /\
  _date (snd (textvariable_written txt w)) = _date w /\
  _calendar (snd (textvariable_written txt w)) = _calendar w /\
  _week_nbs (snd (textvariable_written txt w)) = _week_nbs w /\
  generated (snd (textvariable_written txt w)) = generated w /\
  _textvariable (snd (textvariable_written txt w)) = Some restored /\
  (PyStr.plain txt = true -> PyStr.is_substring txt msg = true).
Proof.
  intros Hmode Htv Hne Hparse msg restored.
  assert (E : textvariable_written txt w
              = (Raise (mkexn (exn_ty e) msg), with_textvariable (Some restored) w)).
  { unfold textvariable_written. unfold bind at 1.
    unfold textvariable_write, bind, get, modify. rewrite Htv.
    now rewrite (textvariable_trace_unparseable _ txt e). }
  rewrite E. cbn [snd]. repeat split; try reflexivity.
  intros Hplain. subst msg. now apply plain_in_message.
Qed.

(** The selection is 26 December 2022 and ["not a date"] is written. *)
Lemma C4_unparseable_text_witness :
  let w := blank (mkdate 2022 12 1) (Some (mkdate 2022 12 26)) (Some "12/26/22")
                 "day" "normal" in
  let msg := "'not a date' is not a valid date." in
  @textvariable_written c_locale "not a date" w
  = (Raise (mkexn ValueError msg), with_textvariable (Some "12/26/22") w) /\
  _sel_date (snd (@textvariable_written c_locale "not a date" w)) = _sel_date w /\
  _date (snd (@textvariable_written c_locale "not a date" w)) = _date w /\
  _calendar (snd (@textvariable_written c_locale "not a date" w)) = _calendar w /\
  _week_nbs (snd (@textvariable_written c_locale "not a date" w)) = _week_nbs w /\
  generated (snd (@textvariable_written c_locale "not a date" w)) = generated w /\
  _textvariable (snd (@textvariable_written c_locale "not a date" w))
  = Some "12/26/22" /\
  (PyStr.plain "not a date" = true -> PyStr.is_substring "not a date" msg = true).
Proof.
  intros w msg.
  apply (@C4_unparseable_text c_locale w "12/26/22" "not a date"
           (no_match "not a date")).
  - reflexivity.
  - reflexivity.
  - discriminate.
  - reflexivity.
Defined.

(** In mode ["none"] the write of ["not a date"] raises nothing and the
    variable keeps it; in mode ["day"] the message for the three characters
    a, backslash, b has the backslash doubled, so the string is not in it. *)
Lemma C4_counterexample_mode_none_and_backslash :
  (let w := blank (mkdate 2022 12 1) (Some (mkdate 2022 12 26)) (Some "12/26/22")
                  "none" "normal" in
   @strptime_x c_locale "not a date" = Raise (no_match "not a date") /\
   @textvariable_written c_locale "not a date" w
   = (Ok tt, with_textvariable (Some "not a date") w)) /\
  (let txt := String "a" (String "\" (String "b" "")) in
   let w := blank (mkdate 2022 12 1) None (Some "") "day" "normal" in
   exists msg w',
     @textvariable_written c_locale txt w = (Raise (mkexn ValueError msg), w') /\
     PyStr.is_substring txt msg = false).
Proof.
  split.
  - split; reflexivity.
  - eexists. eexists. split; [vm_compute; reflexivity|]. vm_compute. reflexivity.
Qed.

(** *** Reachable states *)

(** A write that leaves the property alone, the property not reading the
    written field. *)
Ltac preserves_frame :=
  apply preserves_modify; let H := fresh in intros ? H; exact H.

Ltac preserves_labels HL :=
  first [ apply (display_calendar_labels _ HL)
        | apply (display_selection_labels _ HL)
        | apply (remove_selection_labels _ HL) ].

Section FirstOfMonth.

Context {L : Locale}.

Lemma next_month_first : preserves first_of_month _next_month.
Proof.
  intros w Hf.
  destruct (date_eq_dec (_date w) (mkdate MAXYEAR 12 1)) as [E|N].
  - now rewrite next_month_overflow.
  - pose proof (next_month_run w Hf N) as Hrun.
    destruct Hf as [(Hy & Hm & Hd) Hd1].
    pose proof (nextmonth_valid (year (_date w)) (month (_date w)) Hm) as Hnm.
    assert (Hny : MINYEAR <= fst (_nextmonth (year (_date w)) (month (_date w))) <= MAXYEAR).
    { unfold _nextmonth, MINYEAR, MAXYEAR in *.
      destruct (Z.eqb_spec (month (_date w)) 12) as [E|E]; cbn [fst]; [|lia].
      assert (year (_date w) <> 9999); [|lia].
      intros Ey. apply N. destruct (_date w) as [y m d]. cbn in *. congruence. }
    destruct (_nextmonth (year (_date w)) (month (_date w))) as [ny nm].
    cbn [fst snd] in *. rewrite Hrun.
    apply (display_calendar_labels _ first_of_month_labels).
    pose proof (days_in_month_bounds ny nm Hnm).
    apply with_date_first; [|reflexivity]. unfold valid_date, valid_ymd. cbn. lia.
Qed.

Lemma prev_month_first : preserves first_of_month _prev_month.
Proof.
  intros w Hf.
  destruct (date_eq_dec (_date w) (mkdate MINYEAR 1 1)) as [E|N].
  - now rewrite prev_month_overflow.
  - pose proof (prev_month_run w Hf N) as Hrun.
    destruct Hf as [(Hy & Hm & Hd) Hd1].
    pose proof (prevmonth_valid (year (_date w)) (month (_date w)) Hm) as Hpm.
    assert (Hpy : MINYEAR <= fst (_prevmonth (year (_date w)) (month (_date w))) <= MAXYEAR).
    { unfold _prevmonth, MINYEAR, MAXYEAR in *.
      destruct (Z.eqb_spec (month (_date w)) 1) as [E|E]; cbn [fst]; [|lia].
      assert (year (_date w) <> 1); [|lia].
      intros Ey. apply N. destruct (_date w) as [y m d]. cbn in *. congruence. }
    destruct (_prevmonth (year (_date w)) (month (_date w))) as [py pm].
    cbn [fst snd] in *. rewrite Hrun.
    apply (display_calendar_labels _ first_of_month_labels).
    pose proof (days_in_month_bounds py pm Hpm).
    apply with_date_first; [|reflexivity]. unfold valid_date, valid_ymd. cbn. lia.
Qed.

Lemma replace_year_first (w : widget) (y : Z) :
  first_of_month w ->
  first_of_month
    (snd ((d <- lift (replace_year (_date w) y) ;;
           modify (with_date d) ;; _display_calendar) w)).
Proof.
  intros Hf. unfold bind at 1. unfold lift.
  destruct (replace_year (_date w) y) as [d|e] eqn:E; [|exact Hf].
  apply date_new_inv in E. destruct E as [-> Hv].
  unfold bind, modify.
  apply (display_calendar_labels _ first_of_month_labels).
  apply with_date_first; [exact Hv|apply Hf].
Qed.

Lemma next_year_first : preserves first_of_month _next_year.
Proof. intros w Hf. now apply replace_year_first. Qed.

Lemma prev_year_first : preserves first_of_month _prev_year.
Proof. intros w Hf. now apply replace_year_first. Qed.

(** [self._date = d.replace(day=1)], then anything that keeps the
    invariant. *)
Lemma replace_day_then {A : Type} (x : date) (k : M A) :
  preserves first_of_month k ->
  preserves first_of_month
    (d1 <- lift (replace_day x 1) ;; modify (with_date d1) ;; k).
Proof.
  intros Hk. apply preserves_bind_lift. intros d1 Hd1.
  apply replace_day_first in Hd1. destruct Hd1 as [Hv H1].
  apply preserves_bind; [|intros _; exact Hk].
  apply preserves_modify. intros w _. now apply with_date_first.
Qed.

Lemma textvariable_write_first (s : string) :
  preserves first_of_month (textvariable_write s).
Proof. unfold textvariable_write. repeat first [preserves_frame | preserves_step]. Qed.

Lemma textvariable_trace_first : preserves first_of_month _textvariable_trace.
Proof.
  unfold _textvariable_trace.
  repeat first [ apply replace_day_then
               | apply textvariable_write_first
               | preserves_labels first_of_month_labels
               | preserves_frame
               | preserves_step ].
Qed.

Lemma textvariable_set_first (s : string) :
  preserves first_of_month (textvariable_set s).
Proof.
  unfold textvariable_set.
  repeat first [ apply textvariable_write_first | apply textvariable_trace_first
               | preserves_step ].
Qed.

Lemma on_click_first (r c : Z) : preserves first_of_month (_on_click r c).
Proof.
  unfold _on_click, event_generate.
  repeat first [ apply prev_month_first | apply next_month_first
               | apply textvariable_set_first
               | preserves_labels first_of_month_labels
               | preserves_frame
               | preserves_step ].
Qed.

Lemma selection_set_first (a : sel_arg) : preserves first_of_month (selection_set a).
Proof.
  unfold selection_set.
  repeat first [ apply replace_day_then
               | apply textvariable_set_first
               | preserves_labels first_of_month_labels
               | preserves_frame
               | preserves_step ].
Qed.

Lemma init_first (kw : init_args) (w : widget) :
  __init__ kw = Ok w -> first_of_month w.
Proof.
  unfold __init__. cbv zeta. intros H.
  match type of H with
  | rbind ?r _ = _ => destruct r as [sel_tv|]; [|discriminate]
  end.
  cbn [rbind] in H.
  match type of H with
  | rbind ?r _ = _ => destruct r as [d1|] eqn:Ed; [|discriminate]
  end.
  cbn [rbind] in H.
  destruct (negb _); [discriminate|].
  apply date_new_inv in Ed. destruct Ed as [-> Hv].
  match type of H with
  | match ?t with _ => _ end = _ =>
      assert (Hp : first_of_month (snd t));
        [|destruct t as [[u|e] w']; [injection H as <-; exact Hp|discriminate]]
  end.
  apply preserves_bind.
  - unfold __setitem__. repeat first [preserves_frame | preserves_step].
  - intros _. apply (display_calendar_labels _ first_of_month_labels).
  - split; [exact Hv|reflexivity].
Qed.

End FirstOfMonth.

(** C10: in every reachable state, [_date] is a valid date whose day is 1:
    the construction establishes it, and the four navigation callbacks, a
    click, [selection_set], a write of the bound variable and a change of an
    option keep it, whether they end with an exception or not. *)
Theorem C10_displayed_month_is_first_day {L : Locale} (w : widget) :
  reachable w -> valid_date (_date w) /\ day (_date w) = 1.
Proof.
  intros H. change (first_of_month w). induction H.
  - eapply init_first; eassumption.
  - now apply prev_month_first.
  - now apply next_month_first.
  - now apply prev_year_first.
  - now apply next_year_first.
  - revert IHreachable. generalize w. change (preserves first_of_month (user_click r c)).
    unfold user_click.
    repeat first [apply on_click_first | preserves_step].
  - now apply selection_set_first.
  - revert IHreachable. generalize w.
    change (preserves first_of_month (textvariable_written s)).
    unfold textvariable_written.
    repeat first [ apply textvariable_write_first | apply textvariable_trace_first
                 | preserves_step ].
  - revert IHreachable. generalize w.
    change (preserves first_of_month (__setitem__ key value)).
    unfold __setitem__. repeat first [preserves_frame | preserves_step].
Qed.


Lemma bind_ok {A B : Type} (m : M A) (k : A -> M B) (w w1 : widget) (a : A) :
  m w = (Ok a, w1) -> bind m k w = k a w1.
Proof. intros E. unfold bind. now rewrite E. Qed.

Lemma bind_raise {A B : Type} (m : M A) (k : A -> M B) (w w1 : widget) (e : exn) :
  m w = (Raise e, w1) -> bind m k w = (Raise e, w1).
Proof. intros E. unfold bind. now rewrite E. Qed.

(** *** What generates an event *)


Lemma generated_labels (g : list event) : label_stable (generated_is g).
Proof. apply ignores_labels_stable. split; intros ? w H; exact H. Qed.



Section Events.

Context {L : Locale}.

Section Keeps.

Variable P : widget -> Prop.
Hypothesis HL : label_stable P.
Hypothesis HD : forall d w, P w -> P (with_date d w).





End Keeps.

Variable g : list event.

Lemma textvariable_write_generated (s : string) : preserves (generated_is g) (textvariable_write s).
Proof. unfold textvariable_write. repeat first [preserves_frame | preserves_step]. Qed.

Lemma textvariable_trace_generated : preserves (generated_is g) _textvariable_trace.
Proof.
  unfold _textvariable_trace.
  repeat first [ apply textvariable_write_generated
               | preserves_labels (generated_labels g)
               | preserves_frame
               | preserves_step ].
Qed.


Lemma textvariable_written_generated (s : string) :
  preserves (generated_is g) (textvariable_written s).
Proof.
  unfold textvariable_written.
  repeat first [ apply textvariable_write_generated
               | apply textvariable_trace_generated | preserves_step ].
Qed.


End Events.

(** *** The shape of the labels in reachable states *)

Section Shape.

Context {L : Locale}.







Lemma fresh_shape (d : date) (s : option date) (t : option string)
      (mode st : pystr) (b : bool) :
  shape (mkwidget d s t mode st b fresh_calendar fresh_week_nbs []).
Proof.
  unfold shape. cbn. repeat split. repeat constructor.
Qed.




End Shape.

(** *** Clicks *)

Section Click.

Context {L : Locale}.




End Click.


(** *** Construction *)

Lemma model_labels s d t : label_stable (model_is s d t).
Proof. apply ignores_labels_stable. split; intros ? w H; exact H. Qed.

(** C7, for a month that can be displayed and a day that is a C int:
    constructing the widget with a year in 1..9999 and a month in 1..12,
    November and December 9999 apart, with an explicit day between
    [INT_MIN] and [INT_MAX] that is not a day of that month, and with a
    valid selection mode and state, raises no exception: the widget has no
    selection, its displayed month is the given one and the bound variable
    keeps its content. *)
Theorem C7_invalid_day_clears_selection {L : Locale} (kw : init_args) (y m d : Z) :
  kw_year kw = Some y -> kw_month kw = Some m -> kw_day kw = Some d ->
  MINYEAR <= y <= MAXYEAR -> 1 <= m <= 12 -> y < MAXYEAR \/ m <= 10 ->
  INT_MIN <= d <= INT_MAX ->
  ~ (1 <= d <= _days_in_month y m) ->
  chars (pop (kw_selectmode kw) (lit "day")) = "none"
  \/ chars (pop (kw_selectmode kw) (lit "day")) = "day" ->
  chars (pop (kw_state kw) (lit "normal")) = "normal"
  \/ chars (pop (kw_state kw) (lit "normal")) = "disabled" ->
  exists w,
    __init__ kw = Ok w /\
    _sel_date w = None /\ _date w = mkdate y m 1 /\
    _textvariable w = kw_textvariable kw.
Proof.
  intros Ey Em Ed Hy Hm Hmax Hfit Hd Hmode Hstate.
  unfold __init__. cbv zeta. rewrite Ey, Em, Ed. cbn [given pop negb orb andb].
  destruct (date_new y m d) as [x|e] eqn:Enew.
  { apply date_new_inv in Enew. destruct Enew as [_ (_ & _ & Hv)]. contradiction. }
  apply date_new_raises in Enew. destruct Enew as [_ Ety].
  rewrite Ety by (unfold fits_int, INT_MIN, INT_MAX, MINYEAR, MAXYEAR in *; lia).
  cbn [rbind fst snd].
  pose proof (days_in_month_bounds y m Hm) as Hnd.
  rewrite (date_new_ok y m 1) by (unfold valid_ymd; lia). cbn [rbind].
  set (mode := pop (kw_selectmode kw) (lit "day")).
  set (st := pop (kw_state kw) (lit "normal")).
  assert (Emode : negb (py_eq mode "none" || py_eq mode "day") = false).
  { unfold py_eq. fold mode in Hmode. destruct Hmode as [-> | ->]; reflexivity. }
  rewrite Emode.
  set (w0 := mkwidget _ _ _ _ _ _ _ _ _).
  assert (E1 : __setitem__ Kstate st w0 = (Ok tt, with_state st w0)).
  { unfold __setitem__, py_eq. fold st in Hstate.
    destruct Hstate as [-> | ->]; reflexivity. }
  rewrite (bind_ok _ _ _ _ _ E1).
  set (w1 := with_state st w0).
  assert (Hs1 : shape w1) by apply fresh_shape.
  assert (Hf1 : first_of_month w1).
  { split; [|reflexivity]. unfold valid_date, valid_ymd. cbn. lia. }
  destruct (display_calendar_ok w1 Hs1 Hf1 Hmax) as (w2 & E2 & _).
  pose proof (display_calendar_labels _
                (model_labels None (mkdate y m 1) (kw_textvariable kw)) w1
                (conj eq_refl (conj eq_refl eq_refl))) as H2.
  rewrite E2 in H2 |- *. exists w2. split; [reflexivity|exact H2].
Qed.

(** [Calendar(year=2023, month=2, day=30)]. *)
Lemma C7_invalid_day_clears_selection_witness :
  let kw := mkargs (Some 2023) (Some 2) (Some 30) None None None (mkdate 2026 11 3) in
  exists w,
    @__init__ c_locale kw = Ok w /\
    _sel_date w = None /\ _date w = mkdate 2023 2 1 /\
    _textvariable w = kw_textvariable kw.
Proof.
  intros kw.
  apply (@C7_invalid_day_clears_selection c_locale kw 2023 2 30);
    try reflexivity; unfold MINYEAR, MAXYEAR, INT_MIN, INT_MAX; try lia.
  - vm_compute. intros [_ H]. apply H. reflexivity.
  - right. reflexivity.
  - left. reflexivity.
Defined.

(** With month 13 no day makes a date, and [date(2023, 13, 1)] after the
    [try] raises; with 32 December 9999 the first display raises; and a day
    of 2**31 is no C int: [date] raises [OverflowError], which the [except
    ValueError] of the constructor lets through. *)
Lemma C7_counterexample_month_13_and_december_9999 :
  (let kw := mkargs (Some 2023) (Some 13) (Some 1) None None None (mkdate 2026 11 3) in
   date_new 2023 13 1 = Raise (mkexn ValueError "month must be in 1..12") /\
   @__init__ c_locale kw = Raise (mkexn ValueError "month must be in 1..12")) /\
  (let kw := mkargs (Some 9999) (Some 12) (Some 32) None None None (mkdate 2026 11 3) in
   date_new 9999 12 32 = Raise (mkexn ValueError "day is out of range for month") /\
   @__init__ c_locale kw = Raise (mkexn ValueError "year 10000 is out of range")) /\
  (let kw := mkargs (Some 2023) (Some 2) (Some 2147483648) None None None
                    (mkdate 2026 11 3) in
   ~ (1 <= 2147483648 <= _days_in_month 2023 2) /\
   @__init__ c_locale kw
   = Raise (mkexn OverflowError "signed integer is greater than maximum")).
Proof.
  repeat split; try (vm_compute; reflexivity).
  vm_compute. intros [_ H]. apply H. reflexivity.
Qed.

(** *** The week numbers *)

Lemma configure_day_week_nbs (l : list (option Z)) (r c : Z) (f : label -> label) :
  preserves (week_nbs_is l) (configure_day r c f).
Proof. unfold configure_day. repeat first [preserves_frame | preserves_step]. Qed.

Lemma display_selection_week_nbs (l : list (option Z)) :
  preserves (week_nbs_is l) _display_selection.
Proof.
  unfold _display_selection.
  repeat first [apply configure_day_week_nbs | preserves_step].
Qed.

(** One row of [_display_calendar]: the week number of the row is written,
    and the days of the row leave the week numbers alone. *)
Lemma week_row (i v : Z) (inner : M unit) (w w1 : widget) :
  (forall l, preserves (week_nbs_is l) inner) ->
  0 <= i < Z.of_nat (List.length (_week_nbs w)) ->
  (configure_week_nb i v ;; inner) w = (Ok tt, w1) ->
  _week_nbs w1 = replace_nth (Z.to_nat i) (_week_nbs w) (Some v).
Proof.
  intros Hinner Hi. unfold bind at 1. unfold configure_week_nb, bind, get, lift, modify.
  rewrite setitem_ok by assumption.
  set (l := replace_nth (Z.to_nat i) (_week_nbs w) (Some v)).
  intros H. pose proof (Hinner l (with_week_nbs l w) eq_refl) as Hl.
  rewrite H in Hl. exact Hl.
Qed.

Lemma for_cons_ok {A : Type} (a : A) (l : list A) (body : A -> M unit)
      (w w' : widget) :
  for_ (a :: l) body w = (Ok tt, w') ->
  exists w1, body a w = (Ok tt, w1) /\ for_ l body w1 = (Ok tt, w').
Proof.
  cbn [for_]. unfold bind at 1.
  destruct (body a w) as [[[]|e] w1]; [|discriminate].
  intros H. exists w1. split; [reflexivity|exact H].
Qed.

(** The week-number labels after a display: row [i] shows
    [(W + i - 1) mod max(W, 52) + 1], [W] being the ISO week of [_date]. *)
Lemma display_calendar_week_nbs (w w' : widget) :
  shape w -> _display_calendar w = (Ok tt, w') ->
  _week_nbs w'
  = map (fun i => Some ((isoweek (_date w) + i - 1) mod Z.max (isoweek (_date w)) 52 + 1))
        (range 0 6).
Proof.
  intros (_ & _ & Hlen). unfold _display_calendar.
  rewrite (bind_ok _ _ w w w) by reflexivity.
  unfold bind at 1. unfold lift at 1.
  destruct (shown_dates _ _) as [G|e]; [|discriminate].
  set (W := isoweek (_date w)).
  unfold bind at 1.
  match goal with
  | |- context [for_ (range 0 6) ?body w] =>
      destruct (for_ (range 0 6) body w) as [[[]|e] w6] eqn:Eloop; [|discriminate]
  end.
  intros Hsel.
  pose proof (display_selection_week_nbs (_week_nbs w6) w6 eq_refl) as Hw'.
  rewrite Hsel in Hw'. cbn [snd] in Hw'. unfold week_nbs_is in Hw'. rewrite Hw'.
  change (range 0 6) with [0; 1; 2; 3; 4; 5] in Eloop |- *.
  assert (Hinner : forall i_week l,
            preserves (week_nbs_is l)
              (for_ (range 0 7) (fun i_day =>
                 wd <- lift (week_days i_day) ;;
                 week <- lift (getitem G i_week) ;;
                 cell <- lift (getitem week i_day) ;;
                 om <- lift (months (month (_date w))
                                    (if month (_date w) + 1 =? 13 then 1
                                     else month (_date w) + 1)
                                    ((month (_date w) - 2) mod 12 + 1)
                                    (month cell)) ;;
                 configure_day i_week i_day
                   (fun _ => mklabel (Some (day cell)) (style_of wd om))))).
  { intros i_week l.
    repeat first [apply configure_day_week_nbs | preserves_step]. }
  clearbody W.
  destruct (_week_nbs w) as [|a0 [|a1 [|a2 [|a3 [|a4 [|a5 [|]]]]]]] eqn:E0;
    try discriminate.
  apply for_cons_ok in Eloop. destruct Eloop as (w1 & E1 & Eloop).
  apply week_row in E1; [|apply Hinner|rewrite E0; cbn; lia].
  rewrite E0 in E1. change (Z.to_nat 0) with 0%nat in E1. cbn [replace_nth] in E1.
  apply for_cons_ok in Eloop. destruct Eloop as (w2 & E2 & Eloop).
  apply week_row in E2; [|apply Hinner|rewrite E1; cbn; lia].
  rewrite E1 in E2. change (Z.to_nat 1) with 1%nat in E2. cbn [replace_nth] in E2.
  apply for_cons_ok in Eloop. destruct Eloop as (w3 & E3 & Eloop).
  apply week_row in E3; [|apply Hinner|rewrite E2; cbn; lia].
  rewrite E2 in E3. change (Z.to_nat 2) with 2%nat in E3. cbn [replace_nth] in E3.
  apply for_cons_ok in Eloop. destruct Eloop as (w4 & E4 & Eloop).
  apply week_row in E4; [|apply Hinner|rewrite E3; cbn; lia].
  rewrite E3 in E4. change (Z.to_nat 3) with 3%nat in E4. cbn [replace_nth] in E4.
  apply for_cons_ok in Eloop. destruct Eloop as (w5 & E5 & Eloop).
  apply week_row in E5; [|apply Hinner|rewrite E4; cbn; lia].
  rewrite E4 in E5. change (Z.to_nat 4) with 4%nat in E5. cbn [replace_nth] in E5.
  apply for_cons_ok in Eloop. destruct Eloop as (w7 & E6 & Eloop).
  apply week_row in E6; [|apply Hinner|rewrite E5; cbn; lia].
  rewrite E5 in E6. change (Z.to_nat 5) with 5%nat in E6. cbn [replace_nth] in E6.
  cbn [for_] in Eloop. injection Eloop as <-.
  rewrite E6. reflexivity.
Qed.

Lemma mod_succ (n M : Z) :
  0 < M ->
  (n + 1) mod M = n mod M + 1 \/ (n + 1) mod M = 0 /\ n mod M = M - 1.
Proof.
  intros HM.
  pose proof (Z.div_mod n M ltac:(lia)) as E.
  pose proof (Z.mod_pos_bound n M HM) as Hr.
  destruct (Z.eq_dec (n mod M) (M - 1)) as [Emax|Hlt].
  - right. split; [|assumption]. symmetry.
    apply (Z.mod_unique (n + 1) M (n / M + 1) 0); [lia|]. nia.
  - left. symmetry.
    apply (Z.mod_unique (n + 1) M (n / M) (n mod M + 1)); [lia|]. nia.
Qed.

Lemma mod_after_zero (n M k : Z) :
  0 <= k < M -> n mod M = 0 -> (n + k) mod M = k.
Proof.
  intros Hk E.
  pose proof (Z.div_mod n M ltac:(lia)) as Hn. rewrite E in Hn.
  symmetry. apply (Z.mod_unique (n + k) M (n / M) k); [lia|]. nia.
Qed.

(** From one row to the next the label grows by one or starts again at
    one. *)
Lemma week_label_step (W i : Z) :
  1 <= W ->
  let f := fun i => (W + i - 1) mod Z.max W 52 + 1 in
  f (i + 1) = f i + 1 \/ f (i + 1) = 1 /\ f i = Z.max W 52.
Proof.
  intros HW f. subst f. cbv beta.
  replace (W + (i + 1) - 1) with (W + i - 1 + 1) by lia.
  destruct (mod_succ (W + i - 1) (Z.max W 52) ltac:(lia)) as [E|[E1 E2]]; lia.
Qed.

(** Within the six rows the label starts again at most once: after a row
    labelled 1 that follows a row not labelled 0, the labels grow by one. *)
Lemma week_label_wraps_once (W i j : Z) :
  1 <= W -> 0 <= i < j -> j <= 4 ->
  let f := fun i => (W + i - 1) mod Z.max W 52 + 1 in
  f (i + 1) = 1 -> f (j + 1) = f j + 1.
Proof.
  intros HW Hij Hj f. subst f. cbv beta. intros E.
  assert (E0 : (W + i) mod Z.max W 52 = 0).
  { replace (W + (i + 1) - 1) with (W + i) in E by lia. lia. }
  replace (W + (j + 1) - 1) with (W + i + (j - i)) by lia.
  replace (W + j - 1) with (W + i + (j - 1 - i)) by lia.
  rewrite !mod_after_zero by (try assumption; lia). lia.
Qed.

(** *** A widget to run *)

Lemma february_2023_built :
  @__init__ c_locale february_2023 = Ok february_2023_widget.
Proof. vm_compute. reflexivity. Qed.

Lemma C10_displayed_month_is_first_day_witness :
  let w := snd (_next_month february_2023_widget) in
  valid_date (_date w) /\ day (_date w) = 1.
Proof.
  intros w.
  apply (@C10_displayed_month_is_first_day c_locale w).
  apply reach_next_month.
  apply (@reach_init c_locale february_2023). vm_compute. reflexivity.
Defined.

(** A click on the label of 7 February 2023 selects that day and generates
    the event. *)
Example click_selects_7_february :
  exists w',
    @user_click c_locale 1 1 february_2023_widget = (Ok tt, w') /\
    _sel_date w' = Some (mkdate 2023 2 7) /\
    generated w' = [CalendarSelected].
Proof.
  eexists. split; [vm_compute; reflexivity|]. split; reflexivity.
Qed.

(** *** What the labels show *)

Lemma replace_nth_same {A : Type} (n : nat) (l : list A) (x : A) :
  (n < List.length l)%nat -> nth_error (replace_nth n l x) n = Some x.
Proof.
  revert n. induction l as [|a l IH]; intros [|n] H; cbn in *; try lia.
  - reflexivity.
  - apply IH. lia.
Qed.

Lemma replace_nth_other {A : Type} (n k : nat) (l : list A) (x : A) :
  k <> n -> nth_error (replace_nth n l x) k = nth_error l k.
Proof.
  revert n k. induction l as [|a l IH]; intros [|n] [|k] H; cbn; try reflexivity.
  - contradiction.
  - apply IH. lia.
Qed.

Lemma getitem_replace_same {A : Type} (l : list A) (i : Z) (x : A) :
  0 <= i < Z.of_nat (List.length l) ->
  getitem (replace_nth (Z.to_nat i) l x) i = Ok x.
Proof.
  intros H. apply getitem_nth; [lia|]. apply replace_nth_same. lia.
Qed.

Lemma getitem_replace_other {A : Type} (l : list A) (i k : Z) (x : A) :
  0 <= i -> 0 <= k -> k <> i ->
  getitem (replace_nth (Z.to_nat i) l x) k = getitem l k.
Proof.
  intros Hi Hk Hne. unfold getitem, norm_index.
  rewrite replace_nth_length.
  destruct (Z.ltb_spec k 0); [lia|].
  destruct ((0 <=? k) && (k <? Z.of_nat (List.length l))); [|reflexivity].
  rewrite replace_nth_other by lia. reflexivity.
Qed.

(** With the labels in shape, configuring the label at row [r], column [c]
    changes that label and no other. *)
Lemma configure_day_label (r c : Z) (f : label -> label) (w : widget) :
  shape w -> 0 <= r < 6 -> 0 <= c < 7 ->
  exists w' old,
    configure_day r c f w = (Ok tt, w') /\
    label_at w r c = Ok old /\
    label_at w' r c = Ok (f old) /\
    (forall r' c', 0 <= r' -> 0 <= c' -> r' <> r \/ c' <> c ->
       label_at w' r' c' = label_at w r' c').
Proof.
  intros (H6 & H7 & Hw) Hr Hc.
  unfold configure_day, bind, get, lift, modify, label_at.
  destruct (getitem_ok (_calendar w) r ltac:(lia)) as (row & Hrow & Hnth).
  rewrite Hrow. cbn [rbind].
  assert (Hr7 : List.length row = 7%nat).
  { rewrite Forall_forall in H7. apply H7. eapply nth_error_In. eassumption. }
  destruct (getitem_ok row c ltac:(lia)) as (lbl & Hlbl & _).
  rewrite Hlbl. rewrite setitem_ok by lia. rewrite setitem_ok by lia.
  eexists. exists lbl. split; [reflexivity|]. split; [reflexivity|].
  cbn [_calendar with_calendar]. split.
  - rewrite getitem_replace_same by lia. cbn [rbind].
    apply getitem_replace_same. lia.
  - intros r' c' Hr' Hc' Hne.
    destruct (Z.eq_dec r' r) as [->|Hrr].
    + rewrite getitem_replace_same by lia. rewrite Hrow. cbn [rbind].
      apply getitem_replace_other; lia.
    + rewrite getitem_replace_other by lia. reflexivity.
Qed.

(** A loop whose body succeeds and extends an invariant on the elements
    done so far. *)
Lemma for_invariant {A : Type} (I : list A -> widget -> Prop) (body : A -> M unit)
      (l : list A) :
  (forall done a w, In a l -> I done w ->
     exists w', body a w = (Ok tt, w') /\ I (done ++ [a]) w') ->
  forall done w, I done w ->
    exists w', for_ l body w = (Ok tt, w') /\ I (done ++ l) w'.
Proof.
  induction l as [|a l IH]; intros Hb done w Hw; cbn [for_].
  - exists w. rewrite app_nil_r. split; [reflexivity|assumption].
  - destruct (Hb done a w ltac:(now left) Hw) as (w1 & E1 & Hw1).
    destruct (IH ltac:(intros; apply Hb; [now right|assumption]) (done ++ [a]) w1 Hw1)
      as (w2 & E2 & Hw2).
    exists w2. rewrite <- app_assoc in Hw2. split; [|exact Hw2].
    unfold bind. rewrite E1. exact E2.
Qed.

Lemma shows_same_label (m : Z) (w w' : widget) (r c : Z) (x : date) :
  label_at w' r c = label_at w r c -> shows m w r c x -> shows m w' r c x.
Proof. intros E (lbl & Hl & H). exists lbl. rewrite E. auto. Qed.

Lemma configure_week_nb_label_at (i n : Z) (w w' : widget) (r c : Z) :
  configure_week_nb i n w = (Ok tt, w') -> label_at w' r c = label_at w r c.
Proof.
  unfold configure_week_nb, bind, get, lift, modify.
  destruct (setitem _ _ _); [|discriminate]. intros [= <-]. reflexivity.
Qed.

(** Highlighting keeps what every label shows. *)
Lemma display_selection_shows (m : Z) (G : list (list date)) (w : widget) :
  shape w ->
  (forall r c x, 0 <= r < 6 -> 0 <= c < 7 -> cell G r c = Ok x -> shows m w r c x) ->
  exists w',
    _display_selection w = (Ok tt, w') /\
    (forall r c x, 0 <= r < 6 -> 0 <= c < 7 -> cell G r c = Ok x ->
       shows m w' r c x).
Proof.
  intros Hs Hshow. unfold _display_selection, bind, get.
  destruct (_sel_date w) as [s|]; [|exists w; split; [reflexivity|assumption]].
  destruct (year s =? year (_date w));
    [|exists w; split; [reflexivity|assumption]].
  pose proof (isocalendar_weekday_range s) as Hd. unfold isoweekday in Hd.
  destruct (isocalendar s) as [[iy iw] d]. cbn [snd] in Hd.
  destruct ((0 <=? _) && (_ <? 6)) eqn:E;
    [|exists w; split; [reflexivity|assumption]].
  apply andb_true_iff in E. destruct E as [E1 E2].
  apply Z.leb_le in E1. apply Z.ltb_lt in E2.
  match goal with
  | |- context [configure_day ?r ?c ?f w] =>
      destruct (configure_day_label r c f w Hs ltac:(lia) ltac:(lia))
        as (w' & old & E & Hold & Hnew & Hother);
      set (r0 := r) in *; set (c0 := c) in *
  end.
  exists w'. split; [exact E|].
  intros r c x Hr Hc Hx.
  destruct (Z.eq_dec r r0) as [->|Hrr]; [destruct (Z.eq_dec c c0) as [->|Hcc]|].
  - destruct (Hshow r0 c0 x Hr Hc Hx) as (lbl & Hl & Ht & _).
    assert (lbl = old) by congruence. subst lbl.
    exists (set_style sel old). split; [exact Hnew|]. split; [exact Ht|].
    left. reflexivity.
  - apply (shows_same_label m w); [|now apply Hshow]. apply Hother; lia.
  - apply (shows_same_label m w); [|now apply Hshow]. apply Hother; lia.
Qed.

(** After a display that the calendar can make, every label shows the day of
    its cell of the grid. *)
Theorem display_calendar_shows (w : widget) :
  shape w -> first_of_month w ->
  year (_date w) < MAXYEAR \/ month (_date w) <= 10 ->
  exists w' G,
    _display_calendar w = (Ok tt, w') /\
    shown_dates (year (_date w)) (month (_date w)) = Ok G /\
    (forall r c, 0 <= r < 6 -> 0 <= c < 7 ->
       exists x, cell G r c = Ok x /\ shows (month (_date w)) w' r c x).
Proof.
  intros Hs [(Hy & Hm & _) _] Hmax.
  destruct (shown_dates_spec _ _ Hy Hm Hmax) as (G & HG & Hgrid).
  unfold _display_calendar. unfold bind at 1. unfold get at 1.
  unfold bind at 1. unfold lift at 1. rewrite HG.
  remember (year (_date w)) as y eqn:Ey. remember (month (_date w)) as m eqn:Em.
  assert (Hcell : forall r c, 0 <= r < 6 -> 0 <= c < 7 ->
            exists row x, getitem G r = Ok row /\ getitem row c = Ok x /\
                          cell G r c = Ok x /\ valid_date x /\
                          first_monday y m <= toordinal x < first_monday y m + 42).
  { intros r c Hr Hc.
    destruct (grid_cell _ G r c Hgrid Hr Hc) as (row & x & Erow & Ex & Hv & Ho).
    exists row, x. unfold cell. rewrite Erow. cbn [rbind].
    split; [reflexivity|]. split; [assumption|]. split; [assumption|].
    split; [assumption|lia]. }
  unfold bind at 1.
  match goal with
  | |- context [for_ (range 0 6) ?body w] =>
      destruct (for_invariant
                  (fun done w0 =>
                     shape w0 /\
                     forall r c x, 0 <= r < 6 -> 0 <= c < 7 -> cell G r c = Ok x ->
                                   In r done -> shows m w0 r c x)
                  body (range 0 6)) with (done := @nil Z) (w := w)
        as (w1 & E1 & Hs1 & Hshow1)
  end.
  - intros rows i_week w0 Hi [Hs0 Hrows]. apply in_range in Hi.
    destruct (configure_week_nb_ok i_week
                ((isoweek (_date w) + i_week - 1) mod Z.max (isoweek (_date w)) 52 + 1)
                w0 Hs0 ltac:(lia)) as (w0' & E0).
    unfold bind at 1. rewrite E0.
    assert (Hs0' : shape w0').
    { pose proof (proj2 shape_labels i_week
                    ((isoweek (_date w) + i_week - 1) mod Z.max (isoweek (_date w)) 52 + 1)
                    w0 Hs0) as H.
      rewrite E0 in H. exact H. }
    match goal with
    | |- context [for_ (range 0 7) ?body w0'] =>
        destruct (for_invariant
                    (fun done w2 =>
                       shape w2 /\
                       forall r c x, 0 <= r < 6 -> 0 <= c < 7 -> cell G r c = Ok x ->
                                     In r rows \/ (r = i_week /\ In c done) ->
                                     shows m w2 r c x)
                    body (range 0 7)) with (done := @nil Z) (w := w0')
          as (w3 & E3 & Hs3 & Hshow3)
    end.
    + intros cols i_day w2 Hd [Hs2 Hcols]. apply in_range in Hd.
      destruct (Hcell i_week i_day ltac:(lia) ltac:(lia))
        as (row & x & Erow & Ex & Ecell & Hxv & Hxo).
      unfold bind at 1. unfold lift at 1. unfold week_days.
      replace ((0 <=? i_day) && (i_day <? 7)) with true
        by (symmetry; apply andb_true_iff; split; [apply Z.leb_le|apply Z.ltb_lt]; lia).
      unfold bind at 1. unfold lift at 1. rewrite Erow.
      unfold bind at 1. unfold lift at 1. rewrite Ex.
      unfold bind at 1. unfold lift at 1.
      rewrite (months_ok y m x Hm Hxv) by lia.
      match goal with
      | |- context [configure_day i_week i_day ?f w2] =>
          destruct (configure_day_label i_week i_day f w2 Hs2 ltac:(lia) ltac:(lia))
            as (w4 & old & E4 & _ & Hnew & Hother);
          pose proof (proj1 shape_labels i_week i_day f w2 Hs2) as Hs4
      end.
      rewrite E4 in Hs4 |- *. exists w4. split; [reflexivity|]. split; [exact Hs4|].
      intros r c x' Hr Hc Hx' Hin.
      destruct (Z.eq_dec r i_week) as [->|Hrr];
        [destruct (Z.eq_dec c i_day) as [->|Hcc]|].
      * assert (x' = x) by congruence. subst x'.
        eexists. split; [exact Hnew|]. split; [reflexivity|]. right. reflexivity.
      * apply (shows_same_label m w2); [apply Hother; lia|].
        apply Hcols; try assumption.
        destruct Hin as [Hin|[_ Hin]]; [now left|right].
        split; [reflexivity|]. apply in_app_or in Hin.
        destruct Hin as [Hin|[Hin|[]]]; [assumption|congruence].
      * apply (shows_same_label m w2); [apply Hother; lia|].
        apply Hcols; try assumption.
        destruct Hin as [Hin|[Hin _]]; [now left|contradiction].
    + split; [exact Hs0'|]. intros r c x Hr Hc Hx [Hin|[_ []]].
      apply (shows_same_label m w0);
        [eapply configure_week_nb_label_at; eassumption|].
      now apply Hrows.
    + exists w3. split; [exact E3|]. split; [exact Hs3|].
      intros r c x Hr Hc Hx Hin. apply Hshow3; try assumption.
      apply in_app_or in Hin. destruct Hin as [Hin|[Hin|[]]]; [now left|right].
      split; [congruence|]. apply in_map_iff.
      exists (Z.to_nat c). split; [lia|]. apply in_seq. lia.
  - split; [exact Hs|]. intros r c x _ _ _ [].
  - rewrite E1.
    destruct (display_selection_shows m G w1 Hs1) as (w2 & E2 & Hshow2).
    + intros r c x Hr Hc Hx. apply Hshow1; try assumption.
      apply in_map_iff. exists (Z.to_nat r). split; [lia|]. apply in_seq. lia.
    + exists w2, G. split; [exact E2|]. split; [reflexivity|].
      intros r c Hr Hc.
      destruct (Hcell r c Hr Hc) as (row & x & _ & _ & Ecell & _).
      exists x. split; [exact Ecell|]. now apply Hshow2.
Qed.

(** C1, for the months whose six weeks lie within the years of
    [datetime.date]: for every year in 1..9999 and every month in 1..12,
    November and December 9999 apart, the grid of [_display_calendar] has six
    rows of seven cells; the cell at row [r], column [c] is the date whose
    ordinal is that of the Monday on or before the first of the month plus
    [7 * r + c], so the 42 cells are consecutive days; the cell at row 0,
    column 0 is a Monday; every day of the displayed month occurs exactly
    once in the grid; and on a widget that displays this month,
    [_display_calendar] ends without an exception and leaves, in every label,
    the day of its cell. *)
Theorem C1_six_weeks_from_monday (y m : Z) :
  MINYEAR <= y <= MAXYEAR -> 1 <= m <= 12 -> y < MAXYEAR \/ m <= 10 ->
  exists G,
    shown_dates y m = Ok G /\
    List.length G = 6%nat /\
    Forall (fun week => List.length week = 7%nat) G /\
    (forall r c, 0 <= r < 6 -> 0 <= c < 7 ->
       exists x, cell G r c = Ok x /\ valid_date x /\
                 toordinal x = first_monday y m + 7 * r + c) /\
    first_monday y m <= toordinal (mkdate y m 1) < first_monday y m + 7 /\
    (exists x, cell G 0 0 = Ok x /\ weekday x = 0) /\
    (forall d, 1 <= d <= _days_in_month y m ->
       count_occ date_eq_dec (List.concat G) (mkdate y m d) = 1%nat) /\
    (forall w, shape w -> _date w = mkdate y m 1 ->
       exists w',
         _display_calendar w = (Ok tt, w') /\
         forall r c, 0 <= r < 6 -> 0 <= c < 7 ->
           exists x, cell G r c = Ok x /\ shows m w' r c x).
Proof.
  intros Hy Hm Hmax.
  destruct (shown_dates_six_weeks y m Hy Hm Hmax)
    as (G & HG & H6 & H7 & Hcell & Hmon & H00 & Honce).
  exists G. repeat (split; [assumption|]).
  intros w Hs Hd.
  assert (Hf : first_of_month w).
  { unfold first_of_month. rewrite Hd. split; [|reflexivity].
    pose proof (days_in_month_bounds y m Hm). unfold valid_date, valid_ymd. cbn. lia. }
  destruct (display_calendar_shows w Hs Hf) as (w' & G' & E & HG' & Hshow).
  { rewrite Hd. exact Hmax. }
  rewrite Hd in HG', Hshow. cbn [year month] in HG', Hshow.
  assert (G' = G) by congruence. subst G'.
  exists w'. split; assumption.
Qed.

(** February 2024, a leap month. *)
Lemma C1_six_weeks_from_monday_witness :
  exists G,
    shown_dates 2024 2 = Ok G /\
    List.length G = 6%nat /\
    Forall (fun week => List.length week = 7%nat) G /\
    (forall r c, 0 <= r < 6 -> 0 <= c < 7 ->
       exists x, cell G r c = Ok x /\ valid_date x /\
                 toordinal x = first_monday 2024 2 + 7 * r + c) /\
    first_monday 2024 2 <= toordinal (mkdate 2024 2 1) < first_monday 2024 2 + 7 /\
    (exists x, cell G 0 0 = Ok x /\ weekday x = 0) /\
    (forall d, 1 <= d <= _days_in_month 2024 2 ->
       count_occ date_eq_dec (List.concat G) (mkdate 2024 2 d) = 1%nat) /\
    (forall w, shape w -> _date w = mkdate 2024 2 1 ->
       exists w',
         _display_calendar w = (Ok tt, w') /\
         forall r c, 0 <= r < 6 -> 0 <= c < 7 ->
           exists x, cell G r c = Ok x /\ shows 2 w' r c x).
Proof.
  apply (C1_six_weeks_from_monday 2024 2); unfold MINYEAR, MAXYEAR; lia.
Defined.

(** The six weeks of November and of December 9999 reach into year 10000:
    [monthdatescalendar] raises, and so does [_display_calendar]. *)
Lemma C1_counterexample_december_9999 :
  shown_dates MAXYEAR 12 = Raise (mkexn ValueError "year 10000 is out of range") /\
  shown_dates MAXYEAR 11 = Raise (mkexn ValueError "year 10000 is out of range") /\
  (let w := blank (mkdate MAXYEAR 12 1) None None "day" "normal" in
   _display_calendar w = (Raise (mkexn ValueError "year 10000 is out of range"), w)).
Proof. repeat split; vm_compute; reflexivity. Qed.

(** *** Two inputs that the week arithmetic gets wrong *)

(** C2, where the highlighted cell is not the selection: the widget is
    built on 26 December 2022, selected,
    and the user goes back eleven months.  January 2022 is displayed and the
    selection is still 26 December 2022, in the same year; the ISO week of the
    selection is 52 and so is the ISO week of 1 January 2022, so the row
    offset is 0: the label at row 0, column 0 is highlighted, and the date in
    that cell is 27 December 2021. *)
Theorem C2_highlight_on_another_date :
  let kw := mkargs (Some 2022) (Some 12) (Some 26) None None None (mkdate 2026 11 3) in
  exists w0 w G lbl,
    @__init__ c_locale kw = Ok w0 /\
    for_ (repeat tt 11) (fun _ => _prev_month) w0 = (Ok tt, w) /\
    _date w = mkdate 2022 1 1 /\
    _sel_date w = Some (mkdate 2022 12 26) /\
    (isoweek (mkdate 2022 12 26) - isoweek (_date w)) mod Z.max 52 (isoweek (_date w)) = 0 /\
    isoweekday (mkdate 2022 12 26) - 1 = 0 /\
    shown_dates 2022 1 = Ok G /\
    cell G 0 0 = Ok (mkdate 2021 12 27) /\
    label_at w 0 0 = Ok lbl /\
    style lbl = sel /\ text lbl = Some 27 /\
    (forall r c l, 0 <= r < 6 -> 0 <= c < 7 ->
       label_at w r c = Ok l ->
       style l = sel -> r = 0 /\ c = 0).
Proof.
  intros kw. eexists. eexists. eexists. eexists.
  split; [vm_compute; reflexivity|].
  split; [vm_compute; reflexivity|].
  repeat (split; [vm_compute; reflexivity|]).
  intros r c l Hr Hc.
  assert (Hr' : r = 0 \/ r = 1 \/ r = 2 \/ r = 3 \/ r = 4 \/ r = 5) by lia.
  assert (Hc' : c = 0 \/ c = 1 \/ c = 2 \/ c = 3 \/ c = 4 \/ c = 5 \/ c = 6) by lia.
  destruct Hr' as [->|[->|[->|[->|[->| ->]]]]];
    destruct Hc' as [->|[->|[->|[->|[->|[->| ->]]]]]];
    vm_compute; intros [= <-]; try discriminate; intros _; split; reflexivity.
Qed.

(** C3, where the labels are not the ISO weeks: December 2020.  The week
    labels are 49, 50, 51,
    52, 1, 2, as the formula gives them with [W = 49]; the ISO weeks of the
    six rows are 49, 50, 51, 52, 53, 1, since 2020 has 53 ISO weeks. *)
Theorem C3_week_53_is_labelled_1 :
  let kw := mkargs (Some 2020) (Some 12) None None None None (mkdate 2026 11 3) in
  exists w G,
    @__init__ c_locale kw = Ok w /\
    isoweek (_date w) = 49 /\
    _week_nbs w = [Some 49; Some 50; Some 51; Some 52; Some 1; Some 2] /\
    _week_nbs w
    = map (fun i => Some ((49 + i - 1) mod Z.max 49 52 + 1)) (range 0 6) /\
    shown_dates 2020 12 = Ok G /\
    map (map isoweek) G
    = [repeat 49 7; repeat 50 7; repeat 51 7; repeat 52 7; repeat 53 7; repeat 1 7].
Proof.
  intros kw. eexists. eexists.
  split; [vm_compute; reflexivity|].
  repeat split; vm_compute; reflexivity.
Qed.

(** * Further properties *)

(** ** ISO weeks *)

Lemma ymd2ord_jan1 (y : Z) : _ymd2ord y 1 1 = _days_before_year y + 1.
Proof. unfold _ymd2ord. rewrite days_before_month_jan. lia. Qed.

(** The Monday of ISO week 1 is a Monday, at most three days away from
    1 January. *)
Lemma isoweek1monday_spec (y : Z) :
  (_isoweek1monday y + 6) mod 7 = 0 /\
  _days_before_year y - 2 <= _isoweek1monday y <= _days_before_year y + 4.
Proof.
  unfold _isoweek1monday. rewrite ymd2ord_jan1.
  remember (_days_before_year y) as J eqn:EJ. clear EJ.
  destruct (3 <? (J + 1 + 6) mod 7) eqn:E;
    [apply Z.ltb_lt in E | apply Z.ltb_ge in E];
    split; Z.div_mod_to_equations; lia.
Qed.

Lemma year_length (y : Z) :
  _days_before_year (y + 1) - _days_before_year y = 365 \/
  _days_before_year (y + 1) - _days_before_year y = 366.
Proof. rewrite days_before_year_succ. destruct (_is_leap y); cbn; lia. Qed.

(** An ISO year has 52 or 53 weeks. *)
Lemma isoweek1monday_succ (y : Z) :
  _isoweek1monday (y + 1) = _isoweek1monday y + 364 \/
  _isoweek1monday (y + 1) = _isoweek1monday y + 371.
Proof.
  destruct (isoweek1monday_spec y) as [Ha Hb].
  destruct (isoweek1monday_spec (y + 1)) as [Ha' Hb'].
  pose proof (year_length y).
  Z.div_mod_to_equations. lia.
Qed.

Lemma iso_weeks_52_53 (Y : Z) :
  (iso_weeks Y = 52 \/ iso_weeks Y = 53) /\
  _isoweek1monday (Y + 1) = _isoweek1monday Y + 7 * iso_weeks Y.
Proof.
  unfold iso_weeks.
  destruct (isoweek1monday_succ Y) as [H | H]; rewrite H.
  - replace (_isoweek1monday Y + 364 - _isoweek1monday Y) with (52 * 7) by lia.
    rewrite Z.div_mul by lia. lia.
  - replace (_isoweek1monday Y + 371 - _isoweek1monday Y) with (53 * 7) by lia.
    rewrite Z.div_mul by lia. lia.
Qed.

Lemma isoweek1monday_mono (y k : Z) :
  0 <= k -> _isoweek1monday y + 364 * k <= _isoweek1monday (y + k).
Proof.
  intros Hk. pattern k. apply natlike_ind; [| | exact Hk].
  - replace (y + 0) with y by lia. lia.
  - intros n Hn IH. unfold Z.succ.
    replace (y + (n + 1)) with ((y + n) + 1) by lia.
    pose proof (isoweek1monday_succ (y + n)). lia.
Qed.

(** The ordinal of a date of year [y] lies within the year. *)
Lemma toordinal_in_year (x : date) :
  1 <= month x <= 12 -> 1 <= day x <= _days_in_month (year x) (month x) ->
  _days_before_year (year x) + 1 <= toordinal x <= _days_before_year (year x + 1).
Proof.
  intros Hm Hd. unfold toordinal, _ymd2ord.
  pose proof (day_of_year_bounds (year x) (month x) (day x) Hm Hd).
  rewrite days_before_year_succ. lia.
Qed.

(** What [isocalendar] returns: the ISO year [Y], week [W] and weekday [D] of
    a date are those with ordinal = Monday of week 1 of [Y] + 7 (W - 1) +
    (D - 1), the date lying before week 1 of the next ISO year. *)
Lemma isocalendar_spec (x : date) :
  1 <= month x <= 12 -> 1 <= day x <= _days_in_month (year x) (month x) ->
  toordinal x
  = _isoweek1monday (isoyear x) + 7 * (isoweek x - 1) + (isoweekday x - 1) /\
  1 <= isoweekday x <= 7 /\ 1 <= isoweek x /\
  toordinal x < _isoweek1monday (isoyear x + 1) /\
  (isoyear x = year x - 1 \/ isoyear x = year x \/ isoyear x = year x + 1) /\
  isoweekday x - 1 = weekday x.
Proof.
  intros Hm Hd.
  pose proof (toordinal_in_year x Hm Hd) as Hn.
  unfold isoyear, isoweek, isoweekday, isocalendar, weekday.
  remember (toordinal x) as n eqn:En. clear En.
  remember (year x) as y eqn:Ey. clear Ey.
  destruct (isoweek1monday_spec y) as [Ha Hb].
  destruct (isoweek1monday_spec (y - 1)) as [Ha1 Hb1].
  destruct (isoweek1monday_spec (y + 1)) as [Ha2 Hb2].
  pose proof (isoweek1monday_succ y) as Hs.
  pose proof (isoweek1monday_succ (y - 1)) as Hs1.
  pose proof (isoweek1monday_succ (y + 1)) as Hs2.
  replace (y - 1 + 1) with y in * by lia.
  remember (_isoweek1monday y) as M0 eqn:E0.
  remember (_isoweek1monday (y - 1)) as M1 eqn:E1.
  remember (_isoweek1monday (y + 1)) as M2 eqn:E2.
  remember (_isoweek1monday (y + 1 + 1)) as M3 eqn:E3.
  remember (_days_before_year y) as J0. remember (_days_before_year (y + 1)) as J1.
  remember (_days_before_year (y - 1)) as Jp.
  assert (HJ : J1 - J0 = 365 \/ J1 - J0 = 366) by (subst; apply year_length).
  clear HeqJ0 HeqJ1 HeqJp.
  destruct ((n - M0) / 7 <? 0) eqn:C1;
    [apply Z.ltb_lt in C1 | apply Z.ltb_ge in C1]; cbn [fst snd].
  - replace (y - 1 + 1) with y by lia. rewrite <- ?E0, <- ?E1.
    split; [|split; [|split; [|split; [|split]]]];
      try (Z.div_mod_to_equations; lia).
    all: try (left; reflexivity).
  - destruct ((52 <=? (n - M0) / 7) && (M2 <=? n)) eqn:C2; cbn [fst snd].
    + apply andb_true_iff in C2. destruct C2 as [C2 C3].
      apply Z.leb_le in C2. apply Z.leb_le in C3.
      rewrite <- ?E2, <- ?E3.
      split; [|split; [|split; [|split; [|split]]]];
        try (Z.div_mod_to_equations; lia).
      all: try (right; right; reflexivity).
    + rewrite <- ?E0, <- ?E2.
      apply andb_false_iff in C2.
      split; [|split; [|split; [|split; [|split]]]];
        try (destruct C2 as [C2 | C2];
             [apply Z.leb_gt in C2 | apply Z.leb_gt in C2];
             Z.div_mod_to_equations; lia).
      all: try (right; left; reflexivity).
Qed.

(** A date has one ISO year, week and weekday. *)
Lemma iso_unique (n Y W D Y' W' D' : Z) :
  n = _isoweek1monday Y + 7 * (W - 1) + (D - 1) -> 1 <= D <= 7 -> 1 <= W ->
  n < _isoweek1monday (Y + 1) ->
  n = _isoweek1monday Y' + 7 * (W' - 1) + (D' - 1) -> 1 <= D' <= 7 -> 1 <= W' ->
  n < _isoweek1monday (Y' + 1) ->
  Y = Y' /\ W = W' /\ D = D'.
Proof.
  intros E HD HW Hlt E' HD' HW' Hlt'.
  assert (Y = Y').
  { destruct (Z.lt_trichotomy Y Y') as [H | [H | H]]; [|assumption|].
    - pose proof (isoweek1monday_mono (Y + 1) (Y' - Y - 1) ltac:(lia)) as Hm.
      replace (Y + 1 + (Y' - Y - 1)) with Y' in Hm by lia. lia.
    - pose proof (isoweek1monday_mono (Y' + 1) (Y - Y' - 1) ltac:(lia)) as Hm.
      replace (Y' + 1 + (Y - Y' - 1)) with Y in Hm by lia. lia. }
  subst Y'. lia.
Qed.

(** The first day of a month belongs to the ISO year of its year or to the
    one before. *)
Lemma isoyear_first_of_month (y m : Z) :
  1 <= m <= 12 ->
  isoyear (mkdate y m 1) = y - 1 \/ isoyear (mkdate y m 1) = y.
Proof.
  intros Hm.
  pose proof (days_in_month_bounds y m Hm) as Hb.
  destruct (isocalendar_spec (mkdate y m 1) Hm ltac:(cbn; lia))
    as (E & HD & HW & Hlt & [Hy | [Hy | Hy]] & _); cbn [year] in Hy; [lia | lia |].
  exfalso.
  pose proof (toordinal_in_year (mkdate y m 28) Hm ltac:(cbn; lia)) as Hn.
  cbn [year] in Hn.
  assert (toordinal (mkdate y m 28) = toordinal (mkdate y m 1) + 27)
    by (unfold toordinal, _ymd2ord; cbn; lia).
  destruct (isoweek1monday_spec (y + 1)) as [_ Hs].
  rewrite Hy in E. lia.
Qed.

(** The Monday on or before the first of a month starts the ISO week of the
    first. *)
Lemma first_monday_iso (y m : Z) :
  1 <= m <= 12 ->
  first_monday y m
  = _isoweek1monday (isoyear (mkdate y m 1)) + 7 * (isoweek (mkdate y m 1) - 1) /\
  1 <= isoweek (mkdate y m 1) <= iso_weeks (isoyear (mkdate y m 1)).
Proof.
  intros Hm.
  pose proof (days_in_month_bounds y m Hm) as Hb.
  destruct (isocalendar_spec (mkdate y m 1) Hm ltac:(cbn; lia))
    as (E & HD & HW & Hlt & _ & Hwd).
  destruct (iso_weeks_52_53 (isoyear (mkdate y m 1))) as [_ HK].
  unfold first_monday. split; [lia|]. lia.
Qed.

(** The ISO week of a date of the six weeks shown for a month: the week of
    the first of the month plus the row, within the ISO year of the first,
    and the weeks of the next ISO year after it. *)
Lemma iso_in_grid (y m r c : Z) (x : date) :
  1 <= m <= 12 -> valid_date x -> 0 <= r < 6 -> 0 <= c < 7 ->
  toordinal x = first_monday y m + 7 * r + c ->
  let wn := isoweek (mkdate y m 1) in
  let Y1 := isoyear (mkdate y m 1) in
  isoweekday x = c + 1 /\
  (wn + r <= iso_weeks Y1 -> isoyear x = Y1 /\ isoweek x = wn + r) /\
  (iso_weeks Y1 < wn + r -> isoyear x = Y1 + 1 /\ isoweek x = wn + r - iso_weeks Y1).
Proof.
  intros Hm (Hxy & Hxm & Hxd) Hr Hc Hx wn Y1.
  destruct (first_monday_iso y m Hm) as [Hfm Hwn]. fold wn Y1 in Hfm, Hwn.
  destruct (isocalendar_spec x Hxm Hxd) as (E & HD & HW & Hlt & _ & _).
  destruct (iso_weeks_52_53 Y1) as [HK HM].
  destruct (iso_weeks_52_53 (Y1 + 1)) as [HK' HM'].
  destruct (Z.le_gt_cases (wn + r) (iso_weeks Y1)) as [Hle | Hgt].
  - destruct (iso_unique (toordinal x) Y1 (wn + r) (c + 1)
                (isoyear x) (isoweek x) (isoweekday x)) as (H1 & H2 & H3);
      try assumption; try lia.
  - destruct (iso_unique (toordinal x) (Y1 + 1) (wn + r - iso_weeks Y1) (c + 1)
                (isoyear x) (isoweek x) (isoweekday x)) as (H1 & H2 & H3);
      try assumption; try lia.
Qed.

(** In January, a first of the month that belongs to the ISO year before
    lies in its last week. *)
Lemma first_in_last_week (y m : Z) :
  1 <= m <= 12 ->
  isoyear (mkdate y m 1) = y - 1 ->
  isoweek (mkdate y m 1) = iso_weeks (y - 1).
Proof.
  intros Hm Hy.
  pose proof (days_in_month_bounds y m Hm) as Hb.
  destruct (isocalendar_spec (mkdate y m 1) Hm ltac:(cbn; lia))
    as (E & HD & HW & Hlt & _ & _).
  rewrite Hy in *.
  pose proof (toordinal_in_year (mkdate y m 1) Hm ltac:(cbn; lia)) as Hn.
  cbn [year] in Hn.
  destruct (iso_weeks_52_53 (y - 1)) as [HK HM].
  replace (y - 1 + 1) with y in * by lia.
  destruct (isoweek1monday_spec y) as [_ Hs].
  lia.
Qed.

(** The row that [_display_selection] computes for a date of the displayed
    year that is among the six weeks shown is the row of that date. *)
Lemma selection_row (y m r c : Z) (x : date) :
  1 <= m <= 12 -> valid_date x -> 0 <= r < 6 -> 0 <= c < 7 ->
  toordinal x = first_monday y m + 7 * r + c ->
  year x = y ->
  let wn := isoweek (mkdate y m 1) in
  (isoweek x - wn) mod Z.max 52 wn = r /\ isoweekday x - 1 = c.
Proof.
  intros Hm Hv Hr Hc Hx Hy wn.
  destruct (iso_in_grid y m r c x Hm Hv Hr Hc Hx) as (HD & Hin & Hout).
  fold wn in Hin, Hout.
  destruct (first_monday_iso y m Hm) as [Hfm Hwn]. fold wn in Hfm, Hwn.
  split; [|lia].
  remember (isoyear (mkdate y m 1)) as Y1 eqn:EY.
  destruct (iso_weeks_52_53 Y1) as [HK HM].
  destruct (Z.le_gt_cases (wn + r) (iso_weeks Y1)) as [Hle | Hgt].
  - destruct (Hin Hle) as [_ ->].
    replace (wn + r - wn) with r by lia. apply Z.mod_small. lia.
  - destruct (Hout Hgt) as [HY ->].
    assert (HKm : Z.max 52 wn = iso_weeks Y1).
    { destruct (isoyear_first_of_month y m Hm) as [Hp | Hp]; rewrite <- EY in Hp.
      - pose proof (first_in_last_week y m Hm) as Hl. rewrite <- EY in Hl.
        specialize (Hl Hp). fold wn in Hl. rewrite Hp in *. lia.
      - (* the date is of year [y] and of ISO year [y + 1] *)
        destruct Hv as (_ & Hxm & Hxd).
        pose proof (toordinal_in_year x Hxm Hxd) as Hn. rewrite Hy in Hn.
        destruct (isocalendar_spec x Hxm Hxd) as (E & HD' & HW & _).
        rewrite HY in E. clear EY. subst Y1.
        destruct (isoweek1monday_spec y) as [_ Hs].
        pose proof (year_length y). lia. }
    rewrite HKm.
    replace (wn + r - iso_weeks Y1 - wn) with (r + (-1) * iso_weeks Y1) by lia.
    rewrite Z.mod_add by lia. apply Z.mod_small. lia.
Qed.

(** The label that [_display_calendar] gives to row [r] is the ISO week of
    the dates of that row exactly when the labels have not passed week 52 of
    an ISO year of 53 weeks. *)
Lemma week_label_iso (y m r c : Z) (x : date) :
  1 <= m <= 12 -> valid_date x -> 0 <= r < 6 -> 0 <= c < 7 ->
  toordinal x = first_monday y m + 7 * r + c ->
  let wn := isoweek (mkdate y m 1) in
  (wn + r - 1) mod Z.max wn 52 + 1 = isoweek x
  <-> (iso_weeks (isoyear (mkdate y m 1)) = 52 \/ wn + r <= 52 \/ wn = 53).
Proof.
  intros Hm Hv Hr Hc Hx wn.
  destruct (iso_in_grid y m r c x Hm Hv Hr Hc Hx) as (HD & Hin & Hout).
  fold wn in Hin, Hout.
  destruct (first_monday_iso y m Hm) as [Hfm Hwn]. fold wn in Hfm, Hwn.
  remember (isoyear (mkdate y m 1)) as Y1 eqn:EY.
  destruct (iso_weeks_52_53 Y1) as [HK HM].
  assert (Hlabel : (wn + r - 1) mod Z.max wn 52 + 1
                   = if wn + r <=? Z.max wn 52 then wn + r else wn + r - Z.max wn 52).
  { destruct (Z.leb_spec (wn + r) (Z.max wn 52)).
    - rewrite Z.mod_small by lia. lia.
    - replace (wn + r - 1) with (wn + r - 1 - Z.max wn 52 + 1 * Z.max wn 52) by lia.
      rewrite Z.mod_add by lia. rewrite Z.mod_small by lia. lia. }
  rewrite Hlabel.
  destruct (Z.le_gt_cases (wn + r) (iso_weeks Y1)) as [Hle | Hgt].
  - destruct (Hin Hle) as [_ ->].
    destruct (Z.leb_spec (wn + r) (Z.max wn 52)); lia.
  - destruct (Hout Hgt) as [_ ->].
    destruct (Z.leb_spec (wn + r) (Z.max wn 52)); lia.
Qed.

(** ** What a display leaves in the labels *)

Lemma frame_refl (w : widget) : frame w w.
Proof. repeat split. Qed.

Lemma frame_trans (w1 w2 w3 : widget) : frame w1 w2 -> frame w2 w3 -> frame w1 w3.
Proof.
  unfold frame. intros (a1 & a2 & a3 & a4 & a5 & a6 & a7) (b1 & b2 & b3 & b4 & b5 & b6 & b7).
  repeat split; congruence.
Qed.

Lemma frame_labels (w : widget) : label_stable (frame w).
Proof. apply ignores_labels_stable. split; intros; assumption. Qed.

Lemma configure_day_frame (r c : Z) (f : label -> label) (w w' : widget) (o : result unit) :
  configure_day r c f w = (o, w') -> frame w w'.
Proof.
  intros E. pose proof (proj1 (frame_labels w) r c f w (frame_refl w)) as H.
  rewrite E in H. exact H.
Qed.

Lemma configure_week_nb_frame (i n : Z) (w w' : widget) (o : result unit) :
  configure_week_nb i n w = (o, w') -> frame w w'.
Proof.
  intros E. pose proof (proj2 (frame_labels w) i n w (frame_refl w)) as H.
  rewrite E in H. exact H.
Qed.

Lemma display_selection_frame (w w' : widget) (o : result unit) :
  _display_selection w = (o, w') -> frame w w'.
Proof.
  intros E. pose proof (display_selection_labels (frame w) (frame_labels w) w (frame_refl w)) as H.
  rewrite E in H. exact H.
Qed.

Lemma remove_selection_frame (w w' : widget) (o : result unit) :
  _remove_selection w = (o, w') -> frame w w'.
Proof.
  intros E. pose proof (remove_selection_labels (frame w) (frame_labels w) w (frame_refl w)) as H.
  rewrite E in H. exact H.
Qed.

Lemma display_calendar_frame (w w' : widget) (o : result unit) :
  _display_calendar w = (o, w') -> frame w w'.
Proof.
  intros E. pose proof (display_calendar_labels (frame w) (frame_labels w) w (frame_refl w)) as H.
  rewrite E in H. exact H.
Qed.

(** [_display_calendar] in two steps: the two loops leave the plain label of
    its date in every cell, and then [_display_selection] runs. *)
Lemma display_calendar_exact (w : widget) :
  shape w -> first_of_month w -> displayable w ->
  exists w1 w' G,
    shown_dates (year (_date w)) (month (_date w)) = Ok G /\
    (forall r c, 0 <= r < 6 -> 0 <= c < 7 ->
       exists x, cell G r c = Ok x /\ valid_date x /\
                 toordinal x
                 = first_monday (year (_date w)) (month (_date w)) + 7 * r + c /\
                 label_at w1 r c = Ok (plain_label (month (_date w)) c x)) /\
    shape w1 /\ frame w w1 /\
    _week_nbs w1 = _week_nbs w' /\
    _display_selection w1 = (Ok tt, w') /\
    _display_calendar w = (Ok tt, w').
Proof.
  intros Hs [(Hy & Hm & _) _] Hmax.
  destruct (shown_dates_spec _ _ Hy Hm Hmax) as (G & HG & Hgrid).
  unfold _display_calendar. unfold bind at 1. unfold get at 1.
  unfold bind at 1. unfold lift at 1. rewrite HG.
  remember (year (_date w)) as y eqn:Ey. remember (month (_date w)) as m eqn:Em.
  assert (Hcell : forall r c, 0 <= r < 6 -> 0 <= c < 7 ->
            exists row x, getitem G r = Ok row /\ getitem row c = Ok x /\
                          cell G r c = Ok x /\ valid_date x /\
                          toordinal x = first_monday y m + 7 * r + c).
  { intros r c Hr Hc.
    destruct (grid_cell _ G r c Hgrid Hr Hc) as (row & x & Erow & Ex & Hv & Ho).
    exists row, x. unfold cell. rewrite Erow. cbn [rbind].
    split; [reflexivity|]. split; [assumption|]. split; [assumption|].
    split; assumption. }
  unfold bind at 1.
  match goal with
  | |- context [for_ (range 0 6) ?body w] =>
      destruct (for_invariant
                  (fun done w0 =>
                     (shape w0 /\ frame w w0) /\
                     forall r c x, 0 <= r < 6 -> 0 <= c < 7 -> cell G r c = Ok x ->
                                   In r done ->
                                   label_at w0 r c = Ok (plain_label m c x))
                  body (range 0 6)) with (done := @nil Z) (w := w)
        as (w1 & E1 & [Hs1 Hf1] & Hshow1)
  end.
  - intros rows i_week w0 Hi [[Hs0 Hf0] Hrows]. apply in_range in Hi.
    destruct (configure_week_nb_ok i_week
                ((isoweek (_date w) + i_week - 1) mod Z.max (isoweek (_date w)) 52 + 1)
                w0 Hs0 ltac:(lia)) as (w0' & E0).
    unfold bind at 1. rewrite E0.
    assert (Hs0' : shape w0').
    { pose proof (proj2 shape_labels i_week
                    ((isoweek (_date w) + i_week - 1) mod Z.max (isoweek (_date w)) 52 + 1)
                    w0 Hs0) as H.
      rewrite E0 in H. exact H. }
    assert (Hf0' : frame w w0').
    { eapply frame_trans; [exact Hf0|]. eapply configure_week_nb_frame. exact E0. }
    match goal with
    | |- context [for_ (range 0 7) ?body w0'] =>
        destruct (for_invariant
                    (fun done w2 =>
                       (shape w2 /\ frame w w2) /\
                       forall r c x, 0 <= r < 6 -> 0 <= c < 7 -> cell G r c = Ok x ->
                                     In r rows \/ (r = i_week /\ In c done) ->
                                     label_at w2 r c = Ok (plain_label m c x))
                    body (range 0 7)) with (done := @nil Z) (w := w0')
          as (w3 & E3 & [Hs3 Hf3] & Hshow3)
    end.
    + intros cols i_day w2 Hd [[Hs2 Hf2] Hcols]. apply in_range in Hd.
      destruct (Hcell i_week i_day ltac:(lia) ltac:(lia))
        as (row & x & Erow & Ex & Ecell & Hxv & Hxo).
      unfold bind at 1. unfold lift at 1. unfold week_days.
      replace ((0 <=? i_day) && (i_day <? 7)) with true
        by (symmetry; apply andb_true_iff; split; [apply Z.leb_le|apply Z.ltb_lt]; lia).
      unfold bind at 1. unfold lift at 1. rewrite Erow.
      unfold bind at 1. unfold lift at 1. rewrite Ex.
      unfold bind at 1. unfold lift at 1.
      rewrite (months_ok y m x Hm Hxv) by lia.
      match goal with
      | |- context [configure_day i_week i_day ?f w2] =>
          destruct (configure_day_label i_week i_day f w2 Hs2 ltac:(lia) ltac:(lia))
            as (w4 & old & E4 & _ & Hnew & Hother);
          pose proof (proj1 shape_labels i_week i_day f w2 Hs2) as Hs4
      end.
      rewrite E4 in Hs4 |- *. exists w4. split; [reflexivity|].
      split; [split; [exact Hs4|]|].
      { eapply frame_trans; [exact Hf2|]. eapply configure_day_frame. exact E4. }
      intros r c x' Hr Hc Hx' Hin.
      destruct (Z.eq_dec r i_week) as [->|Hrr];
        [destruct (Z.eq_dec c i_day) as [->|Hcc]|].
      * assert (x' = x) by congruence. subst x'.
        rewrite Hnew. reflexivity.
      * rewrite Hother by lia.
        apply Hcols; try assumption.
        destruct Hin as [Hin|[_ Hin]]; [now left|right].
        split; [reflexivity|]. apply in_app_or in Hin.
        destruct Hin as [Hin|[Hin|[]]]; [assumption|congruence].
      * rewrite Hother by lia.
        apply Hcols; try assumption.
        destruct Hin as [Hin|[Hin _]]; [now left|contradiction].
    + split; [split; [exact Hs0'|exact Hf0']|]. intros r c x Hr Hc Hx [Hin|[_ []]].
      rewrite (configure_week_nb_label_at _ _ _ _ r c E0).
      now apply Hrows.
    + exists w3. split; [exact E3|]. split; [split; [exact Hs3|exact Hf3]|].
      intros r c x Hr Hc Hx Hin. apply Hshow3; try assumption.
      apply in_app_or in Hin. destruct Hin as [Hin|[Hin|[]]]; [now left|right].
      split; [congruence|]. apply in_map_iff.
      exists (Z.to_nat c). split; [lia|]. apply in_seq. lia.
  - split; [split; [exact Hs|apply frame_refl]|]. intros r c x _ _ _ [].
  - rewrite E1.
    destruct (display_selection_ok w1 Hs1) as (w2 & E2).
    exists w1, w2, G. split; [reflexivity|]. split.
    + intros r c Hr Hc.
      destruct (Hcell r c Hr Hc) as (row & x & _ & _ & Ecell & Hv & Ho).
      exists x. split; [exact Ecell|]. split; [exact Hv|]. split; [exact Ho|].
      apply Hshow1; try assumption.
      apply in_map_iff. exists (Z.to_nat r). split; [lia|]. apply in_seq. lia.
    + split; [exact Hs1|]. split; [exact Hf1|]. split; [|split; [exact E2|exact E2]].
      pose proof (display_selection_week_nbs (_week_nbs w1) w1 eq_refl) as H.
      rewrite E2 in H. symmetry. exact H.
Qed.

Lemma sel_cell_range (s d : date) (r c : Z) :
  sel_cell s d = Some (r, c) -> 0 <= r < 6 /\ 0 <= c < 7.
Proof.
  unfold sel_cell. destruct (year s =? year d); [|discriminate].
  destruct ((0 <=? _) && (_ <? 6)) eqn:E; [|discriminate].
  intros [= <- <-]. apply andb_true_iff in E. destruct E as [E1 E2].
  apply Z.leb_le in E1. apply Z.ltb_lt in E2.
  pose proof (isocalendar_weekday_range s). lia.
Qed.

(** [_display_selection] sets the style of one label, the one of
    [sel_cell], and leaves everything else. *)
Lemma display_selection_exact (w : widget) :
  shape w ->
  exists w',
    _display_selection w = (Ok tt, w') /\ shape w' /\ frame w w' /\
    _week_nbs w' = _week_nbs w /\
    match _sel_date w with
    | Some s =>
        match sel_cell s (_date w) with
        | Some (r0, c0) =>
            (exists old, label_at w r0 c0 = Ok old /\
                         label_at w' r0 c0 = Ok (set_style sel old)) /\
            (forall r c, 0 <= r -> 0 <= c -> r <> r0 \/ c <> c0 ->
               label_at w' r c = label_at w r c)
        | None => w' = w
        end
    | None => w' = w
    end.
Proof.
  intros Hs.
  assert (Hsame : exists w', (Ok tt, w) = (Ok tt, w') /\ shape w' /\ frame w w' /\
                             _week_nbs w' = _week_nbs w /\ w' = w).
  { exists w. split; [reflexivity|]. split; [exact Hs|].
    split; [apply frame_refl|]. split; reflexivity. }
  unfold _display_selection, bind, get.
  destruct (_sel_date w) as [s|] eqn:Es; [|exact Hsame].
  unfold sel_cell.
  destruct (year s =? year (_date w)); [|exact Hsame].
  pose proof (isocalendar_weekday_range s) as Hd.
  assert (Hiso : isocalendar s = (isoyear s, isoweek s, isoweekday s)).
  { unfold isoyear, isoweek, isoweekday. destruct (isocalendar s) as [[a b] c].
    reflexivity. }
  remember (isoweek s) as iw eqn:Eiw. remember (isoweekday s) as d eqn:Ed.
  rewrite Hiso. cbv iota beta.
  destruct ((0 <=? _) && (_ <? 6)) eqn:E; [|exact Hsame].
  apply andb_true_iff in E. destruct E as [E1 E2].
  apply Z.leb_le in E1. apply Z.ltb_lt in E2.
  match goal with
  | |- context [configure_day ?r ?c ?f w] =>
      destruct (configure_day_label r c f w Hs ltac:(lia) ltac:(lia))
        as (w' & old & E & Hold & Hnew & Hother);
      pose proof (proj1 shape_labels r c f w Hs) as Hs'
  end.
  rewrite E in Hs'. exists w'. split; [exact E|]. split; [exact Hs'|].
  split; [eapply configure_day_frame; exact E|]. split.
  - match type of E with configure_day ?r ?c ?f w = _ => pose proof (configure_day_week_nbs (_week_nbs w) r c f w eq_refl) as H end.
    rewrite E in H. exact H.
  - split; [exists old; split; assumption|exact Hother].
Qed.

(** [_remove_selection] sets the style of the same label to the style of a
    day of the selection's weekday and month. *)
Lemma remove_selection_exact (w : widget) :
  shape w ->
  exists w',
    _remove_selection w = (Ok tt, w') /\ shape w' /\ frame w w' /\
    _week_nbs w' = _week_nbs w /\
    match _sel_date w with
    | Some s =>
        match sel_cell s (_date w) with
        | Some (r0, c0) =>
            (exists old, label_at w r0 c0 = Ok old /\
                         label_at w' r0 c0
                         = Ok (set_style (removed_style s (_date w)) old)) /\
            (forall r c, 0 <= r -> 0 <= c -> r <> r0 \/ c <> c0 ->
               label_at w' r c = label_at w r c)
        | None => w' = w
        end
    | None => w' = w
    end.
Proof.
  intros Hs.
  assert (Hsame : exists w', (Ok tt, w) = (Ok tt, w') /\ shape w' /\ frame w w' /\
                             _week_nbs w' = _week_nbs w /\ w' = w).
  { exists w. split; [reflexivity|]. split; [exact Hs|].
    split; [apply frame_refl|]. split; reflexivity. }
  unfold _remove_selection, bind, get.
  destruct (_sel_date w) as [s|] eqn:Es; [|exact Hsame].
  unfold sel_cell, removed_style.
  destruct (year s =? year (_date w)); [|exact Hsame].
  pose proof (isocalendar_weekday_range s) as Hd.
  assert (Hiso : isocalendar s = (isoyear s, isoweek s, isoweekday s)).
  { unfold isoyear, isoweek, isoweekday. destruct (isocalendar s) as [[a b] c].
    reflexivity. }
  remember (isoweek s) as iw eqn:Eiw. remember (isoweekday s) as d eqn:Ed.
  rewrite Hiso. cbv iota beta.
  destruct ((0 <=? _) && (_ <? 6)) eqn:E; [|exact Hsame].
  apply andb_true_iff in E. destruct E as [E1 E2].
  apply Z.leb_le in E1. apply Z.ltb_lt in E2.
  assert (Hgen : forall st,
            exists w',
              configure_day ((iw - isoweek (_date w)) mod Z.max 52 (isoweek (_date w)))
                            (d - 1) (set_style st) w = (Ok tt, w') /\
              shape w' /\ frame w w' /\ _week_nbs w' = _week_nbs w /\
              (exists old,
                 label_at w ((iw - isoweek (_date w)) mod Z.max 52 (isoweek (_date w)))
                          (d - 1) = Ok old /\
                 label_at w' ((iw - isoweek (_date w)) mod Z.max 52 (isoweek (_date w)))
                          (d - 1) = Ok (set_style st old)) /\
              (forall r c, 0 <= r -> 0 <= c ->
                 r <> (iw - isoweek (_date w)) mod Z.max 52 (isoweek (_date w))
                 \/ c <> d - 1 ->
                 label_at w' r c = label_at w r c)).
  { intros st.
    match goal with
    | |- context [configure_day ?r ?c ?f w] =>
        destruct (configure_day_label r c f w Hs ltac:(lia) ltac:(lia))
          as (w' & old & E & Hold & Hnew & Hother);
        pose proof (proj1 shape_labels r c f w Hs) as Hs'
    end.
    rewrite E in Hs'. exists w'. split; [exact E|]. split; [exact Hs'|].
    split; [eapply configure_day_frame; exact E|]. split.
    - match type of E with configure_day ?r ?c ?f w = _ => pose proof (configure_day_week_nbs (_week_nbs w) r c f w eq_refl) as H end.
      rewrite E in H. exact H.
    - split; [exists old; split; assumption|exact Hother]. }
  destruct (month s =? month (_date w)); destruct (d <? 6); cbn [negb style_of];
    apply Hgen.
Qed.

(** ** Where the highlight goes *)

Lemma days_before_month_bounds (y m : Z) :
  1 <= m <= 12 ->
  30 * (m - 1) - 1 <= _days_before_month y m <= 31 * (m - 1).
Proof.
  intros Hm. unfold _days_before_month.
  destruct (_is_leap y); month_split m Hm; vm_compute; split; discriminate.
Qed.

Lemma days_before_month_ge (y m : Z) :
  2 <= m <= 12 -> 31 <= _days_before_month y m.
Proof.
  intros Hm. assert (Hm' : 1 <= m <= 12) by lia. unfold _days_before_month.
  destruct (_is_leap y); month_split m Hm'; try lia; vm_compute; discriminate.
Qed.

(** The row that [_display_selection] computes for a date of the displayed
    year that lies less than 46 weeks before the six weeks shown, or less
    than 46 weeks after them, is not one of the six rows. *)
Lemma selection_row_outside (y m : Z) (s : date) :
  1 <= m <= 12 -> valid_date s -> year s = y ->
  let k := toordinal s - first_monday y m in
  -322 <= k < 0 \/ 42 <= k < 364 ->
  let wn := isoweek (mkdate y m 1) in
  ~ 0 <= (isoweek s - wn) mod Z.max 52 wn < 6.
Proof.
  intros Hm (Hsy & Hsm & Hsd) Hy k Hk wn.
  pose proof (days_in_month_bounds y m Hm) as Hdim.
  destruct (isocalendar_spec s Hsm Hsd) as (Es & HDs & HWs & Hlts & HYs & _).
  destruct (first_monday_iso y m Hm) as [Hfm Hwn]. fold wn in Hfm, Hwn.
  pose proof (toordinal_in_year s Hsm Hsd) as Hns. rewrite Hy in Hns, HYs.
  pose proof (toordinal_in_year (mkdate y m 1) Hm ltac:(cbn; lia)) as Hn1.
  cbn [year] in Hn1.
  assert (Hwd : first_monday y m <= toordinal (mkdate y m 1) <= first_monday y m + 6).
  { unfold first_monday. pose proof (weekday_range (mkdate y m 1)). lia. }
  assert (Hd1 : m = 1 /\ toordinal (mkdate y m 1) = _days_before_year y + 1
                \/ _days_before_year y + 31 <= toordinal (mkdate y m 1)).
  { unfold toordinal, _ymd2ord. cbn [year month day].
    destruct (Z.eq_dec m 1) as [-> | Hne].
    - left. rewrite days_before_month_jan. lia.
    - right. pose proof (days_before_month_ge y m ltac:(lia)). lia. }
  pose proof (first_in_last_week y m Hm) as Hlast. fold wn in Hlast.
  destruct (iso_weeks_52_53 (y - 1)) as [HKa HMa].
  destruct (iso_weeks_52_53 y) as [HKb HMb].
  destruct (iso_weeks_52_53 (y + 1)) as [HKc HMc].
  replace (y - 1 + 1) with y in * by lia.
  destruct (isoweek1monday_spec y) as [_ Hs0].
  destruct (isoweek1monday_spec (y + 1)) as [_ Hs1].
  pose proof (year_length y) as Hlen.
  subst k.
  remember (toordinal s) as ns eqn:Ens. clear Ens.
  remember (toordinal (mkdate y m 1)) as n1 eqn:En1. clear En1.
  remember (first_monday y m) as fm eqn:Efm. clear Efm.
  remember (isoweek s) as w0 eqn:Ew0. clear Ew0.
  remember (isoweekday s) as D eqn:ED. clear ED.
  remember (iso_weeks (y - 1)) as Wa. remember (iso_weeks y) as Wb.
  remember (iso_weeks (y + 1)) as Wc.
  remember (_isoweek1monday (y - 1)) as Ma. remember (_isoweek1monday y) as Mb.
  remember (_isoweek1monday (y + 1)) as Mc.
  remember (_isoweek1monday (y + 1 + 1)) as Md.
  remember (_days_before_year y) as J0. remember (_days_before_year (y + 1)) as J1.
  clear HeqJ0 HeqJ1.
  assert (HY1 := isoyear_first_of_month y m Hm).
  remember (isoyear (mkdate y m 1)) as Y1 eqn:EY1. clear EY1.
  remember (isoyear s) as Ys eqn:EYs. clear EYs.
  clearbody wn.
  intros Hrow.
  assert (Hrow' : exists K, (K = 52 \/ K = 53) /\ wn <= K /\ (K = 53 -> wn = 53) /\
                            0 <= (w0 - wn) mod K < 6).
  { destruct (Z.max_spec 52 wn) as [[Hmx Hmax] | [Hmx Hmax]]; rewrite Hmax in Hrow.
    - destruct HY1 as [-> | ->]; replace (y - 1 + 1) with y in * by lia;
        [rewrite <- HeqWa in Hwn | rewrite <- HeqWb in Hwn];
        exists 53; (replace wn with 53 in * by lia); repeat split; try lia.
    - exists 52. repeat split; try lia. }
  clear Hrow. destruct Hrow' as (K & HK & HwK & HK53 & Hrow).
  destruct HY1 as [HY1 | HY1]; rewrite HY1 in *;
    destruct HYs as [HYs | [HYs | HYs]]; rewrite HYs in *;
    replace (y - 1 + 1) with y in * by lia;
    rewrite <- ?HeqMa, <- ?HeqMb, <- ?HeqMc, <- ?HeqMd, <- ?HeqWa, <- ?HeqWb in *;
    try specialize (Hlast eq_refl);
    clear HeqWa HeqWb HeqWc HeqMa HeqMb HeqMc HeqMd;
    destruct HK as [-> | ->];
    Z.div_mod_to_equations; lia.
Qed.

(** The cell that [_display_selection] highlights for a selection of the
    displayed year that is less than 46 weeks away from the six weeks shown:
    the cell of the selection, if it is among the six weeks, and none
    otherwise. *)
Lemma sel_cell_spec (y m : Z) (s : date) :
  1 <= m <= 12 -> valid_date s -> year s = y ->
  let k := toordinal s - first_monday y m in
  -322 <= k < 364 ->
  sel_cell s (mkdate y m 1)
  = if (0 <=? k) && (k <? 42) then Some (k / 7, k mod 7) else None.
Proof.
  intros Hm Hv Hy k Hk. unfold sel_cell. cbn [year].
  rewrite (proj2 (Z.eqb_eq _ _) Hy).
  destruct ((0 <=? k) && (k <? 42)) eqn:E.
  - apply andb_true_iff in E. destruct E as [E1 E2].
    apply Z.leb_le in E1. apply Z.ltb_lt in E2.
    destruct (selection_row y m (k / 7) (k mod 7) s Hm Hv) as [Hr Hc];
      try assumption; try (subst k; Z.div_mod_to_equations; lia).
    rewrite Hr, Hc.
    replace ((0 <=? k / 7) && (k / 7 <? 6)) with true; [reflexivity|].
    symmetry. apply andb_true_iff. split; [apply Z.leb_le | apply Z.ltb_lt];
      Z.div_mod_to_equations; lia.
  - pose proof (selection_row_outside y m s Hm Hv Hy) as Hout. cbv zeta in Hout.
    fold k in Hout.
    assert (Hk' : -322 <= k < 0 \/ 42 <= k < 364).
    { apply andb_false_iff in E. destruct E as [E | E];
        [apply Z.leb_gt in E | apply Z.ltb_ge in E]; lia. }
    specialize (Hout Hk').
    destruct ((0 <=? _) && (_ <? 6)) eqn:E'; [|reflexivity].
    exfalso. apply Hout. apply andb_true_iff in E'. destruct E' as [E1 E2].
    apply Z.leb_le in E1. apply Z.ltb_lt in E2. lia.
Qed.

Lemma sel_cell_other_year (s d : date) : year s <> year d -> sel_cell s d = None.
Proof.
  intros H. unfold sel_cell. destruct (Z.eqb_spec (year s) (year d)); [contradiction|].
  reflexivity.
Qed.

(** A selection whose month is at most ten months away from the displayed
    month, in the same year, is less than 46 weeks away from the six weeks
    shown. *)
Lemma near_months (y m : Z) (s : date) :
  1 <= m <= 12 -> valid_date s -> year s = y -> -10 <= month s - m <= 10 ->
  -322 <= toordinal s - first_monday y m < 364.
Proof.
  intros Hm (Hsy & Hsm & Hsd) Hy Hnear.
  pose proof (weekday_range (mkdate y m 1)) as Hwd.
  pose proof (days_before_month_bounds y m Hm) as Hb1.
  pose proof (days_before_month_bounds y (month s) Hsm) as Hbs.
  pose proof (days_in_month_bounds (year s) (month s) Hsm) as Hdim.
  unfold first_monday, toordinal, _ymd2ord. cbn [year month day]. rewrite Hy.
  lia.
Qed.

Lemma first_of_month_date (w : widget) :
  first_of_month w -> _date w = mkdate (year (_date w)) (month (_date w)) 1.
Proof. intros [_ H]. destruct (_date w) as [y m d]. cbn in *. congruence. Qed.

Lemma is_date_true (s : option date) (x : date) : is_date s x = true <-> s = Some x.
Proof.
  unfold is_date. destruct s as [s0|]; [|split; discriminate].
  destruct (date_eq_dec s0 x); split; congruence.
Qed.

Lemma is_date_false (s : option date) (x : date) : is_date s x = false <-> s <> Some x.
Proof.
  rewrite <- is_date_true. destruct (is_date s x); split; congruence.
Qed.

(** The labels after a display: the six weeks of the month, with the cell
    that [sel_cell] gives highlighted. *)
Lemma display_calendar_cells (w : widget) :
  shape w -> first_of_month w -> displayable w ->
  exists w' G,
    _display_calendar w = (Ok tt, w') /\ shape w' /\ frame w w' /\
    shown_dates (year (_date w)) (month (_date w)) = Ok G /\
    forall r c, 0 <= r < 6 -> 0 <= c < 7 ->
      exists x, cell G r c = Ok x /\ valid_date x /\
        toordinal x = first_monday (year (_date w)) (month (_date w)) + 7 * r + c /\
        label_at w' r c
        = Ok (day_label (month (_date w)) c x
                (match _sel_date w with
                 | Some s =>
                     match sel_cell s (_date w) with
                     | Some (r0, c0) => (r =? r0) && (c =? c0)
                     | None => false
                     end
                 | None => false
                 end)).
Proof.
  intros Hs Hf Hd.
  destruct (display_calendar_exact w Hs Hf Hd)
    as (w1 & w' & G & HG & Hcells & Hs1 & Hf1 & _ & E1 & E).
  destruct (display_selection_exact w1 Hs1) as (w2 & E2 & Hs2 & Hf2 & _ & Hsel).
  assert (w2 = w') by congruence. subst w2.
  exists w', G. split; [exact E|]. split; [exact Hs2|].
  split; [eapply frame_trans; eassumption|]. split; [exact HG|].
  intros r c Hr Hc. destruct (Hcells r c Hr Hc) as (x & Hx & Hv & Ho & Hl).
  exists x. split; [exact Hx|]. split; [exact Hv|]. split; [exact Ho|].
  destruct Hf1 as (Hd1 & Hsd1 & _). rewrite Hsd1, Hd1 in Hsel.
  destruct (_sel_date w) as [s|]; [|subst w'; exact Hl].
  destruct (sel_cell s (_date w)) as [[r0 c0]|] eqn:Ec; [|subst w'; exact Hl].
  destruct Hsel as [(old & Hold & Hnew) Hother].
  destruct (Z.eqb_spec r r0) as [-> | Hrr]; [destruct (Z.eqb_spec c c0) as [-> | Hcc]|];
    cbn [andb].
  - rewrite Hnew. rewrite Hl in Hold. injection Hold as <-. reflexivity.
  - rewrite Hother by lia. exact Hl.
  - rewrite Hother by lia. exact Hl.
Qed.

(** A display with a selection of the displayed year, at most ten months
    away from the displayed month: the label of the selection, if it is among
    the six weeks, is highlighted, and no other. *)
Lemma display_calendar_near (w : widget) (s : date) :
  shape w -> first_of_month w -> displayable w ->
  _sel_date w = Some s -> valid_date s -> year s = year (_date w) ->
  -10 <= month s - month (_date w) <= 10 ->
  exists w',
    _display_calendar w = (Ok tt, w') /\ shape w' /\ frame w w' /\
    displays w' (Some s).
Proof.
  intros Hs Hf Hd Hsel Hv Hy Hnear.
  destruct (display_calendar_cells w Hs Hf Hd) as (w' & G & E & Hs' & Hfr & HG & Hcells).
  exists w'. split; [exact E|]. split; [exact Hs'|]. split; [exact Hfr|].
  destruct Hfr as (Hd' & _). exists G. rewrite Hd'. split; [exact HG|].
  intros r c x Hr Hc Hx.
  destruct (Hcells r c Hr Hc) as (x' & Hx' & Hxv & Ho & Hl).
  assert (x' = x) by congruence. subst x'.
  rewrite Hl, Hsel. f_equal. f_equal.
  destruct Hf as [(_ & Hm & _) Hday].
  assert (Hdate : _date w = mkdate (year (_date w)) (month (_date w)) 1).
  { destruct (_date w) as [y m d]. cbn in *. congruence. }
  rewrite Hdate at 1.
  rewrite (sel_cell_spec (year (_date w)) (month (_date w)) s Hm Hv Hy)
    by (apply near_months; assumption).
  remember (toordinal s - first_monday (year (_date w)) (month (_date w))) as k eqn:Ek.
  destruct ((0 <=? k) && (k <? 42)) eqn:Ein.
  - apply andb_true_iff in Ein. destruct Ein as [E1 E2].
    apply Z.leb_le in E1. apply Z.ltb_lt in E2.
    destruct (Z.eqb_spec r (k / 7)) as [Er | Er];
      [destruct (Z.eqb_spec c (k mod 7)) as [Ec | Ec]|]; cbn [andb]; symmetry.
    + apply is_date_true. f_equal. apply toordinal_inj; try assumption.
      subst r c. Z.div_mod_to_equations. lia.
    + apply is_date_false. intros [= ->]. apply Ec. Z.div_mod_to_equations. lia.
    + apply is_date_false. intros [= ->]. apply Er. Z.div_mod_to_equations. lia.
  - symmetry. apply is_date_false. intros [= ->].
    apply andb_false_iff in Ein. destruct Ein as [Ein | Ein];
      [apply Z.leb_gt in Ein | apply Z.ltb_ge in Ein]; lia.
Qed.

(** A display with no selection, or with a selection of another year than
    the displayed one: no label is highlighted. *)
Lemma display_calendar_plain (w : widget) :
  shape w -> first_of_month w -> displayable w ->
  (forall s, _sel_date w = Some s -> year s <> year (_date w)) ->
  exists w',
    _display_calendar w = (Ok tt, w') /\ shape w' /\ frame w w' /\
    displays w' None.
Proof.
  intros Hs Hf Hd Hsel.
  destruct (display_calendar_cells w Hs Hf Hd) as (w' & G & E & Hs' & Hfr & HG & Hcells).
  exists w'. split; [exact E|]. split; [exact Hs'|]. split; [exact Hfr|].
  destruct Hfr as (Hd' & _). exists G. rewrite Hd'. split; [exact HG|].
  intros r c x Hr Hc Hx.
  destruct (Hcells r c Hr Hc) as (x' & Hx' & Hxv & Ho & Hl).
  assert (x' = x) by congruence. subst x'.
  rewrite Hl. destruct (_sel_date w) as [s|]; [|reflexivity].
  rewrite sel_cell_other_year by (apply Hsel; reflexivity). reflexivity.
Qed.

(** ** Labels determine the widget *)

Lemma getitem_ext {A : Type} (l l' : list A) (n : nat) :
  List.length l = n -> List.length l' = n ->
  (forall i, 0 <= i < Z.of_nat n -> getitem l i = getitem l' i) ->
  l = l'.
Proof.
  intros Hl Hl' H. apply nth_error_ext. intros k.
  destruct (Nat.lt_ge_cases k n) as [Hk | Hk].
  - destruct (getitem_ok l (Z.of_nat k) ltac:(lia)) as (a & Ea & Ha).
    destruct (getitem_ok l' (Z.of_nat k) ltac:(lia)) as (a' & Ea' & Ha').
    rewrite Nat2Z.id in Ha, Ha'. rewrite Ha, Ha'.
    specialize (H (Z.of_nat k) ltac:(lia)). congruence.
  - rewrite (proj2 (nth_error_None l k)) by lia.
    rewrite (proj2 (nth_error_None l' k)) by lia. reflexivity.
Qed.

Lemma shape_row (w : widget) (r : Z) :
  shape w -> 0 <= r < 6 ->
  exists row, getitem (_calendar w) r = Ok row /\ List.length row = 7%nat.
Proof.
  intros (H6 & H7 & _) Hr.
  destruct (getitem_ok (_calendar w) r ltac:(lia)) as (row & Hrow & Hnth).
  exists row. split; [exact Hrow|].
  rewrite Forall_forall in H7. apply H7. eapply nth_error_In. eassumption.
Qed.

(** Two widgets in shape whose day labels agree cell by cell have the same
    day labels. *)
Lemma calendar_ext (w w' : widget) :
  shape w -> shape w' ->
  (forall r c, 0 <= r < 6 -> 0 <= c < 7 -> label_at w r c = label_at w' r c) ->
  _calendar w = _calendar w'.
Proof.
  intros Hs Hs' H.
  apply (getitem_ext _ _ 6%nat); [apply Hs | apply Hs' |].
  intros r Hr.
  destruct (shape_row w r Hs ltac:(lia)) as (row & Erow & Hlen).
  destruct (shape_row w' r Hs' ltac:(lia)) as (row' & Erow' & Hlen').
  rewrite Erow, Erow'. f_equal.
  apply (getitem_ext _ _ 7%nat); [assumption | assumption |].
  intros c Hc. specialize (H r c ltac:(lia) ltac:(lia)).
  unfold label_at in H. rewrite Erow, Erow' in H. exact H.
Qed.

Lemma widget_ext (w w' : widget) :
  frame w w' -> _calendar w' = _calendar w -> _week_nbs w' = _week_nbs w -> w' = w.
Proof.
  destruct w, w'. unfold frame. cbn.
  intros (-> & -> & -> & -> & -> & -> & ->) -> ->. reflexivity.
Qed.

Lemma frame_sym (w w' : widget) : frame w w' -> frame w' w.
Proof.
  unfold frame. intros (a1 & a2 & a3 & a4 & a5 & a6 & a7). repeat split; congruence.
Qed.

Lemma shown_dates_november_9999 :
  shown_dates MAXYEAR 11 = Raise (mkexn ValueError "year 10000 is out of range").
Proof. vm_compute. reflexivity. Qed.

Lemma shown_dates_december_9999 :
  shown_dates MAXYEAR 12 = Raise (mkexn ValueError "year 10000 is out of range").
Proof. vm_compute. reflexivity. Qed.

(** The two months that cannot be displayed. *)
Lemma display_calendar_raises (w : widget) :
  first_of_month w -> ~ displayable w ->
  _display_calendar w = (Raise (mkexn ValueError "year 10000 is out of range"), w).
Proof.
  intros [(Hy & Hm & _) _] Hn. unfold displayable in Hn.
  assert (Ey : year (_date w) = MAXYEAR) by (unfold MAXYEAR in *; lia).
  assert (Em : month (_date w) = 11 \/ month (_date w) = 12) by lia.
  unfold _display_calendar, bind, get, lift. rewrite Ey.
  destruct Em as [-> | ->];
    [rewrite shown_dates_november_9999 | rewrite shown_dates_december_9999];
    reflexivity.
Qed.

Lemma display_calendar_displayable (w w' : widget) :
  first_of_month w -> _display_calendar w = (Ok tt, w') -> displayable w.
Proof.
  intros Hf E.
  destruct (Z.lt_ge_cases (year (_date w)) MAXYEAR) as [H | H]; [left; exact H|].
  destruct (Z.le_gt_cases (month (_date w)) 10) as [H' | H']; [right; exact H'|].
  rewrite display_calendar_raises in E; [discriminate | assumption |].
  unfold displayable. lia.
Qed.

(** The outcome of a display does not depend on what the labels showed
    before. *)
Lemma display_calendar_determined (wa wb : widget) :
  shape wa -> shape wb -> frame wa wb -> first_of_month wa -> displayable wa ->
  exists w',
    _display_calendar wa = (Ok tt, w') /\ _display_calendar wb = (Ok tt, w') /\
    shape w' /\ frame wa w'.
Proof.
  intros Hsa Hsb Hfr Hfa Hda.
  assert (Hdate : _date wb = _date wa) by apply Hfr.
  assert (Hsel : _sel_date wb = _sel_date wa) by apply Hfr.
  assert (Hfb : first_of_month wb) by (unfold first_of_month; rewrite Hdate; exact Hfa).
  assert (Hdb : displayable wb) by (unfold displayable; rewrite Hdate; exact Hda).
  destruct (display_calendar_cells wa Hsa Hfa Hda)
    as (wa' & G & Ea & Hsa' & Hfra & HG & Hca).
  destruct (display_calendar_cells wb Hsb Hfb Hdb)
    as (wb' & G' & Eb & Hsb' & Hfrb & HG' & Hcb).
  rewrite Hdate in HG'. assert (G' = G) by congruence. subst G'.
  exists wa'. split; [exact Ea|]. split; [|split; assumption].
  rewrite Eb. f_equal. apply widget_ext.
  - eapply frame_trans; [apply frame_sym; exact Hfra|].
    eapply frame_trans; [exact Hfr|exact Hfrb].
  - apply calendar_ext; try assumption. intros r c Hr Hc.
    destruct (Hca r c Hr Hc) as (x & Hx & _ & _ & Hl).
    destruct (Hcb r c Hr Hc) as (x' & Hx' & _ & _ & Hl').
    assert (x' = x) by congruence. subst x'.
    rewrite Hl, Hl', Hsel, Hdate. reflexivity.
  - rewrite (display_calendar_week_nbs wa wa' Hsa Ea).
    rewrite (display_calendar_week_nbs wb wb' Hsb Eb). rewrite Hdate. reflexivity.
Qed.

(** The cells of the six weeks of a month. *)
Lemma grid_cells (y m : Z) (G : list (list date)) (r c : Z) :
  MINYEAR <= y <= MAXYEAR -> 1 <= m <= 12 -> y < MAXYEAR \/ m <= 10 ->
  shown_dates y m = Ok G -> 0 <= r < 6 -> 0 <= c < 7 ->
  exists x, cell G r c = Ok x /\ valid_date x /\
            toordinal x = first_monday y m + 7 * r + c.
Proof.
  intros Hy Hm Hd HG Hr Hc.
  destruct (shown_dates_spec y m Hy Hm Hd) as (G' & HG' & Hgrid).
  assert (G' = G) by congruence. subst G'.
  destruct (grid_cell _ G r c Hgrid Hr Hc) as (row & x & Erow & Ex & Hv & Ho).
  exists x. unfold cell. rewrite Erow. cbn [rbind]. auto.
Qed.

Lemma displays_ext (w w' : widget) (s : option date) :
  shape w -> shape w' -> first_of_month w -> displayable w ->
  _date w' = _date w -> displays w s -> displays w' s ->
  _calendar w' = _calendar w.
Proof.
  intros Hs Hs' [(Hy & Hm & _) _] Hdisp Hd (G & HG & Hl) (G' & HG' & Hl').
  rewrite Hd in HG', Hl'. assert (G' = G) by congruence. subst G'.
  apply calendar_ext; try assumption. intros r c Hr Hc.
  destruct (grid_cells _ _ G r c Hy Hm Hdisp HG Hr Hc) as (x & Hx & _).
  rewrite (Hl r c x Hr Hc Hx), (Hl' r c x Hr Hc Hx). reflexivity.
Qed.

(** Removing the highlight of a selection that is displayed in its place
    leaves the labels of a display without selection. *)
Lemma remove_selection_displays (w : widget) (s : date) :
  shape w -> first_of_month w -> displayable w ->
  _sel_date w = Some s -> valid_date s ->
  (year s = year (_date w) -> -10 <= month s - month (_date w) <= 10) ->
  displays w (if year s =? year (_date w) then Some s else None) ->
  exists w',
    _remove_selection w = (Ok tt, w') /\ shape w' /\ frame w w' /\
    _week_nbs w' = _week_nbs w /\ displays w' None.
Proof.
  intros Hs Hf Hdisp Hsel Hv Hnear (G & HG & Hl).
  destruct (remove_selection_exact w Hs) as (w' & E & Hs' & Hfr & Hwk & Hcase).
  exists w'. split; [exact E|]. split; [exact Hs'|]. split; [exact Hfr|].
  split; [exact Hwk|].
  assert (Hd' : _date w' = _date w) by apply Hfr.
  exists G. rewrite Hd'. split; [exact HG|].
  rewrite Hsel in Hcase.
  destruct Hf as [(Hy & Hm & _) Hday].
  unfold displayable in Hdisp.
  destruct (_date w) as [y m d1] eqn:Edate. cbn [year month day] in *. subst d1.
  destruct (Z.eqb_spec (year s) y) as [Ey | Ey].
  - rewrite (sel_cell_spec y m s Hm Hv Ey) in Hcase
      by (apply near_months; auto).
    remember (toordinal s - first_monday y m) as k eqn:Ek.
    destruct ((0 <=? k) && (k <? 42)) eqn:Ein.
    + apply andb_true_iff in Ein. destruct Ein as [E1 E2].
      apply Z.leb_le in E1. apply Z.ltb_lt in E2.
      destruct Hcase as [(old & Hold & Hnew) Hother].
      intros r c x Hr Hc Hx.
      destruct (grid_cells _ _ G r c Hy Hm Hdisp HG Hr Hc) as (x' & Hx' & Hxv & Ho).
      assert (x' = x) by congruence. subst x'.
      destruct (Z.eq_dec r (k / 7)) as [Er | Er];
        [destruct (Z.eq_dec c (k mod 7)) as [Ec | Ec]|].
      * subst r c.
        assert (x = s).
        { apply toordinal_inj; try assumption. Z.div_mod_to_equations. lia. }
        subst x. rewrite Hnew. rewrite (Hl _ _ s Hr Hc Hx) in Hold.
        injection Hold as <-. f_equal.
        destruct (date_eq_dec s s) as [_ | Hne]; [|contradiction].
        unfold day_label. cbn [is_date]. unfold set_style, plain_label, removed_style. cbn [text]. f_equal. f_equal.
        destruct (selection_row y m (k / 7) (k mod 7) s
                    Hm Hv Hr Hc Ho Ey) as [_ Hcol].
        destruct (Z.ltb_spec (isoweekday s) 6);
          destruct (Z.eqb_spec (k mod 7) 5); destruct (Z.eqb_spec (k mod 7) 6);
          cbn [negb orb]; try reflexivity; lia.
      * rewrite Hother by lia. rewrite (Hl r c x Hr Hc Hx). unfold day_label.
        replace (is_date (Some s) x) with false; [reflexivity|].
        symmetry. apply is_date_false. intros [= ->]. apply Ec.
        Z.div_mod_to_equations. lia.
      * rewrite Hother by lia. rewrite (Hl r c x Hr Hc Hx). unfold day_label.
        replace (is_date (Some s) x) with false; [reflexivity|].
        symmetry. apply is_date_false. intros [= ->]. apply Er.
        Z.div_mod_to_equations. lia.
    + subst w'. intros r c x Hr Hc Hx. rewrite (Hl r c x Hr Hc Hx).
      destruct (grid_cells _ _ G r c Hy Hm Hdisp HG Hr Hc) as (x' & Hx' & Hxv & Ho).
      assert (x' = x) by congruence. subst x'.
      unfold day_label. replace (is_date (Some s) x) with false; [reflexivity|].
      symmetry. apply is_date_false. intros [= ->].
      apply andb_false_iff in Ein. destruct Ein as [Ein | Ein];
        [apply Z.leb_gt in Ein | apply Z.ltb_ge in Ein]; lia.
  - rewrite sel_cell_other_year in Hcase by assumption. subst w'. exact Hl.
Qed.

(** ** Navigation *)

Lemma same_selection_refl (w : widget) : same_selection w w.
Proof. repeat split. Qed.

Lemma same_selection_trans (w1 w2 w3 : widget) :
  same_selection w1 w2 -> same_selection w2 w3 -> same_selection w1 w3.
Proof.
  unfold same_selection.
  intros (a1 & a2 & a3 & a4 & a5 & a6) (b1 & b2 & b3 & b4 & b5 & b6).
  repeat split; congruence.
Qed.

Lemma frame_same_selection (w w' : widget) : frame w w' -> same_selection w w'.
Proof. unfold frame, same_selection. tauto. Qed.

Lemma same_selection_frame (w w' : widget) :
  same_selection w w' -> _date w' = _date w -> frame w w'.
Proof. unfold frame, same_selection. tauto. Qed.

Lemma same_selection_with_date (d : date) (w : widget) :
  same_selection w (with_date d w).
Proof. repeat split. Qed.

Lemma shape_of_with_date (d : date) (w : widget) : shape (with_date d w) <-> shape w.
Proof. unfold shape. cbn. tauto. Qed.

Lemma nextmonth_prevmonth (y m : Z) :
  1 <= m <= 12 ->
  _nextmonth (fst (_prevmonth y m)) (snd (_prevmonth y m)) = (y, m).
Proof.
  intros Hm. unfold _nextmonth, _prevmonth.
  destruct (Z.eqb_spec m 1) as [->|]; cbn [fst snd].
  - cbn. f_equal. lia.
  - destruct (Z.eqb_spec (m - 1) 12); [lia|]. f_equal. lia.
Qed.

(** A display of another month of the same widget. *)
Lemma display_other_month (d : date) (w : widget) :
  shape w -> valid_date d -> day d = 1 ->
  (year d < MAXYEAR \/ month d <= 10 ->
   exists w',
     _display_calendar (with_date d w) = (Ok tt, w') /\
     shape w' /\ _date w' = d /\ same_selection w w') /\
  (~ (year d < MAXYEAR \/ month d <= 10) ->
   _display_calendar (with_date d w)
   = (Raise (mkexn ValueError "year 10000 is out of range"), with_date d w)).
Proof.
  intros Hs Hv Hd. split.
  - intros Hdisp.
    destruct (display_calendar_cells (with_date d w))
      as (w' & G & E & Hs' & Hfr & _).
    + apply shape_of_with_date. exact Hs.
    + split; assumption.
    + exact Hdisp.
    + exists w'. split; [exact E|]. split; [exact Hs'|]. split; [apply Hfr|].
      apply frame_same_selection in Hfr. exact Hfr.
  - intros Hn. apply display_calendar_raises; [split; assumption | exact Hn].
Qed.

Lemma next_first_valid (w : widget) :
  first_of_month w -> _date w <> mkdate MAXYEAR 12 1 ->
  valid_date (next_first (_date w)) /\ day (next_first (_date w)) = 1.
Proof.
  intros [(Hy & Hm & Hd) Hd1] Hne. unfold next_first. split; [|reflexivity].
  pose proof (nextmonth_valid (year (_date w)) (month (_date w)) Hm) as Hnm.
  assert (Hny : MINYEAR <= fst (_nextmonth (year (_date w)) (month (_date w))) <= MAXYEAR).
  { unfold _nextmonth, MINYEAR, MAXYEAR in *.
    destruct (Z.eqb_spec (month (_date w)) 12) as [E|E]; cbn [fst]; [|lia].
    assert (year (_date w) <> 9999); [|lia].
    intros Ey. apply Hne. destruct (_date w) as [y m d]. cbn in *. congruence. }
  pose proof (days_in_month_bounds
                (fst (_nextmonth (year (_date w)) (month (_date w)))) _ Hnm).
  unfold valid_date, valid_ymd. cbn [year month day]. lia.
Qed.

Lemma prev_first_valid (w : widget) :
  first_of_month w -> _date w <> mkdate MINYEAR 1 1 ->
  valid_date (prev_first (_date w)) /\ day (prev_first (_date w)) = 1.
Proof.
  intros [(Hy & Hm & Hd) Hd1] Hne. unfold prev_first. split; [|reflexivity].
  pose proof (prevmonth_valid (year (_date w)) (month (_date w)) Hm) as Hpm.
  assert (Hpy : MINYEAR <= fst (_prevmonth (year (_date w)) (month (_date w))) <= MAXYEAR).
  { unfold _prevmonth, MINYEAR, MAXYEAR in *.
    destruct (Z.eqb_spec (month (_date w)) 1) as [E|E]; cbn [fst]; [|lia].
    assert (year (_date w) <> 1); [|lia].
    intros Ey. apply Hne. destruct (_date w) as [y m d]. cbn in *. congruence. }
  pose proof (days_in_month_bounds
                (fst (_prevmonth (year (_date w)) (month (_date w)))) _ Hpm).
  unfold valid_date, valid_ymd. cbn [year month day]. lia.
Qed.

Lemma next_month_as_display (w : widget) :
  first_of_month w -> _date w <> mkdate MAXYEAR 12 1 ->
  _next_month w = _display_calendar (with_date (next_first (_date w)) w).
Proof.
  intros Hf Hne. pose proof (next_month_run w Hf Hne) as H. unfold next_first.
  destruct (_nextmonth (year (_date w)) (month (_date w))) as [ny nm]. exact H.
Qed.

Lemma prev_month_as_display (w : widget) :
  first_of_month w -> _date w <> mkdate MINYEAR 1 1 ->
  _prev_month w = _display_calendar (with_date (prev_first (_date w)) w).
Proof.
  intros Hf Hne. pose proof (prev_month_run w Hf Hne) as H. unfold prev_first.
  destruct (_prevmonth (year (_date w)) (month (_date w))) as [py pm]. exact H.
Qed.

Lemma date_is (w : widget) (y m : Z) :
  first_of_month w -> year (_date w) = y -> month (_date w) = m ->
  _date w = mkdate y m 1.
Proof.
  intros [_ Hd] Hy Hm. destruct (_date w) as [y' m' d']. cbn in *. congruence.
Qed.

Lemma next_year_as_display (w : widget) :
  first_of_month w -> year (_date w) < MAXYEAR ->
  _next_year w
  = _display_calendar (with_date (mkdate (year (_date w) + 1) (month (_date w)) 1) w).
Proof.
  intros [(Hy & Hm & Hd) Hd1] Hlt.
  unfold _next_year, bind, get, lift, modify, replace_year. rewrite Hd1.
  pose proof (days_in_month_bounds (year (_date w) + 1) (month (_date w)) Hm).
  rewrite date_new_ok by (unfold valid_ymd, MINYEAR, MAXYEAR in *; lia).
  reflexivity.
Qed.

Lemma prev_year_as_display (w : widget) :
  first_of_month w -> MINYEAR < year (_date w) ->
  _prev_year w
  = _display_calendar (with_date (mkdate (year (_date w) - 1) (month (_date w)) 1) w).
Proof.
  intros [(Hy & Hm & Hd) Hd1] Hlt.
  unfold _prev_year, bind, get, lift, modify, replace_year. rewrite Hd1.
  pose proof (days_in_month_bounds (year (_date w) - 1) (month (_date w)) Hm).
  rewrite date_new_ok by (unfold valid_ymd, MINYEAR, MAXYEAR in *; lia).
  reflexivity.
Qed.

Lemma next_year_out_of_range (w : widget) :
  first_of_month w -> year (_date w) = MAXYEAR ->
  _next_year w = (Raise (mkexn ValueError "year 10000 is out of range"), w).
Proof.
  intros [Hv _] Ey. unfold _next_year, bind, get, lift, replace_year.
  destruct (valid_ymd_fits _ _ _ Hv) as (_ & Fm & Fd).
  rewrite date_new_fits; [rewrite Ey; reflexivity | | exact Fm | exact Fd].
  rewrite Ey. unfold fits_int, MAXYEAR, INT_MIN, INT_MAX. lia.
Qed.

Lemma prev_year_out_of_range (w : widget) :
  first_of_month w -> year (_date w) = MINYEAR ->
  _prev_year w = (Raise (mkexn ValueError "year 0 is out of range"), w).
Proof.
  intros [Hv _] Ey. unfold _prev_year, bind, get, lift, replace_year.
  destruct (valid_ymd_fits _ _ _ Hv) as (_ & Fm & Fd).
  rewrite date_new_fits; [rewrite Ey; reflexivity | | exact Fm | exact Fd].
  rewrite Ey. unfold fits_int, MINYEAR, INT_MIN, INT_MAX. lia.
Qed.

(** Displaying another month and then the first one again restores a
    displayed widget. *)
Lemma round_trip_display (d : date) (w : widget) :
  shape w -> first_of_month w -> _display_calendar w = (Ok tt, w) ->
  valid_date d -> day d = 1 -> year d < MAXYEAR \/ month d <= 10 ->
  exists w1,
    _display_calendar (with_date d w) = (Ok tt, w1) /\
    shape w1 /\ _date w1 = d /\ first_of_month w1 /\
    _display_calendar (with_date (_date w) w1) = (Ok tt, w).
Proof.
  intros Hs Hf Hfix Hv Hd Hdisp.
  destruct (proj1 (display_other_month d w Hs Hv Hd) Hdisp)
    as (w1 & E1 & Hs1 & Hd1 & Hsel1).
  exists w1. split; [exact E1|]. split; [exact Hs1|]. split; [exact Hd1|].
  split; [unfold first_of_month; rewrite Hd1; split; assumption|].
  assert (Hs2 : shape (with_date (_date w) w1)) by (apply shape_of_with_date; exact Hs1).
  assert (Hfr : frame w (with_date (_date w) w1)).
  { apply same_selection_frame; [|reflexivity].
    eapply same_selection_trans; [exact Hsel1|apply same_selection_with_date]. }
  pose proof (display_calendar_displayable w w Hf Hfix) as Hdw.
  destruct (display_calendar_determined w (with_date (_date w) w1) Hs Hs2 Hfr Hf Hdw)
    as (w' & Ea & Eb & _).
  rewrite Eb. congruence.
Qed.

(** X1: the three outcomes of [_next_month] on a widget in shape whose [_date]
    is the first day of a month. For every month before October 9999 it ends
    without an exception, [_date] is the first day of the next month, and the
    selection, the variable, the options and the events are unchanged. On
    October and November 9999 the display of the next month raises the
    [ValueError] of [date] for the year 10000, after [_date] has been moved.
    On December 9999 the addition raises [OverflowError] and nothing has
    changed. *)
Theorem X1_next_month_outcome (w : widget) :
  shape w -> first_of_month w ->
  (year (_date w) < MAXYEAR \/ month (_date w) <= 9 ->
   exists w',
     _next_month w = (Ok tt, w') /\ _date w' = next_first (_date w) /\
     shape w' /\ same_selection w w') /\
  (year (_date w) = MAXYEAR -> 10 <= month (_date w) <= 11 ->
   _next_month w
   = (Raise (mkexn ValueError "year 10000 is out of range"),
      with_date (next_first (_date w)) w)) /\
  (year (_date w) = MAXYEAR -> month (_date w) = 12 ->
   _next_month w = (Raise (mkexn OverflowError "date value out of range"), w)).
Proof.
  intros Hs Hf. pose proof Hf as [(Hy & Hm & _) Hd1]. split; [|split].
  - intros Hok.
    assert (Hne : _date w <> mkdate MAXYEAR 12 1).
    { intros E. rewrite E in Hok. cbn in Hok. unfold MAXYEAR in Hok. lia. }
    rewrite (next_month_as_display w Hf Hne).
    destruct (next_first_valid w Hf Hne) as [Hv Hd].
    destruct (proj1 (display_other_month _ w Hs Hv Hd)) as (w' & E & Hs' & Hd' & Hsel).
    + unfold next_first, _nextmonth. cbn [year month].
      destruct (Z.eqb_spec (month (_date w)) 12); cbn [fst snd]; lia.
    + exists w'. auto.
  - intros Ey Hmm.
    assert (Hne : _date w <> mkdate MAXYEAR 12 1).
    { intros E. rewrite E in Hmm. cbn in Hmm. lia. }
    rewrite (next_month_as_display w Hf Hne).
    destruct (next_first_valid w Hf Hne) as [Hv Hd].
    apply (proj2 (display_other_month _ w Hs Hv Hd)).
    unfold next_first, _nextmonth. cbn [year month].
    destruct (Z.eqb_spec (month (_date w)) 12); cbn [fst snd]; lia.
  - intros Ey Em. apply next_month_overflow. apply date_is; assumption.
Qed.

(** X2: the three outcomes of [_prev_month] on a widget in shape whose [_date]
    is the first day of a month. For every month but January of year 1 and
    December 9999 it ends without an exception, [_date] is the first day of
    the month before, and the selection, the variable, the options and the
    events are unchanged. On December 9999 the display of November 9999 raises
    the [ValueError] of [date] for the year 10000, after [_date] has been
    moved. On January of year 1 the subtraction raises [OverflowError] and
    nothing has changed. *)
Theorem X2_prev_month_outcome (w : widget) :
  shape w -> first_of_month w ->
  (_date w <> mkdate MINYEAR 1 1 -> _date w <> mkdate MAXYEAR 12 1 ->
   exists w',
     _prev_month w = (Ok tt, w') /\ _date w' = prev_first (_date w) /\
     shape w' /\ same_selection w w') /\
  (_date w = mkdate MAXYEAR 12 1 ->
   _prev_month w
   = (Raise (mkexn ValueError "year 10000 is out of range"),
      with_date (mkdate MAXYEAR 11 1) w)) /\
  (_date w = mkdate MINYEAR 1 1 ->
   _prev_month w = (Raise (mkexn OverflowError "date value out of range"), w)).
Proof.
  intros Hs Hf. pose proof Hf as [(Hy & Hm & _) Hd1]. split; [|split].
  - intros Hne Hne'.
    rewrite (prev_month_as_display w Hf Hne).
    destruct (prev_first_valid w Hf Hne) as [Hv Hd].
    destruct (proj1 (display_other_month _ w Hs Hv Hd)) as (w' & E & Hs' & Hd' & Hsel).
    + unfold prev_first, _prevmonth. cbn [year month].
      destruct (Z.eqb_spec (month (_date w)) 1); cbn [fst snd];
        unfold MAXYEAR in *; [lia|].
      destruct (Z.eq_dec (year (_date w)) 9999) as [Ey|]; [|lia].
      destruct (Z.eq_dec (month (_date w)) 12) as [Em|]; [|lia].
      exfalso. apply Hne'. apply date_is; assumption.
    + exists w'. auto.
  - intros E.
    assert (Hne : _date w <> mkdate MINYEAR 1 1) by (rewrite E; discriminate).
    rewrite (prev_month_as_display w Hf Hne).
    destruct (prev_first_valid w Hf Hne) as [Hv Hd].
    replace (mkdate MAXYEAR 11 1) with (prev_first (_date w)) by (rewrite E; reflexivity).
    apply (proj2 (display_other_month _ w Hs Hv Hd)).
    rewrite E. vm_compute. intros [H | H]; [discriminate H | apply H; reflexivity].
  - apply prev_month_overflow.
Qed.

(** X3: the outcomes of [_next_year] and [_prev_year] on a widget in shape
    whose [_date] is the first day of a month. [_next_year] ends without an
    exception when the same month of the next year can be displayed, and then
    [_date] is its first day; from November and December 9998 the display
    raises the [ValueError] of [date] for the year 10000 after [_date] has
    been moved; in year 9999 [replace] raises the same [ValueError] and
    nothing has changed. [_prev_year] ends without an exception from every
    year but year 1, where [replace] raises the [ValueError] of the year 0 and
    nothing has changed. The selection, the variable, the options and the
    events are unchanged. *)
Theorem X3_year_navigation_outcome (w : widget) :
  shape w -> first_of_month w ->
  (year (_date w) + 1 < MAXYEAR
   \/ year (_date w) + 1 = MAXYEAR /\ month (_date w) <= 10 ->
   exists w',
     _next_year w = (Ok tt, w') /\
     _date w' = mkdate (year (_date w) + 1) (month (_date w)) 1 /\
     shape w' /\ same_selection w w') /\
  (year (_date w) + 1 = MAXYEAR -> 11 <= month (_date w) ->
   _next_year w
   = (Raise (mkexn ValueError "year 10000 is out of range"),
      with_date (mkdate MAXYEAR (month (_date w)) 1) w)) /\
  (year (_date w) = MAXYEAR ->
   _next_year w = (Raise (mkexn ValueError "year 10000 is out of range"), w)) /\
  (MINYEAR < year (_date w) ->
   exists w',
     _prev_year w = (Ok tt, w') /\
     _date w' = mkdate (year (_date w) - 1) (month (_date w)) 1 /\
     shape w' /\ same_selection w w') /\
  (year (_date w) = MINYEAR ->
   _prev_year w = (Raise (mkexn ValueError "year 0 is out of range"), w)).
Proof.
  intros Hs Hf. pose proof Hf as [(Hy & Hm & _) Hd1].
  pose proof (days_in_month_bounds (year (_date w) + 1) (month (_date w)) Hm) as Hb.
  pose proof (days_in_month_bounds (year (_date w) - 1) (month (_date w)) Hm) as Hb'.
  split; [|split; [|split; [|split]]].
  - intros Hok. rewrite next_year_as_display by (unfold MAXYEAR in *; assumption || lia).
    destruct (proj1 (display_other_month
                       (mkdate (year (_date w) + 1) (month (_date w)) 1) w Hs
                       ltac:(unfold valid_date, valid_ymd, MINYEAR, MAXYEAR in *;
                             cbn [year month day]; lia) eq_refl))
      as (w' & E & Hs' & Hd' & Hsel).
    + cbn [year month]. lia.
    + exists w'. auto.
  - intros Ey Hmm. rewrite next_year_as_display by (unfold MAXYEAR in *; assumption || lia).
    rewrite Ey.
    apply (proj2 (display_other_month (mkdate MAXYEAR (month (_date w)) 1) w Hs
                    ltac:(unfold valid_date, valid_ymd, MINYEAR, MAXYEAR in *;
                          cbn [year month day]; rewrite <- Ey; lia) eq_refl)).
    cbn [year month]. lia.
  - apply next_year_out_of_range. exact Hf.
  - intros Hok. rewrite prev_year_as_display by assumption.
    destruct (proj1 (display_other_month
                       (mkdate (year (_date w) - 1) (month (_date w)) 1) w Hs
                       ltac:(unfold valid_date, valid_ymd, MINYEAR, MAXYEAR in *;
                             cbn [year month day]; lia) eq_refl))
      as (w' & E & Hs' & Hd' & Hsel).
    + cbn [year month]. lia.
    + exists w'. auto.
  - apply prev_year_out_of_range. exact Hf.
Qed.

(** X4: on a widget that a display has left as it is (a display of it changes
    nothing), going to the previous month and then to the next one, to the
    next month and then to the previous one, to the previous year and then to
    the next one, or to the next year and then to the previous one, restores
    the whole widget: [_date], the day labels, the week numbers and everything
    else; both steps end without an exception, for every month from which the
    first step can be displayed. *)
Theorem X4_navigation_round_trips (w : widget) :
  shape w -> first_of_month w -> _display_calendar w = (Ok tt, w) ->
  (_date w <> mkdate MINYEAR 1 1 ->
   exists w1, _prev_month w = (Ok tt, w1) /\ _next_month w1 = (Ok tt, w)) /\
  (year (_date w) < MAXYEAR \/ month (_date w) <= 9 ->
   exists w1, _next_month w = (Ok tt, w1) /\ _prev_month w1 = (Ok tt, w)) /\
  (MINYEAR < year (_date w) ->
   exists w1, _prev_year w = (Ok tt, w1) /\ _next_year w1 = (Ok tt, w)) /\
  (year (_date w) + 1 < MAXYEAR
   \/ year (_date w) + 1 = MAXYEAR /\ month (_date w) <= 10 ->
   exists w1, _next_year w = (Ok tt, w1) /\ _prev_year w1 = (Ok tt, w)).
Proof.
  intros Hs Hf Hfix. pose proof Hf as [(Hy & Hm & _) Hd1].
  pose proof (display_calendar_displayable w w Hf Hfix) as Hdisp.
  unfold displayable in Hdisp.
  assert (Hdate : _date w = mkdate (year (_date w)) (month (_date w)) 1)
    by (apply date_is; auto).
  split; [|split; [|split]].
  - intros Hne.
    destruct (prev_first_valid w Hf Hne) as [Hv Hd].
    destruct (round_trip_display (prev_first (_date w)) w Hs Hf Hfix Hv Hd)
      as (w1 & E1 & Hs1 & Hd1' & Hf1 & E2).
    { unfold prev_first, _prevmonth. cbn [year month].
      destruct (Z.eqb_spec (month (_date w)) 1); cbn [fst snd];
        unfold MAXYEAR in *; lia. }
    exists w1. rewrite (prev_month_as_display w Hf Hne). split; [exact E1|].
    assert (Hne1 : _date w1 <> mkdate MAXYEAR 12 1).
    { rewrite Hd1'. unfold prev_first, _prevmonth.
      destruct (Z.eqb_spec (month (_date w)) 1); cbn [fst snd];
        intros Hq; pose proof (f_equal year Hq) as Ha; pose proof (f_equal month Hq) as Hb;
        cbn in Ha, Hb; unfold MAXYEAR, MINYEAR in *; lia. }
    rewrite (next_month_as_display w1 Hf1 Hne1).
    replace (next_first (_date w1)) with (_date w); [exact E2|].
    rewrite Hd1'. unfold next_first, prev_first. cbn [year month].
    rewrite nextmonth_prevmonth by assumption. exact Hdate.
  - intros Hok.
    assert (Hne : _date w <> mkdate MAXYEAR 12 1).
    { intros E. rewrite E in Hok. cbn in Hok. unfold MAXYEAR in Hok. lia. }
    destruct (next_first_valid w Hf Hne) as [Hv Hd].
    destruct (round_trip_display (next_first (_date w)) w Hs Hf Hfix Hv Hd)
      as (w1 & E1 & Hs1 & Hd1' & Hf1 & E2).
    { unfold next_first, _nextmonth. cbn [year month].
      destruct (Z.eqb_spec (month (_date w)) 12); cbn [fst snd]; lia. }
    exists w1. rewrite (next_month_as_display w Hf Hne). split; [exact E1|].
    assert (Hne1 : _date w1 <> mkdate MINYEAR 1 1).
    { rewrite Hd1'. unfold next_first, _nextmonth.
      destruct (Z.eqb_spec (month (_date w)) 12); cbn [fst snd];
        intros Hq; pose proof (f_equal year Hq) as Ha; pose proof (f_equal month Hq) as Hb;
        cbn in Ha, Hb; unfold MAXYEAR, MINYEAR in *; lia. }
    rewrite (prev_month_as_display w1 Hf1 Hne1).
    replace (prev_first (_date w1)) with (_date w); [exact E2|].
    rewrite Hd1'. unfold next_first, prev_first. cbn [year month].
    rewrite prevmonth_nextmonth by assumption. exact Hdate.
  - intros Hok.
    pose proof (days_in_month_bounds (year (_date w) - 1) (month (_date w)) Hm) as Hb'.
    destruct (round_trip_display (mkdate (year (_date w) - 1) (month (_date w)) 1) w
                Hs Hf Hfix
                ltac:(unfold valid_date, valid_ymd, MINYEAR, MAXYEAR in *;
                      cbn [year month day]; lia) eq_refl)
      as (w1 & E1 & Hs1 & Hd1' & Hf1 & E2).
    { cbn [year month]. lia. }
    exists w1. rewrite prev_year_as_display by assumption. split; [exact E1|].
    rewrite next_year_as_display; [|exact Hf1|rewrite Hd1'; cbn [year]; lia].
    rewrite Hd1'. cbn [year month].
    replace (year (_date w) - 1 + 1) with (year (_date w)) by lia.
    rewrite <- Hdate. exact E2.
  - intros Hok.
    pose proof (days_in_month_bounds (year (_date w) + 1) (month (_date w)) Hm) as Hb.
    destruct (round_trip_display (mkdate (year (_date w) + 1) (month (_date w)) 1) w
                Hs Hf Hfix
                ltac:(unfold valid_date, valid_ymd, MINYEAR, MAXYEAR in *;
                      cbn [year month day]; lia) eq_refl)
      as (w1 & E1 & Hs1 & Hd1' & Hf1 & E2).
    { cbn [year month]. lia. }
    exists w1. rewrite next_year_as_display by (unfold MAXYEAR in *; assumption || lia).
    split; [exact E1|].
    rewrite prev_year_as_display; [|exact Hf1|rewrite Hd1'; cbn [year]; unfold MINYEAR in *; lia].
    rewrite Hd1'. cbn [year month].
    replace (year (_date w) + 1 - 1) with (year (_date w)) by lia.
    rewrite <- Hdate. exact E2.
Qed.

(** ** A selection of the displayed month *)

(** A day of the displayed month is among the six weeks shown. *)
Lemma in_month_offset (y m : Z) (s : date) :
  1 <= m <= 12 -> valid_date s -> year s = y -> month s = m ->
  0 <= toordinal s - first_monday y m < 42.
Proof.
  intros Hm (_ & _ & Hd) Hy Hmm. rewrite Hy, Hmm in Hd.
  pose proof (weekday_range (mkdate y m 1)).
  pose proof (days_in_month_bounds y m Hm).
  unfold first_monday, toordinal, _ymd2ord. cbn [year month day].
  rewrite Hy, Hmm. lia.
Qed.

Lemma in_month_sel_cell (y m : Z) (s : date) :
  1 <= m <= 12 -> valid_date s -> year s = y -> month s = m ->
  let k := toordinal s - first_monday y m in
  sel_cell s (mkdate y m 1) = Some (k / 7, k mod 7) /\
  0 <= k / 7 < 6 /\ 0 <= k mod 7 < 7 /\
  toordinal s = first_monday y m + 7 * (k / 7) + k mod 7.
Proof.
  intros Hm Hv Hy Hmm k.
  pose proof (in_month_offset y m s Hm Hv Hy Hmm) as Hk. fold k in Hk.
  split.
  - rewrite (sel_cell_spec y m s Hm Hv Hy) by (fold k; lia). fold k.
    replace ((0 <=? k) && (k <? 42)) with true; [reflexivity|].
    symmetry. apply andb_true_iff. split; [apply Z.leb_le | apply Z.ltb_lt]; lia.
  - subst k. Z.div_mod_to_equations. lia.
Qed.

(** On a widget that shows its month with the selection highlighted,
    [_display_selection] changes nothing. *)
Lemma display_selection_again (w : widget) (s : date) :
  shape w -> first_of_month w -> displayable w ->
  _sel_date w = Some s -> in_month (Some s) (_date w) -> displays w (Some s) ->
  _display_selection w = (Ok tt, w).
Proof.
  intros Hs Hf Hdisp Hsel (Hv & Hy & Hmm) (G & HG & Hl).
  destruct (display_selection_exact w Hs) as (w' & E & Hs' & Hfr & Hwk & Hcase).
  rewrite E. f_equal. apply widget_ext; [exact Hfr| |exact Hwk].
  rewrite Hsel in Hcase.
  pose proof Hf as [(Hyr & Hm & _) Hday].
  pose proof (date_is w _ _ Hf eq_refl eq_refl) as Hdate.
  destruct (in_month_sel_cell (year (_date w)) (month (_date w)) s Hm Hv Hy Hmm)
    as (Hsc & Hr & Hc & Ho).
  rewrite <- Hdate in Hsc. rewrite Hsc in Hcase.
  destruct Hcase as [(old & Hold & Hnew) Hother].
  apply calendar_ext; try assumption. intros r c Hr' Hc'.
  remember (toordinal s - first_monday (year (_date w)) (month (_date w))) as k.
  destruct (Z.eq_dec r (k / 7)) as [-> | Er];
    [destruct (Z.eq_dec c (k mod 7)) as [-> | Ec]|].
  - rewrite Hnew, Hold. f_equal.
    destruct (grid_cells _ _ G (k / 7) (k mod 7) Hyr Hm Hdisp HG Hr Hc)
      as (x & Hx & Hxv & Hxo).
    assert (x = s) by (apply toordinal_inj; try assumption; lia). subst x.
    rewrite (Hl _ _ s Hr Hc Hx) in Hold. injection Hold as <-.
    unfold day_label, is_date. destruct (date_eq_dec s s); [|contradiction].
    reflexivity.
  - first [apply Hother; lia | symmetry; apply Hother; lia].
  - first [apply Hother; lia | symmetry; apply Hother; lia].
Qed.

(** The end of [selection_set] and of [_textvariable_trace]: the month of
    the selection is displayed, with the selection highlighted. *)
Lemma show_selection (w : widget) (s : date) :
  shape w -> _sel_date w = Some s -> valid_date s ->
  year s < MAXYEAR \/ month s <= 10 ->
  exists w',
    (d1 <- lift (replace_day s 1) ;;
     modify (with_date d1) ;; _display_calendar ;; _display_selection) w
    = (Ok tt, w') /\
    shows_month w' /\ _date w' = mkdate (year s) (month s) 1 /\
    _sel_date w' = Some s /\ same_selection w w'.
Proof.
  intros Hs Hsel Hv Hdisp. pose proof Hv as (Hy & Hm & Hd).
  pose proof (days_in_month_bounds (year s) (month s) Hm) as Hb.
  assert (Hv1 : valid_date (mkdate (year s) (month s) 1))
    by (unfold valid_date, valid_ymd; cbn; lia).
  unfold bind at 1. unfold lift, replace_day.
  rewrite date_new_ok by exact Hv1.
  unfold bind at 1. unfold modify at 1.
  set (w0 := with_date (mkdate (year s) (month s) 1) w).
  assert (Hs0 : shape w0) by (apply shape_of_with_date; exact Hs).
  assert (Hf0 : first_of_month w0) by (split; [exact Hv1|reflexivity]).
  assert (Hd0 : displayable w0) by exact Hdisp.
  destruct (display_calendar_near w0 s Hs0 Hf0 Hd0 Hsel Hv eq_refl)
    as (w1 & E1 & Hs1 & Hfr1 & Hshow1).
  { cbn [w0 _date with_date month]. lia. }
  unfold bind. rewrite E1.
  assert (Hdate1 : _date w1 = mkdate (year s) (month s) 1) by apply Hfr1.
  assert (Hsel1 : _sel_date w1 = Some s) by (destruct Hfr1 as (_ & -> & _); exact Hsel).
  assert (Hf1 : first_of_month w1) by (unfold first_of_month; rewrite Hdate1; exact Hf0).
  assert (Hd1 : displayable w1) by (unfold displayable; rewrite Hdate1; exact Hdisp).
  assert (Him : in_month (Some s) (_date w1)).
  { rewrite Hdate1. split; [exact Hv|]. split; reflexivity. }
  rewrite (display_selection_again w1 s Hs1 Hf1 Hd1 Hsel1 Him Hshow1).
  exists w1. split; [reflexivity|]. split.
  - split; [exact Hs1|]. split; [exact Hf1|]. split; [exact Hd1|].
    rewrite Hsel1. split; assumption.
  - split; [exact Hdate1|]. split; [exact Hsel1|].
    eapply same_selection_trans;
      [apply (same_selection_with_date (mkdate (year s) (month s) 1)) |
       apply frame_same_selection; exact Hfr1].
Qed.

(** ** The text variable and [selection_set] *)

Lemma same_selection_options (w w' : widget) : same_selection w w' -> same_options w w'.
Proof. unfold same_selection, same_options. tauto. Qed.

Lemma same_options_refl (w : widget) : same_options w w.
Proof. repeat split. Qed.

Lemma same_options_trans (w1 w2 w3 : widget) :
  same_options w1 w2 -> same_options w2 w3 -> same_options w1 w3.
Proof.
  unfold same_options. intros (a1 & a2 & a3 & a4) (b1 & b2 & b3 & b4).
  repeat split; congruence.
Qed.

Lemma string_eqb_empty (s : string) : s <> "" -> String.eqb s "" = false.
Proof. intros H. apply String.eqb_neq. exact H. Qed.

(** [shows_month] does not look at the variable. *)
Lemma shows_month_textvariable (t : option string) (w : widget) :
  shows_month w -> shows_month (with_textvariable t w).
Proof. intros H. exact H. Qed.

Lemma displays_sel_none (w : widget) (s : option date) :
  displays w s -> displays (with_sel_date None w) s.
Proof. intros H. exact H. Qed.

Section TextVariable.

Context {L : Locale}.

(** With the selection mode not the literal ["day"], the trace does
    nothing. *)
Lemma trace_off (w : widget) :
  py_is (selectmode w) "day" = false -> _textvariable_trace w = (Ok tt, w).
Proof. intros H. unfold _textvariable_trace, bind, get. rewrite H. reflexivity. Qed.

(** The trace on a content that the locale reads as the date [d]. *)
Lemma trace_parses (w : widget) (txt : string) (d : date) :
  shape w -> py_is (selectmode w) "day" = true ->
  _textvariable w = Some txt -> txt <> "" -> strptime_x txt = Ok d ->
  valid_date d -> year d < MAXYEAR \/ month d <= 10 ->
  exists w',
    _textvariable_trace w = (Ok tt, w') /\ shows_month w' /\
    _date w' = mkdate (year d) (month d) 1 /\ _sel_date w' = Some d /\
    _textvariable w' = Some txt /\ same_options w w'.
Proof.
  intros Hs Hmode Htv Hne Hp Hv Hdisp.
  unfold _textvariable_trace. unfold bind at 1. unfold get at 1.
  rewrite Hmode, Htv, (string_eqb_empty txt Hne), Hp.
  unfold bind at 1. unfold modify at 1.
  destruct (show_selection (with_sel_date (Some d) w) d) as (w' & E & Hsm & Hd' & Hsel' & Hsame);
    try assumption; try reflexivity.
  rewrite E. exists w'. split; [reflexivity|]. split; [exact Hsm|].
  split; [exact Hd'|]. split; [exact Hsel'|].
  destruct Hsame as (_ & Ht & Ho). split; [rewrite Ht; exact Htv|exact Ho].
Qed.

(** The trace on an empty content, on a widget that shows its month. *)
Lemma trace_empty (w : widget) :
  shows_month w -> py_is (selectmode w) "day" = true ->
  _textvariable w = Some "" ->
  exists w',
    _textvariable_trace w = (Ok tt, w') /\ shows_month w' /\
    _date w' = _date w /\ _sel_date w' = None /\
    _textvariable w' = Some "" /\ same_options w w'.
Proof.
  intros (Hs & Hf & Hdisp & Him & Hshow) Hmode Htv.
  unfold _textvariable_trace. unfold bind at 1. unfold get at 1.
  rewrite Hmode, Htv. cbn [String.eqb].
  assert (Hrem : exists w1,
             _remove_selection w = (Ok tt, w1) /\ shape w1 /\ frame w w1 /\
             displays w1 None).
  { destruct (_sel_date w) as [s|] eqn:Hsel.
    - destruct Him as (Hv & Hy & Hm).
      destruct (remove_selection_displays w s Hs Hf Hdisp Hsel Hv)
        as (w1 & E1 & Hs1 & Hfr1 & _ & Hd1).
      + intros _. lia.
      + rewrite (proj2 (Z.eqb_eq _ _) Hy). exact Hshow.
      + exists w1. auto.
    - exists w. split.
      + unfold _remove_selection, bind, get. rewrite Hsel. reflexivity.
      + split; [exact Hs|]. split; [apply frame_refl|exact Hshow]. }
  destruct Hrem as (w1 & E1 & Hs1 & Hfr1 & Hd1).
  unfold bind, modify. rewrite E1.
  exists (with_sel_date None w1). split; [reflexivity|].
  destruct Hfr1 as (Hdate & Hsel & Htv1 & Ho).
  split.
  - split; [exact Hs1|]. split; [unfold first_of_month; cbn; rewrite Hdate; exact Hf|].
    split; [unfold displayable; cbn; rewrite Hdate; exact Hdisp|].
    split; [exact I|exact Hd1].
  - cbn. split; [exact Hdate|]. split; [reflexivity|]. split; [congruence|exact Ho].
Qed.

(** Setting the bound variable from a method to what the locale writes for
    the selection, when the locale reads it back. *)
Lemma textvariable_set_selection (w : widget) (old : string) (d : date) :
  shape w -> _textvariable w = Some old -> _sel_date w = Some d ->
  valid_date d -> year d < MAXYEAR \/ month d <= 10 ->
  py_is (selectmode w) "day" = false \/ reads_back d ->
  exists w',
    textvariable_set (strftime_x d) w = (Ok tt, w') /\ shape w' /\
    _sel_date w' = Some d /\ _textvariable w' = Some (strftime_x d) /\
    same_options w w' /\
    (py_is (selectmode w) "day" = false -> w' = with_textvariable (Some (strftime_x d)) w).
Proof.
  intros Hs Htv Hsel Hv Hdisp Hlocale.
  unfold textvariable_set, bind at 1, textvariable_write, bind at 1, get at 1.
  rewrite Htv. unfold modify at 1.
  set (w0 := with_textvariable (Some (strftime_x d)) w).
  unfold try_except.
  destruct (py_is (selectmode w) "day") eqn:Hmode.
  - destruct Hlocale as [Hoff | [Hne Hrb]]; [discriminate|].
    destruct (trace_parses w0 (strftime_x d) d) as (w' & E & Hsm & Hd' & Hsel' & Htv' & Ho);
      try assumption; try reflexivity.
    rewrite E. exists w'. split; [reflexivity|]. split; [apply Hsm|].
    split; [exact Hsel'|]. split; [exact Htv'|]. split; [exact Ho|]. discriminate.
  - rewrite (trace_off w0 Hmode). exists w0. split; [reflexivity|].
    split; [exact Hs|]. split; [exact Hsel|]. split; [reflexivity|].
    split; [repeat split|]. reflexivity.
Qed.

End TextVariable.

Section SelectionSet.

Context {L : Locale}.

Lemma selection_set_string (w : widget) (s : string) (d : date) :
  strptime_x s = Ok d -> selection_set (ArgStr s) w = selection_set (ArgDate d) w.
Proof. intros H. unfold selection_set. rewrite H. reflexivity. Qed.

Lemma selection_set_a_date (w : widget) (d : date) :
  shape w ->
  py_is (selectmode w) "day" = true -> py_is (state w) "normal" = true ->
  valid_date d -> year d < MAXYEAR \/ month d <= 10 ->
  _textvariable w = None \/ reads_back d ->
  exists w',
    selection_set (ArgDate d) w = (Ok tt, w') /\ shows_month w' /\
    _sel_date w' = Some d /\ _date w' = mkdate (year d) (month d) 1 /\
    _textvariable w' = option_map (fun _ => strftime_x d) (_textvariable w) /\
    same_options w w'.
Proof.
  intros Hs Hmode Hstate Hv Hdisp Hlocale.
  unfold selection_set. unfold bind at 1. unfold get at 1.
  rewrite Hmode, Hstate. cbn [andb].
  unfold bind at 1. unfold modify at 1.
  set (wa := with_sel_date (Some d) w).
  unfold bind at 1. unfold get at 1.
  change (_textvariable wa) with (_textvariable w).
  change (_sel_date wa) with (Some d).
  destruct (_textvariable w) as [old|] eqn:Htv.
  - destruct Hlocale as [Hnone | Hrb]; [discriminate|].
    destruct (textvariable_set_selection wa old d) as (wb & Eb & Hsb & Hselb & Htvb & Hob & _);
      try assumption; try reflexivity.
    { right. exact Hrb. }
    unfold bind at 1. rewrite Eb.
    unfold bind at 1. unfold get at 1. rewrite Hselb.
    destruct (show_selection wb d Hsb Hselb Hv Hdisp) as (w' & E & Hsm & Hd' & Hsel' & Hsame).
    rewrite E. exists w'. split; [reflexivity|]. split; [exact Hsm|].
    split; [exact Hsel'|]. split; [exact Hd'|].
    destruct Hsame as (_ & Ht & Ho). split; [cbn; congruence|].
    eapply same_options_trans; [exact Hob|exact Ho].
  - unfold bind at 1. unfold ret at 1.
    unfold bind at 1. unfold get at 1.
    change (_sel_date wa) with (Some d).
    destruct (show_selection wa d Hs eq_refl Hv Hdisp) as (w' & E & Hsm & Hd' & Hsel' & Hsame).
    rewrite E. exists w'. split; [reflexivity|]. split; [exact Hsm|].
    split; [exact Hsel'|]. split; [exact Hd'|].
    destruct Hsame as (_ & Ht & Ho). split; [cbn; rewrite Ht; exact Htv|exact Ho].
Qed.

(** X12: [selection_set] with a date, or with a string that the locale reads
    as a date [d], in selection mode ['day'] and state ['normal'], on a widget
    with its six rows of labels. It ends without an exception; the calendar
    date of the selection is [d], [_date] is the first day of the month of
    [d], the widget shows that month with [d] highlighted and no other label,
    the variable holds [d] in the locale's format if one is bound, no option
    and no event has changed, what [selection_get] returns has the year, the
    month and the day of [d], and [get_date] returns [d] in the locale's
    format. The month of [d] must be one that can be displayed and, with a
    bound variable, the locale must read back what it writes for [d]. *)
Theorem X12_selection_set_selects (w : widget) (a : sel_arg) (d : date) :
  shape w ->
  py_is (selectmode w) "day" = true -> py_is (state w) "normal" = true ->
  a = ArgDate d \/ (exists s, a = ArgStr s /\ strptime_x s = Ok d) ->
  valid_date d -> year d < MAXYEAR \/ month d <= 10 ->
  _textvariable w = None \/ reads_back d ->
  exists w',
    selection_set a w = (Ok tt, w') /\ shows_month w' /\
    _sel_date w' = Some d /\ _date w' = mkdate (year d) (month d) 1 /\
    _textvariable w' = option_map (fun _ => strftime_x d) (_textvariable w) /\
    same_options w w' /\
    option_map calendar_date (selection_get w') = Some (calendar_date d) /\
    get_date w' = strftime_x d.
Proof.
  intros Hs Hmode Hstate Ha Hv Hdisp Hlocale.
  destruct (selection_set_a_date w d Hs Hmode Hstate Hv Hdisp Hlocale)
    as (w' & E & Hsm & Hsel & Hd & Htv & Ho).
  exists w'. split.
  - destruct Ha as [-> | (s & -> & Hp)]; [exact E|].
    rewrite (selection_set_string w s d Hp). exact E.
  - split; [exact Hsm|]. split; [exact Hsel|]. split; [exact Hd|].
    split; [exact Htv|]. split; [exact Ho|]. split.
    + unfold selection_get. destruct Ho as (-> & _). rewrite Hmode, Hsel.
      reflexivity.
    + unfold get_date. rewrite Hsel. reflexivity.
Qed.

(** X13: [selection_set] with a string that [strptime] rejects, in selection
    mode ['day'] and state ['normal'], raises an exception of the type that
    the parser raised, whose message is [repr] of the string followed by [' is
    not a valid date.'], and leaves the whole widget as it was; the string
    occurs in the message as it is when it has no quote, backslash or
    unprintable character. *)
Theorem X13_selection_set_unreadable (w : widget) (s : string) (e : exn) :
  py_is (selectmode w) "day" = true -> py_is (state w) "normal" = true ->
  strptime_x s = Raise e ->
  selection_set (ArgStr s) w
  = (Raise (mkexn (exn_ty e) (append (PyStr.repr s) " is not a valid date.")), w) /\
  (PyStr.plain s = true ->
   PyStr.is_substring s (append (PyStr.repr s) " is not a valid date.") = true).
Proof.
  intros Hmode Hstate Hp. split.
  - unfold selection_set, bind, get. rewrite Hmode, Hstate, Hp. reflexivity.
  - apply plain_in_message.
Qed.

(** X14: [selection_set(None)] on a widget that shows its month, in selection
    mode ['day'] and state ['normal'], ends without an exception: nothing is
    selected, no label is highlighted and every label has the style of its
    column and month, the displayed month and the options are unchanged, no
    event is generated, a bound variable holds the empty string,
    [selection_get] returns [None] and [get_date] the empty string. *)
Theorem X14_selection_set_none_clears (w : widget) :
  shows_month w ->
  py_is (selectmode w) "day" = true -> py_is (state w) "normal" = true ->
  exists w',
    selection_set ArgNone w = (Ok tt, w') /\ shows_month w' /\
    _sel_date w' = None /\ _date w' = _date w /\
    _textvariable w' = option_map (fun _ => "") (_textvariable w) /\
    same_options w w' /\
    selection_get w' = None /\ get_date w' = "".
Proof.
  intros Hsm Hmode Hstate.
  assert (Hmain : exists w',
             selection_set ArgNone w = (Ok tt, w') /\ shows_month w' /\
             _sel_date w' = None /\ _date w' = _date w /\
             _textvariable w' = option_map (fun _ => "") (_textvariable w) /\
             same_options w w').
  { pose proof Hsm as (Hs & Hf & Hdisp & Him & Hshow).
    unfold selection_set. unfold bind at 1. unfold get at 1.
    rewrite Hmode, Hstate. cbn [andb].
    assert (Hrem : exists w1,
               _remove_selection w = (Ok tt, w1) /\ shape w1 /\ frame w w1 /\
               displays w1 None).
    { destruct (_sel_date w) as [s|] eqn:Hsel.
      - destruct Him as (Hv & Hy & Hm).
        destruct (remove_selection_displays w s Hs Hf Hdisp Hsel Hv)
          as (w1 & E1 & Hs1 & Hfr1 & _ & Hd1).
        + intros _. lia.
        + rewrite (proj2 (Z.eqb_eq _ _) Hy). exact Hshow.
        + exists w1. auto.
      - exists w. split.
        + unfold _remove_selection, bind, get. rewrite Hsel. reflexivity.
        + split; [exact Hs|]. split; [apply frame_refl|exact Hshow]. }
    destruct Hrem as (w1 & E1 & Hs1 & Hfr1 & Hd1).
    unfold bind at 1. rewrite E1.
    unfold bind at 1. unfold modify at 1.
    set (w2 := with_sel_date None w1).
    destruct Hfr1 as (Hdate & Hsel1 & Htv1 & Hm1 & Hst1 & Hcb1 & Hg1).
    assert (Hsm2 : shows_month w2).
    { split; [exact Hs1|]. split; [unfold first_of_month; cbn; rewrite Hdate; exact Hf|].
      split; [unfold displayable; cbn; rewrite Hdate; exact Hdisp|].
      split; [exact I|exact Hd1]. }
    destruct (_textvariable w) as [old|] eqn:Htv.
    - unfold textvariable_set, bind at 1, textvariable_write, bind at 1, get at 1.
      change (_textvariable w2) with (_textvariable w1). rewrite Htv1.
      unfold modify at 1. unfold try_except.
      destruct (trace_empty (with_textvariable (Some "") w2))
        as (w3 & E3 & Hsm3 & Hd3 & Hsel3 & Htv3 & Ho3).
      + exact Hsm2.
      + cbn. rewrite Hm1. exact Hmode.
      + reflexivity.
      + rewrite E3. exists w3. split; [reflexivity|]. split; [exact Hsm3|].
        split; [exact Hsel3|]. split; [rewrite Hd3; exact Hdate|].
        split; [exact Htv3|].
        eapply same_options_trans; [|exact Ho3]. repeat split; assumption.
    - exists w2. split; [reflexivity|]. split; [exact Hsm2|].
      split; [reflexivity|]. split; [exact Hdate|]. split; [exact Htv1|].
      repeat split; assumption. }
  destruct Hmain as (w' & E & Hsm' & Hsel & Hd & Htv & Ho).
  exists w'. repeat (split; [assumption|]). split.
  - unfold selection_get. rewrite Hsel. destruct (py_is (selectmode w') "day"); reflexivity.
  - unfold get_date. rewrite Hsel. reflexivity.
Qed.

(** X15: what the trace does when the application writes the bound variable,
    the trace of the widget being on it (as it is after a construction with
    the variable). When the selection mode is not the literal ['day'], nothing
    but the variable changes. In mode ['day'], on a widget that shows its
    month, the empty string clears the selection and removes its highlight; on
    a widget with its six rows of labels, a non-empty string that the locale
    reads as a valid date [d] of a month that can be displayed makes [d] the
    selection and displays the month of [d] with [d] highlighted, the variable
    keeping the string as it was written; no option changes in these cases.
    And whatever the widget and the string, also when the trace raises, no
    event is generated. *)
Theorem X15_textvariable_written_outcome (w : widget) (old txt : string) :
  _textvariable w = Some old ->
  (py_is (selectmode w) "day" = false ->
   textvariable_written txt w = (Ok tt, with_textvariable (Some txt) w)) /\
  (py_is (selectmode w) "day" = true -> txt = "" -> shows_month w ->
   exists w',
     textvariable_written txt w = (Ok tt, w') /\ shows_month w' /\
     _sel_date w' = None /\ _date w' = _date w /\
     _textvariable w' = Some "" /\ same_options w w') /\
  (forall d,
     py_is (selectmode w) "day" = true -> txt <> "" -> strptime_x txt = Ok d ->
     shape w -> valid_date d -> year d < MAXYEAR \/ month d <= 10 ->
     exists w',
       textvariable_written txt w = (Ok tt, w') /\ shows_month w' /\
       _sel_date w' = Some d /\ _date w' = mkdate (year d) (month d) 1 /\
       _textvariable w' = Some txt /\ same_options w w') /\
  generated (snd (textvariable_written txt w)) = generated w.
Proof.
  intros Htv.
  assert (Hw : textvariable_write txt w = (Ok tt, with_textvariable (Some txt) w)).
  { unfold textvariable_write, bind, get, modify. rewrite Htv. reflexivity. }
  split; [|split; [|split]];
    [| | |exact (textvariable_written_generated (generated w) txt w eq_refl)];
    unfold textvariable_written.
  - intros Hmode. unfold bind. rewrite Hw. apply trace_off. exact Hmode.
  - intros Hmode -> Hsm. unfold bind. rewrite Hw.
    destruct (trace_empty (with_textvariable (Some "") w) Hsm Hmode eq_refl)
      as (w' & E & Hsm' & Hd & Hsel & Htv' & Ho).
    exists w'. auto 10.
  - intros d Hmode Hne Hp Hs Hv Hdisp. unfold bind. rewrite Hw.
    destruct (trace_parses (with_textvariable (Some txt) w) txt d Hs Hmode eq_refl
                Hne Hp Hv Hdisp)
      as (w' & E & Hsm' & Hd & Hsel & Htv' & Ho).
    exists w'. auto 10.
Qed.

End SelectionSet.

(** ** Clicks *)

(** The dates of the six weeks of a month: the first row may hold days of
    the month before, the rows after it days of the month after, and all
    other cells hold the days of the month. *)
Lemma grid_date_cases (y m r c : Z) (x : date) :
  1 <= m <= 12 -> valid_date x -> 0 <= r < 6 -> 0 <= c < 7 ->
  toordinal x = first_monday y m + 7 * r + c ->
  (year x = y /\ month x = m)
  \/ (r = 0 /\ (year x, month x) = _prevmonth y m /\ month x <> m)
  \/ (r <> 0 /\ (year x, month x) = _nextmonth y m /\ month x <> m).
Proof.
  intros Hm Hv Hr Hc Ho.
  pose proof (weekday_range (mkdate y m 1)) as Hwd.
  pose proof (days_in_month_bounds y m Hm) as Hdim.
  assert (Hfm : first_monday y m = _ymd2ord y m 1 - weekday (mkdate y m 1))
    by reflexivity.
  destruct (Z.lt_ge_cases (toordinal x) (_ymd2ord y m 1)) as [Hlt | Hge].
  - right. left.
    pose proof (ymd2ord_prevmonth y m Hm) as Hp.
    pose proof (prevmonth_valid y m Hm) as Hpm.
    destruct (_prevmonth y m) as [py pm] eqn:Epm. cbn [fst snd] in *.
    pose proof (days_in_month_bounds py pm Hpm) as Hdp.
    assert (Hx : x = mkdate py pm (toordinal x - _ymd2ord py pm 1 + 1)).
    { apply date_in_month; try assumption; lia. }
    split; [lia|]. rewrite Hx. cbn [year month]. split; [reflexivity|].
    unfold _prevmonth in Epm. destruct (Z.eqb_spec m 1); injection Epm as <- <-; lia.
  - destruct (Z.lt_ge_cases (toordinal x) (_ymd2ord y m 1 + _days_in_month y m))
      as [Hin | Hout].
    + left.
      assert (Hx : x = mkdate y m (toordinal x - _ymd2ord y m 1 + 1)).
      { apply date_in_month; try assumption; lia. }
      rewrite Hx. cbn [year month]. split; reflexivity.
    + right. right.
      pose proof (ymd2ord_nextmonth y m Hm) as Hn.
      pose proof (nextmonth_valid y m Hm) as Hnm.
      destruct (_nextmonth y m) as [ny nm] eqn:Enm. cbn [fst snd] in *.
      pose proof (days_in_month_bounds ny nm Hnm) as Hdn.
      assert (Hx : x = mkdate ny nm (toordinal x - _ymd2ord ny nm 1 + 1)).
      { apply date_in_month; try assumption; lia. }
      split; [lia|]. rewrite Hx. cbn [year month]. split; [reflexivity|].
      unfold _nextmonth in Enm. destruct (Z.eqb_spec m 12); injection Enm as <- <-; lia.
Qed.

Lemma shows_month_near (w : widget) : shows_month w -> shows_near w.
Proof.
  intros (Hs & Hf & Hd & Him & Hshow).
  split; [exact Hs|]. split; [exact Hf|]. split; [exact Hd|].
  destruct (_sel_date w) as [s|]; cbn [visible].
  - destruct Him as (Hv & Hy & Hm). split.
    + intros s' [= <-]. split; [exact Hv|]. intros _. lia.
    + rewrite (proj2 (Z.eqb_eq _ _) Hy). exact Hshow.
  - split; [discriminate|exact Hshow].
Qed.

(** A display of a neighbouring month of the selection's month. *)
Lemma display_near (w : widget) :
  shape w -> first_of_month w -> displayable w ->
  (forall s, _sel_date w = Some s ->
     valid_date s /\
     (year s = year (_date w) -> -10 <= month s - month (_date w) <= 10)) ->
  exists w',
    _display_calendar w = (Ok tt, w') /\ shows_near w' /\ frame w w'.
Proof.
  intros Hs Hf Hd Hsel.
  assert (Hgoal : forall w', shape w' -> frame w w' ->
            displays w' (visible (_sel_date w) (_date w)) -> shows_near w').
  { intros w' Hs' Hfr Hshow. destruct Hfr as (Hdt & Hsl & _).
    split; [exact Hs'|]. unfold first_of_month, displayable. rewrite Hdt, Hsl.
    split; [exact Hf|]. split; [exact Hd|]. split; [exact Hsel|exact Hshow]. }
  destruct (_sel_date w) as [s|] eqn:Es.
  - destruct (Hsel s eq_refl) as [Hv Hnear].
    destruct (Z.eqb_spec (year s) (year (_date w))) as [Ey | Ey].
    + destruct (display_calendar_near w s Hs Hf Hd Es Hv Ey (Hnear Ey))
        as (w' & E & Hs' & Hfr & Hshow).
      exists w'. split; [exact E|]. split; [|exact Hfr].
      apply Hgoal; try assumption. cbn [visible].
      rewrite (proj2 (Z.eqb_eq _ _) Ey). exact Hshow.
    + destruct (display_calendar_plain w Hs Hf Hd) as (w' & E & Hs' & Hfr & Hshow).
      { intros s' Hs'. rewrite Es in Hs'. injection Hs' as <-. exact Ey. }
      exists w'. split; [exact E|]. split; [|exact Hfr].
      apply Hgoal; try assumption. cbn [visible].
      destruct (Z.eqb_spec (year s) (year (_date w))); [contradiction|]. exact Hshow.
  - destruct (display_calendar_plain w Hs Hf Hd) as (w' & E & Hs' & Hfr & Hshow).
    { intros s' Hs'. rewrite Es in Hs'. discriminate. }
    exists w'. split; [exact E|]. split; [|exact Hfr].
    apply Hgoal; assumption.
Qed.

(** [_remove_selection] on a widget that shows its month. *)
Lemma remove_selection_near (w : widget) :
  shows_near w ->
  exists w',
    _remove_selection w = (Ok tt, w') /\ shape w' /\ frame w w' /\
    displays w' None.
Proof.
  intros (Hs & Hf & Hd & Hsel & Hshow).
  destruct (_sel_date w) as [s|] eqn:Es.
  - destruct (Hsel s eq_refl) as [Hv Hnear].
    destruct (remove_selection_displays w s Hs Hf Hd Es Hv Hnear Hshow)
      as (w' & E & Hs' & Hfr & _ & Hshow').
    exists w'. auto.
  - exists w. split.
    + unfold _remove_selection, bind, get. rewrite Es. reflexivity.
    + split; [exact Hs|]. split; [apply frame_refl|exact Hshow].
Qed.

(** Highlighting a day of the displayed month on labels that show the
    month without highlight. *)
Lemma display_selection_fresh (w : widget) (x : date) :
  shape w -> first_of_month w -> displayable w ->
  _sel_date w = Some x -> in_month (Some x) (_date w) -> displays w None ->
  exists w',
    _display_selection w = (Ok tt, w') /\ shape w' /\ frame w w' /\
    displays w' (Some x).
Proof.
  intros Hs Hf Hdisp Hsel (Hv & Hy & Hmm) (G & HG & Hl).
  destruct (display_selection_exact w Hs) as (w' & E & Hs' & Hfr & Hwk & Hcase).
  exists w'. split; [exact E|]. split; [exact Hs'|]. split; [exact Hfr|].
  rewrite Hsel in Hcase.
  pose proof Hf as [(Hyr & Hm & _) Hday].
  pose proof (date_is w _ _ Hf eq_refl eq_refl) as Hdate.
  destruct (in_month_sel_cell (year (_date w)) (month (_date w)) x Hm Hv Hy Hmm)
    as (Hsc & Hr & Hc & Ho).
  rewrite <- Hdate in Hsc. rewrite Hsc in Hcase.
  destruct Hcase as [(old & Hold & Hnew) Hother].
  assert (Hd' : _date w' = _date w) by apply Hfr.
  exists G. rewrite Hd'. split; [exact HG|].
  intros r c x' Hr' Hc' Hx'.
  destruct (grid_cells _ _ G r c Hyr Hm Hdisp HG Hr' Hc') as (x'' & Hx'' & Hxv & Hxo).
  assert (x'' = x') by congruence. subst x''.
  remember (toordinal x - first_monday (year (_date w)) (month (_date w))) as k.
  destruct (Z.eq_dec r (k / 7)) as [-> | Er];
    [destruct (Z.eq_dec c (k mod 7)) as [-> | Ec]|].
  - assert (x' = x) by (apply toordinal_inj; try assumption; lia). subst x'.
    rewrite Hnew. rewrite (Hl _ _ x Hr Hc Hx') in Hold. injection Hold as <-.
    unfold day_label, is_date. destruct (date_eq_dec x x); [|contradiction].
    reflexivity.
  - rewrite Hother by lia. rewrite (Hl _ _ x' Hr' Hc' Hx'). unfold day_label.
    replace (is_date (Some x) x') with false; [reflexivity|].
    symmetry. apply is_date_false. intros [= ->]. apply Ec.
    Z.div_mod_to_equations. lia.
  - rewrite Hother by lia. rewrite (Hl _ _ x' Hr' Hc' Hx'). unfold day_label.
    replace (is_date (Some x) x') with false; [reflexivity|].
    symmetry. apply is_date_false. intros [= ->]. apply Er.
    Z.div_mod_to_equations. lia.
Qed.

Section ClickSelects.

Context {L : Locale}.

(** Setting the bound variable to the selection on a widget that shows its
    month. *)
Lemma textvariable_set_shown (w : widget) (old : string) (d : date) :
  shows_month w -> _sel_date w = Some d -> _textvariable w = Some old ->
  py_is (selectmode w) "day" = false \/ reads_back d ->
  exists w',
    textvariable_set (strftime_x d) w = (Ok tt, w') /\ shows_month w' /\
    _sel_date w' = Some d /\ _date w' = _date w /\
    _textvariable w' = Some (strftime_x d) /\ same_options w w'.
Proof.
  intros Hsm Hsel Htv Hlocale.
  pose proof Hsm as (Hs & Hf & Hdisp & Him & Hshow).
  rewrite Hsel in Him. destruct Him as (Hv & Hy & Hm).
  unfold textvariable_set, bind at 1, textvariable_write, bind at 1, get at 1.
  rewrite Htv. unfold modify at 1. unfold try_except.
  destruct (py_is (selectmode w) "day") eqn:Hmode.
  - destruct Hlocale as [Hoff | [Hne Hrb]]; [discriminate|].
    destruct (trace_parses (with_textvariable (Some (strftime_x d)) w) (strftime_x d) d)
      as (w' & E & Hsm' & Hd' & Hsel' & Htv' & Ho); try assumption; try reflexivity.
    { unfold displayable in Hdisp. rewrite Hy, Hm. exact Hdisp. }
    rewrite E. exists w'. split; [reflexivity|]. split; [exact Hsm'|].
    split; [exact Hsel'|]. split; [|split; [exact Htv'|exact Ho]].
    rewrite Hd', Hy, Hm. symmetry. apply date_is; auto.
  - rewrite (trace_off (with_textvariable (Some (strftime_x d)) w) Hmode).
    exists (with_textvariable (Some (strftime_x d)) w).
    split; [reflexivity|]. split; [exact Hsm|]. split; [exact Hsel|].
    split; [reflexivity|]. split; [reflexivity|]. repeat split.
Qed.

(** The part of [_on_click] after the navigation, for a day of the
    displayed month. *)
Lemma click_tail (w : widget) (x : date) :
  shows_near w -> valid_date x ->
  year x = year (_date w) -> month x = month (_date w) ->
  _textvariable w = None \/ py_is (selectmode w) "day" = false \/ reads_back x ->
  exists w',
    (w0 <- get ;;
     _remove_selection ;;
     d <- lift (date_new (year (_date w0)) (month (_date w0)) (day x)) ;;
     modify (with_sel_date (Some d)) ;;
     _display_selection ;;
     match _textvariable w0 with
     | Some _ => textvariable_set (strftime_x d)
     | None => ret tt
     end ;;
     event_generate CalendarSelected) w = (Ok tt, w') /\
    shows_month w' /\ _sel_date w' = Some x /\ _date w' = _date w /\
    _textvariable w' = option_map (fun _ => strftime_x x) (_textvariable w) /\
    generated w' = generated w ++ [CalendarSelected] /\
    selectmode w' = selectmode w /\ state w' = state w /\
    click_bound w' = click_bound w.
Proof.
  intros Hnear Hv Hy Hm Hlocale.
  pose proof Hnear as (Hs & Hf & Hdisp & _ & _).
  unfold bind at 1. unfold get at 1. cbv zeta.
  destruct (remove_selection_near w Hnear) as (w1 & E1 & Hs1 & Hfr1 & Hshow1).
  unfold bind at 1. rewrite E1.
  unfold bind at 1. unfold lift at 1.
  rewrite <- Hy, <- Hm.
  assert (Hx : mkdate (year x) (month x) (day x) = x) by (destruct x; reflexivity).
  rewrite date_new_ok by exact Hv. rewrite Hx.
  unfold bind at 1. unfold modify at 1.
  set (w2 := with_sel_date (Some x) w1).
  pose proof Hfr1 as (Hd1 & Hsel1 & Htv1 & Hm1 & Hst1 & Hcb1 & Hg1).
  assert (Hf2 : first_of_month w2) by (unfold first_of_month; cbn; rewrite Hd1; exact Hf).
  assert (Hdisp2 : displayable w2) by (unfold displayable; cbn; rewrite Hd1; exact Hdisp).
  assert (Him2 : in_month (Some x) (_date w2)).
  { cbn. rewrite Hd1. split; [exact Hv|]. split; assumption. }
  destruct (display_selection_fresh w2 x Hs1 Hf2 Hdisp2 eq_refl Him2 Hshow1)
    as (w3 & E3 & Hs3 & Hfr3 & Hshow3).
  unfold bind at 1. rewrite E3.
  pose proof Hfr3 as (Hd3 & Hsel3 & Htv3 & Hm3 & Hst3 & Hcb3 & Hg3).
  cbn [w2 with_sel_date _date _sel_date _textvariable selectmode state
       click_bound generated] in Hd3, Hsel3, Htv3, Hm3, Hst3, Hcb3, Hg3.
  assert (Hsm3 : shows_month w3).
  { split; [exact Hs3|]. unfold first_of_month, displayable. rewrite Hd3, Hsel3.
    split; [exact Hf2|]. split; [exact Hdisp2|]. split; [exact Him2|exact Hshow3]. }
  destruct (_textvariable w) as [old|] eqn:Htv.
  - destruct Hlocale as [Hnone | Hlocale]; [discriminate|].
    destruct (textvariable_set_shown w3 old x Hsm3 Hsel3) as
      (w4 & E4 & Hsm4 & Hsel4 & Hd4 & Htv4 & Ho4).
    { congruence. }
    { destruct Hlocale as [Hoff | Hrb]; [left|right; exact Hrb]. congruence. }
    unfold bind at 1. rewrite E4. unfold event_generate, modify.
    eexists. split; [reflexivity|].
    destruct Ho4 as (Hm4 & Hst4 & Hcb4 & Hg4).
    split; [exact Hsm4|]. cbn.
    split; [exact Hsel4|]. split; [congruence|]. split; [exact Htv4|].
    split; [congruence|]. split; [congruence|]. split; congruence.
  - unfold bind at 1. unfold ret at 1. unfold event_generate, modify.
    eexists. split; [reflexivity|].
    split; [exact Hsm3|]. cbn.
    split; [exact Hsel3|]. split; [congruence|]. split; [congruence|].
    split; [congruence|]. split; [congruence|]. split; congruence.
Qed.

(** The navigation of a click on a day of a neighbouring month. *)
Lemma click_navigates (w : widget) (r c : Z) (x : date) :
  shows_month w -> 0 <= r < 6 -> 0 <= c < 7 -> valid_date x ->
  toordinal x = first_monday (year (_date w)) (month (_date w)) + 7 * r + c ->
  month x <> month (_date w) ->
  year x < MAXYEAR \/ month x <= 10 ->
  exists w',
    (if r =? 0 then _prev_month else _next_month) w = (Ok tt, w') /\
    shows_near w' /\ _date w' = mkdate (year x) (month x) 1 /\
    same_selection w w'.
Proof.
  intros (Hs & Hf & Hdisp & Him & Hshow) Hr Hc Hv Ho Hne Hxdisp.
  pose proof Hf as [(Hy & Hm & _) Hd1].
  assert (Hnav : forall d,
            valid_date d -> day d = 1 -> year d = year x -> month d = month x ->
            (year d = year (_date w) ->
             month d = month (_date w) - 1 \/ month d = month (_date w) + 1) ->
            exists w',
              _display_calendar (with_date d w) = (Ok tt, w') /\
              shows_near w' /\ _date w' = mkdate (year x) (month x) 1 /\
              same_selection w w').
  { intros d Hdv Hdd Hdy Hdm Hadj.
    destruct (display_near (with_date d w)) as (w' & E & Hnear & Hfr).
    - apply shape_of_with_date. exact Hs.
    - split; assumption.
    - unfold displayable. cbn. rewrite Hdy, Hdm. exact Hxdisp.
    - intros s Hsel. cbn in Hsel. rewrite Hsel in Him.
      destruct Him as (Hsv & Hsy & Hsm). split; [exact Hsv|].
      cbn. intros Hys. destruct (Hadj ltac:(lia)); lia.
    - exists w'. split; [exact E|]. split; [exact Hnear|]. split.
      + destruct Hfr as (-> & _). cbn. rewrite <- Hdy, <- Hdm.
        destruct d as [dy dm dd]. cbn in *. congruence.
      + eapply same_selection_trans;
          [apply (same_selection_with_date d)|apply frame_same_selection; exact Hfr]. }
  destruct (grid_date_cases _ _ r c x Hm Hv Hr Hc Ho)
    as [[_ Hin] | [(-> & Hp & _) | (Hr0 & Hn & _)]]; [contradiction| |].
  - cbn [Z.eqb].
    assert (Hne1 : _date w <> mkdate MINYEAR 1 1).
    { intros E. rewrite E in Hp. cbn in Hp. injection Hp as Hpy _.
      destruct Hv as ((Hxy & _) & _). unfold MINYEAR in *. lia. }
    rewrite (prev_month_as_display w Hf Hne1).
    destruct (prev_first_valid w Hf Hne1) as [Hpv Hpd].
    apply Hnav; try assumption.
    + unfold prev_first. rewrite <- Hp. reflexivity.
    + unfold prev_first. rewrite <- Hp. reflexivity.
    + unfold prev_first, _prevmonth. cbn [year month].
      destruct (Z.eqb_spec (month (_date w)) 1); cbn [fst snd]; lia.
  - destruct (Z.eqb_spec r 0) as [|_]; [contradiction|].
    assert (Hne1 : _date w <> mkdate MAXYEAR 12 1).
    { intros E. unfold displayable in Hdisp. rewrite E in Hdisp. cbn in Hdisp.
      unfold MAXYEAR in Hdisp. lia. }
    rewrite (next_month_as_display w Hf Hne1).
    destruct (next_first_valid w Hf Hne1) as [Hnv Hnd].
    apply Hnav; try assumption.
    + unfold next_first. rewrite <- Hn. reflexivity.
    + unfold next_first. rewrite <- Hn. reflexivity.
    + unfold next_first, _nextmonth. cbn [year month].
      destruct (Z.eqb_spec (month (_date w)) 12); cbn [fst snd]; lia.
Qed.

Lemma click_selects_shown_date (w : widget) (G : list (list date)) (r c : Z)
        (x : date) :
  shows_month w -> py_is (state w) "normal" = true ->
  shown_dates (year (_date w)) (month (_date w)) = Ok G ->
  0 <= r < 6 -> 0 <= c < 7 -> cell G r c = Ok x ->
  year x < MAXYEAR \/ month x <= 10 ->
  _textvariable w = None \/ py_is (selectmode w) "day" = false \/ reads_back x ->
  exists w',
    _on_click r c w = (Ok tt, w') /\ shows_month w' /\
    _sel_date w' = Some x /\ _date w' = mkdate (year x) (month x) 1 /\
    _textvariable w' = option_map (fun _ => strftime_x x) (_textvariable w) /\
    generated w' = generated w ++ [CalendarSelected] /\
    selectmode w' = selectmode w /\ state w' = state w /\
    click_bound w' = click_bound w.
Proof.
  intros Hsm Hstate HG Hr Hc Hx Hxdisp Hlocale.
  pose proof Hsm as (Hs & Hf & Hdisp & Him & (G' & HG' & Hl)).
  assert (G' = G) by congruence. subst G'. clear HG'.
  pose proof Hf as [(Hy & Hm & _) Hd1].
  destruct (grid_cells _ _ G r c Hy Hm Hdisp HG Hr Hc) as (x' & Hx' & Hv & Ho).
  assert (x' = x) by congruence. subst x'. clear Hx'.
  pose proof (Hl r c x Hr Hc Hx) as Hlbl.
  unfold _on_click. unfold bind at 1. unfold get at 1. rewrite Hstate.
  unfold label_at in Hlbl.
  destruct (getitem (_calendar w) r) as [week|] eqn:Eweek; [|discriminate].
  cbn [rbind] in Hlbl.
  unfold bind at 1. unfold lift at 1.
  unfold bind at 1. unfold lift at 1. rewrite Hlbl.
  assert (Htext : text (day_label (month (_date w)) c x (is_date (_sel_date w) x))
                  = Some (day x)).
  { unfold day_label, plain_label. destruct (is_date _ _); reflexivity. }
  rewrite Htext.
  destruct (Z.eq_dec (month x) (month (_date w))) as [Emonth | Emonth].
  - (* a day of the displayed month: no navigation *)
    assert (Eyear : year x = year (_date w)).
    { destruct (grid_date_cases _ _ r c x Hm Hv Hr Hc Ho)
        as [[Hyy _] | [(_ & _ & Hne) | (_ & _ & Hne)]]; [exact Hyy | |]; contradiction. }
    assert (Hstyle : style_eqb (style (day_label (month (_date w)) c x
                                         (is_date (_sel_date w) x))) normal_om
                     || style_eqb (style (day_label (month (_date w)) c x
                                            (is_date (_sel_date w) x))) we_om = false).
    { unfold day_label, plain_label. destruct (is_date _ _); [reflexivity|].
      cbn [style]. rewrite (proj2 (Z.eqb_eq _ _) Emonth). cbn [negb].
      destruct ((c =? 5) || (c =? 6)); reflexivity. }
    rewrite Hstyle. unfold bind at 1. unfold ret at 1.
    destruct (click_tail w x (shows_month_near w Hsm) Hv Eyear Emonth Hlocale)
      as (w' & E & Hsm' & Hsel' & Hd' & Hrest).
    rewrite E. exists w'. split; [reflexivity|]. split; [exact Hsm'|].
    split; [exact Hsel'|]. split; [|exact Hrest].
    rewrite Hd', Eyear, Emonth. apply date_is; auto.
  - (* a day of a neighbouring month: it is not the selection *)
    assert (Hnsel : is_date (_sel_date w) x = false).
    { apply is_date_false. intros Hsel. rewrite Hsel in Him.
      destruct Him as (_ & _ & Hmm). contradiction. }
    rewrite Hnsel.
    assert (Hstyle : style_eqb (style (day_label (month (_date w)) c x false)) normal_om
                     || style_eqb (style (day_label (month (_date w)) c x false)) we_om
                     = true).
    { unfold day_label, plain_label. cbn [style].
      destruct (Z.eqb_spec (month x) (month (_date w))); [contradiction|].
      cbn [negb]. destruct ((c =? 5) || (c =? 6)); reflexivity. }
    rewrite Hstyle.
    destruct (click_navigates w r c x Hsm Hr Hc Hv Ho Emonth Hxdisp)
      as (w1 & E1 & Hnear1 & Hd1' & Hsame1).
    unfold bind at 1. rewrite E1.
    destruct Hsame1 as (Hsel1 & Htv1 & Hm1 & Hst1 & Hcb1 & Hg1).
    destruct (click_tail w1 x Hnear1 Hv) as (w' & E & Hsm' & Hsel' & Hd' & Hrest).
    + rewrite Hd1'. reflexivity.
    + rewrite Hd1'. reflexivity.
    + rewrite Htv1, Hm1. exact Hlocale.
    + rewrite E. exists w'. split; [reflexivity|]. split; [exact Hsm'|].
      split; [exact Hsel'|]. split; [congruence|].
      rewrite Htv1, Hg1, Hm1, Hst1, Hcb1 in Hrest. exact Hrest.
Qed.

End ClickSelects.

(** ** Construction *)

Section Construction.

Context {L : Locale}.

(** X16: what a successful construction leaves. With the year and the month
    (given, or those of today) a month that can be displayed, a day (given, or
    today's) that is a C int, a selection mode equal to ['none'] or ['day']
    and a state equal to ['normal'] or ['disabled'], [Calendar(...)] raises
    nothing: [_date] is the first day of that month; nothing is selected when
    a month or a year is given without a day, and otherwise the day of that
    month is selected if the month has it; a bound variable holds the
    selection in the locale's format if there is one and keeps its content
    otherwise; the click is bound exactly when the selection mode is the
    literal ['day']; no event has been generated; and the widget shows its
    month with the selection highlighted and no other label. *)
Theorem X16_init_outcome (kw : init_args) :
  let year := pop (kw_year kw) (PyDate.year (today kw)) in
  let month := pop (kw_month kw) (PyDate.month (today kw)) in
  let day := pop (kw_day kw) (PyDate.day (today kw)) in
  let mode := pop (kw_selectmode kw) (lit "day") in
  let st := pop (kw_state kw) (lit "normal") in
  MINYEAR <= year <= MAXYEAR -> 1 <= month <= 12 ->
  year < MAXYEAR \/ month <= 10 ->
  INT_MIN <= day <= INT_MAX ->
  py_eq mode "none" || py_eq mode "day" = true ->
  py_eq st "normal" || py_eq st "disabled" = true ->
  exists w,
    __init__ kw = Ok w /\ shows_month w /\
    _date w = mkdate year month 1 /\
    _sel_date w
    = (if (given (kw_month kw) || given (kw_year kw)) && negb (given (kw_day kw))
       then None
       else if (1 <=? day) && (day <=? _days_in_month year month)
            then Some (mkdate year month day) else None) /\
    _textvariable w
    = match _sel_date w with
      | Some d => option_map (fun _ => strftime_x d) (kw_textvariable kw)
      | None => kw_textvariable kw
      end /\
    selectmode w = mode /\ state w = st /\
    click_bound w = py_is mode "day" /\ generated w = [].
Proof.
  intros year month day mode st Hy Hm Hdisp Hfit Hmode Hst.
  pose proof (days_in_month_bounds year month Hm) as Hb.
  assert (Hv1 : valid_ymd year month 1) by (unfold valid_ymd; lia).
  set (sel := if (given (kw_month kw) || given (kw_year kw)) && negb (given (kw_day kw))
              then None
              else if (1 <=? day) && (day <=? _days_in_month year month)
                   then Some (mkdate year month day) else None).
  set (tv := match sel with
             | Some d => option_map (fun _ => strftime_x d) (kw_textvariable kw)
             | None => kw_textvariable kw
             end).
  assert (Hsel_month : in_month sel (mkdate year month 1)).
  { unfold sel. destruct ((given _ || given _) && negb _); [exact I|].
    destruct ((1 <=? day) && (day <=? _days_in_month year month)) eqn:E; [|exact I].
    apply andb_true_iff in E. destruct E as [E1 E2].
    apply Z.leb_le in E1. apply Z.leb_le in E2.
    split; [unfold valid_date, valid_ymd; cbn; lia|]. split; reflexivity. }
  set (w0 := mkwidget (mkdate year month 1) sel tv mode st (py_is mode "day")
                      fresh_calendar fresh_week_nbs []).
  assert (Hs0 : shape w0) by apply fresh_shape.
  assert (Hf0 : first_of_month w0) by (split; [exact Hv1|reflexivity]).
  assert (Hdisplay : exists w,
             _display_calendar w0 = (Ok tt, w) /\ shape w /\ frame w0 w /\
             displays w sel).
  { destruct sel as [s|] eqn:Es.
    - destruct Hsel_month as (Hsv & Hsy & Hsm).
      apply (display_calendar_near w0 s Hs0 Hf0 Hdisp eq_refl Hsv Hsy).
      cbn. cbn in Hsm. lia.
    - apply (display_calendar_plain w0 Hs0 Hf0 Hdisp). intros s Hs. discriminate. }
  destruct Hdisplay as (w & E & Hs & Hfr & Hshow).
  exists w.
  assert (Hinit : __init__ kw = Ok w).
  { unfold __init__. fold year month day mode st.
    assert (Hst_eq : (if (given (kw_month kw) || given (kw_year kw))
                         && negb (given (kw_day kw))
                      then Ok (None, kw_textvariable kw)
                      else
                        match date_new year month day with
                        | Ok d =>
                            Ok (Some d,
                                option_map (fun _ => strftime_x d) (kw_textvariable kw))
                        | Raise e =>
                            match exn_ty e with
                            | ValueError => Ok (None, kw_textvariable kw)
                            | _ => Raise e
                            end
                        end) = Ok (sel, tv)).
    { unfold tv, sel.
      destruct ((given (kw_month kw) || given (kw_year kw)) && negb (given (kw_day kw)));
        [reflexivity|].
      destruct (date_new_cases year month day)
        as [[Hv ->] | [(Hn & _ & _ & _ & msg & ->) | (Hn & _)]].
      3:{ exfalso. apply Hn.
          unfold fits_int, INT_MIN, INT_MAX, MINYEAR, MAXYEAR in *. lia. }
      - destruct Hv as (_ & _ & Hd).
        replace ((1 <=? day) && (day <=? _days_in_month year month)) with true;
          [reflexivity|].
        symmetry. apply andb_true_iff. split; apply Z.leb_le; lia.
      - cbn [exn_ty].
        replace ((1 <=? day) && (day <=? _days_in_month year month)) with false;
          [reflexivity|].
        symmetry. apply andb_false_iff.
        destruct (Z.leb_spec 1 day); [|left; reflexivity].
        destruct (Z.leb_spec day (_days_in_month year month)); [|right; reflexivity].
        exfalso. apply Hn. unfold valid_ymd. lia. }
    rewrite Hst_eq. cbn [rbind]. rewrite date_new_ok by exact Hv1. cbn [rbind].
    rewrite Hmode. cbn [negb fst snd].
    fold w0. unfold bind, __setitem__. rewrite Hst. cbn [negb]. unfold modify.
    change (with_state st w0) with w0. rewrite E. reflexivity. }
  split; [exact Hinit|].
  destruct Hfr as (Hd & Hsl & Htv & Hmd & Hstt & Hcb & Hg).
  cbn [w0 _date _sel_date _textvariable selectmode state click_bound generated]
    in Hd, Hsl, Htv, Hmd, Hstt, Hcb, Hg.
  split.
  - split; [exact Hs|]. unfold first_of_month, displayable. rewrite Hd, Hsl.
    split; [exact Hf0|]. split; [exact Hdisp|]. split; [exact Hsel_month|exact Hshow].
  - rewrite Hsl. auto 10.
Qed.

(** The selection that the constructor computes first, when the arguments
    are C ints. *)
Lemma init_selection (kw : init_args) :
  let year := pop (kw_year kw) (PyDate.year (today kw)) in
  let month := pop (kw_month kw) (PyDate.month (today kw)) in
  let day := pop (kw_day kw) (PyDate.day (today kw)) in
  let no_day := (given (kw_month kw) || given (kw_year kw)) && negb (given (kw_day kw)) in
  fits_int year -> fits_int month -> no_day = true \/ fits_int day ->
  exists r,
    (if no_day then Ok (None, kw_textvariable kw)
     else
       match date_new year month day with
       | Ok d => Ok (Some d, option_map (fun _ => strftime_x d) (kw_textvariable kw))
       | Raise e =>
           match exn_ty e with
           | ValueError => Ok (None, kw_textvariable kw)
           | _ => Raise e
           end
       end) = Ok r.
Proof.
  intros year month day no_day Fy Fm Fd.
  destruct no_day; [eexists; reflexivity|].
  destruct Fd as [Fd|Fd]; [discriminate|].
  destruct (date_new_cases year month day)
    as [[_ ->] | [(_ & _ & _ & _ & msg & ->) | (Hn & _)]];
    [eexists; reflexivity | eexists; reflexivity | tauto].
Qed.

(** X17: the exceptions of the construction with int arguments, in the order
    of the source. A year, a month or a day in use that is no C int raises the
    [OverflowError] of [date], which the [except ValueError] of the
    constructor lets through; then a year outside 1..9999 raises the
    [ValueError] of [date] that names the year, and a month outside 1..12 the
    one of the month; then a selection mode that equals neither ['none'] nor
    ['day'] raises [ValueError]; then a state that equals neither ['normal']
    nor ['disabled'] raises the [ValueError] that quotes it; then, all options
    being valid, November and December 9999 raise the [ValueError] of the
    first display, for the year 10000. The day is in use unless a month or a
    year is given without a day. *)
Theorem X17_init_errors (kw : init_args) :
  let year := pop (kw_year kw) (PyDate.year (today kw)) in
  let month := pop (kw_month kw) (PyDate.month (today kw)) in
  let day := pop (kw_day kw) (PyDate.day (today kw)) in
  let no_day := (given (kw_month kw) || given (kw_year kw)) && negb (given (kw_day kw)) in
  let mode := pop (kw_selectmode kw) (lit "day") in
  let st := pop (kw_state kw) (lit "normal") in
  (~ (fits_int year /\ fits_int month /\ (no_day = true \/ fits_int day)) ->
   exists msg, __init__ kw = Raise (mkexn OverflowError msg)) /\
  (fits_int year -> fits_int month -> no_day = true \/ fits_int day ->
   ~ MINYEAR <= year <= MAXYEAR ->
   __init__ kw
   = Raise (mkexn ValueError (append "year " (append (str_int year) " is out of range")))) /\
  (MINYEAR <= year <= MAXYEAR -> fits_int month -> no_day = true \/ fits_int day ->
   ~ 1 <= month <= 12 ->
   __init__ kw = Raise (mkexn ValueError "month must be in 1..12")) /\
  (MINYEAR <= year <= MAXYEAR -> 1 <= month <= 12 -> no_day = true \/ fits_int day ->
   py_eq mode "none" || py_eq mode "day" = false ->
   __init__ kw
   = Raise (mkexn ValueError "'selectmode' option should be 'none' or 'day'.")) /\
  (MINYEAR <= year <= MAXYEAR -> 1 <= month <= 12 -> no_day = true \/ fits_int day ->
   py_eq mode "none" || py_eq mode "day" = true ->
   py_eq st "normal" || py_eq st "disabled" = false ->
   __init__ kw
   = Raise (mkexn ValueError
              (append "bad state '" (append (chars st) "': must be disabled or normal")))) /\
  (year = MAXYEAR -> 11 <= month <= 12 -> no_day = true \/ fits_int day ->
   py_eq mode "none" || py_eq mode "day" = true ->
   py_eq st "normal" || py_eq st "disabled" = true ->
   __init__ kw = Raise (mkexn ValueError "year 10000 is out of range")).
Proof.
  intros year month day no_day mode st.
  assert (Frange : forall z, MINYEAR <= z <= MAXYEAR -> fits_int z).
  { intros z Hz. unfold fits_int, MINYEAR, MAXYEAR, INT_MIN, INT_MAX in *. lia. }
  assert (Fmonth : forall z, 1 <= z <= 12 -> fits_int z).
  { intros z Hz. unfold fits_int, INT_MIN, INT_MAX in *. lia. }
  assert (F1 : fits_int 1) by (unfold fits_int, INT_MIN, INT_MAX; lia).
  split; [|split; [|split; [|split; [|split]]]].
  - intros Hn. unfold __init__. fold year month day no_day.
    destruct no_day eqn:Eno.
    + cbn [rbind].
      destruct (date_new_cases year month 1)
        as [[Hv _] | [(_ & Fy & Fm & _) | (_ & msg & ->)]].
      * exfalso. apply Hn. destruct (valid_ymd_fits _ _ _ Hv) as (Fy & Fm & _). tauto.
      * exfalso. apply Hn. tauto.
      * exists msg. reflexivity.
    + destruct (date_new_cases year month day)
        as [[Hv _] | [(_ & Fy & Fm & Fd & _) | (_ & msg & ->)]].
      * exfalso. apply Hn. destruct (valid_ymd_fits _ _ _ Hv) as (Fy & Fm & Fd). tauto.
      * exfalso. apply Hn. tauto.
      * exists msg. reflexivity.
  - intros Fy Fm Fd Hy.
    destruct (init_selection kw Fy Fm Fd) as (r & Hr).
    unfold __init__. cbv zeta. rewrite Hr. cbn [rbind]. fold year month.
    rewrite (date_new_fits year month 1 Fy Fm F1).
    replace ((MINYEAR <=? year) && (year <=? MAXYEAR)) with false; [reflexivity|].
    symmetry. apply andb_false_iff. rewrite !Z.leb_nle. lia.
  - intros Hy Fm Fd Hm.
    destruct (init_selection kw (Frange _ Hy) Fm Fd) as (r & Hr).
    unfold __init__. cbv zeta. rewrite Hr. cbn [rbind]. fold year month.
    rewrite (date_new_fits year month 1 (Frange _ Hy) Fm F1).
    replace ((MINYEAR <=? year) && (year <=? MAXYEAR)) with true
      by (symmetry; apply andb_true_iff; rewrite !Z.leb_le; lia).
    replace ((1 <=? month) && (month <=? 12)) with false; [reflexivity|].
    symmetry. apply andb_false_iff. rewrite !Z.leb_nle. lia.
  - intros Hy Hm Fd Hmode.
    destruct (init_selection kw (Frange _ Hy) (Fmonth _ Hm) Fd) as (r & Hr).
    pose proof (days_in_month_bounds year month Hm) as Hb.
    unfold __init__. cbv zeta. rewrite Hr. cbn [rbind]. fold year month mode.
    rewrite date_new_ok by (unfold valid_ymd; lia). cbn [rbind].
    rewrite Hmode. reflexivity.
  - intros Hy Hm Fd Hmode Hst.
    destruct (init_selection kw (Frange _ Hy) (Fmonth _ Hm) Fd) as (r & Hr).
    pose proof (days_in_month_bounds year month Hm) as Hb.
    unfold __init__. cbv zeta. rewrite Hr. cbn [rbind]. fold year month mode st.
    rewrite date_new_ok by (unfold valid_ymd; lia). cbn [rbind].
    rewrite Hmode. cbn [negb]. unfold bind, __setitem__. rewrite Hst. reflexivity.
  - intros Hy Hm Fd Hmode Hst.
    assert (Hm' : 1 <= month <= 12) by lia.
    assert (Hy' : MINYEAR <= year <= MAXYEAR) by (unfold MINYEAR, MAXYEAR in *; lia).
    destruct (init_selection kw (Frange _ Hy') (Fmonth _ Hm') Fd) as (r & Hr).
    pose proof (days_in_month_bounds year month Hm') as Hb.
    unfold __init__. cbv zeta. rewrite Hr. cbn [rbind]. fold year month mode st.
    rewrite date_new_ok by (unfold valid_ymd, MINYEAR, MAXYEAR in *; lia). cbn [rbind].
    rewrite Hmode. cbn [negb]. unfold bind, __setitem__. rewrite Hst. cbn [negb].
    unfold modify.
    match goal with
    | |- context [_display_calendar ?w1] =>
        rewrite (display_calendar_raises w1)
    end.
    + reflexivity.
    + split; [|reflexivity]. unfold valid_date, valid_ymd, MINYEAR, MAXYEAR in *.
      cbn. lia.
    + unfold displayable. cbn. unfold MAXYEAR in *. lia.
Qed.

End Construction.

(** ** The display, label by label *)

(** X5: [_display_calendar] with a selection of the displayed year whose month
    is at most ten months away from the displayed month. It ends without an
    exception and changes nothing but the labels; every day label shows the
    day of its date in the style of its column and month, but the label of the
    selection, if the selection is among the six weeks, which has the style
    [sel]; no other label is highlighted. A selection of the displayed month
    is among the six weeks. *)
Theorem X5_display_highlights_selection (w : widget) (s : date) :
  shape w -> first_of_month w -> displayable w ->
  _sel_date w = Some s -> valid_date s ->
  year s = year (_date w) -> -10 <= month s - month (_date w) <= 10 ->
  exists w',
    _display_calendar w = (Ok tt, w') /\ frame w w' /\ displays w' (Some s) /\
    (month s = month (_date w) ->
     exists G r c,
       shown_dates (year (_date w)) (month (_date w)) = Ok G /\
       0 <= r < 6 /\ 0 <= c < 7 /\ cell G r c = Ok s /\
       label_at w' r c = Ok (mklabel (Some (day s)) sel)).
Proof.
  intros Hs Hf Hd Hsel Hv Hy Hnear.
  destruct (display_calendar_near w s Hs Hf Hd Hsel Hv Hy Hnear)
    as (w' & E & Hs' & Hfr & Hshow).
  exists w'. split; [exact E|]. split; [exact Hfr|]. split; [exact Hshow|].
  intros Hm. destruct Hshow as (G & HG & Hl).
  assert (Hd' : _date w' = _date w) by apply Hfr. rewrite Hd' in HG, Hl.
  pose proof Hf as [(Hyr & Hmr & _) _].
  destruct (in_month_sel_cell (year (_date w)) (month (_date w)) s Hmr Hv Hy Hm)
    as (_ & Hr & Hc & Ho).
  remember (toordinal s - first_monday (year (_date w)) (month (_date w))) as k.
  destruct (grid_cells _ _ G (k / 7) (k mod 7) Hyr Hmr Hd HG Hr Hc)
    as (x & Hx & Hxv & Hxo).
  assert (x = s) by (apply toordinal_inj; try assumption; lia). subst x.
  exists G, (k / 7), (k mod 7). split; [exact HG|]. split; [exact Hr|].
  split; [exact Hc|]. split; [exact Hx|].
  rewrite (Hl _ _ s Hr Hc Hx). unfold day_label, is_date.
  destruct (date_eq_dec s s); [reflexivity|contradiction].
Qed.

(** X6: [_display_calendar] without a selection, or with a selection of
    another year than the displayed one. It ends without an exception and no
    day label has the style [sel], even when the six weeks contain the
    selected date (the last days of December and the first days of January of
    the neighbouring year). *)
Theorem X6_display_without_highlight (w : widget) :
  shape w -> first_of_month w -> displayable w ->
  _sel_date w = None
  \/ (exists s, _sel_date w = Some s /\ year s <> year (_date w)) ->
  exists w',
    _display_calendar w = (Ok tt, w') /\ frame w w' /\ displays w' None /\
    forall r c lbl, 0 <= r < 6 -> 0 <= c < 7 ->
      label_at w' r c = Ok lbl -> style lbl <> sel.
Proof.
  intros Hs Hf Hd Hsel.
  destruct (display_calendar_plain w Hs Hf Hd) as (w' & E & Hs' & Hfr & Hshow).
  { intros s Es. destruct Hsel as [Hn | (s' & Es' & Hy)]; congruence. }
  exists w'. split; [exact E|]. split; [exact Hfr|]. split; [exact Hshow|].
  intros r c lbl Hr Hc Hlbl. destruct Hshow as (G & HG & Hl).
  assert (Hd' : _date w' = _date w) by apply Hfr. rewrite Hd' in HG, Hl.
  pose proof Hf as [(Hyr & Hmr & _) _].
  destruct (grid_cells _ _ G r c Hyr Hmr Hd HG Hr Hc) as (x & Hx & _).
  rewrite (Hl r c x Hr Hc Hx) in Hlbl. injection Hlbl as <-.
  unfold day_label, is_date, plain_label. cbn [style].
  destruct ((c =? 5) || (c =? 6)); destruct (negb (month x =? month (_date w)));
    discriminate.
Qed.

Lemma getitem_map_range {A : Type} (f : Z -> A) (n i : Z) :
  0 <= i < n -> getitem (map f (range 0 n)) i = Ok (f i).
Proof.
  intros Hi. apply getitem_nth; [lia|].
  rewrite nth_error_map. rewrite range_nth by lia.
  cbn. f_equal. f_equal. lia.
Qed.

(** X7: the week-number labels after a display. The label of row [r] is the
    ISO week number of the dates of that row if and only if the ISO year of
    the first of the month has 52 weeks, or the ISO week of the first of the
    month plus [r] is at most 52, or the first of the month lies in week 53.
    *)
Theorem X7_week_labels_iso (w : widget) :
  shape w -> first_of_month w -> displayable w ->
  exists w' G,
    _display_calendar w = (Ok tt, w') /\
    shown_dates (year (_date w)) (month (_date w)) = Ok G /\
    forall r c x, 0 <= r < 6 -> 0 <= c < 7 -> cell G r c = Ok x ->
      (getitem (_week_nbs w') r = Ok (Some (isoweek x))
       <-> iso_weeks (isoyear (_date w)) = 52
           \/ isoweek (_date w) + r <= 52
           \/ isoweek (_date w) = 53).
Proof.
  intros Hs Hf Hd.
  destruct (display_calendar_cells w Hs Hf Hd) as (w' & G & E & _ & _ & HG & _).
  exists w', G. split; [exact E|]. split; [exact HG|].
  intros r c x Hr Hc Hx.
  pose proof Hf as [(Hyr & Hmr & _) _].
  destruct (grid_cells _ _ G r c Hyr Hmr Hd HG Hr Hc) as (x' & Hx' & Hv & Ho).
  assert (x' = x) by congruence. subst x'.
  rewrite (display_calendar_week_nbs w w' Hs E).
  rewrite getitem_map_range by lia.
  pose proof (week_label_iso _ _ r c x Hmr Hv Hr Hc Ho) as Hiff.
  cbv zeta in Hiff. rewrite <- (date_is w _ _ Hf eq_refl eq_refl) in Hiff.
  rewrite <- Hiff. split.
  - intros [= H]. exact H.
  - intros ->. reflexivity.
Qed.

(** X8: the outcome of [_display_calendar] does not depend on what the labels
    showed before, and a second display changes nothing. Two widgets in shape
    that differ only in their day and week-number labels are left identical by
    a display, and the widget that it leaves is a fixed point of the display.
    *)
Theorem X8_display_calendar_idempotent (wa wb : widget) :
  shape wa -> shape wb -> frame wa wb -> first_of_month wa -> displayable wa ->
  exists w',
    _display_calendar wa = (Ok tt, w') /\
    _display_calendar wb = (Ok tt, w') /\
    _display_calendar w' = (Ok tt, w').
Proof.
  intros Hsa Hsb Hfr Hfa Hda.
  destruct (display_calendar_determined wa wb Hsa Hsb Hfr Hfa Hda)
    as (w' & Ea & Eb & Hs' & Hfr').
  exists w'. split; [exact Ea|]. split; [exact Eb|].
  destruct (display_calendar_determined wa w' Hsa Hs' Hfr' Hfa Hda)
    as (w'' & Ea' & Eb' & _).
  congruence.
Qed.

(** X9: [_remove_selection] after a display, the selection being of another
    year than the displayed one or at most ten months away from the displayed
    month. It ends without an exception, no label is highlighted after it and
    every label has the style of its column and month: the labels are those of
    a display of the same month without a selection. *)
Theorem X9_remove_selection_undoes_highlight (w : widget) (s : date) :
  shape w -> first_of_month w -> displayable w ->
  _sel_date w = Some s -> valid_date s ->
  (year s = year (_date w) -> -10 <= month s - month (_date w) <= 10) ->
  exists w' w'',
    _display_calendar w = (Ok tt, w') /\
    _remove_selection w' = (Ok tt, w'') /\
    displays w'' None /\
    _display_calendar (with_sel_date None w) = (Ok tt, with_sel_date None w'').
Proof.
  intros Hs Hf Hd Hsel Hv Hnear.
  destruct (display_near w Hs Hf Hd) as (w' & E & Hnear' & Hfr).
  { intros s' Es'. rewrite Hsel in Es'. injection Es' as <-. auto. }
  destruct (remove_selection_near w' Hnear') as (w'' & E' & Hs'' & Hfr' & Hshow'').
  exists w', w''. split; [exact E|]. split; [exact E'|]. split; [exact Hshow''|].
  destruct (display_calendar_plain (with_sel_date None w)) as (w0 & E0 & Hs0 & Hfr0 & Hshow0);
    try assumption.
  { intros s' Es'. discriminate. }
  rewrite E0. f_equal. symmetry.
  pose proof Hnear' as (Hs' & _).
  pose proof (frame_trans _ _ _ Hfr Hfr') as Hfr2.
  assert (Hd0 : _date w0 = _date w) by apply Hfr0.
  assert (Hd2 : _date w'' = _date w) by apply Hfr2.
  apply widget_ext.
  - destruct Hfr0 as (a1 & a2 & a3 & a4 & a5 & a6 & a7).
    destruct Hfr2 as (b1 & b2 & b3 & b4 & b5 & b6 & b7).
    cbn in *. repeat split; cbn; congruence.
  - cbn [_calendar with_sel_date].
    apply (displays_ext w0 w'' None); try assumption.
    + unfold first_of_month. rewrite Hd0. exact Hf.
    + unfold displayable. rewrite Hd0. exact Hd.
    + congruence.
  - cbn [_week_nbs with_sel_date].
    destruct (remove_selection_exact w' Hs') as (w3 & E3 & _ & _ & Hwk & _).
    assert (w3 = w'') by congruence. subst w3. rewrite Hwk.
    rewrite (display_calendar_week_nbs w w' Hs E).
    rewrite (display_calendar_week_nbs (with_sel_date None w) w0 Hs E0).
    reflexivity.
Qed.

Section ClickEdge.

Context {L : Locale}.

(** X10: a click of the user on a day label selects the date that the label
    shows. On a widget that shows its month, the selection being nothing or a
    day of that month, the click being bound and the state the literal
    ['normal'], a click on the label at row [r], column [c], which shows the
    date [x], ends without an exception: [x] is the selection, [_date] is the
    first day of the month of [x] (the click on a day of a neighbouring month
    navigates to it), the widget shows that month with [x] highlighted and no
    other label, the variable holds [x] in the locale's format if one is
    bound, and [CalendarSelected] is the last event generated. The month of
    [x] must be one that can be displayed, and a bound variable must hold what
    the locale reads back as [x] (or the selection mode not be the literal
    ['day']). *)
Theorem X10_user_click_selects (w : widget) (G : list (list date)) (r c : Z) (x : date) :
  shows_month w ->
  click_bound w = true -> py_is (state w) "normal" = true ->
  shown_dates (year (_date w)) (month (_date w)) = Ok G ->
  0 <= r < 6 -> 0 <= c < 7 -> cell G r c = Ok x ->
  year x < MAXYEAR \/ month x <= 10 ->
  _textvariable w = None \/ py_is (selectmode w) "day" = false \/ reads_back x ->
  exists w',
    user_click r c w = (Ok tt, w') /\ shows_month w' /\
    _sel_date w' = Some x /\ _date w' = mkdate (year x) (month x) 1 /\
    _textvariable w' = option_map (fun _ => strftime_x x) (_textvariable w) /\
    generated w' = generated w ++ [CalendarSelected] /\
    selectmode w' = selectmode w /\ state w' = state w /\
    click_bound w' = click_bound w.
Proof.
  intros Hsm Hcb Hstate HG Hr Hc Hx Hxdisp Hlocale.
  assert (Hu : user_click r c w = _on_click r c w)
    by (unfold user_click, bind, get; rewrite Hcb; reflexivity).
  rewrite Hu. apply (click_selects_shown_date w G r c x); assumption.
Qed.

(** X11: a click on the highlighted label of a day of a neighbouring month, on
    a widget without a text variable. The label has the style [sel], not an
    other-month style, so [_on_click] does not navigate and reads the day
    number in the displayed month: when the displayed month has a day of that
    number, that day becomes the selection and the displayed month stays; when
    it has none, [date] raises [ValueError], the selection is unchanged, its
    highlight has been removed and no event is generated. *)
Theorem X11_click_on_highlighted_neighbour (w : widget) (G : list (list date))
        (r c : Z) (s : date) :
  shows_near w -> py_is (state w) "normal" = true ->
  _sel_date w = Some s -> year s = year (_date w) -> month s <> month (_date w) ->
  shown_dates (year (_date w)) (month (_date w)) = Ok G ->
  0 <= r < 6 -> 0 <= c < 7 -> cell G r c = Ok s ->
  _textvariable w = None ->
  (day s <= _days_in_month (year (_date w)) (month (_date w)) ->
   exists w',
     _on_click r c w = (Ok tt, w') /\
     _sel_date w' = Some (mkdate (year (_date w)) (month (_date w)) (day s)) /\
     _date w' = _date w /\ shows_month w') /\
  (_days_in_month (year (_date w)) (month (_date w)) < day s ->
   exists w',
     _on_click r c w
     = (Raise (mkexn ValueError "day is out of range for month"), w') /\
     _sel_date w' = Some s /\ _date w' = _date w /\ displays w' None /\
     generated w' = generated w).
Proof.
  intros Hnear Hstate Hsel Hy Hm HG Hr Hc Hx Htv.
  pose proof Hnear as (Hs & Hf & Hdisp & Hselv & (G' & HG' & Hl)).
  assert (G' = G) by congruence. subst G'. clear HG'.
  pose proof Hf as [(Hyr & Hmr & _) Hd1].
  destruct (Hselv s Hsel) as [Hv _].
  pose proof (Hl r c s Hr Hc Hx) as Hlbl.
  rewrite Hsel in Hlbl. cbn [visible] in Hlbl.
  rewrite (proj2 (Z.eqb_eq _ _) Hy) in Hlbl.
  unfold day_label, is_date in Hlbl.
  destruct (date_eq_dec s s) as [_|]; [|contradiction].
  assert (Hstart : forall k : M unit,
            _on_click r c w
            = (match Some (day s) with
               | Some day0 =>
                   w0 <- get ;;
                   _remove_selection ;;
                   d <- lift (date_new (year (_date w0)) (month (_date w0)) day0) ;;
                   modify (with_sel_date (Some d)) ;;
                   _display_selection ;;
                   match _textvariable w0 with
                   | Some _ => textvariable_set (strftime_x d)
                   | None => ret tt
                   end ;;
                   event_generate CalendarSelected
               | None => ret tt
               end) w).
  { intros _. unfold _on_click. unfold bind at 1. unfold get at 1. rewrite Hstate.
    unfold label_at in Hlbl.
    destruct (getitem (_calendar w) r) as [week|] eqn:Eweek; [|discriminate].
    cbn [rbind] in Hlbl.
    unfold bind at 1. unfold lift at 1.
    unfold bind at 1. unfold lift at 1. rewrite Hlbl.
    cbn [text style style_eqb orb]. unfold bind at 1. unfold ret at 1.
    reflexivity. }
  rewrite (Hstart (ret tt)). clear Hstart.
  pose proof (days_in_month_bounds (year (_date w)) (month (_date w)) Hmr) as Hb.
  split.
  - intros Hday.
    set (x := mkdate (year (_date w)) (month (_date w)) (day s)).
    assert (Hxv : valid_date x).
    { destruct Hv as (_ & _ & Hsd). unfold x, valid_date, valid_ymd. cbn. lia. }
    destruct (click_tail w x Hnear Hxv eq_refl eq_refl (or_introl Htv))
      as (w' & E & Hsm' & Hsel' & Hd' & _).
    exists w'. split; [exact E|]. auto.
  - intros Hday.
    destruct (remove_selection_near w Hnear) as (w1 & E1 & Hs1 & Hfr1 & Hshow1).
    unfold bind at 1. unfold get at 1.
    unfold bind at 1. rewrite E1.
    unfold bind at 1. unfold lift at 1.
    destruct (valid_ymd_fits _ _ _ Hv) as (_ & _ & Fds).
    destruct (valid_ymd_fits _ _ _ (proj1 Hf)) as (Fy & Fm & _).
    rewrite (date_new_fits _ _ _ Fy Fm Fds).
    replace (negb ((MINYEAR <=? year (_date w)) && (year (_date w) <=? MAXYEAR)))
      with false
      by (symmetry; apply negb_false_iff, andb_true_iff; split; apply Z.leb_le; lia).
    replace (negb ((1 <=? month (_date w)) && (month (_date w) <=? 12))) with false
      by (symmetry; apply negb_false_iff, andb_true_iff; split; apply Z.leb_le; lia).
    replace (negb ((1 <=? day s)
                   && (day s <=? _days_in_month (year (_date w)) (month (_date w)))))
      with true
      by (symmetry; apply negb_true_iff, andb_false_iff; right; apply Z.leb_gt; lia).
    exists w1. split; [reflexivity|].
    destruct Hfr1 as (Hd & Hsl & _ & _ & _ & _ & Hg).
    split; [congruence|]. split; [exact Hd|]. split; [exact Hshow1|exact Hg].
Qed.

End ClickEdge.

(** ** The properties on February 2023 *)

Lemma blank_shape (d : date) (s : option date) (t : option string) (mode st : string) :
  shape (blank d s t mode st).
Proof. apply fresh_shape. Qed.

(** What a successful display leaves shows the month, when the selection
    is nothing or a day of the month. *)
Lemma displayed_shows_month (w0 w : widget) :
  shape w0 -> first_of_month w0 -> displayable w0 ->
  in_month (_sel_date w0) (_date w0) ->
  _display_calendar w0 = (Ok tt, w) -> shows_month w.
Proof.
  intros Hs Hf Hd Him E.
  assert (H : exists w', _display_calendar w0 = (Ok tt, w') /\ shape w' /\
                         frame w0 w' /\ displays w' (_sel_date w0)).
  { destruct (_sel_date w0) as [s|] eqn:Es.
    - destruct Him as (Hv & Hy & Hm).
      apply (display_calendar_near w0 s Hs Hf Hd Es Hv Hy). lia.
    - apply (display_calendar_plain w0 Hs Hf Hd). intros s Hs'. congruence. }
  destruct H as (w' & E' & Hs' & Hfr & Hshow).
  assert (w' = w) by congruence. subst w'.
  destruct Hfr as (Hdt & Hsl & _).
  split; [exact Hs'|]. unfold first_of_month, displayable. rewrite Hdt, Hsl.
  auto.
Qed.

Lemma displayed_shows_near (w0 w : widget) :
  shape w0 -> first_of_month w0 -> displayable w0 ->
  (forall s, _sel_date w0 = Some s ->
     valid_date s /\
     (year s = year (_date w0) -> -10 <= month s - month (_date w0) <= 10)) ->
  _display_calendar w0 = (Ok tt, w) -> shows_near w.
Proof.
  intros Hs Hf Hd Hsel E.
  destruct (display_near w0 Hs Hf Hd Hsel) as (w' & E' & Hnear & _).
  congruence.
Qed.

Lemma february_first : first_of_month (blank (mkdate 2023 2 1) None None "day" "normal").
Proof. repeat split; vm_compute; discriminate. Qed.

Lemma february_2023_shows_month : shows_month february_2023_widget.
Proof.
  apply (displayed_shows_month (blank (mkdate 2023 2 1) None None "day" "normal")).
  - apply blank_shape.
  - apply february_first.
  - left. vm_compute. reflexivity.
  - exact I.
  - vm_compute. reflexivity.
Qed.

Lemma february_7_shows_month : shows_month february_7_widget.
Proof.
  apply (displayed_shows_month february_7_blank).
  - apply blank_shape.
  - apply february_first.
  - left. vm_compute. reflexivity.
  - repeat split; vm_compute; discriminate.
  - vm_compute. reflexivity.
Qed.

Lemma january_30_shows_near : shows_near january_30_in_february.
Proof.
  apply (displayed_shows_near
           (blank (mkdate 2023 2 1) (Some (mkdate 2023 1 30)) None "day" "normal")).
  - apply blank_shape.
  - apply february_first.
  - left. vm_compute. reflexivity.
  - intros s [= <-]. split; [repeat split; vm_compute; discriminate|].
    intros _. cbn. lia.
  - vm_compute. reflexivity.
Qed.

Lemma february_2023_shape : shape february_2023_widget.
Proof. apply february_2023_shows_month. Qed.

Lemma february_2023_first : first_of_month february_2023_widget.
Proof. apply february_2023_shows_month. Qed.

(** ** The event of a selection *)



(** From February 2023 to March 2023. *)
Lemma X1_next_month_outcome_witness :
  exists w',
    _next_month february_2023_widget = (Ok tt, w') /\
    _date w' = mkdate 2023 3 1 /\
    shape w' /\ same_selection february_2023_widget w'.
Proof.
  apply (proj1 (X1_next_month_outcome february_2023_widget
                  february_2023_shape february_2023_first)).
  left. vm_compute. reflexivity.
Defined.

(** From February 2023 to January 2023. *)
Lemma X2_prev_month_outcome_witness :
  exists w',
    _prev_month february_2023_widget = (Ok tt, w') /\
    _date w' = mkdate 2023 1 1 /\
    shape w' /\ same_selection february_2023_widget w'.
Proof.
  apply (proj1 (X2_prev_month_outcome february_2023_widget
                  february_2023_shape february_2023_first));
    vm_compute; discriminate.
Defined.

(** From February 2023 to February 2024. *)
Lemma X3_year_navigation_outcome_witness :
  exists w',
    _next_year february_2023_widget = (Ok tt, w') /\
    _date w' = mkdate 2024 2 1 /\
    shape w' /\ same_selection february_2023_widget w'.
Proof.
  apply (proj1 (X3_year_navigation_outcome february_2023_widget
                  february_2023_shape february_2023_first)).
  left. vm_compute. reflexivity.
Defined.

(** January 2023 and back to February. *)
Lemma X4_navigation_round_trips_witness :
  exists w1,
    _prev_month february_2023_widget = (Ok tt, w1) /\
    _next_month w1 = (Ok tt, february_2023_widget).
Proof.
  apply (proj1 (X4_navigation_round_trips february_2023_widget
                  february_2023_shape february_2023_first
                  ltac:(vm_compute; reflexivity))).
  vm_compute. discriminate.
Defined.

(** February 2023 with 7 February selected. *)
Lemma X5_display_highlights_selection_witness :
  exists w',
    _display_calendar february_7_blank = (Ok tt, w') /\
    frame february_7_blank w' /\ displays w' (Some (mkdate 2023 2 7)) /\
    (month (mkdate 2023 2 7) = month (_date february_7_blank) ->
     exists G r c,
       shown_dates (year (_date february_7_blank)) (month (_date february_7_blank))
       = Ok G /\
       0 <= r < 6 /\ 0 <= c < 7 /\ cell G r c = Ok (mkdate 2023 2 7) /\
       label_at w' r c = Ok (mklabel (Some (day (mkdate 2023 2 7))) sel)).
Proof.
  apply (X5_display_highlights_selection february_7_blank (mkdate 2023 2 7)).
  - apply blank_shape.
  - apply february_first.
  - left. vm_compute. reflexivity.
  - reflexivity.
  - repeat split; vm_compute; discriminate.
  - reflexivity.
  - vm_compute. split; discriminate.
Defined.

(** December 2022 displayed while 1 January 2023 is selected: the last
    label of the fifth row shows the selection and is not highlighted. *)
Lemma X6_display_without_highlight_witness :
  let w := blank (mkdate 2022 12 1) (Some (mkdate 2023 1 1)) None "day" "normal" in
  exists w',
    _display_calendar w = (Ok tt, w') /\ frame w w' /\ displays w' None /\
    forall r c lbl, 0 <= r < 6 -> 0 <= c < 7 ->
      label_at w' r c = Ok lbl -> style lbl <> sel.
Proof.
  intros w. apply (X6_display_without_highlight w).
  - apply blank_shape.
  - repeat split; vm_compute; discriminate.
  - left. vm_compute. reflexivity.
  - right. exists (mkdate 2023 1 1). split; [reflexivity|]. vm_compute. discriminate.
Defined.

(** December 2020: the ISO year 2020 has 53 weeks and the first of
    December lies in week 49. *)
Lemma X7_week_labels_iso_witness :
  let w := blank (mkdate 2020 12 1) None None "day" "normal" in
  exists w' G,
    _display_calendar w = (Ok tt, w') /\
    shown_dates (year (_date w)) (month (_date w)) = Ok G /\
    forall r c x, 0 <= r < 6 -> 0 <= c < 7 -> cell G r c = Ok x ->
      (getitem (_week_nbs w') r = Ok (Some (isoweek x))
       <-> iso_weeks (isoyear (_date w)) = 52
           \/ isoweek (_date w) + r <= 52
           \/ isoweek (_date w) = 53).
Proof.
  intros w. apply (X7_week_labels_iso w).
  - apply blank_shape.
  - repeat split; vm_compute; discriminate.
  - left. vm_compute. reflexivity.
Defined.

(** The blank widget of February 2023 and the displayed one. *)
Lemma X8_display_calendar_idempotent_witness :
  let wa := blank (mkdate 2023 2 1) None None "day" "normal" in
  exists w',
    _display_calendar wa = (Ok tt, w') /\
    _display_calendar february_2023_widget = (Ok tt, w') /\
    _display_calendar w' = (Ok tt, w').
Proof.
  intros wa. apply (X8_display_calendar_idempotent wa february_2023_widget).
  - apply blank_shape.
  - apply february_2023_shape.
  - repeat split.
  - apply february_first.
  - left. vm_compute. reflexivity.
Defined.

(** February 2023 with 7 February selected. *)
Lemma X9_remove_selection_undoes_highlight_witness :
  exists w' w'',
    _display_calendar february_7_blank = (Ok tt, w') /\
    _remove_selection w' = (Ok tt, w'') /\
    displays w'' None /\
    _display_calendar (with_sel_date None february_7_blank)
    = (Ok tt, with_sel_date None w'').
Proof.
  apply (X9_remove_selection_undoes_highlight february_7_blank (mkdate 2023 2 7)).
  - apply blank_shape.
  - apply february_first.
  - left. vm_compute. reflexivity.
  - reflexivity.
  - repeat split; vm_compute; discriminate.
  - intros _. vm_compute. split; discriminate.
Defined.

(** A click on the label of 2 March 2023, in the fifth row of February
    2023. *)
Lemma X10_user_click_selects_witness :
  let w := february_2023_widget in
  let x := mkdate 2023 3 2 in
  exists w',
    @user_click c_locale 4 3 w = (Ok tt, w') /\ shows_month w' /\
    _sel_date w' = Some x /\ _date w' = mkdate (year x) (month x) 1 /\
    _textvariable w' = option_map (fun _ => @strftime_x c_locale x) (_textvariable w) /\
    generated w' = generated w ++ [CalendarSelected] /\
    selectmode w' = selectmode w /\ state w' = state w /\
    click_bound w' = click_bound w.
Proof.
  intros w x.
  apply (@X10_user_click_selects c_locale w february_2023_grid 4 3 x).
  - apply february_2023_shows_month.
  - reflexivity.
  - reflexivity.
  - vm_compute. reflexivity.
  - lia.
  - lia.
  - vm_compute. reflexivity.
  - left. vm_compute. reflexivity.
  - left. reflexivity.
Defined.

(** A click on the highlighted label of 30 January 2023 while February
    2023 is displayed. *)
Lemma X11_click_on_highlighted_neighbour_witness :
  let w := january_30_in_february in
  exists w',
    @_on_click c_locale 0 0 w
    = (Raise (mkexn ValueError "day is out of range for month"), w') /\
    _sel_date w' = Some (mkdate 2023 1 30) /\ _date w' = _date w /\
    displays w' None /\ generated w' = generated w.
Proof.
  intros w.
  apply (proj2 (@X11_click_on_highlighted_neighbour c_locale w february_2023_grid 0 0
                  (mkdate 2023 1 30)
                  january_30_shows_near eq_refl eq_refl eq_refl
                  ltac:(vm_compute; discriminate)
                  ltac:(vm_compute; reflexivity)
                  ltac:(lia) ltac:(lia)
                  ltac:(vm_compute; reflexivity) eq_refl)).
  vm_compute. reflexivity.
Defined.

(** [selection_set("03/15/24")] on a widget with a bound variable. *)
Lemma X12_selection_set_selects_witness :
  let w := with_variable_blank in
  let d := mkdate 2024 3 15 in
  exists w',
    @selection_set c_locale (ArgStr "03/15/24") w = (Ok tt, w') /\ shows_month w' /\
    _sel_date w' = Some d /\ _date w' = mkdate (year d) (month d) 1 /\
    _textvariable w'
    = option_map (fun _ => @strftime_x c_locale d) (_textvariable w) /\
    same_options w w' /\
    option_map calendar_date (selection_get w') = Some (calendar_date d) /\
    @get_date c_locale w' = @strftime_x c_locale d.
Proof.
  intros w d.
  apply (@X12_selection_set_selects c_locale w (ArgStr "03/15/24") d).
  - apply blank_shape.
  - reflexivity.
  - reflexivity.
  - right. exists "03/15/24". split; [reflexivity|]. vm_compute. reflexivity.
  - repeat split; vm_compute; discriminate.
  - left. vm_compute. reflexivity.
  - right. split; [vm_compute; discriminate|vm_compute; reflexivity].
Defined.

(** [selection_set("tomorrow")]. *)
Lemma X13_selection_set_unreadable_witness :
  let w := february_2023_widget in
  @selection_set c_locale (ArgStr "tomorrow") w
  = (Raise (mkexn (exn_ty (no_match "tomorrow"))
                  (append (PyStr.repr "tomorrow") " is not a valid date.")), w) /\
  (PyStr.plain "tomorrow" = true ->
   PyStr.is_substring "tomorrow"
     (append (PyStr.repr "tomorrow") " is not a valid date.") = true).
Proof.
  intros w.
  apply (@X13_selection_set_unreadable c_locale w "tomorrow" (no_match "tomorrow")).
  - reflexivity.
  - reflexivity.
  - vm_compute. reflexivity.
Defined.

(** [selection_set(None)] while 7 February 2023 is selected. *)
Lemma X14_selection_set_none_clears_witness :
  let w := february_7_widget in
  exists w',
    @selection_set c_locale ArgNone w = (Ok tt, w') /\ shows_month w' /\
    _sel_date w' = None /\ _date w' = _date w /\
    _textvariable w' = option_map (fun _ => "") (_textvariable w) /\
    same_options w w' /\
    selection_get w' = None /\ @get_date c_locale w' = "".
Proof.
  intros w.
  apply (@X14_selection_set_none_clears c_locale w).
  - apply february_7_shows_month.
  - reflexivity.
  - reflexivity.
Defined.

(** The application writes ["03/15/24"] into the bound variable. *)
Lemma X15_textvariable_written_outcome_witness :
  let w := with_variable_blank in
  let d := mkdate 2024 3 15 in
  exists w',
    @textvariable_written c_locale "03/15/24" w = (Ok tt, w') /\ shows_month w' /\
    _sel_date w' = Some d /\ _date w' = mkdate (year d) (month d) 1 /\
    _textvariable w' = Some "03/15/24" /\ same_options w w'.
Proof.
  intros w d.
  apply (proj1 (proj2 (proj2 (@X15_textvariable_written_outcome c_locale w "" "03/15/24"
                                eq_refl)))
           d).
  - reflexivity.
  - discriminate.
  - vm_compute. reflexivity.
  - apply blank_shape.
  - repeat split; vm_compute; discriminate.
  - left. vm_compute. reflexivity.
Defined.

(** [Calendar(year=2023, month=2, day=7)] with today 3 November 2026. *)
Lemma X16_init_outcome_witness :
  let kw := mkargs (Some 2023) (Some 2) (Some 7) None None None (mkdate 2026 11 3) in
  exists w,
    @__init__ c_locale kw = Ok w /\ shows_month w /\
    _date w = mkdate 2023 2 1 /\
    _sel_date w = Some (mkdate 2023 2 7) /\
    _textvariable w
    = match _sel_date w with
      | Some d => option_map (fun _ => @strftime_x c_locale d) (kw_textvariable kw)
      | None => kw_textvariable kw
      end /\
    selectmode w = lit "day" /\ state w = lit "normal" /\
    click_bound w = true /\ generated w = [].
Proof.
  intros kw.
  apply (@X16_init_outcome c_locale kw).
  - vm_compute. split; discriminate.
  - vm_compute. split; discriminate.
  - left. vm_compute. reflexivity.
  - vm_compute. split; discriminate.
  - reflexivity.
  - reflexivity.
Defined.

(** A year of 2**31, the year 10000, the month 13, the selection mode
    ['week'], the state ['bogus'], and November 9999. *)
Lemma X17_init_errors_witness :
  let today := mkdate 2026 11 3 in
  (exists msg,
     @__init__ c_locale (mkargs (Some 2147483648) (Some 2) (Some 7) None None None today)
     = Raise (mkexn OverflowError msg)) /\
  @__init__ c_locale (mkargs (Some 10000) (Some 2) (Some 7) None None None today)
  = Raise (mkexn ValueError "year 10000 is out of range") /\
  @__init__ c_locale (mkargs (Some 2023) (Some 13) (Some 7) None None None today)
  = Raise (mkexn ValueError "month must be in 1..12") /\
  @__init__ c_locale (mkargs (Some 2023) (Some 2) (Some 7) (Some (lit "week")) None None
                             today)
  = Raise (mkexn ValueError "'selectmode' option should be 'none' or 'day'.") /\
  @__init__ c_locale (mkargs (Some 2023) (Some 2) (Some 7) None (Some (lit "bogus")) None
                             today)
  = Raise (mkexn ValueError "bad state 'bogus': must be disabled or normal") /\
  @__init__ c_locale (mkargs (Some 9999) (Some 11) (Some 7) None None None today)
  = Raise (mkexn ValueError "year 10000 is out of range").
Proof.
  intros today.
  assert (F : forall z, -100 <= z <= 10000 -> fits_int z).
  { intros z Hz. unfold fits_int, INT_MIN, INT_MAX. lia. }
  split; [|split; [|split; [|split; [|split]]]].
  - apply (proj1 (@X17_init_errors c_locale
                    (mkargs (Some 2147483648) (Some 2) (Some 7) None None None today))).
    intros (H & _). vm_compute in H. destruct H as [_ H]. apply H. reflexivity.
  - apply (proj1 (proj2 (@X17_init_errors c_locale
                    (mkargs (Some 10000) (Some 2) (Some 7) None None None today))));
      try (apply F; cbn; lia); try (right; apply F; cbn; lia).
    vm_compute. intros [_ H]. apply H. reflexivity.
  - apply (proj1 (proj2 (proj2 (@X17_init_errors c_locale
                    (mkargs (Some 2023) (Some 13) (Some 7) None None None today)))));
      try (apply F; cbn; lia); try (right; apply F; cbn; lia).
    + vm_compute. split; discriminate.
    + vm_compute. intros [_ H]. apply H. reflexivity.
  - apply (proj1 (proj2 (proj2 (proj2 (@X17_init_errors c_locale
                    (mkargs (Some 2023) (Some 2) (Some 7) (Some (lit "week")) None None
                            today))))));
      try (right; apply F; cbn; lia); try reflexivity;
      vm_compute; split; discriminate.
  - apply (proj1 (proj2 (proj2 (proj2 (proj2 (@X17_init_errors c_locale
                    (mkargs (Some 2023) (Some 2) (Some 7) None (Some (lit "bogus")) None
                            today)))))));
      try (right; apply F; cbn; lia); try reflexivity;
      vm_compute; split; discriminate.
  - apply (proj2 (proj2 (proj2 (proj2 (proj2 (@X17_init_errors c_locale
                    (mkargs (Some 9999) (Some 11) (Some 7) None None None today)))))));
      try (right; apply F; cbn; lia); try reflexivity.
    vm_compute. split; discriminate.
Defined.

(** ** The options: the dict *)

Section OptionsDict.

Import Options.
Local Open Scope options_scope.

Context {A : Type}.

Lemma dict_get_set_same (k : string) (v : A) (d : list (string * A)) :
  dict_get k (dict_set k v d) = Some v.
Proof.
  induction d as [|[k' v'] d IH]; cbn.
  - now rewrite String.eqb_refl.
  - destruct (String.eqb k' k) eqn:E; cbn; rewrite E; [reflexivity | exact IH].
Qed.

Lemma dict_get_set_other (k k' : string) (v : A) (d : list (string * A)) :
  k' <> k -> dict_get k' (dict_set k v d) = dict_get k' d.
Proof.
  intros Hne. induction d as [|[k0 v0] d IH]; cbn.
  - destruct (String.eqb k k') eqn:E; [|reflexivity].
    apply String.eqb_eq in E. congruence.
  - destruct (String.eqb k0 k) eqn:E; cbn.
    + apply String.eqb_eq in E. subst k0.
      destruct (String.eqb k k') eqn:E'; [|reflexivity].
      apply String.eqb_eq in E'. congruence.
    + now rewrite IH.
Qed.

Lemma dict_keys_set (k : string) (v : A) (d : list (string * A)) :
  dict_mem k d = true -> dict_keys (dict_set k v d) = dict_keys d.
Proof.
  unfold dict_mem, dict_keys. induction d as [|[k' v'] d IH]; cbn.
  - discriminate.
  - destruct (String.eqb k' k) eqn:E; cbn; [reflexivity|].
    intros H. now rewrite IH.
Qed.

Lemma dict_mem_set (k k' : string) (v : A) (d : list (string * A)) :
  dict_mem k d = true -> dict_mem k' (dict_set k v d) = dict_mem k' d.
Proof.
  intros Hk. unfold dict_mem in *.
  destruct (string_dec k' k) as [->|Hne].
  - rewrite dict_get_set_same. destruct (dict_get k d); [reflexivity | discriminate].
  - now rewrite dict_get_set_other.
Qed.

Lemma dict_mem_keys (k : string) (d : list (string * A)) :
  dict_mem k d = true <-> In k (dict_keys d).
Proof.
  unfold dict_mem, dict_keys. induction d as [|[k' v'] d IH]; cbn.
  - split; [discriminate | tauto].
  - destruct (String.eqb k' k) eqn:E.
    + apply String.eqb_eq in E. subst. split; auto.
    + apply String.eqb_neq in E. rewrite IH. split; [auto | intros [H|H]; [congruence | exact H]].
Qed.

End OptionsDict.

(** ** The options: what an assignment stores *)

Section OptionsStore.

Import Options.
Local Open Scope options_scope.

Context {L : Locale} {R : Runtime}.

Section KeepsPart.

Context {B : Type} (f : options -> B).

Lemma keeps_ret {A : Type} (a : A) : keeps f (ret a).
Proof. intros c. reflexivity. Qed.

Lemma keeps_raise {A : Type} (e : exception) : keeps f (@raise A e).
Proof. intros c. reflexivity. Qed.

Lemma keeps_get : keeps f get.
Proof. intros c. reflexivity. Qed.

Lemma keeps_lift {A : Type} (r : outcome A) : keeps f (lift r).
Proof. intros c. reflexivity. Qed.

Lemma keeps_bind {A A' : Type} (m : M A) (k : A -> M A') :
  keeps f m -> (forall a, keeps f (k a)) -> keeps f (bind m k).
Proof.
  intros Hm Hk c. unfold bind. specialize (Hm c).
  destruct (m c) as [[a|e] c1]; cbn in *.
  - rewrite Hk. exact Hm.
  - exact Hm.
Qed.

Lemma keeps_try_except {A : Type} (m : M A) (cls : exception_class)
      (h : exception -> M A) :
  keeps f m -> (forall e, keeps f (h e)) -> keeps f (try_except m cls h).
Proof.
  intros Hm Hh c. unfold try_except. specialize (Hm c).
  destruct (m c) as [[a|e] c1]; cbn in *; [exact Hm|].
  destruct (exc_class e), cls; cbn; try exact Hm; rewrite Hh; exact Hm.
Qed.

Lemma keeps_modify (g : options -> options) :
  (forall c, f (g c) = f c) -> keeps f (modify g).
Proof. intros Hg c. apply Hg. Qed.

Lemma keeps_ask (r : request) :
  (forall c, f (record r c) = f c) -> keeps f (ask r).
Proof.
  intros Hr c. unfold ask, bind, get, lift, modify.
  destruct (tk c r) as [[]|e]; cbn; [apply Hr | reflexivity].
Qed.

Lemma keeps_call_method (var : value) (method : string) (r : string -> request) :
  (forall name c, f (record (r name) c) = f c) ->
  keeps f (call_method var method r).
Proof.
  intros Hr. destruct var; cbn; first [apply keeps_ask; apply Hr | apply keeps_raise].
Qed.

Lemma keeps_call_with_trace_id (var : value) (method : string)
      (r : string -> request) :
  (forall name c, f (record (r name) c) = f c) ->
  keeps f (call_with_trace_id var method r).
Proof.
  intros Hr. unfold call_with_trace_id. apply keeps_bind; [apply keeps_get|].
  intros c. destruct var; try apply keeps_raise.
  destruct (trace_id c); [apply keeps_ask; apply Hr | apply keeps_raise].
Qed.

End KeepsPart.

Ltac keeps_step :=
  first
    [ apply keeps_ret | apply keeps_raise | apply keeps_get | apply keeps_lift
    | apply keeps_ask; intros; reflexivity
    | apply keeps_call_method; intros; reflexivity
    | apply keeps_call_with_trace_id; intros; reflexivity
    | apply keeps_modify; intros; reflexivity
    | apply keeps_bind; [|intros ?]
    | apply keeps_try_except; [|intros ?] ].

Ltac keeps_branches :=
  repeat match goal with
         | |- keeps _ (if ?b then _ else _) => destruct b
         end.

Lemma keeps_set_textvariable {B : Type} (f : options -> B) (value : value) :
  (forall v c, f (with_textvariable v c) = f c) ->
  (forall b c, f (with_trace_id b c) = f c) ->
  (forall l c, f (with_var_calls l c) = f c) ->
  keeps f (set_textvariable value).
Proof.
  intros H1 H2 H3.
  assert (Hr : forall (r : string -> request),
             (forall name c, record (r name) c = with_var_calls (var_calls c ++ [r name]) c) ->
             forall name c, f (record (r name) c) = f c).
  { intros r Hr name c. rewrite Hr. apply H3. }
  assert (Hset : forall s name c, f (record (VarSet name s) c) = f c)
    by (intros; apply H3).
  assert (Hrm : forall name c, f (record (TraceRemove name) c) = f c)
    by (intros; apply H3).
  assert (Hadd : forall name c, f (record (TraceAdd name) c) = f c)
    by (intros; apply H3).
  assert (Hvd : forall name c, f (record (TraceVdelete name) c) = f c)
    by (intros; apply H3).
  assert (Htr : forall name c, f (record (Trace name) c) = f c)
    by (intros; apply H3).
  unfold set_textvariable.
  apply keeps_bind; [apply keeps_get|]. intros c.
  apply keeps_bind; [|intros ?; apply keeps_modify; apply H1].
  destruct (_sel_date c); [|apply keeps_ret].
  apply keeps_bind.
  { destruct value; first [apply keeps_ret | apply keeps_call_method; intros; apply Hset]. }
  intros _. apply keeps_try_except.
  - apply keeps_bind.
    { destruct (_textvariable c);
        first [apply keeps_ret | apply keeps_call_with_trace_id; exact Hrm]. }
    intros _.
    destruct value; first [apply keeps_ret | apply keeps_bind;
      [apply keeps_call_method; exact Hadd | intros ?; apply keeps_modify; apply H2]].
  - intros e. apply keeps_bind.
    { destruct (_textvariable c);
        first [apply keeps_ret | apply keeps_call_with_trace_id; exact Hvd]. }
    intros _.
    destruct value; first [apply keeps_ret | apply keeps_call_method; exact Htr].
Qed.

Lemma keeps_properties_set_font (value : value) : keeps _properties (set_font value).
Proof. unfold set_font. repeat keeps_step. Qed.

Lemma keeps_properties_set_colour (key : pystr) (value : value) :
  keeps _properties (set_colour key value).
Proof. unfold set_colour. keeps_branches; repeat keeps_step. Qed.

(** The two outcomes of an assignment: it raises and the dict is as before,
    or it returns, the key was in the dict and has the value now. *)
Lemma setitem_cases (key : pystr) (value : value) (c : options) :
  (exists e c', __setitem__ key value c = (Raises e, c') /\
                _properties c' = _properties c) \/
  (exists c', __setitem__ key value c = (Returns tt, c') /\
              dict_mem (chars key) (_properties c) = true /\
              _properties c' = dict_set (chars key) value (_properties c)).
Proof.
  remember (__setitem__ key value c) as res eqn:E.
  unfold __setitem__ in E.
  match type of E with
  | context [bind ?m (fun _ => modify ?f)] => set (branch := m) in E; set (store := f) in E
  end.
  assert (Hb : keeps _properties branch).
  { subst branch. keeps_branches;
    first [ apply keeps_set_textvariable; intros; reflexivity
          | apply keeps_properties_set_font
          | apply keeps_properties_set_colour | repeat keeps_step ]. }
  unfold bind at 1, get in E. cbv beta iota in E.
  destruct (dict_mem (chars key) (_properties c)) eqn:Hmem; cbn [negb] in E.
  2:{ left. eexists _, c. split; [exact E | reflexivity]. }
  destruct (py_is key "locale").
  { left. eexists _, c. split; [exact E | reflexivity]. }
  unfold bind in E. specialize (Hb c).
  destruct (branch c) as [[[]|e] c1]; cbn in Hb.
  - right. eexists. split; [exact E|]. split; [reflexivity|].
    subst store. cbn. now rewrite Hb.
  - left. eexists e, c1. split; [exact E | exact Hb].
Qed.

End OptionsStore.

(** ** The options: assignment and [configure] *)

Section OptionsAssign.

Import Options.
Local Open Scope options_scope.

Context {L : Locale} {R : Runtime}.

Lemma getitem_properties (k : string) (c c' : options) :
  _properties c' = _properties c -> __getitem__ k c' = __getitem__ k c.
Proof. unfold __getitem__. now intros ->. Qed.

Lemma setitem_returns (key : pystr) (value : value) (c c' : options) :
  __setitem__ key value c = (Returns tt, c') ->
  dict_mem (chars key) (_properties c) = true /\
  _properties c' = dict_set (chars key) value (_properties c).
Proof.
  intros H. destruct (setitem_cases key value c) as [(e & c1 & E & _)|(c1 & E & Hm & Hp)].
  - rewrite E in H. discriminate.
  - rewrite E in H. injection H as <-. now split.
Qed.

Lemma setitem_raises (key : pystr) (value : value) (c c' : options) (e : exception) :
  __setitem__ key value c = (Raises e, c') -> _properties c' = _properties c.
Proof.
  intros H. destruct (setitem_cases key value c) as [(e1 & c1 & E & Hp)|(c1 & E & _)].
  - rewrite E in H. injection H as _ <-. exact Hp.
  - rewrite E in H. discriminate.
Qed.

(** X18: an assignment [self[key] = value] that returns has stored the value.
    The key was among [keys()]; afterwards [self[key]] and [cget(key)] return
    the value assigned, [keys()] lists the same names in the same order, and
    every other option reads as before. This holds for every key and every
    value, whatever Tk answers to the requests of the assignment. *)
Theorem X18_setitem_stores (key : pystr) (value : value) (c c' : options) :
  __setitem__ key value c = (Returns tt, c') ->
  In (chars key) (keys c) /\
  __getitem__ (chars key) c' = Returns value /\
  cget (chars key) c' = Returns value /\
  keys c' = keys c /\
  forall k, k <> chars key -> __getitem__ k c' = __getitem__ k c.
Proof.
  intros H. destruct (setitem_returns _ _ _ _ H) as [Hm Hp].
  assert (Hget : __getitem__ (chars key) c' = Returns value).
  { unfold __getitem__. rewrite Hp, dict_get_set_same. reflexivity. }
  split; [now apply dict_mem_keys|].
  split; [exact Hget|]. split; [exact Hget|].
  split.
  - unfold keys. rewrite Hp. now apply dict_keys_set.
  - intros k Hk. unfold __getitem__. rewrite Hp. now rewrite dict_get_set_other.
Qed.

(** X19: an assignment [self[key] = value] that raises, for whatever reason
    (an unknown key, ['locale'], a value that the option refuses, or a request
    that Tk refuses), has changed no option: [keys()] is the same, and
    [self[k]] and [cget(k)] return or raise for every [k] what they did
    before. *)
Theorem X19_setitem_failure_changes_no_option (key : pystr) (value : value)
        (c c' : options) (e : exception) :
  __setitem__ key value c = (Raises e, c') ->
  keys c' = keys c /\
  (forall k, __getitem__ k c' = __getitem__ k c) /\
  (forall k, cget k c' = cget k c).
Proof.
  intros H. pose proof (setitem_raises _ _ _ _ _ H) as Hp.
  split; [unfold keys; now rewrite Hp|].
  split; intros k; unfold cget; now apply getitem_properties.
Qed.

Lemma py_is_uninterned (key : pystr) (s : string) :
  interned key = false -> py_is key s = false.
Proof. intros H. unfold py_is. now rewrite H. Qed.

(** X20: [__setitem__] compares the key with its literals by [is]. For a key
    among [keys()] that is a string object of its own (not interned, such as
    one read from a file), no comparison holds: the assignment returns and
    only stores the value in the dict. Nothing is asked of Tk, no label, font,
    style or variable changes, whatever the option, and ['locale'], which the
    literal key refuses, is overwritten. *)
Theorem X20_setitem_by_equal_name (key : pystr) (value : value) (c : options) :
  interned key = false ->
  In (chars key) (keys c) ->
  __setitem__ key value c =
  (Returns tt, with_properties (dict_set (chars key) value (_properties c)) c).
Proof.
  intros Hi Hin. apply dict_mem_keys in Hin.
  unfold __setitem__, set_colour, bind at 1, get. cbv beta iota.
  rewrite Hin. cbn [negb].
  rewrite !(py_is_uninterned key _ Hi). reflexivity.
Qed.

(** *** [configure] *)

Lemma configure_nil (c : options) : configure [] c = (Returns tt, c).
Proof. reflexivity. Qed.

Lemma configure_cons (kw : list (pystr * value)) (key : pystr) (value : value)
      (c : options) :
  configure ((key, value) :: kw) c =
  match __setitem__ key value c with
  | (Returns _, c1) => configure kw c1
  | (Raises e, c1) => (Raises e, c1)
  end.
Proof. reflexivity. Qed.

Lemma config_configure (kw : list (pystr * value)) : config kw = configure kw.
Proof. reflexivity. Qed.

Lemma configure_returns (kw : list (pystr * value)) :
  forall c c', configure kw c = (Returns tt, c') ->
  keys c' = keys c /\
  forall k, __getitem__ k c' =
            match __getitem__ k c with
            | Returns v => Returns (last_value same_name kw k v)
            | Raises e => Raises e
            end.
Proof.
  induction kw as [|[key value] kw IH]; intros c c' H.
  - rewrite configure_nil in H. injection H as <-.
    split; [reflexivity|]. intros k. cbn. destruct (__getitem__ k c); reflexivity.
  - rewrite configure_cons in H.
    destruct (__setitem__ key value c) as [[[]|e] c1] eqn:E; [|discriminate].
    destruct (setitem_returns _ _ _ _ E) as [Hm Hp].
    destruct (IH c1 c' H) as [Hk Hg].
    split.
    + rewrite Hk. unfold keys. rewrite Hp. now apply dict_keys_set.
    + intros k. rewrite Hg. cbn [last_value].
      assert (Es : same_name key k = String.eqb (chars key) k) by reflexivity.
      unfold __getitem__. rewrite Hp.
      destruct (String.eqb (chars key) k) eqn:Ek.
      * rewrite Es. apply String.eqb_eq in Ek. subst k. rewrite dict_get_set_same.
        unfold dict_mem in Hm. destruct (dict_get (chars key) (_properties c));
          [reflexivity | discriminate].
      * rewrite Es. apply String.eqb_neq in Ek.
        rewrite dict_get_set_other by congruence.
        destruct (dict_get k (_properties c)); reflexivity.
Qed.

Lemma configure_raises (kw : list (pystr * value)) :
  forall c c' e, configure kw c = (Raises e, c') ->
  exists kw1 key value kw2 c1,
    kw = kw1 ++ (key, value) :: kw2 /\
    configure kw1 c = (Returns tt, c1) /\
    __setitem__ key value c1 = (Raises e, c').
Proof.
  induction kw as [|[key value] kw IH]; intros c c' e H.
  - discriminate.
  - rewrite configure_cons in H.
    destruct (__setitem__ key value c) as [[[]|e1] c1] eqn:E.
    + destruct (IH c1 c' e H) as (kw1 & k & v & kw2 & c2 & -> & H1 & H2).
      exists ((key, value) :: kw1), k, v, kw2, c2.
      split; [reflexivity|]. split; [|exact H2].
      rewrite configure_cons, E. exact H1.
    + injection H as -> ->. exists [], key, value, kw, c.
      split; [reflexivity|]. split; [reflexivity | exact E].
Qed.

(** X21: a call of [configure] that returns. [config] does the same; every key
    given was among [keys()]; [keys()] is unchanged; and every option reads
    the value of the last item given for it, or its former value if none was
    given. *)
Theorem X21_configure_outcome (kw : list (pystr * value)) (c c' : options) :
  configure kw c = (Returns tt, c') ->
  config kw c = (Returns tt, c') /\
  keys c' = keys c /\
  (forall key value, In (key, value) kw -> In (chars key) (keys c)) /\
  forall k, __getitem__ k c' =
            match __getitem__ k c with
            | Returns v => Returns (last_value same_name kw k v)
            | Raises e => Raises e
            end.
Proof.
  intros H. destruct (configure_returns kw c c' H) as [Hk Hg].
  split; [exact H|]. split; [exact Hk|]. split; [|exact Hg].
  clear Hk Hg. revert c H.
  induction kw as [|[key0 value0] kw IH]; intros c H key value Hin; [destruct Hin|].
  rewrite configure_cons in H.
  destruct (__setitem__ key0 value0 c) as [[[]|e] c1] eqn:E; [|discriminate].
  destruct (setitem_returns _ _ _ _ E) as [Hm Hp].
  destruct Hin as [Heq|Hin].
  - injection Heq as <- <-. now apply dict_mem_keys.
  - assert (Hk1 : keys c1 = keys c).
    { unfold keys. rewrite Hp. now apply dict_keys_set. }
    rewrite <- Hk1. exact (IH c1 H key value Hin).
Qed.

(** X22: a call of [configure] that raises. It raises the exception of the
    first item whose assignment fails; the items before it have been assigned,
    in their order, and stay so; the items after it are not looked at. The
    options read as after the items before the failing one. *)
Theorem X22_configure_stops_at_first_failure (kw : list (pystr * value))
        (c c' : options) (e : exception) :
  configure kw c = (Raises e, c') ->
  exists kw1 key value kw2 c1,
    kw = kw1 ++ (key, value) :: kw2 /\
    configure kw1 c = (Returns tt, c1) /\
    __setitem__ key value c1 = (Raises e, c') /\
    keys c' = keys c /\
    forall k, __getitem__ k c' =
              match __getitem__ k c with
              | Returns v => Returns (last_value same_name kw1 k v)
              | Raises e => Raises e
              end.
Proof.
  intros H.
  destruct (configure_raises kw c c' e H) as (kw1 & key & value & kw2 & c1 & Hkw & H1 & H2).
  exists kw1, key, value, kw2, c1.
  split; [exact Hkw|]. split; [exact H1|]. split; [exact H2|].
  destruct (configure_returns kw1 c c1 H1) as [Hk Hg].
  pose proof (setitem_raises _ _ _ _ _ H2) as Hp.
  split.
  - unfold keys in *. now rewrite Hp.
  - intros k. rewrite <- Hg. now apply getitem_properties.
Qed.

End OptionsAssign.

(** ** The options: the styles *)

Section OptionsStyles.

Import Options.
Local Open Scope options_scope.

Context {L : Locale} {R : Runtime}.

Lemma bind_ask {A : Type} (r : request) (k : unit -> M A) (c : options) :
  bind (ask r) k c =
  match tk c r with
  | Returns _ => k tt (record r c)
  | Raises e => (Raises e, c)
  end.
Proof.
  unfold ask, bind, get, lift, modify. destruct (tk c r) as [[]|e]; reflexivity.
Qed.

Lemma ask_eq (r : request) (c : options) :
  ask r c =
  match tk c r with
  | Returns _ => (Returns tt, record r c)
  | Raises e => (Raises e, c)
  end.
Proof.
  unfold ask, bind, get, lift, modify. destruct (tk c r) as [[]|e]; reflexivity.
Qed.

Lemma for_ask_returns (rs : list request) :
  forall c c', for_ rs ask c = (Returns tt, c') <->
               accepts rs c /\ c' = accepted rs c.
Proof.
  induction rs as [|r rs IH]; intros c c'; cbn [for_ accepts accepted fold_left].
  - unfold ret. split.
    + intros [= <-]. split; [exact I | reflexivity].
    + intros [_ ->]. reflexivity.
  - rewrite bind_ask. destruct (tk c r) as [[]|e] eqn:E.
    + rewrite IH. split.
      * intros [HF ->]. split; [split; [reflexivity | assumption] | reflexivity].
      * intros [[_ HF] ->]. split; [assumption | reflexivity].
    + split; [discriminate|]. intros [[HF _] _]. discriminate.
Qed.

Lemma record_properties (r : request) (c : options) :
  _properties (record r c) = _properties c.
Proof. destruct r as [| | | | | |[|] | | | | | | | | |]; reflexivity. Qed.

Lemma property_record (nm : string) (r : request) (c : options) :
  property nm (record r c) = property nm c.
Proof. unfold property. now rewrite record_properties. Qed.


(** [for_] over a list that is given by its items. *)
Lemma for_cons (r : request) (rs : list request) (c : options) :
  for_ (r :: rs) ask c =
  match tk c r with
  | Returns _ => for_ rs ask (record r c)
  | Raises e => (Raises e, c)
  end.
Proof. cbn [for_]. apply bind_ask. Qed.

Lemma setup_style_for (c : options) :
  _setup_style c = for_ (setup_requests c) ask c.
Proof.
  unfold setup_requests, theme_requests. cbv zeta.
  rewrite !for_cons. unfold _setup_style. rewrite !bind_ask.
  destruct (tk c (StyleLayout L_TButton _)) as [[]|e]; [|reflexivity].
  destruct (tk _ (StyleLayout R_TButton _)) as [[]|e]; [|reflexivity].
  unfold bind at 1, get. cbv beta iota zeta.
  rewrite !property_record.
  change (_header_font (record (StyleLayout R_TButton "Button.rightarrow")
            (record (StyleLayout L_TButton "Button.leftarrow") c)))
    with (_header_font c).
  repeat (rewrite ?bind_ask, ?for_cons;
          match goal with
          | |- context [tk ?c' ?r] => destruct (tk c' r) as [[]|?]; [|reflexivity]
          end).
  rewrite ask_eq.
  match goal with
  | |- context [tk ?c' ?r] => destruct (tk c' r) as [[]|?]; reflexivity
  end.
Qed.

Lemma setup_style_returns (c c' : options) :
  _setup_style c = (Returns tt, c') <->
  accepts (setup_requests c) c /\ c' = accepted (setup_requests c) c.
Proof. rewrite setup_style_for. apply for_ask_returns. Qed.

End OptionsStyles.

(** ** The options: a change of theme *)

Section OptionsTheme.

Import Options.
Local Open Scope options_scope.

Context {L : Locale} {R : Runtime}.

Lemma override_assoc {A : Type} (x y z : option A) :
  override (override x y) z = override x (override y z).
Proof. destruct x; reflexivity. Qed.


(** What Tk has accepted last, after the requests [rs]. *)
Lemma configured_accepted (rs : list request) :
  forall c n o, configured (accepted rs c) n o =
                override (last_configured rs n o) (configured c n o).
Proof.
  induction rs as [|r rs IH]; intros c n o; [reflexivity|].
  change (accepted (r :: rs) c) with (accepted rs (record r c)).
  rewrite IH.
  destruct r as [| | | | | |[|] | | | | | | | | |]; try reflexivity.
  cbn [last_configured]. now rewrite override_assoc.
Qed.












End OptionsTheme.

(** ** The options: an assignment and the next change of theme *)

Section OptionsSettled.

Import Options.
Local Open Scope options_scope.

Context {L : Locale} {R : Runtime}.






Lemma property_stored (nm name : string) (v : value) (c0 c : options) :
  _properties c0 = _properties c ->
  property nm (with_properties (dict_set name v (_properties c0)) c0) =
  stored name v (fun key => property key c) nm.
Proof.
  intros ->. unfold property, stored. cbn.
  destruct (String.eqb name nm) eqn:E.
  - apply String.eqb_eq in E. subst. now rewrite dict_get_set_same.
  - apply String.eqb_neq in E. rewrite dict_get_set_other by congruence. reflexivity.
Qed.




Lemma bind_assoc {A B C : Type} (m : M A) (k : A -> M B) (k' : B -> M C)
      (c : options) :
  bind (bind m k) k' c = bind m (fun a => bind (k a) k') c.
Proof. unfold bind. destruct (m c) as [[a|e] c1]; reflexivity. Qed.

Lemma bind_modify (g : options -> options) (c : options) :
  modify g c = (Returns tt, g c).
Proof. reflexivity. Qed.

Lemma returned_state (c c' : options) :
  (Returns tt, c) = (Returns tt, c') -> c' = c.
Proof. now intros [= ->]. Qed.


End OptionsSettled.

(** An assignment by a literal key that has returned: the requests that Tk
    has accepted, and the state. *)
Ltac run_assignment H Hmem :=
  unfold Options.__setitem__ in H; unfold Options.bind at 1, Options.get in H;
  cbv beta iota in H;
  cbn [chars] in H; rewrite Hmem in H;
  cbv [negb py_is interned chars andb String.eqb Ascii.eqb Bool.eqb
       Options.set_colour] in H;
  repeat (rewrite ?bind_assoc in H; rewrite bind_ask in H;
          match type of H with
          | context [Options.tk ?c ?r] =>
              destruct (Options.tk c r) as [[]|?]; [|discriminate H]
          end; cbv beta in H);
  rewrite bind_modify in H; apply returned_state in H; subst.




Section OptionsAssigned.

Import Options.
Local Open Scope options_scope.

Context {L : Locale} {R : Runtime}.


(** X25: the three settings on which [__setitem__] and [_setup_style] differ.
    An assignment of ['normalbackground'] that returns has also given its
    value to the background of the frame of the days (the colour of the
    borders) and to the background of the days of the other months, and an
    assignment of ['weekendbackground'] to the background of the week-end days
    of the other months; the option assigned reads the new value, the options
    ['bordercolor'], ['othermonthbackground'] and ['othermonthwebackground']
    keep their values, and the next run of [_setup_style] that returns sets
    these backgrounds to them again. *)
Theorem X25_second_style_lasts_until_theme_change (k k' : string) (n : style_name)
        (v : value) (c c1 c2 : options) :
  In (k, n, k')
     [("normalbackground", cal_TFrame, "bordercolor");
      ("normalbackground", normal_om_TLabel, "othermonthbackground");
      ("weekendbackground", we_om_TLabel, "othermonthwebackground")] ->
  __setitem__ (lit k) v c = (Returns tt, c1) ->
  _setup_style c1 = (Returns tt, c2) ->
  configured c1 n background = Some v /\
  property k c1 = v /\
  property k' c1 = property k' c /\
  configured c2 n background = Some (property k' c).
Proof.
  intros Hin H1 H2.
  apply setup_style_returns in H2. destruct H2 as [_ ->].
  destruct (setitem_returns _ _ _ _ H1) as [Hmem _].
  unfold lit in H1, Hmem. cbn [chars] in Hmem.
  rewrite configured_accepted.
  cbn in Hin.
  destruct Hin as [[= <- <- <-]|[[= <- <- <-]|[[= <- <- <-]|[]]]];
    run_assignment H1 Hmem;
    match goal with
    | |- _ /\ _ /\ property ?k' ?c1 = _ /\
         override (last_configured ?rs ?n background) _ = _ =>
        assert (E : last_configured rs n background = Some (property k' c1))
          by reflexivity;
        rewrite E; clear E
    end;
    rewrite !(property_stored _ _ _ _ c) by reflexivity;
    repeat split; reflexivity.
Qed.

End OptionsAssigned.

(** ** The options: the dict of a new widget *)

Section OptionsInit.

Import Options.
Local Open Scope options_scope.

Context {L : Locale} {R : Runtime}.

Lemma dict_update_known (kw : list (string * value)) :
  forall d : list (string * value),
  (forall item, In item kw -> dict_mem (fst item) d = true) ->
  dict_keys (dict_update d kw) = dict_keys d /\
  forall k, dict_get k (dict_update d kw) =
            match dict_get k d with
            | Some v => Some (last_value String.eqb kw k v)
            | None => None
            end.
Proof.
  induction kw as [|[k0 v0] kw IH]; intros d Hkw.
  - split; [reflexivity|]. intros k. cbn. destruct (dict_get k d); reflexivity.
  - assert (Hm : dict_mem k0 d = true) by (apply (Hkw (k0, v0)); now left).
    unfold dict_update in *. cbn [fold_left fst snd].
    destruct (IH (dict_set k0 v0 d)) as [Hk Hg].
    { intros item Hin. rewrite dict_mem_set by exact Hm. apply Hkw. now right. }
    split.
    + rewrite Hk. now apply dict_keys_set.
    + intros k. rewrite Hg. cbn [last_value].
      destruct (String.eqb k0 k) eqn:E.
      * apply String.eqb_eq in E. subst k. rewrite dict_get_set_same.
        unfold dict_mem in Hm. destruct (dict_get k0 d); [reflexivity | discriminate].
      * apply String.eqb_neq in E. rewrite dict_get_set_other by congruence.
        destruct (dict_get k d); reflexivity.
Qed.

Lemma last_value_filter (keep : string * value -> bool) (k : string)
      (kw : list (string * value)) :
  (forall v, keep (k, v) = true) ->
  forall d, last_value String.eqb (filter keep kw) k d = last_value String.eqb kw k d.
Proof.
  intros Hkeep. induction kw as [|[k0 v0] kw IH]; intros d; [reflexivity|].
  cbn [filter last_value]. destruct (keep (k0, v0)) eqn:E.
  - cbn [last_value]. apply IH.
  - destruct (String.eqb k0 k) eqn:Ek.
    + apply String.eqb_eq in Ek. subst k0. rewrite Hkeep in E. discriminate.
    + apply IH.
Qed.

(** X26: the dict of the options that [__init__] builds. Whatever keyword
    arguments are left when it is built, its keys are the twenty-seven names
    of the dict display, in that order: an argument that is no option is
    dropped. Every option has the value of the last argument left of its name,
    or else the value of the dict display: the local of [__init__] or the
    default colour. *)
Theorem X26_init_properties_outcome (curs font : value) (bd : Z)
        (state locale selectmode textvariable showweeknumbers : value)
        (kw : list (string * value)) :
  let properties := init_properties curs font bd state locale selectmode
                                    textvariable showweeknumbers in
  dict_keys (properties kw) =
    ["cursor"; "font"; "borderwidth"; "state"; "locale"; "selectmode";
     "textvariable"; "showweeknumbers"; "selectbackground"; "selectforeground";
     "disabledselectbackground"; "disabledselectforeground"; "normalbackground";
     "normalforeground"; "background"; "foreground"; "bordercolor";
     "othermonthforeground"; "othermonthbackground"; "othermonthweforeground";
     "othermonthwebackground"; "weekendbackground"; "weekendforeground";
     "headersbackground"; "headersforeground"; "disableddaybackground";
     "disableddayforeground"] /\
  forall k, dict_get k (properties kw) =
            match dict_get k (properties []) with
            | Some v => Some (last_value String.eqb kw k v)
            | None => None
            end.
Proof.
  intros properties. subst properties. unfold init_properties.
  set (keep := fun item : string * value => existsb (String.eqb (fst item)) option_names).
  set (d := (("cursor", curs) :: _)).
  assert (Hknown : forall k, In k option_names -> dict_mem k d = true).
  { intros k Hk. cbn in Hk.
    repeat (destruct Hk as [<-|Hk]; [reflexivity|]). destruct Hk. }
  destruct (dict_update_known (filter keep kw) d) as [Hk Hg].
  { intros item Hin. apply filter_In in Hin. destruct Hin as [_ Hkeep].
    apply Hknown. subst keep. cbn beta in Hkeep.
    apply existsb_exists in Hkeep. destruct Hkeep as (nm & Hnm & E).
    apply String.eqb_eq in E. now rewrite E. }
  split; [rewrite Hk; reflexivity|].
  intros k. rewrite Hg. cbn [filter]. unfold dict_update at 1. cbn [fold_left].
  destruct (dict_get k d) as [v|] eqn:Ed; [|reflexivity].
  f_equal. apply last_value_filter. intros v'.
  subst keep. cbn [fst].
  assert (Hin : In k option_names).
  { assert (Hm : dict_mem k d = true) by (unfold dict_mem; now rewrite Ed).
    apply dict_mem_keys in Hm. subst d. cbn in Hm. cbn. tauto. }
  apply existsb_exists. exists k. split; [exact Hin | apply String.eqb_refl].
Qed.

End OptionsInit.

(** ** The options: a new text variable *)

Section OptionsVariable.

Import Options.
Local Open Scope options_scope.

Context {L : Locale} {R : Runtime}.

(** The assignment of a variable to ['textvariable'], once the key has
    been found. *)
Lemma setitem_textvariable (value : value) (c : options) :
  In "textvariable" (keys c) ->
  __setitem__ (lit "textvariable") value c =
  bind (set_textvariable value)
       (fun _ => modify (fun c => with_properties
                           (dict_set "textvariable" value (_properties c)) c)) c.
Proof.
  intros Hin. apply dict_mem_keys in Hin.
  unfold __setitem__. unfold bind at 1, get. cbv beta iota.
  cbn [chars lit]. rewrite Hin. reflexivity.
Qed.

Lemma bind_get {A : Type} (k : options -> M A) (c : options) :
  bind get k c = k c c.
Proof. reflexivity. Qed.

(** X27: an assignment of a variable to ['textvariable'], by the literal key,
    on a widget that has this option. When no date is selected, it returns and
    the variable becomes [_textvariable], and that is all: no method of the
    old or of the new variable is called, so that the trace stays on the old
    variable and none is put on the new one. When a date is selected and no
    variable was bound, and Tk accepts the two calls, it returns after having
    set the new variable to the date in the format of the locale and then put
    a trace on it by [trace_add]. Whenever it returns with a date selected,
    the variable has become [_textvariable], it has been set to the date
    first, and a trace has been put on it, by [trace_add] or by [trace]. *)
Theorem X27_textvariable_traced_only_with_selection (new : string) (c : options) :
  In "textvariable" (keys c) ->
  (_sel_date c = None ->
   exists c1, __setitem__ (lit "textvariable") (VVar new) c = (Returns tt, c1) /\
              _textvariable c1 = VVar new /\
              var_calls c1 = var_calls c /\ trace_id c1 = trace_id c) /\
  (forall s, _sel_date c = Some s -> _textvariable c = VNone ->
   tk c (VarSet new (strftime_x s)) = Returns tt ->
   tk (record (VarSet new (strftime_x s)) c) (TraceAdd new) = Returns tt ->
   exists c1, __setitem__ (lit "textvariable") (VVar new) c = (Returns tt, c1) /\
              _textvariable c1 = VVar new /\
              var_calls c1 = var_calls c ++ [VarSet new (strftime_x s); TraceAdd new] /\
              trace_id c1 = true) /\
  (forall c1 s,
   __setitem__ (lit "textvariable") (VVar new) c = (Returns tt, c1) ->
   _sel_date c = Some s ->
   _textvariable c1 = VVar new /\
   exists calls,
     var_calls c1 = var_calls c ++ VarSet new (strftime_x s) :: calls /\
     (In (TraceAdd new) calls \/ In (Trace new) calls)).
Proof.
  intros Hin. rewrite (setitem_textvariable _ _ Hin).
  unfold set_textvariable.
  rewrite bind_assoc, bind_get. cbv beta.
  split; [|split].
  - intros Esel. rewrite Esel.
    eexists. split; [reflexivity|]. repeat split.
  - intros s Esel Eold H1 H2. rewrite Esel, Eold.
    cbv [call_method try_except bind ask lift modify get ret].
    rewrite H1. cbv beta iota. rewrite H2. cbv beta iota.
    eexists. split; [reflexivity|]. cbn.
    split; [reflexivity|]. split; [|reflexivity].
    now rewrite <- app_assoc.
  - intros c1 s H Esel. rewrite Esel in H.
    cbv [call_method call_with_trace_id try_except bind ask lift modify
         get raise ret] in H.
    destruct (tk c (VarSet new _)) as [[]|?]; [|discriminate H].
    destruct (_textvariable c) eqn:Eold; cbn in H;
      repeat match type of H with
             | context [trace_id ?x] => destruct (trace_id x) eqn:?; cbn in H
             | context [tk ?c' ?r] => destruct (tk c' r) as [[]|[[]]]; cbn in H
             end;
      first [ discriminate H
            | injection H as <-; split; [reflexivity|];
              cbn; rewrite <- ?app_assoc; cbn;
              eexists; split; [reflexivity|]; cbn; tauto ].
Qed.

End OptionsVariable.

(** ** The properties of the options on a new widget *)

Section OptionsExamples.

Import Options.
Local Open Scope options_scope.

(** A run is known by its outcome. *)
Lemma returns_snd {A : Type} (m : M A) (a : A) (c : options) :
  fst (m c) = Returns a -> m c = (Returns a, snd (m c)).
Proof. destruct (m c) as [r c']. cbn. now intros ->. Qed.

Lemma raises_snd {A : Type} (m : M A) (e : exception) (c : options) :
  fst (m c) = Raises e -> m c = (Raises e, snd (m c)).
Proof. destruct (m c) as [r c']. cbn. now intros ->. Qed.

(** The background of a new widget set to red. *)
Lemma X18_setitem_stores_witness :
  let c := @fresh obliging in
  let c' := snd (@__setitem__ c_locale obliging (lit "background") red c) in
  In "background" (keys c) /\
  @__getitem__ "background" c' = Returns red /\
  @cget "background" c' = Returns red /\
  keys c' = keys c /\
  forall k, k <> "background" -> __getitem__ k c' = __getitem__ k c.
Proof.
  intros c c'.
  apply (@X18_setitem_stores c_locale obliging (lit "background") red c c').
  exact (returns_snd (@__setitem__ c_locale obliging (lit "background") red) tt c
           eq_refl).
Defined.

(** A cursor that Tk refuses. *)
Lemma X19_setitem_failure_changes_no_option_witness :
  let c := @fresh strict_cursor in
  let c' := snd (@__setitem__ c_locale strict_cursor (lit "cursor") (VInt 3) c) in
  keys c' = keys c /\
  (forall k, __getitem__ k c' = __getitem__ k c) /\
  (forall k, cget k c' = cget k c).
Proof.
  intros c c'.
  apply (@X19_setitem_failure_changes_no_option c_locale strict_cursor
           (lit "cursor") (VInt 3) c c'
           (mkexception TclError "bad cursor spec 3")).
  exact (raises_snd (@__setitem__ c_locale strict_cursor (lit "cursor") (VInt 3))
           _ c eq_refl).
Defined.

(** The locale of a new widget, under a name that is not the literal. *)
Lemma X20_setitem_by_equal_name_witness :
  let c := @fresh obliging in
  @__setitem__ c_locale obliging (mkstr "locale" false) (VStr (lit "fr_FR")) c =
  (Returns tt,
   with_properties (dict_set "locale" (VStr (lit "fr_FR")) (_properties c)) c).
Proof.
  intros c.
  apply (@X20_setitem_by_equal_name c_locale obliging (mkstr "locale" false)
           (VStr (lit "fr_FR")) c).
  - reflexivity.
  - cbn. tauto.
Defined.

(** The background and the foreground of a new widget. *)
Lemma X21_configure_outcome_witness :
  let c := @fresh obliging in
  let kw := [(lit "background", red); (lit "foreground", blue)] in
  let c' := snd (@configure c_locale obliging kw c) in
  @config c_locale obliging kw c = (Returns tt, c') /\
  keys c' = keys c /\
  (forall key value, In (key, value) kw -> In (chars key) (keys c)) /\
  forall k, __getitem__ k c' =
            match __getitem__ k c with
            | Returns v => Returns (last_value same_name kw k v)
            | Raises e => Raises e
            end.
Proof.
  intros c kw c'.
  apply (@X21_configure_outcome c_locale obliging kw c c').
  exact (returns_snd (@configure c_locale obliging kw) tt c eq_refl).
Defined.

(** The background, a state that is none, and the foreground. *)
Lemma X22_configure_stops_at_first_failure_witness :
  let c := @fresh obliging in
  let kw := [(lit "background", red); (lit "state", VStr (lit "hidden"));
             (lit "foreground", blue)] in
  let c' := snd (@configure c_locale obliging kw c) in
  let e := mkexception ValueError "bad state 'hidden': must be disabled or normal" in
  exists kw1 key value kw2 c1,
    kw = kw1 ++ (key, value) :: kw2 /\
    @configure c_locale obliging kw1 c = (Returns tt, c1) /\
    @__setitem__ c_locale obliging key value c1 = (Raises e, c') /\
    keys c' = keys c /\
    forall k, __getitem__ k c' =
              match __getitem__ k c with
              | Returns v => Returns (last_value same_name kw1 k v)
              | Raises e => Raises e
              end.
Proof.
  intros c kw c' e.
  apply (@X22_configure_stops_at_first_failure c_locale obliging kw c c' e).
  exact (raises_snd (@configure c_locale obliging kw) e c eq_refl).
Defined.





(** The normal background of a new widget set to red, and a change of
    theme: the border is red, and then gray again. *)
Lemma X25_second_style_lasts_until_theme_change_witness :
  let c1 := snd (@__setitem__ c_locale obliging (lit "normalbackground") red themed) in
  let c2 := snd (@_setup_style obliging c1) in
  configured c1 cal_TFrame background = Some red /\
  @property "normalbackground" c1 = red /\
  @property "bordercolor" c1 = @property "bordercolor" themed /\
  configured c2 cal_TFrame background = Some (@property "bordercolor" themed).
Proof.
  intros c1 c2.
  apply (@X25_second_style_lasts_until_theme_change c_locale obliging
           "normalbackground" "bordercolor" cal_TFrame red themed c1 c2).
  - left. reflexivity.
  - exact (returns_snd (@__setitem__ c_locale obliging (lit "normalbackground") red)
             tt themed eq_refl).
  - exact (returns_snd (@_setup_style obliging) tt c1 eq_refl).
Defined.

(** A variable given to a new widget on which 7 February 2023 is
    selected. *)
Lemma X27_textvariable_traced_only_with_selection_witness :
  let c := chosen (mkdate 2023 2 7) (@fresh obliging) in
  exists c1,
    @__setitem__ c_locale obliging (lit "textvariable") (VVar "PY_VAR0") c =
    (Returns tt, c1) /\
    _textvariable c1 = VVar "PY_VAR0" /\
    var_calls c1 = [VarSet "PY_VAR0" "02/07/23"; TraceAdd "PY_VAR0"] /\
    trace_id c1 = true.
Proof.
  intros c.
  assert (Hin : In "textvariable" (@keys c)) by (cbn; tauto).
  destruct (@X27_textvariable_traced_only_with_selection c_locale obliging
              "PY_VAR0" c Hin) as (_ & H & _).
  apply (H (mkdate 2023 2 7)); reflexivity.
Defined.

End OptionsExamples.
